(** * The gve admin queue, device-option negotiation and flow-rule directory

    A shallow embedding of [google/gve/gve_adminq.c] and of the flow-rule
    part of [google/gve/gve_ethtool.c], with the properties of the
    control-plane specification stated over it.

    Conventions.
    - C integers are [Z]; a [u32] or [u16] that can wrap is reduced
      explicitly ([u32], [u16]).  A function returning [int] returns [0]
      or a negated errno.
    - Big-endian fields are kept as the CPU value they decode to, except in
      the device descriptor's option area, which is kept as bytes because
      the driver walks it by offset.
    - The device and the kernel allocators are the only actors besides the
      driver.  What they do is fixed by a [platform]: the value of the event
      counter at each register read, the status words the device has written
      back by then, and whether each allocation request succeeds.  Every
      theorem is stated for an arbitrary [platform]. *)

From stdpp Require Import gmap list sorting.
From Stdlib Require Import ZArith Lia.

Local Open Scope Z_scope.

(** ** Machine integers and errno values *)

Definition u32 (x : Z) : Z := x mod 2 ^ 32.
Definition u16 (x : Z) : Z := x mod 2 ^ 16.

Definition EAGAIN : Z := 11.
Definition ENOMEM : Z := 12.
Definition EACCES : Z := 13.
Definition EEXIST : Z := 17.
Definition EINVAL : Z := 22.
Definition ENOSPC : Z := 28.
Definition ETIME : Z := 62.
Definition EMSGSIZE : Z := 90.
Definition EOPNOTSUPP : Z := 95.
Definition ENOTRECOVERABLE : Z := 131.

(** [gve_adminq.c], line 15. *)
Definition GVE_MAX_ADMINQ_EVENT_COUNTER_CHECK : nat := 100%nat.

(** ** Commands *)

(** [enum gve_adminq_opcodes]; the numeric values live in [gve_adminq.h],
    so a word that is none of the named opcodes is kept raw. *)
Inductive gve_adminq_opcodes : Type :=
  | GVE_ADMINQ_DESCRIBE_DEVICE
  | GVE_ADMINQ_CONFIGURE_DEVICE_RESOURCES
  | GVE_ADMINQ_REGISTER_PAGE_LIST
  | GVE_ADMINQ_UNREGISTER_PAGE_LIST
  | GVE_ADMINQ_CREATE_TX_QUEUE
  | GVE_ADMINQ_CREATE_RX_QUEUE
  | GVE_ADMINQ_DESTROY_TX_QUEUE
  | GVE_ADMINQ_DESTROY_RX_QUEUE
  | GVE_ADMINQ_DECONFIGURE_DEVICE_RESOURCES
  | GVE_ADMINQ_CONFIGURE_RSS
  | GVE_ADMINQ_SET_DRIVER_PARAMETER
  | GVE_ADMINQ_REPORT_STATS
  | GVE_ADMINQ_REPORT_LINK_SPEED
  | GVE_ADMINQ_GET_PTYPE_MAP
  | GVE_ADMINQ_VERIFY_DRIVER_COMPATIBILITY
  | GVE_ADMINQ_CONFIGURE_FLOW_RULE
  | GVE_ADMINQ_EXTENDED_COMMAND
  | GVE_ADMINQ_OPCODE_RAW (w : Z).

#[global] Instance gve_adminq_opcodes_eq_dec : EqDecision gve_adminq_opcodes.
Proof. solve_decision. Defined.

(** [enum gve_adminq_statuses], the status word the device writes back. *)
Inductive gve_adminq_statuses : Type :=
  | GVE_ADMINQ_COMMAND_UNSET
  | GVE_ADMINQ_COMMAND_PASSED
  | GVE_ADMINQ_COMMAND_ERROR_ABORTED
  | GVE_ADMINQ_COMMAND_ERROR_ALREADY_EXISTS
  | GVE_ADMINQ_COMMAND_ERROR_CANCELLED
  | GVE_ADMINQ_COMMAND_ERROR_DATALOSS
  | GVE_ADMINQ_COMMAND_ERROR_DEADLINE_EXCEEDED
  | GVE_ADMINQ_COMMAND_ERROR_FAILED_PRECONDITION
  | GVE_ADMINQ_COMMAND_ERROR_INTERNAL_ERROR
  | GVE_ADMINQ_COMMAND_ERROR_INVALID_ARGUMENT
  | GVE_ADMINQ_COMMAND_ERROR_NOT_FOUND
  | GVE_ADMINQ_COMMAND_ERROR_OUT_OF_RANGE
  | GVE_ADMINQ_COMMAND_ERROR_PERMISSION_DENIED
  | GVE_ADMINQ_COMMAND_ERROR_UNAUTHENTICATED
  | GVE_ADMINQ_COMMAND_ERROR_RESOURCE_EXHAUSTED
  | GVE_ADMINQ_COMMAND_ERROR_UNAVAILABLE
  | GVE_ADMINQ_COMMAND_ERROR_UNIMPLEMENTED
  | GVE_ADMINQ_COMMAND_ERROR_UNKNOWN_ERROR
  | GVE_ADMINQ_COMMAND_STATUS_RAW (w : Z).

#[global] Instance gve_adminq_statuses_eq_dec : EqDecision gve_adminq_statuses.
Proof. solve_decision. Defined.

(** The opcode-specific part of [union gve_adminq_command], for the commands
    built in the modelled functions. *)
Inductive gve_adminq_payload : Type :=
  | payload_zero
  | payload_describe_device
      (device_descriptor_addr device_descriptor_version available_length : Z)
  | payload_extended_command
      (inner_opcode : gve_adminq_opcodes) (inner_length inner_command_addr : Z)
  | payload_configure_rss
      (hash_types halg hkey_len indir_len hkey_addr indir_addr : Z).

#[global] Instance gve_adminq_payload_eq_dec : EqDecision gve_adminq_payload.
Proof. solve_decision. Defined.

Record gve_adminq_command : Type := {
  opcode : gve_adminq_opcodes;
  status : gve_adminq_statuses;
  payload : gve_adminq_payload;
}.

#[global] Instance gve_adminq_command_eq_dec : EqDecision gve_adminq_command.
Proof. solve_decision. Defined.

(** [memset(&cmd, 0, sizeof(cmd))] followed by the store of the opcode. *)
Definition mk_cmd (op : gve_adminq_opcodes) (p : gve_adminq_payload)
  : gve_adminq_command :=
  {| opcode := op; status := GVE_ADMINQ_COMMAND_UNSET; payload := p |}.

Definition cmd_zero : gve_adminq_command :=
  mk_cmd (GVE_ADMINQ_OPCODE_RAW 0) payload_zero.

(** [cmd->extended_command.inner_opcode]: the first word of the union.  It is
    read only when the opcode is [GVE_ADMINQ_EXTENDED_COMMAND]; for another
    view of the union the word is not an opcode the driver counts. *)
Definition extended_inner_opcode (p : gve_adminq_payload) : gve_adminq_opcodes :=
  match p with
  | payload_extended_command io _ _ => io
  | _ => GVE_ADMINQ_OPCODE_RAW 0
  end.

(** ** Flow rules as they are sent to the device *)

(** [struct gve_flow_spec]: two addresses of four words, the union of the
    two ports with the SPI (one 32-bit word), and the union of [tos] with
    [tclass] (one byte).  [memcmp] on two of them is equality of the record. *)
Record gve_flow_spec : Type := {
  src_ip : list Z;
  dst_ip : list Z;
  l4_word : Z;
  tos : Z;
}.

#[global] Instance gve_flow_spec_eq_dec : EqDecision gve_flow_spec.
Proof. solve_decision. Defined.

Inductive gve_adminq_flow_type : Type :=
  | GVE_FLOW_TYPE_TCPV4 | GVE_FLOW_TYPE_UDPV4 | GVE_FLOW_TYPE_SCTPV4
  | GVE_FLOW_TYPE_AHV4 | GVE_FLOW_TYPE_ESPV4
  | GVE_FLOW_TYPE_TCPV6 | GVE_FLOW_TYPE_UDPV6 | GVE_FLOW_TYPE_SCTPV6
  | GVE_FLOW_TYPE_AHV6 | GVE_FLOW_TYPE_ESPV6.

#[global] Instance gve_adminq_flow_type_eq_dec : EqDecision gve_adminq_flow_type.
Proof. solve_decision. Defined.

(** [struct gve_flow_rule] without its list linkage. *)
Record gve_flow_rule : Type := {
  loc : Z;
  flow_type : gve_adminq_flow_type;
  action : Z;
  key : gve_flow_spec;
  mask : gve_flow_spec;
}.

#[global] Instance gve_flow_rule_eq_dec : EqDecision gve_flow_rule.
Proof. solve_decision. Defined.

Inductive gve_flow_rule_cfg_cmd : Type :=
  | GVE_RULE_ADD | GVE_RULE_DEL | GVE_RULE_RESET.

(** ** Coherent DMA memory *)

(** What the driver has stored in a coherent buffer. *)
Inductive dma_content : Type :=
  | dma_uninit
  | dma_flow_rule_cmd (c : gve_flow_rule_cfg_cmd) (l : Z) (r : option gve_flow_rule)
  | dma_words (ws : list Z)
  | dma_bytes (bs : list Z).

Record dma_buffer : Type := { dma_size : Z; dma_data : dma_content }.

(** ** The part of [struct gve_priv] behind the admin queue

    The ring, its bookkeeping, the two registers of [reg_bar0] the transport
    touches, and the coherent allocations that are live. *)
Record gve_adminq_priv : Type := {
  adminq : list gve_adminq_command;
  adminq_mask : Z;
  adminq_prod_cnt : Z;
  adminq_cmd_fail : Z;
  adminq_timeouts : Z;
  (** The per-opcode issue counters ([adminq_describe_device_cnt], ...), one
      per named opcode. *)
  adminq_opcode_cnt : gve_adminq_opcodes -> Z;
  (** [reg_bar0->adminq_event_counter] as of the last read. *)
  reg_event_counter : Z;
  (** Every value written to [reg_bar0->adminq_doorbell], latest first. *)
  reg_doorbell : list Z;
  (** Number of register reads so far: the index into the platform. *)
  io_reads : nat;
  (** Live [dma_alloc_coherent] buffers by bus address. *)
  dma_live : gmap Z dma_buffer;
  (** Number of allocation requests so far. *)
  dma_requests : nat;
}.

Definition set_adminq v (a : gve_adminq_priv) : gve_adminq_priv :=
  {| adminq := v; adminq_mask := adminq_mask a;
     adminq_prod_cnt := adminq_prod_cnt a; adminq_cmd_fail := adminq_cmd_fail a;
     adminq_timeouts := adminq_timeouts a;
     adminq_opcode_cnt := adminq_opcode_cnt a;
     reg_event_counter := reg_event_counter a; reg_doorbell := reg_doorbell a;
     io_reads := io_reads a; dma_live := dma_live a;
     dma_requests := dma_requests a |}.

Definition set_adminq_prod_cnt v (a : gve_adminq_priv) : gve_adminq_priv :=
  {| adminq := adminq a; adminq_mask := adminq_mask a;
     adminq_prod_cnt := v; adminq_cmd_fail := adminq_cmd_fail a;
     adminq_timeouts := adminq_timeouts a;
     adminq_opcode_cnt := adminq_opcode_cnt a;
     reg_event_counter := reg_event_counter a; reg_doorbell := reg_doorbell a;
     io_reads := io_reads a; dma_live := dma_live a;
     dma_requests := dma_requests a |}.

Definition set_adminq_cmd_fail v (a : gve_adminq_priv) : gve_adminq_priv :=
  {| adminq := adminq a; adminq_mask := adminq_mask a;
     adminq_prod_cnt := adminq_prod_cnt a; adminq_cmd_fail := v;
     adminq_timeouts := adminq_timeouts a;
     adminq_opcode_cnt := adminq_opcode_cnt a;
     reg_event_counter := reg_event_counter a; reg_doorbell := reg_doorbell a;
     io_reads := io_reads a; dma_live := dma_live a;
     dma_requests := dma_requests a |}.

Definition set_adminq_timeouts v (a : gve_adminq_priv) : gve_adminq_priv :=
  {| adminq := adminq a; adminq_mask := adminq_mask a;
     adminq_prod_cnt := adminq_prod_cnt a; adminq_cmd_fail := adminq_cmd_fail a;
     adminq_timeouts := v;
     adminq_opcode_cnt := adminq_opcode_cnt a;
     reg_event_counter := reg_event_counter a; reg_doorbell := reg_doorbell a;
     io_reads := io_reads a; dma_live := dma_live a;
     dma_requests := dma_requests a |}.

Definition set_adminq_opcode_cnt v (a : gve_adminq_priv) : gve_adminq_priv :=
  {| adminq := adminq a; adminq_mask := adminq_mask a;
     adminq_prod_cnt := adminq_prod_cnt a; adminq_cmd_fail := adminq_cmd_fail a;
     adminq_timeouts := adminq_timeouts a;
     adminq_opcode_cnt := v;
     reg_event_counter := reg_event_counter a; reg_doorbell := reg_doorbell a;
     io_reads := io_reads a; dma_live := dma_live a;
     dma_requests := dma_requests a |}.

Definition set_reg_doorbell v (a : gve_adminq_priv) : gve_adminq_priv :=
  {| adminq := adminq a; adminq_mask := adminq_mask a;
     adminq_prod_cnt := adminq_prod_cnt a; adminq_cmd_fail := adminq_cmd_fail a;
     adminq_timeouts := adminq_timeouts a;
     adminq_opcode_cnt := adminq_opcode_cnt a;
     reg_event_counter := reg_event_counter a; reg_doorbell := v;
     io_reads := io_reads a; dma_live := dma_live a;
     dma_requests := dma_requests a |}.

(** One register read: the ring as the device has left it, the counter it
    shows, and the read index advanced. *)
Definition set_after_read ring ev (a : gve_adminq_priv) : gve_adminq_priv :=
  {| adminq := ring; adminq_mask := adminq_mask a;
     adminq_prod_cnt := adminq_prod_cnt a; adminq_cmd_fail := adminq_cmd_fail a;
     adminq_timeouts := adminq_timeouts a;
     adminq_opcode_cnt := adminq_opcode_cnt a;
     reg_event_counter := ev; reg_doorbell := reg_doorbell a;
     io_reads := S (io_reads a); dma_live := dma_live a;
     dma_requests := dma_requests a |}.

Definition set_dma live (a : gve_adminq_priv) : gve_adminq_priv :=
  {| adminq := adminq a; adminq_mask := adminq_mask a;
     adminq_prod_cnt := adminq_prod_cnt a; adminq_cmd_fail := adminq_cmd_fail a;
     adminq_timeouts := adminq_timeouts a;
     adminq_opcode_cnt := adminq_opcode_cnt a;
     reg_event_counter := reg_event_counter a; reg_doorbell := reg_doorbell a;
     io_reads := io_reads a; dma_live := live;
     dma_requests := dma_requests a |}.

Definition set_dma_requested (a : gve_adminq_priv) : gve_adminq_priv :=
  {| adminq := adminq a; adminq_mask := adminq_mask a;
     adminq_prod_cnt := adminq_prod_cnt a; adminq_cmd_fail := adminq_cmd_fail a;
     adminq_timeouts := adminq_timeouts a;
     adminq_opcode_cnt := adminq_opcode_cnt a;
     reg_event_counter := reg_event_counter a; reg_doorbell := reg_doorbell a;
     io_reads := io_reads a; dma_live := dma_live a;
     dma_requests := S (dma_requests a) |}.

(** ** Constants and layouts of the driver's headers

    [gve.h] and [gve_adminq.h] fix the wire identifiers, the sizes of the
    option structures and the offsets of their fields.  The functions below
    take them from a [gve_consts]; the theorems hold for every choice. *)
Record gve_consts : Type := {
  (** [sizeof(struct gve_device_descriptor)]. *)
  sizeof_device_descriptor : Z;
  GVE_DEV_OPT_ID_GQI_RAW_ADDRESSING : Z;
  GVE_DEV_OPT_ID_GQI_RDA : Z;
  GVE_DEV_OPT_ID_GQI_QPL : Z;
  GVE_DEV_OPT_ID_DQO_RDA : Z;
  GVE_DEV_OPT_ID_DQO_QPL : Z;
  GVE_DEV_OPT_ID_JUMBO_FRAMES : Z;
  GVE_DEV_OPT_ID_BUFFER_SIZES : Z;
  GVE_DEV_OPT_ID_FLOW_STEERING : Z;
  GVE_DEV_OPT_LEN_GQI_RAW_ADDRESSING : Z;
  GVE_DEV_OPT_REQ_FEAT_MASK_GQI_RAW_ADDRESSING : Z;
  GVE_DEV_OPT_REQ_FEAT_MASK_GQI_RDA : Z;
  GVE_DEV_OPT_REQ_FEAT_MASK_GQI_QPL : Z;
  GVE_DEV_OPT_REQ_FEAT_MASK_DQO_RDA : Z;
  GVE_DEV_OPT_REQ_FEAT_MASK_DQO_QPL : Z;
  GVE_DEV_OPT_REQ_FEAT_MASK_JUMBO_FRAMES : Z;
  GVE_DEV_OPT_REQ_FEAT_MASK_BUFFER_SIZES : Z;
  GVE_DEV_OPT_REQ_FEAT_MASK_FLOW_STEERING : Z;
  (** [sizeof(struct gve_device_option_...)]. *)
  sizeof_gqi_rda : Z;
  sizeof_gqi_qpl : Z;
  sizeof_dqo_rda : Z;
  sizeof_dqo_qpl : Z;
  sizeof_jumbo_frames : Z;
  sizeof_buffer_sizes : Z;
  sizeof_flow_steering : Z;
  (** Offsets of the fields the driver reads in the option structures. *)
  off_gqi_rda_supported_features_mask : Z;
  off_gqi_qpl_supported_features_mask : Z;
  off_dqo_rda_supported_features_mask : Z;
  off_dqo_rda_tx_comp_ring_entries : Z;
  off_dqo_rda_rx_buff_ring_entries : Z;
  off_dqo_qpl_supported_features_mask : Z;
  off_dqo_qpl_tx_pages_per_qpl : Z;
  off_dqo_qpl_rx_pages_per_qpl : Z;
  off_jumbo_frames_max_mtu : Z;
  off_buffer_sizes_packet_buffer_size : Z;
  off_buffer_sizes_header_buffer_size : Z;
  off_flow_steering_max_num_rules : Z;
  GVE_SUP_JUMBO_FRAMES_MASK : Z;
  GVE_SUP_BUFFER_SIZES_MASK : Z;
  GVE_SUP_FLOW_STEERING_MASK : Z;
  GVE_RX_BUFFER_SIZE_DQO : Z;
  GVE_MIN_RX_BUFFER_SIZE : Z;
  GVE_MAX_RX_BUFFER_SIZE : Z;
  GVE_HEADER_BUFFER_SIZE_DEFAULT : Z;
  GVE_HEADER_BUFFER_SIZE_MIN : Z;
  GVE_HEADER_BUFFER_SIZE_MAX : Z;
  DQO_QPL_DEFAULT_TX_PAGES : Z;
  DQO_QPL_DEFAULT_RX_PAGES : Z;
  GVE_PRIV_FLAGS_ENABLE_HEADER_SPLIT : Z;
  GVE_ADMINQ_DEVICE_DESCRIPTOR_VERSION : Z;
  PAGE_SIZE : Z;
  (** [sizeof(priv->tx->desc[0])] and [sizeof(priv->rx->desc.desc_ring[0])]. *)
  sizeof_tx_desc : Z;
  sizeof_rx_desc : Z;
  (** The four [GVE_RSS_HASH_*] bits the driver asks for, or-ed. *)
  GVE_RSS_HASH_TYPES : Z;
  (** [sizeof(struct gve_adminq_configure_flow_rule)]. *)
  sizeof_configure_flow_rule : Z;
  (** Modulus of the integer type of [priv->flow_rules_cnt]. *)
  flow_rules_cnt_modulus : Z;
}.

(** One choice of the constants, following the upstream driver's headers;
    it is used for the worked examples only. *)
Definition gve_consts_default : gve_consts := {|
  sizeof_device_descriptor := 40;
  GVE_DEV_OPT_ID_GQI_RAW_ADDRESSING := 1;
  GVE_DEV_OPT_ID_GQI_RDA := 2;
  GVE_DEV_OPT_ID_GQI_QPL := 3;
  GVE_DEV_OPT_ID_DQO_RDA := 4;
  GVE_DEV_OPT_ID_DQO_QPL := 7;
  GVE_DEV_OPT_ID_JUMBO_FRAMES := 8;
  GVE_DEV_OPT_ID_BUFFER_SIZES := 10;
  GVE_DEV_OPT_ID_FLOW_STEERING := 11;
  GVE_DEV_OPT_LEN_GQI_RAW_ADDRESSING := 0;
  GVE_DEV_OPT_REQ_FEAT_MASK_GQI_RAW_ADDRESSING := 0;
  GVE_DEV_OPT_REQ_FEAT_MASK_GQI_RDA := 0;
  GVE_DEV_OPT_REQ_FEAT_MASK_GQI_QPL := 0;
  GVE_DEV_OPT_REQ_FEAT_MASK_DQO_RDA := 0;
  GVE_DEV_OPT_REQ_FEAT_MASK_DQO_QPL := 0;
  GVE_DEV_OPT_REQ_FEAT_MASK_JUMBO_FRAMES := 0;
  GVE_DEV_OPT_REQ_FEAT_MASK_BUFFER_SIZES := 0;
  GVE_DEV_OPT_REQ_FEAT_MASK_FLOW_STEERING := 0;
  sizeof_gqi_rda := 4;
  sizeof_gqi_qpl := 4;
  sizeof_dqo_rda := 8;
  sizeof_dqo_qpl := 8;
  sizeof_jumbo_frames := 8;
  sizeof_buffer_sizes := 8;
  sizeof_flow_steering := 8;
  off_gqi_rda_supported_features_mask := 0;
  off_gqi_qpl_supported_features_mask := 0;
  off_dqo_rda_supported_features_mask := 0;
  off_dqo_rda_tx_comp_ring_entries := 4;
  off_dqo_rda_rx_buff_ring_entries := 6;
  off_dqo_qpl_supported_features_mask := 0;
  off_dqo_qpl_tx_pages_per_qpl := 4;
  off_dqo_qpl_rx_pages_per_qpl := 6;
  off_jumbo_frames_max_mtu := 4;
  off_buffer_sizes_packet_buffer_size := 4;
  off_buffer_sizes_header_buffer_size := 6;
  off_flow_steering_max_num_rules := 4;
  GVE_SUP_JUMBO_FRAMES_MASK := 4;
  GVE_SUP_BUFFER_SIZES_MASK := 16;
  GVE_SUP_FLOW_STEERING_MASK := 32;
  GVE_RX_BUFFER_SIZE_DQO := 2048;
  GVE_MIN_RX_BUFFER_SIZE := 2048;
  GVE_MAX_RX_BUFFER_SIZE := 4096;
  GVE_HEADER_BUFFER_SIZE_DEFAULT := 128;
  GVE_HEADER_BUFFER_SIZE_MIN := 64;
  GVE_HEADER_BUFFER_SIZE_MAX := 256;
  DQO_QPL_DEFAULT_TX_PAGES := 512;
  DQO_QPL_DEFAULT_RX_PAGES := 2048;
  GVE_PRIV_FLAGS_ENABLE_HEADER_SPLIT := 1;
  GVE_ADMINQ_DEVICE_DESCRIPTOR_VERSION := 1;
  PAGE_SIZE := 4096;
  sizeof_tx_desc := 16;
  sizeof_rx_desc := 64;
  GVE_RSS_HASH_TYPES := 204;
  sizeof_configure_flow_rule := 92;
  flow_rules_cnt_modulus := 2 ^ 16;
|}.

(** ** The device descriptor *)

(** [struct gve_device_descriptor], its fields decoded, followed by the
    bytes the device wrote after it ([options_area], byte [k] of which is at
    offset [sizeof_device_descriptor + k] from the descriptor). *)
Record gve_device_descriptor : Type := {
  desc_max_registered_pages : Z;
  desc_tx_queue_entries : Z;
  desc_rx_queue_entries : Z;
  desc_default_num_queues : Z;
  desc_mtu : Z;
  desc_counters : Z;
  desc_tx_pages_per_qpl : Z;
  desc_rx_pages_per_qpl : Z;
  desc_mac : list Z;
  desc_num_device_options : Z;
  desc_total_length : Z;
  options_area : list Z;
}.

(** ** The platform *)

Record platform : Type := {
  (** Content of [adminq_event_counter] at the n-th register read. *)
  event_counter_at : nat -> Z;
  (** The status the device has written into slot [k] by the n-th register
      read, if it has written one since the read before. *)
  status_written_at : nat -> nat -> option gve_adminq_statuses;
  (** Whether the n-th [dma_alloc_coherent] succeeds. *)
  dma_alloc_ok : nat -> bool;
  (** Whether the n-th [kvzalloc] of a flow rule succeeds. *)
  kvzalloc_ok : nat -> bool;
  (** The descriptor found in the describe-device buffer after the n-th
      register read. *)
  descriptor_at : nat -> gve_device_descriptor;
}.

(** ** A state monad

    The driver's functions thread [priv] through every call; [ST S A] is a
    computation over a state [S] that returns an [A]. *)

Definition ST (S A : Type) : Type := S -> A * S.

Definition ret {S A} (x : A) : ST S A := fun a => (x, a).
Definition bind {S A B} (m : ST S A) (k : A -> ST S B) : ST S B :=
  fun a => let '(x, a') := m a in k x a'.
Definition gets {S A} (f : S -> A) : ST S A := fun a => (f a, a).
Definition modify {S} (f : S -> S) : ST S unit := fun a => (tt, f a).

Notation "'do' x <- m ; k" := (bind m (fun x => k))
  (at level 10, x name, m at level 100, k at level 200).
Notation "'exec' m ; k" := (bind m (fun _ => k))
  (at level 10, m at level 100, k at level 200).

(** Computations over the admin-queue state. *)
Abbreviation M := (ST gve_adminq_priv).

(** ** The transport engine ([gve_adminq.c], lines 302-545) *)

Section Transport.

Variable pf : platform.
Variable C : gve_consts.

(** The ring as the device has left it by the n-th register read: the
    device writes status words, nothing else. *)
Definition device_writeback (n : nat) (ring : list gve_adminq_command)
  : list gve_adminq_command :=
  imap (fun k cmd =>
          match status_written_at pf n k with
          | Some st => {| opcode := opcode cmd; status := st;
                          payload := payload cmd |}
          | None => cmd
          end) ring.

(** [ioread32be(&priv->reg_bar0->adminq_event_counter)]. *)
Definition ioread32be_event_counter : M Z := fun a =>
  let ev := u32 (event_counter_at pf (io_reads a)) in
  (ev, set_after_read (device_writeback (io_reads a) (adminq a)) ev a).

(** [&priv->adminq[i]]: a slot of the ring.  The ring has [adminq_mask + 1]
    slots and every index is masked, so the default is never taken on a
    well-formed ring. *)
Definition adminq_slot (i : Z) : M gve_adminq_command :=
  gets (fun a => default cmd_zero (adminq a !! Z.to_nat i)).

Definition gve_adminq_kick_cmd (prod_cnt : Z) : M unit :=
  modify (fun a => set_reg_doorbell (prod_cnt :: reg_doorbell a) a).

Fixpoint wait_for_cmd_loop (n : nat) (prod_cnt : Z) : M bool :=
  match n with
  | O => ret false
  | S n' =>
      do ev <- ioread32be_event_counter;
      if ev =? prod_cnt then ret true
      else (* msleep(GVE_ADMINQ_SLEEP_LEN) *) wait_for_cmd_loop n' prod_cnt
  end.

Definition gve_adminq_wait_for_cmd (prod_cnt : Z) : M bool :=
  wait_for_cmd_loop GVE_MAX_ADMINQ_EVENT_COUNTER_CHECK prod_cnt.

(** The [switch] of [gve_adminq_parse_err]. *)
Definition parse_err_code (st : gve_adminq_statuses) : Z :=
  match st with
  | GVE_ADMINQ_COMMAND_PASSED => 0
  | GVE_ADMINQ_COMMAND_UNSET => - EINVAL
  | GVE_ADMINQ_COMMAND_ERROR_ABORTED
  | GVE_ADMINQ_COMMAND_ERROR_CANCELLED
  | GVE_ADMINQ_COMMAND_ERROR_DATALOSS
  | GVE_ADMINQ_COMMAND_ERROR_FAILED_PRECONDITION
  | GVE_ADMINQ_COMMAND_ERROR_UNAVAILABLE => - EAGAIN
  | GVE_ADMINQ_COMMAND_ERROR_ALREADY_EXISTS
  | GVE_ADMINQ_COMMAND_ERROR_INTERNAL_ERROR
  | GVE_ADMINQ_COMMAND_ERROR_INVALID_ARGUMENT
  | GVE_ADMINQ_COMMAND_ERROR_NOT_FOUND
  | GVE_ADMINQ_COMMAND_ERROR_OUT_OF_RANGE
  | GVE_ADMINQ_COMMAND_ERROR_UNKNOWN_ERROR => - EINVAL
  | GVE_ADMINQ_COMMAND_ERROR_DEADLINE_EXCEEDED => - ETIME
  | GVE_ADMINQ_COMMAND_ERROR_PERMISSION_DENIED
  | GVE_ADMINQ_COMMAND_ERROR_UNAUTHENTICATED => - EACCES
  | GVE_ADMINQ_COMMAND_ERROR_RESOURCE_EXHAUSTED => - ENOMEM
  | GVE_ADMINQ_COMMAND_ERROR_UNIMPLEMENTED => - EOPNOTSUPP
  | GVE_ADMINQ_COMMAND_STATUS_RAW _ => - EINVAL
  end.

Definition status_counts_as_failure (st : gve_adminq_statuses) : bool :=
  match st with
  | GVE_ADMINQ_COMMAND_PASSED | GVE_ADMINQ_COMMAND_UNSET => false
  | _ => true
  end.

Definition gve_adminq_parse_err (st : gve_adminq_statuses) : M Z :=
  exec (if status_counts_as_failure st
        then modify (fun a => set_adminq_cmd_fail (u32 (adminq_cmd_fail a + 1)) a)
        else ret tt);
  ret (parse_err_code st).

(** The body of [for (i = tail; i < head; i++)] in [gve_adminq_kick_and_wait],
    over the indices still to visit. *)
Fixpoint kick_and_wait_check (idx : list Z) : M Z :=
  match idx with
  | [] => ret 0
  | i :: rest =>
      do mask <- gets adminq_mask;
      do cmd <- adminq_slot (Z.land i mask);
      do err <- gve_adminq_parse_err (status cmd);
      if err =? 0 then kick_and_wait_check rest
      else (* Return the first error if we failed. *) ret err
  end.

(** [i] and [head] are compared as [u32], so the loop visits
    [tail, tail + 1, ..., head - 1] when [tail < head] and nothing
    otherwise: [seqZ tail (head - tail)]. *)
Definition gve_adminq_kick_and_wait : M Z :=
  do tail <- ioread32be_event_counter;
  do head <- gets adminq_prod_cnt;
  exec gve_adminq_kick_cmd head;
  do done_ <- gve_adminq_wait_for_cmd head;
  if negb done_ then
    exec modify (fun a => set_adminq_timeouts (u32 (adminq_timeouts a + 1)) a);
    ret (- ENOTRECOVERABLE)
  else kick_and_wait_check (seqZ tail (head - tail)).

(** The overflow test of [gve_adminq_issue_cmd]. *)
Definition adminq_full (prod_cnt mask tail : Z) : bool :=
  Z.land (u32 (prod_cnt + 1)) mask =? Z.land tail mask.

(** The opcodes with a counter of their own ([switch (opcode)]). *)
Definition opcode_is_counted (op : gve_adminq_opcodes) : bool :=
  match op with
  | GVE_ADMINQ_EXTENDED_COMMAND | GVE_ADMINQ_OPCODE_RAW _ => false
  | _ => true
  end.

Definition bump_opcode_cnt (op : gve_adminq_opcodes) : M unit :=
  if opcode_is_counted op then
    modify (fun a =>
      set_adminq_opcode_cnt
        (fun o => if decide (o = op) then u32 (adminq_opcode_cnt a o + 1)
                  else adminq_opcode_cnt a o) a)
  else (* dev_err: unknown AQ command opcode *) ret tt.

(** The part of [gve_adminq_issue_cmd] after the overflow handling. *)
Definition issue_cmd_write (cmd_orig : gve_adminq_command) : M Z :=
  do prod <- gets adminq_prod_cnt;
  do mask <- gets adminq_mask;
  let slot := Z.to_nat (Z.land prod mask) in
  exec modify (set_adminq_prod_cnt (u32 (prod + 1)));
  exec modify (fun a => set_adminq (<[slot := cmd_orig]> (adminq a)) a);
  do cmd <- adminq_slot (Z.land prod mask);
  let op := if decide (opcode cmd = GVE_ADMINQ_EXTENDED_COMMAND)
            then extended_inner_opcode (payload cmd) else opcode cmd in
  exec bump_opcode_cnt op;
  ret 0.

Definition gve_adminq_issue_cmd (cmd_orig : gve_adminq_command) : M Z :=
  do tail <- ioread32be_event_counter;
  do prod <- gets adminq_prod_cnt;
  do mask <- gets adminq_mask;
  if adminq_full prod mask tail then
    do err <- gve_adminq_kick_and_wait;
    if negb (err =? 0) then ret err
    else
      do tail' <- ioread32be_event_counter;
      do prod' <- gets adminq_prod_cnt;
      do mask' <- gets adminq_mask;
      if adminq_full prod' mask' tail' then ret (- ENOMEM)
      else issue_cmd_write cmd_orig
  else issue_cmd_write cmd_orig.

Definition gve_adminq_execute_cmd (cmd_orig : gve_adminq_command) : M Z :=
  do tail <- ioread32be_event_counter;
  do head <- gets adminq_prod_cnt;
  if negb (tail =? head) then ret (- EINVAL)
  else
    do err <- gve_adminq_issue_cmd cmd_orig;
    if negb (err =? 0) then ret err
    else gve_adminq_kick_and_wait.

(** *** Coherent allocations *)

(** [dma_alloc_coherent]: [None] is the NULL return; otherwise a bus address
    that is neither zero nor in use. *)
Definition dma_alloc_coherent (size : Z) : M (option Z) := fun a =>
  let a1 := set_dma_requested a in
  if dma_alloc_ok pf (dma_requests a) then
    let h := fresh ({[0]} ∪ dom (dma_live a)) in
    (Some h,
     set_dma (<[h := {| dma_size := size; dma_data := dma_uninit |}]> (dma_live a)) a1)
  else (None, a1).

Definition dma_free_coherent (h : Z) : M unit :=
  modify (fun a => set_dma (delete h (dma_live a)) a).

(** A store through the CPU pointer of a live buffer. *)
Definition dma_store (h : Z) (d : dma_content) : M unit :=
  modify (fun a =>
    set_dma (alter (fun b => {| dma_size := dma_size b; dma_data := d |}) h
               (dma_live a)) a).

Definition gve_adminq_execute_extended_cmd
    (op : gve_adminq_opcodes) (cmd_size : Z) (cmd_orig : dma_content) : M Z :=
  do inner_cmd <- dma_alloc_coherent cmd_size;
  match inner_cmd with
  | None => ret (- ENOMEM)
  | Some inner_cmd_bus =>
      exec dma_store inner_cmd_bus cmd_orig;
      let cmd := mk_cmd GVE_ADMINQ_EXTENDED_COMMAND
                   (payload_extended_command op (u32 cmd_size) inner_cmd_bus) in
      do err <- gve_adminq_execute_cmd cmd;
      exec dma_free_coherent inner_cmd_bus;
      ret err
  end.

(** *** Flow-rule commands ([gve_adminq.c], lines 1171-1266) *)

Definition gve_adminq_configure_flow_rule (flow_rule_cmd : dma_content) : M Z :=
  gve_adminq_execute_extended_cmd GVE_ADMINQ_CONFIGURE_FLOW_RULE
    (sizeof_configure_flow_rule C) flow_rule_cmd.

Definition ip_words (ip : list Z) : list Z :=
  [default 0 (ip !! 0%nat); default 0 (ip !! 1%nat);
   default 0 (ip !! 2%nat); default 0 (ip !! 3%nat)].

(** The key or mask of the command: the addresses from the designated
    initialiser, the remaining members from the [switch] on the flow type.
    The ports and the SPI share [l4_word], [tos] and [tclass] share [tos];
    every flow type copies both. *)
Definition flow_rule_cmd_spec (ft : gve_adminq_flow_type) (sp : gve_flow_spec)
  : gve_flow_spec :=
  match ft with
  | GVE_FLOW_TYPE_TCPV4 | GVE_FLOW_TYPE_UDPV4 | GVE_FLOW_TYPE_SCTPV4
  | GVE_FLOW_TYPE_AHV4 | GVE_FLOW_TYPE_ESPV4
  | GVE_FLOW_TYPE_TCPV6 | GVE_FLOW_TYPE_UDPV6 | GVE_FLOW_TYPE_SCTPV6
  | GVE_FLOW_TYPE_AHV6 | GVE_FLOW_TYPE_ESPV6 =>
      {| src_ip := ip_words (src_ip sp); dst_ip := ip_words (dst_ip sp);
         l4_word := l4_word sp; tos := tos sp |}
  end.

Definition gve_adminq_add_flow_rule (rule : gve_flow_rule) : M Z :=
  let flow_rule_cmd :=
    dma_flow_rule_cmd GVE_RULE_ADD (u16 (loc rule))
      (Some {| loc := 0; flow_type := flow_type rule;
               action := u16 (action rule);
               key := flow_rule_cmd_spec (flow_type rule) (key rule);
               mask := flow_rule_cmd_spec (flow_type rule) (mask rule) |}) in
  gve_adminq_configure_flow_rule flow_rule_cmd.

Definition gve_adminq_del_flow_rule (l : Z) : M Z :=
  gve_adminq_configure_flow_rule (dma_flow_rule_cmd GVE_RULE_DEL (u16 l) None).

Definition gve_adminq_reset_flow_rules : M Z :=
  gve_adminq_configure_flow_rule (dma_flow_rule_cmd GVE_RULE_RESET 0 None).

End Transport.

(** *** RSS ([gve_adminq.c], lines 1268-1331) *)

(** [struct gve_rss_config]. *)
Record gve_rss_config : Type := {
  alg : Z;
  key_size : Z;
  rss_key : list Z;
  indir_size : Z;
  indir : list Z;
}.

Section Rss.

Variable pf : platform.
Variable C : gve_consts.

(** Size of one entry of [rss_config->indir] and of [rss_config->key]. *)
Definition sizeof_indir_entry : Z := 4.
Definition sizeof_key_entry : Z := 1.

(** First [n] entries of an array, reading zero past its end. *)
Definition array_prefix (n : Z) (l : list Z) : list Z :=
  (fun i => default 0 (l !! Z.to_nat i)) <$> seqZ 0 n.

(** The function up to the [out:] label; returns [err] with the two
    pointers ([None] is NULL) as they stand at the label. *)
Definition configure_rss_body (rss_config : gve_rss_config)
  : M (Z * option Z * option Z) :=
  do indir_r <-
    (if negb (indir_size rss_config =? 0) then
       do p <- dma_alloc_coherent pf (indir_size rss_config * sizeof_indir_entry);
       match p with
       | None => ret (inl tt)
       | Some h =>
           exec dma_store h
             (dma_words (array_prefix (indir_size rss_config) (indir rss_config)));
           ret (inr (Some h))
       end
     else ret (inr None));
  match indir_r with
  | inl _ => ret (- ENOMEM, None, None)
  | inr indir_p =>
      do key_r <-
        (if negb (key_size rss_config =? 0) then
           do p <- dma_alloc_coherent pf (key_size rss_config * sizeof_key_entry);
           match p with
           | None => ret (inl tt)
           | Some h =>
               exec dma_store h
                 (dma_bytes (array_prefix (key_size rss_config) (rss_key rss_config)));
               ret (inr (Some h))
           end
         else ret (inr None));
      match key_r with
      | inl _ => ret (- ENOMEM, indir_p, None)
      | inr key_p =>
          let cmd := mk_cmd GVE_ADMINQ_CONFIGURE_RSS
            (payload_configure_rss (GVE_RSS_HASH_TYPES C) (alg rss_config)
               (u16 (key_size rss_config)) (u16 (indir_size rss_config))
               (default 0 key_p) (default 0 indir_p)) in
          do err <- gve_adminq_execute_cmd pf cmd;
          ret (err, indir_p, key_p)
      end
  end.

Definition gve_adminq_configure_rss (rss_config : gve_rss_config) : M Z :=
  do r <- configure_rss_body rss_config;
  let '(err, indir_p, key_p) := r in
  (* out: *)
  exec (match indir_p with Some h => dma_free_coherent h | None => ret tt end);
  exec (match key_p with Some h => dma_free_coherent h | None => ret tt end);
  ret err.

End Rss.

(** ** The negotiated configuration

    The members of [struct gve_priv] (and of its [net_device]) that
    describe-device and the option negotiation write, and the two the
    flow-rule requests read. *)

Inductive gve_queue_format : Type :=
  | GVE_QUEUE_FORMAT_UNSPECIFIED
  | GVE_GQI_RDA_FORMAT
  | GVE_GQI_QPL_FORMAT
  | GVE_DQO_RDA_FORMAT
  | GVE_DQO_QPL_FORMAT.

#[global] Instance gve_queue_format_eq_dec : EqDecision gve_queue_format.
Proof. solve_decision. Defined.

Record gve_cfg : Type := {
  queue_format : gve_queue_format;
  ethtool_defaults : Z;
  tx_desc_cnt : Z;
  rx_desc_cnt : Z;
  options_dqo_rda_tx_comp_ring_entries : Z;
  options_dqo_rda_rx_buff_ring_entries : Z;
  max_registered_pages : Z;
  (** [priv->dev->max_mtu]. *)
  max_mtu : Z;
  (** [NETIF_F_LRO] and [NETIF_F_NTUPLE] in [priv->dev->hw_features]. *)
  hw_features_lro : bool;
  hw_features_ntuple : bool;
  num_event_counters : Z;
  (** The address set by [eth_hw_addr_set]. *)
  dev_addr : list Z;
  tx_pages_per_qpl : Z;
  rx_pages_per_qpl : Z;
  rx_data_slot_cnt : Z;
  default_num_queues : Z;
  data_buffer_size_dqo : Z;
  dev_max_rx_buffer_size : Z;
  header_buf_size : Z;
  flow_rules_max : Z;
  (** [priv->rx_cfg.num_queues]. *)
  rx_cfg_num_queues : Z;
  (** [NETIF_F_NTUPLE] in [netdev->features]. *)
  features_ntuple : bool;
}.

Definition set_queue_format v (g : gve_cfg) : gve_cfg :=
  {| queue_format := v; ethtool_defaults := ethtool_defaults g;
     tx_desc_cnt := tx_desc_cnt g; rx_desc_cnt := rx_desc_cnt g;
     options_dqo_rda_tx_comp_ring_entries := options_dqo_rda_tx_comp_ring_entries g;
     options_dqo_rda_rx_buff_ring_entries := options_dqo_rda_rx_buff_ring_entries g;
     max_registered_pages := max_registered_pages g; max_mtu := max_mtu g;
     hw_features_lro := hw_features_lro g;
     hw_features_ntuple := hw_features_ntuple g;
     num_event_counters := num_event_counters g; dev_addr := dev_addr g;
     tx_pages_per_qpl := tx_pages_per_qpl g;
     rx_pages_per_qpl := rx_pages_per_qpl g;
     rx_data_slot_cnt := rx_data_slot_cnt g;
     default_num_queues := default_num_queues g;
     data_buffer_size_dqo := data_buffer_size_dqo g;
     dev_max_rx_buffer_size := dev_max_rx_buffer_size g;
     header_buf_size := header_buf_size g;
     flow_rules_max := flow_rules_max g;
     rx_cfg_num_queues := rx_cfg_num_queues g;
     features_ntuple := features_ntuple g |}.

Definition set_ethtool_defaults v (g : gve_cfg) : gve_cfg :=
  {| queue_format := queue_format g; ethtool_defaults := v;
     tx_desc_cnt := tx_desc_cnt g; rx_desc_cnt := rx_desc_cnt g;
     options_dqo_rda_tx_comp_ring_entries := options_dqo_rda_tx_comp_ring_entries g;
     options_dqo_rda_rx_buff_ring_entries := options_dqo_rda_rx_buff_ring_entries g;
     max_registered_pages := max_registered_pages g; max_mtu := max_mtu g;
     hw_features_lro := hw_features_lro g;
     hw_features_ntuple := hw_features_ntuple g;
     num_event_counters := num_event_counters g; dev_addr := dev_addr g;
     tx_pages_per_qpl := tx_pages_per_qpl g;
     rx_pages_per_qpl := rx_pages_per_qpl g;
     rx_data_slot_cnt := rx_data_slot_cnt g;
     default_num_queues := default_num_queues g;
     data_buffer_size_dqo := data_buffer_size_dqo g;
     dev_max_rx_buffer_size := dev_max_rx_buffer_size g;
     header_buf_size := header_buf_size g;
     flow_rules_max := flow_rules_max g;
     rx_cfg_num_queues := rx_cfg_num_queues g;
     features_ntuple := features_ntuple g |}.

Definition set_tx_desc_cnt v (g : gve_cfg) : gve_cfg :=
  {| queue_format := queue_format g; ethtool_defaults := ethtool_defaults g;
     tx_desc_cnt := v; rx_desc_cnt := rx_desc_cnt g;
     options_dqo_rda_tx_comp_ring_entries := options_dqo_rda_tx_comp_ring_entries g;
     options_dqo_rda_rx_buff_ring_entries := options_dqo_rda_rx_buff_ring_entries g;
     max_registered_pages := max_registered_pages g; max_mtu := max_mtu g;
     hw_features_lro := hw_features_lro g;
     hw_features_ntuple := hw_features_ntuple g;
     num_event_counters := num_event_counters g; dev_addr := dev_addr g;
     tx_pages_per_qpl := tx_pages_per_qpl g;
     rx_pages_per_qpl := rx_pages_per_qpl g;
     rx_data_slot_cnt := rx_data_slot_cnt g;
     default_num_queues := default_num_queues g;
     data_buffer_size_dqo := data_buffer_size_dqo g;
     dev_max_rx_buffer_size := dev_max_rx_buffer_size g;
     header_buf_size := header_buf_size g;
     flow_rules_max := flow_rules_max g;
     rx_cfg_num_queues := rx_cfg_num_queues g;
     features_ntuple := features_ntuple g |}.

Definition set_rx_desc_cnt v (g : gve_cfg) : gve_cfg :=
  {| queue_format := queue_format g; ethtool_defaults := ethtool_defaults g;
     tx_desc_cnt := tx_desc_cnt g; rx_desc_cnt := v;
     options_dqo_rda_tx_comp_ring_entries := options_dqo_rda_tx_comp_ring_entries g;
     options_dqo_rda_rx_buff_ring_entries := options_dqo_rda_rx_buff_ring_entries g;
     max_registered_pages := max_registered_pages g; max_mtu := max_mtu g;
     hw_features_lro := hw_features_lro g;
     hw_features_ntuple := hw_features_ntuple g;
     num_event_counters := num_event_counters g; dev_addr := dev_addr g;
     tx_pages_per_qpl := tx_pages_per_qpl g;
     rx_pages_per_qpl := rx_pages_per_qpl g;
     rx_data_slot_cnt := rx_data_slot_cnt g;
     default_num_queues := default_num_queues g;
     data_buffer_size_dqo := data_buffer_size_dqo g;
     dev_max_rx_buffer_size := dev_max_rx_buffer_size g;
     header_buf_size := header_buf_size g;
     flow_rules_max := flow_rules_max g;
     rx_cfg_num_queues := rx_cfg_num_queues g;
     features_ntuple := features_ntuple g |}.

Definition set_options_dqo_rda_tx_comp_ring_entries v (g : gve_cfg) : gve_cfg :=
  {| queue_format := queue_format g; ethtool_defaults := ethtool_defaults g;
     tx_desc_cnt := tx_desc_cnt g; rx_desc_cnt := rx_desc_cnt g;
     options_dqo_rda_tx_comp_ring_entries := v;
     options_dqo_rda_rx_buff_ring_entries := options_dqo_rda_rx_buff_ring_entries g;
     max_registered_pages := max_registered_pages g; max_mtu := max_mtu g;
     hw_features_lro := hw_features_lro g;
     hw_features_ntuple := hw_features_ntuple g;
     num_event_counters := num_event_counters g; dev_addr := dev_addr g;
     tx_pages_per_qpl := tx_pages_per_qpl g;
     rx_pages_per_qpl := rx_pages_per_qpl g;
     rx_data_slot_cnt := rx_data_slot_cnt g;
     default_num_queues := default_num_queues g;
     data_buffer_size_dqo := data_buffer_size_dqo g;
     dev_max_rx_buffer_size := dev_max_rx_buffer_size g;
     header_buf_size := header_buf_size g;
     flow_rules_max := flow_rules_max g;
     rx_cfg_num_queues := rx_cfg_num_queues g;
     features_ntuple := features_ntuple g |}.

Definition set_options_dqo_rda_rx_buff_ring_entries v (g : gve_cfg) : gve_cfg :=
  {| queue_format := queue_format g; ethtool_defaults := ethtool_defaults g;
     tx_desc_cnt := tx_desc_cnt g; rx_desc_cnt := rx_desc_cnt g;
     options_dqo_rda_tx_comp_ring_entries := options_dqo_rda_tx_comp_ring_entries g;
     options_dqo_rda_rx_buff_ring_entries := v;
     max_registered_pages := max_registered_pages g; max_mtu := max_mtu g;
     hw_features_lro := hw_features_lro g;
     hw_features_ntuple := hw_features_ntuple g;
     num_event_counters := num_event_counters g; dev_addr := dev_addr g;
     tx_pages_per_qpl := tx_pages_per_qpl g;
     rx_pages_per_qpl := rx_pages_per_qpl g;
     rx_data_slot_cnt := rx_data_slot_cnt g;
     default_num_queues := default_num_queues g;
     data_buffer_size_dqo := data_buffer_size_dqo g;
     dev_max_rx_buffer_size := dev_max_rx_buffer_size g;
     header_buf_size := header_buf_size g;
     flow_rules_max := flow_rules_max g;
     rx_cfg_num_queues := rx_cfg_num_queues g;
     features_ntuple := features_ntuple g |}.

Definition set_max_registered_pages v (g : gve_cfg) : gve_cfg :=
  {| queue_format := queue_format g; ethtool_defaults := ethtool_defaults g;
     tx_desc_cnt := tx_desc_cnt g; rx_desc_cnt := rx_desc_cnt g;
     options_dqo_rda_tx_comp_ring_entries := options_dqo_rda_tx_comp_ring_entries g;
     options_dqo_rda_rx_buff_ring_entries := options_dqo_rda_rx_buff_ring_entries g;
     max_registered_pages := v; max_mtu := max_mtu g;
     hw_features_lro := hw_features_lro g;
     hw_features_ntuple := hw_features_ntuple g;
     num_event_counters := num_event_counters g; dev_addr := dev_addr g;
     tx_pages_per_qpl := tx_pages_per_qpl g;
     rx_pages_per_qpl := rx_pages_per_qpl g;
     rx_data_slot_cnt := rx_data_slot_cnt g;
     default_num_queues := default_num_queues g;
     data_buffer_size_dqo := data_buffer_size_dqo g;
     dev_max_rx_buffer_size := dev_max_rx_buffer_size g;
     header_buf_size := header_buf_size g;
     flow_rules_max := flow_rules_max g;
     rx_cfg_num_queues := rx_cfg_num_queues g;
     features_ntuple := features_ntuple g |}.

Definition set_max_mtu v (g : gve_cfg) : gve_cfg :=
  {| queue_format := queue_format g; ethtool_defaults := ethtool_defaults g;
     tx_desc_cnt := tx_desc_cnt g; rx_desc_cnt := rx_desc_cnt g;
     options_dqo_rda_tx_comp_ring_entries := options_dqo_rda_tx_comp_ring_entries g;
     options_dqo_rda_rx_buff_ring_entries := options_dqo_rda_rx_buff_ring_entries g;
     max_registered_pages := max_registered_pages g; max_mtu := v;
     hw_features_lro := hw_features_lro g;
     hw_features_ntuple := hw_features_ntuple g;
     num_event_counters := num_event_counters g; dev_addr := dev_addr g;
     tx_pages_per_qpl := tx_pages_per_qpl g;
     rx_pages_per_qpl := rx_pages_per_qpl g;
     rx_data_slot_cnt := rx_data_slot_cnt g;
     default_num_queues := default_num_queues g;
     data_buffer_size_dqo := data_buffer_size_dqo g;
     dev_max_rx_buffer_size := dev_max_rx_buffer_size g;
     header_buf_size := header_buf_size g;
     flow_rules_max := flow_rules_max g;
     rx_cfg_num_queues := rx_cfg_num_queues g;
     features_ntuple := features_ntuple g |}.

Definition set_hw_features_lro v (g : gve_cfg) : gve_cfg :=
  {| queue_format := queue_format g; ethtool_defaults := ethtool_defaults g;
     tx_desc_cnt := tx_desc_cnt g; rx_desc_cnt := rx_desc_cnt g;
     options_dqo_rda_tx_comp_ring_entries := options_dqo_rda_tx_comp_ring_entries g;
     options_dqo_rda_rx_buff_ring_entries := options_dqo_rda_rx_buff_ring_entries g;
     max_registered_pages := max_registered_pages g; max_mtu := max_mtu g;
     hw_features_lro := v; hw_features_ntuple := hw_features_ntuple g;
     num_event_counters := num_event_counters g; dev_addr := dev_addr g;
     tx_pages_per_qpl := tx_pages_per_qpl g;
     rx_pages_per_qpl := rx_pages_per_qpl g;
     rx_data_slot_cnt := rx_data_slot_cnt g;
     default_num_queues := default_num_queues g;
     data_buffer_size_dqo := data_buffer_size_dqo g;
     dev_max_rx_buffer_size := dev_max_rx_buffer_size g;
     header_buf_size := header_buf_size g;
     flow_rules_max := flow_rules_max g;
     rx_cfg_num_queues := rx_cfg_num_queues g;
     features_ntuple := features_ntuple g |}.

Definition set_hw_features_ntuple v (g : gve_cfg) : gve_cfg :=
  {| queue_format := queue_format g; ethtool_defaults := ethtool_defaults g;
     tx_desc_cnt := tx_desc_cnt g; rx_desc_cnt := rx_desc_cnt g;
     options_dqo_rda_tx_comp_ring_entries := options_dqo_rda_tx_comp_ring_entries g;
     options_dqo_rda_rx_buff_ring_entries := options_dqo_rda_rx_buff_ring_entries g;
     max_registered_pages := max_registered_pages g; max_mtu := max_mtu g;
     hw_features_lro := hw_features_lro g; hw_features_ntuple := v;
     num_event_counters := num_event_counters g; dev_addr := dev_addr g;
     tx_pages_per_qpl := tx_pages_per_qpl g;
     rx_pages_per_qpl := rx_pages_per_qpl g;
     rx_data_slot_cnt := rx_data_slot_cnt g;
     default_num_queues := default_num_queues g;
     data_buffer_size_dqo := data_buffer_size_dqo g;
     dev_max_rx_buffer_size := dev_max_rx_buffer_size g;
     header_buf_size := header_buf_size g;
     flow_rules_max := flow_rules_max g;
     rx_cfg_num_queues := rx_cfg_num_queues g;
     features_ntuple := features_ntuple g |}.

Definition set_num_event_counters v (g : gve_cfg) : gve_cfg :=
  {| queue_format := queue_format g; ethtool_defaults := ethtool_defaults g;
     tx_desc_cnt := tx_desc_cnt g; rx_desc_cnt := rx_desc_cnt g;
     options_dqo_rda_tx_comp_ring_entries := options_dqo_rda_tx_comp_ring_entries g;
     options_dqo_rda_rx_buff_ring_entries := options_dqo_rda_rx_buff_ring_entries g;
     max_registered_pages := max_registered_pages g; max_mtu := max_mtu g;
     hw_features_lro := hw_features_lro g;
     hw_features_ntuple := hw_features_ntuple g; num_event_counters := v;
     dev_addr := dev_addr g; tx_pages_per_qpl := tx_pages_per_qpl g;
     rx_pages_per_qpl := rx_pages_per_qpl g;
     rx_data_slot_cnt := rx_data_slot_cnt g;
     default_num_queues := default_num_queues g;
     data_buffer_size_dqo := data_buffer_size_dqo g;
     dev_max_rx_buffer_size := dev_max_rx_buffer_size g;
     header_buf_size := header_buf_size g;
     flow_rules_max := flow_rules_max g;
     rx_cfg_num_queues := rx_cfg_num_queues g;
     features_ntuple := features_ntuple g |}.

Definition set_dev_addr v (g : gve_cfg) : gve_cfg :=
  {| queue_format := queue_format g; ethtool_defaults := ethtool_defaults g;
     tx_desc_cnt := tx_desc_cnt g; rx_desc_cnt := rx_desc_cnt g;
     options_dqo_rda_tx_comp_ring_entries := options_dqo_rda_tx_comp_ring_entries g;
     options_dqo_rda_rx_buff_ring_entries := options_dqo_rda_rx_buff_ring_entries g;
     max_registered_pages := max_registered_pages g; max_mtu := max_mtu g;
     hw_features_lro := hw_features_lro g;
     hw_features_ntuple := hw_features_ntuple g;
     num_event_counters := num_event_counters g; dev_addr := v;
     tx_pages_per_qpl := tx_pages_per_qpl g;
     rx_pages_per_qpl := rx_pages_per_qpl g;
     rx_data_slot_cnt := rx_data_slot_cnt g;
     default_num_queues := default_num_queues g;
     data_buffer_size_dqo := data_buffer_size_dqo g;
     dev_max_rx_buffer_size := dev_max_rx_buffer_size g;
     header_buf_size := header_buf_size g;
     flow_rules_max := flow_rules_max g;
     rx_cfg_num_queues := rx_cfg_num_queues g;
     features_ntuple := features_ntuple g |}.

Definition set_tx_pages_per_qpl v (g : gve_cfg) : gve_cfg :=
  {| queue_format := queue_format g; ethtool_defaults := ethtool_defaults g;
     tx_desc_cnt := tx_desc_cnt g; rx_desc_cnt := rx_desc_cnt g;
     options_dqo_rda_tx_comp_ring_entries := options_dqo_rda_tx_comp_ring_entries g;
     options_dqo_rda_rx_buff_ring_entries := options_dqo_rda_rx_buff_ring_entries g;
     max_registered_pages := max_registered_pages g; max_mtu := max_mtu g;
     hw_features_lro := hw_features_lro g;
     hw_features_ntuple := hw_features_ntuple g;
     num_event_counters := num_event_counters g; dev_addr := dev_addr g;
     tx_pages_per_qpl := v; rx_pages_per_qpl := rx_pages_per_qpl g;
     rx_data_slot_cnt := rx_data_slot_cnt g;
     default_num_queues := default_num_queues g;
     data_buffer_size_dqo := data_buffer_size_dqo g;
     dev_max_rx_buffer_size := dev_max_rx_buffer_size g;
     header_buf_size := header_buf_size g;
     flow_rules_max := flow_rules_max g;
     rx_cfg_num_queues := rx_cfg_num_queues g;
     features_ntuple := features_ntuple g |}.

Definition set_rx_pages_per_qpl v (g : gve_cfg) : gve_cfg :=
  {| queue_format := queue_format g; ethtool_defaults := ethtool_defaults g;
     tx_desc_cnt := tx_desc_cnt g; rx_desc_cnt := rx_desc_cnt g;
     options_dqo_rda_tx_comp_ring_entries := options_dqo_rda_tx_comp_ring_entries g;
     options_dqo_rda_rx_buff_ring_entries := options_dqo_rda_rx_buff_ring_entries g;
     max_registered_pages := max_registered_pages g; max_mtu := max_mtu g;
     hw_features_lro := hw_features_lro g;
     hw_features_ntuple := hw_features_ntuple g;
     num_event_counters := num_event_counters g; dev_addr := dev_addr g;
     tx_pages_per_qpl := tx_pages_per_qpl g; rx_pages_per_qpl := v;
     rx_data_slot_cnt := rx_data_slot_cnt g;
     default_num_queues := default_num_queues g;
     data_buffer_size_dqo := data_buffer_size_dqo g;
     dev_max_rx_buffer_size := dev_max_rx_buffer_size g;
     header_buf_size := header_buf_size g;
     flow_rules_max := flow_rules_max g;
     rx_cfg_num_queues := rx_cfg_num_queues g;
     features_ntuple := features_ntuple g |}.

Definition set_rx_data_slot_cnt v (g : gve_cfg) : gve_cfg :=
  {| queue_format := queue_format g; ethtool_defaults := ethtool_defaults g;
     tx_desc_cnt := tx_desc_cnt g; rx_desc_cnt := rx_desc_cnt g;
     options_dqo_rda_tx_comp_ring_entries := options_dqo_rda_tx_comp_ring_entries g;
     options_dqo_rda_rx_buff_ring_entries := options_dqo_rda_rx_buff_ring_entries g;
     max_registered_pages := max_registered_pages g; max_mtu := max_mtu g;
     hw_features_lro := hw_features_lro g;
     hw_features_ntuple := hw_features_ntuple g;
     num_event_counters := num_event_counters g; dev_addr := dev_addr g;
     tx_pages_per_qpl := tx_pages_per_qpl g;
     rx_pages_per_qpl := rx_pages_per_qpl g; rx_data_slot_cnt := v;
     default_num_queues := default_num_queues g;
     data_buffer_size_dqo := data_buffer_size_dqo g;
     dev_max_rx_buffer_size := dev_max_rx_buffer_size g;
     header_buf_size := header_buf_size g;
     flow_rules_max := flow_rules_max g;
     rx_cfg_num_queues := rx_cfg_num_queues g;
     features_ntuple := features_ntuple g |}.

Definition set_default_num_queues v (g : gve_cfg) : gve_cfg :=
  {| queue_format := queue_format g; ethtool_defaults := ethtool_defaults g;
     tx_desc_cnt := tx_desc_cnt g; rx_desc_cnt := rx_desc_cnt g;
     options_dqo_rda_tx_comp_ring_entries := options_dqo_rda_tx_comp_ring_entries g;
     options_dqo_rda_rx_buff_ring_entries := options_dqo_rda_rx_buff_ring_entries g;
     max_registered_pages := max_registered_pages g; max_mtu := max_mtu g;
     hw_features_lro := hw_features_lro g;
     hw_features_ntuple := hw_features_ntuple g;
     num_event_counters := num_event_counters g; dev_addr := dev_addr g;
     tx_pages_per_qpl := tx_pages_per_qpl g;
     rx_pages_per_qpl := rx_pages_per_qpl g;
     rx_data_slot_cnt := rx_data_slot_cnt g; default_num_queues := v;
     data_buffer_size_dqo := data_buffer_size_dqo g;
     dev_max_rx_buffer_size := dev_max_rx_buffer_size g;
     header_buf_size := header_buf_size g;
     flow_rules_max := flow_rules_max g;
     rx_cfg_num_queues := rx_cfg_num_queues g;
     features_ntuple := features_ntuple g |}.

Definition set_data_buffer_size_dqo v (g : gve_cfg) : gve_cfg :=
  {| queue_format := queue_format g; ethtool_defaults := ethtool_defaults g;
     tx_desc_cnt := tx_desc_cnt g; rx_desc_cnt := rx_desc_cnt g;
     options_dqo_rda_tx_comp_ring_entries := options_dqo_rda_tx_comp_ring_entries g;
     options_dqo_rda_rx_buff_ring_entries := options_dqo_rda_rx_buff_ring_entries g;
     max_registered_pages := max_registered_pages g; max_mtu := max_mtu g;
     hw_features_lro := hw_features_lro g;
     hw_features_ntuple := hw_features_ntuple g;
     num_event_counters := num_event_counters g; dev_addr := dev_addr g;
     tx_pages_per_qpl := tx_pages_per_qpl g;
     rx_pages_per_qpl := rx_pages_per_qpl g;
     rx_data_slot_cnt := rx_data_slot_cnt g;
     default_num_queues := default_num_queues g; data_buffer_size_dqo := v;
     dev_max_rx_buffer_size := dev_max_rx_buffer_size g;
     header_buf_size := header_buf_size g;
     flow_rules_max := flow_rules_max g;
     rx_cfg_num_queues := rx_cfg_num_queues g;
     features_ntuple := features_ntuple g |}.

Definition set_dev_max_rx_buffer_size v (g : gve_cfg) : gve_cfg :=
  {| queue_format := queue_format g; ethtool_defaults := ethtool_defaults g;
     tx_desc_cnt := tx_desc_cnt g; rx_desc_cnt := rx_desc_cnt g;
     options_dqo_rda_tx_comp_ring_entries := options_dqo_rda_tx_comp_ring_entries g;
     options_dqo_rda_rx_buff_ring_entries := options_dqo_rda_rx_buff_ring_entries g;
     max_registered_pages := max_registered_pages g; max_mtu := max_mtu g;
     hw_features_lro := hw_features_lro g;
     hw_features_ntuple := hw_features_ntuple g;
     num_event_counters := num_event_counters g; dev_addr := dev_addr g;
     tx_pages_per_qpl := tx_pages_per_qpl g;
     rx_pages_per_qpl := rx_pages_per_qpl g;
     rx_data_slot_cnt := rx_data_slot_cnt g;
     default_num_queues := default_num_queues g;
     data_buffer_size_dqo := data_buffer_size_dqo g;
     dev_max_rx_buffer_size := v; header_buf_size := header_buf_size g;
     flow_rules_max := flow_rules_max g;
     rx_cfg_num_queues := rx_cfg_num_queues g;
     features_ntuple := features_ntuple g |}.

Definition set_header_buf_size v (g : gve_cfg) : gve_cfg :=
  {| queue_format := queue_format g; ethtool_defaults := ethtool_defaults g;
     tx_desc_cnt := tx_desc_cnt g; rx_desc_cnt := rx_desc_cnt g;
     options_dqo_rda_tx_comp_ring_entries := options_dqo_rda_tx_comp_ring_entries g;
     options_dqo_rda_rx_buff_ring_entries := options_dqo_rda_rx_buff_ring_entries g;
     max_registered_pages := max_registered_pages g; max_mtu := max_mtu g;
     hw_features_lro := hw_features_lro g;
     hw_features_ntuple := hw_features_ntuple g;
     num_event_counters := num_event_counters g; dev_addr := dev_addr g;
     tx_pages_per_qpl := tx_pages_per_qpl g;
     rx_pages_per_qpl := rx_pages_per_qpl g;
     rx_data_slot_cnt := rx_data_slot_cnt g;
     default_num_queues := default_num_queues g;
     data_buffer_size_dqo := data_buffer_size_dqo g;
     dev_max_rx_buffer_size := dev_max_rx_buffer_size g;
     header_buf_size := v; flow_rules_max := flow_rules_max g;
     rx_cfg_num_queues := rx_cfg_num_queues g;
     features_ntuple := features_ntuple g |}.

Definition set_flow_rules_max v (g : gve_cfg) : gve_cfg :=
  {| queue_format := queue_format g; ethtool_defaults := ethtool_defaults g;
     tx_desc_cnt := tx_desc_cnt g; rx_desc_cnt := rx_desc_cnt g;
     options_dqo_rda_tx_comp_ring_entries := options_dqo_rda_tx_comp_ring_entries g;
     options_dqo_rda_rx_buff_ring_entries := options_dqo_rda_rx_buff_ring_entries g;
     max_registered_pages := max_registered_pages g; max_mtu := max_mtu g;
     hw_features_lro := hw_features_lro g;
     hw_features_ntuple := hw_features_ntuple g;
     num_event_counters := num_event_counters g; dev_addr := dev_addr g;
     tx_pages_per_qpl := tx_pages_per_qpl g;
     rx_pages_per_qpl := rx_pages_per_qpl g;
     rx_data_slot_cnt := rx_data_slot_cnt g;
     default_num_queues := default_num_queues g;
     data_buffer_size_dqo := data_buffer_size_dqo g;
     dev_max_rx_buffer_size := dev_max_rx_buffer_size g;
     header_buf_size := header_buf_size g; flow_rules_max := v;
     rx_cfg_num_queues := rx_cfg_num_queues g;
     features_ntuple := features_ntuple g |}.

(** The seven option pointers of [gve_adminq_describe_device]: the offset of
    the option structure in the descriptor, [None] for NULL. *)
Record dev_ops : Type := {
  dev_op_gqi_rda : option Z;
  dev_op_gqi_qpl : option Z;
  dev_op_dqo_rda : option Z;
  dev_op_jumbo_frames : option Z;
  dev_op_buffer_sizes : option Z;
  dev_op_flow_steering : option Z;
  dev_op_dqo_qpl : option Z;
}.

Definition set_dev_op_gqi_rda v (o : dev_ops) : dev_ops :=
  {| dev_op_gqi_rda := v; dev_op_gqi_qpl := dev_op_gqi_qpl o;
     dev_op_dqo_rda := dev_op_dqo_rda o;
     dev_op_jumbo_frames := dev_op_jumbo_frames o;
     dev_op_buffer_sizes := dev_op_buffer_sizes o;
     dev_op_flow_steering := dev_op_flow_steering o;
     dev_op_dqo_qpl := dev_op_dqo_qpl o |}.

Definition set_dev_op_gqi_qpl v (o : dev_ops) : dev_ops :=
  {| dev_op_gqi_rda := dev_op_gqi_rda o; dev_op_gqi_qpl := v;
     dev_op_dqo_rda := dev_op_dqo_rda o;
     dev_op_jumbo_frames := dev_op_jumbo_frames o;
     dev_op_buffer_sizes := dev_op_buffer_sizes o;
     dev_op_flow_steering := dev_op_flow_steering o;
     dev_op_dqo_qpl := dev_op_dqo_qpl o |}.

Definition set_dev_op_dqo_rda v (o : dev_ops) : dev_ops :=
  {| dev_op_gqi_rda := dev_op_gqi_rda o; dev_op_gqi_qpl := dev_op_gqi_qpl o;
     dev_op_dqo_rda := v; dev_op_jumbo_frames := dev_op_jumbo_frames o;
     dev_op_buffer_sizes := dev_op_buffer_sizes o;
     dev_op_flow_steering := dev_op_flow_steering o;
     dev_op_dqo_qpl := dev_op_dqo_qpl o |}.

Definition set_dev_op_jumbo_frames v (o : dev_ops) : dev_ops :=
  {| dev_op_gqi_rda := dev_op_gqi_rda o; dev_op_gqi_qpl := dev_op_gqi_qpl o;
     dev_op_dqo_rda := dev_op_dqo_rda o; dev_op_jumbo_frames := v;
     dev_op_buffer_sizes := dev_op_buffer_sizes o;
     dev_op_flow_steering := dev_op_flow_steering o;
     dev_op_dqo_qpl := dev_op_dqo_qpl o |}.

Definition set_dev_op_buffer_sizes v (o : dev_ops) : dev_ops :=
  {| dev_op_gqi_rda := dev_op_gqi_rda o; dev_op_gqi_qpl := dev_op_gqi_qpl o;
     dev_op_dqo_rda := dev_op_dqo_rda o;
     dev_op_jumbo_frames := dev_op_jumbo_frames o; dev_op_buffer_sizes := v;
     dev_op_flow_steering := dev_op_flow_steering o;
     dev_op_dqo_qpl := dev_op_dqo_qpl o |}.

Definition set_dev_op_flow_steering v (o : dev_ops) : dev_ops :=
  {| dev_op_gqi_rda := dev_op_gqi_rda o; dev_op_gqi_qpl := dev_op_gqi_qpl o;
     dev_op_dqo_rda := dev_op_dqo_rda o;
     dev_op_jumbo_frames := dev_op_jumbo_frames o;
     dev_op_buffer_sizes := dev_op_buffer_sizes o; dev_op_flow_steering := v;
     dev_op_dqo_qpl := dev_op_dqo_qpl o |}.

Definition set_dev_op_dqo_qpl v (o : dev_ops) : dev_ops :=
  {| dev_op_gqi_rda := dev_op_gqi_rda o; dev_op_gqi_qpl := dev_op_gqi_qpl o;
     dev_op_dqo_rda := dev_op_dqo_rda o;
     dev_op_jumbo_frames := dev_op_jumbo_frames o;
     dev_op_buffer_sizes := dev_op_buffer_sizes o;
     dev_op_flow_steering := dev_op_flow_steering o; dev_op_dqo_qpl := v |}.

Definition dev_ops_null : dev_ops :=
  {| dev_op_gqi_rda := None; dev_op_gqi_qpl := None; dev_op_dqo_rda := None;
     dev_op_jumbo_frames := None; dev_op_buffer_sizes := None;
     dev_op_flow_steering := None; dev_op_dqo_qpl := None |}.

(** ** The device-option negotiator ([gve_adminq.c], lines 23-236) *)

(** Modelled from the spec: [struct gve_device_option], whose declaration is
    in [gve_adminq.h].  Section 6 gives the node as
    [{option_id: u16, option_length: u16, required_features_mask: u32}]
    followed by the payload, all big-endian: eight bytes, the fields at
    offsets 0, 2 and 4. *)
Definition sizeof_device_option : Z := 8.
Definition off_option_id : Z := 0.
Definition off_option_length : Z := 2.
Definition off_required_features_mask : Z := 4.

Section Options.

Variable C : gve_consts.

(** The byte at offset [off] from the start of the descriptor; the option
    area begins at [sizeof_device_descriptor].  A byte the device did not
    write reads as zero. *)
Definition desc_byte (d : gve_device_descriptor) (off : Z) : Z :=
  if off <? sizeof_device_descriptor C then 0
  else default 0 (options_area d !! Z.to_nat (off - sizeof_device_descriptor C))
       mod 256.

Definition be16_at (d : gve_device_descriptor) (off : Z) : Z :=
  desc_byte d off * 256 + desc_byte d (off + 1).

Definition be32_at (d : gve_device_descriptor) (off : Z) : Z :=
  be16_at d off * 65536 + be16_at d (off + 2).

(** Options are named by the offset of their header in the descriptor. *)
Definition option_id_at d (opt : Z) : Z := be16_at d (opt + off_option_id).
Definition option_length_at d (opt : Z) : Z := be16_at d (opt + off_option_length).
Definition required_features_mask_at d (opt : Z) : Z :=
  be32_at d (opt + off_required_features_mask).

Definition gve_get_next_option (d : gve_device_descriptor) (opt : Z) : option Z :=
  let option_end := opt + sizeof_device_option + option_length_at d opt in
  let descriptor_end := desc_total_length d in
  if option_end >? descriptor_end then None else Some option_end.

(** The state [gve_parse_device_option] works on: [priv] and the seven
    pointers. *)
Definition parse_state : Type := gve_cfg * dev_ops.

Definition gve_parse_device_option (d : gve_device_descriptor) (opt : Z)
    (st : parse_state) : parse_state :=
  let '(priv, ops) := st in
  let req_feat_mask := required_features_mask_at d opt in
  let option_length := option_length_at d opt in
  let option_id := option_id_at d opt in
  let body := opt + sizeof_device_option in
  if option_id =? GVE_DEV_OPT_ID_GQI_RAW_ADDRESSING C then
    if negb (option_length =? GVE_DEV_OPT_LEN_GQI_RAW_ADDRESSING C)
       || negb (req_feat_mask =? GVE_DEV_OPT_REQ_FEAT_MASK_GQI_RAW_ADDRESSING C)
    then st
    else (set_queue_format GVE_GQI_RDA_FORMAT priv, ops)
  else if option_id =? GVE_DEV_OPT_ID_GQI_RDA C then
    if (option_length <? sizeof_gqi_rda C)
       || negb (req_feat_mask =? GVE_DEV_OPT_REQ_FEAT_MASK_GQI_RDA C)
    then st
    else (priv, set_dev_op_gqi_rda (Some body) ops)
  else if option_id =? GVE_DEV_OPT_ID_GQI_QPL C then
    if (option_length <? sizeof_gqi_qpl C)
       || negb (req_feat_mask =? GVE_DEV_OPT_REQ_FEAT_MASK_GQI_QPL C)
    then st
    else (priv, set_dev_op_gqi_qpl (Some body) ops)
  else if option_id =? GVE_DEV_OPT_ID_DQO_RDA C then
    if (option_length <? sizeof_dqo_rda C)
       || negb (req_feat_mask =? GVE_DEV_OPT_REQ_FEAT_MASK_DQO_RDA C)
    then st
    else (priv, set_dev_op_dqo_rda (Some body) ops)
  else if option_id =? GVE_DEV_OPT_ID_DQO_QPL C then
    if (option_length <? sizeof_dqo_qpl C)
       || negb (req_feat_mask =? GVE_DEV_OPT_REQ_FEAT_MASK_DQO_QPL C)
    then st
    else (priv, set_dev_op_dqo_qpl (Some body) ops)
  else if option_id =? GVE_DEV_OPT_ID_JUMBO_FRAMES C then
    if (option_length <? sizeof_jumbo_frames C)
       || negb (req_feat_mask =? GVE_DEV_OPT_REQ_FEAT_MASK_JUMBO_FRAMES C)
    then st
    else (priv, set_dev_op_jumbo_frames (Some body) ops)
  else if option_id =? GVE_DEV_OPT_ID_BUFFER_SIZES C then
    if (option_length <? sizeof_buffer_sizes C)
       || negb (req_feat_mask =? GVE_DEV_OPT_REQ_FEAT_MASK_BUFFER_SIZES C)
    then st
    else
      let ops' := set_dev_op_buffer_sizes (Some body) ops in
      if negb (be16_at d (body + off_buffer_sizes_header_buffer_size C) =? 0)
      then (set_ethtool_defaults
              (Z.lor (ethtool_defaults priv)
                     (Z.shiftl 1 (GVE_PRIV_FLAGS_ENABLE_HEADER_SPLIT C))) priv,
            ops')
      else (priv, ops')
  else if option_id =? GVE_DEV_OPT_ID_FLOW_STEERING C then
    if (option_length <? sizeof_flow_steering C)
       || negb (req_feat_mask =? GVE_DEV_OPT_REQ_FEAT_MASK_FLOW_STEERING C)
    then st
    else (priv, set_dev_op_flow_steering (Some body) ops)
  else (* unrecognized option: continue without doing anything *) st.

(** The loop of [gve_process_device_options], with [n] iterations left. *)
Fixpoint process_device_options_loop (n : nat) (d : gve_device_descriptor)
    (dev_opt : Z) (st : parse_state) : Z * parse_state :=
  match n with
  | O => (0, st)
  | S n' =>
      match gve_get_next_option d dev_opt with
      | None => (- EINVAL, st)
      | Some next_opt =>
          process_device_options_loop n' d next_opt
            (gve_parse_device_option d dev_opt st)
      end
  end.

Definition gve_process_device_options (d : gve_device_descriptor)
    (st : parse_state) : Z * parse_state :=
  let num_options := desc_num_device_options d in
  (* The options struct directly follows the device descriptor. *)
  process_device_options_loop (Z.to_nat num_options) d
    (sizeof_device_descriptor C) st.

(** *** Applying the options ([gve_adminq.c], lines 784-894) *)

(** Modelled from the spec: [gve_is_gqi], an inline function of [gve.h].
    The glossary gives two descriptor-layout families, each with a
    raw-addressing and a paged format; the GQI family is the two GQI
    formats. *)
Definition gve_is_gqi (priv : gve_cfg) : bool :=
  bool_decide (queue_format priv = GVE_GQI_RDA_FORMAT)
  || bool_decide (queue_format priv = GVE_GQI_QPL_FORMAT).

Definition gve_set_desc_cnt (d : gve_device_descriptor) (priv : gve_cfg)
  : Z * gve_cfg :=
  let priv := set_tx_desc_cnt (desc_tx_queue_entries d) priv in
  if tx_desc_cnt priv * sizeof_tx_desc C <? PAGE_SIZE C then (- EINVAL, priv)
  else
    let priv := set_rx_desc_cnt (desc_rx_queue_entries d) priv in
    if rx_desc_cnt priv * sizeof_rx_desc C <? PAGE_SIZE C then (- EINVAL, priv)
    else (0, priv).

Definition gve_set_desc_cnt_dqo (d : gve_device_descriptor)
    (dev_op_dqo_rda : option Z) (priv : gve_cfg) : Z * gve_cfg :=
  let priv := set_tx_desc_cnt (desc_tx_queue_entries d) priv in
  let priv := set_rx_desc_cnt (desc_rx_queue_entries d) priv in
  if decide (queue_format priv = GVE_DQO_QPL_FORMAT) then (0, priv)
  else
    let p := default 0 dev_op_dqo_rda in
    let priv := set_options_dqo_rda_tx_comp_ring_entries
                  (be16_at d (p + off_dqo_rda_tx_comp_ring_entries C)) priv in
    let priv := set_options_dqo_rda_rx_buff_ring_entries
                  (be16_at d (p + off_dqo_rda_rx_buff_ring_entries C)) priv in
    (0, priv).

(** The three [if]s applied to a nonzero declared buffer size. *)
Definition sanitize_buf_size (buf_size dflt lo hi : Z) : Z :=
  let v := buf_size in
  let v := if negb (Z.land v (v - 1) =? 0) then dflt else v in
  let v := if v <? lo then lo else v in
  let v := if v >? hi then hi else v in
  v.

Definition gve_enable_supported_features (d : gve_device_descriptor)
    (supported_features_mask : Z) (ops : dev_ops) (priv : gve_cfg) : gve_cfg :=
  let feature m := negb (Z.land supported_features_mask m =? 0) in
  let priv :=
    match dev_op_jumbo_frames ops with
    | Some p =>
        if feature (GVE_SUP_JUMBO_FRAMES_MASK C)
        then set_max_mtu (be16_at d (p + off_jumbo_frames_max_mtu C)) priv
        else priv
    | None => priv
    end in
  let priv := set_data_buffer_size_dqo (GVE_RX_BUFFER_SIZE_DQO C) priv in
  let priv := set_dev_max_rx_buffer_size (GVE_RX_BUFFER_SIZE_DQO C) priv in
  let priv := set_header_buf_size 0 priv in
  let priv :=
    match dev_op_buffer_sizes ops with
    | Some p =>
        if feature (GVE_SUP_BUFFER_SIZES_MASK C) then
          let buf_size := be16_at d (p + off_buffer_sizes_packet_buffer_size C) in
          let priv :=
            if negb (buf_size =? 0) then
              set_dev_max_rx_buffer_size
                (sanitize_buf_size buf_size (GVE_RX_BUFFER_SIZE_DQO C)
                   (GVE_MIN_RX_BUFFER_SIZE C) (GVE_MAX_RX_BUFFER_SIZE C)) priv
            else priv in
          let buf_size := be16_at d (p + off_buffer_sizes_header_buffer_size C) in
          if negb (buf_size =? 0) then
            set_header_buf_size
              (sanitize_buf_size buf_size (GVE_HEADER_BUFFER_SIZE_DEFAULT C)
                 (GVE_HEADER_BUFFER_SIZE_MIN C) (GVE_HEADER_BUFFER_SIZE_MAX C)) priv
          else priv
        else priv
    | None => priv
    end in
  let priv :=
    match dev_op_flow_steering ops with
    | Some p =>
        if feature (GVE_SUP_FLOW_STEERING_MASK C)
        then set_flow_rules_max
               (be16_at d (p + off_flow_steering_max_num_rules C)) priv
        else priv
    | None => priv
    end in
  (* Override pages for qpl for DQO-QPL *)
  match dev_op_dqo_qpl ops with
  | Some p =>
      let tx := be16_at d (p + off_dqo_qpl_tx_pages_per_qpl C) in
      let rx := be16_at d (p + off_dqo_qpl_rx_pages_per_qpl C) in
      let priv := set_tx_pages_per_qpl
                    (if tx =? 0 then DQO_QPL_DEFAULT_TX_PAGES C else tx) priv in
      set_rx_pages_per_qpl
        (if rx =? 0 then DQO_QPL_DEFAULT_RX_PAGES C else rx) priv
  | None => priv
  end.

End Options.

(** ** The driver instance *)

(** [struct gve_priv]: the admin-queue state, the negotiated configuration
    and the flow-rule directory. *)
Record gve_priv : Type := {
  aq : gve_adminq_priv;
  cfg : gve_cfg;
  (** [priv->flow_rules], head first. *)
  flow_rules : list gve_flow_rule;
  flow_rules_cnt : Z;
  (** Number of [kvzalloc] requests so far. *)
  kvzalloc_requests : nat;
}.

Definition set_aq v (p : gve_priv) : gve_priv :=
  {| aq := v; cfg := cfg p; flow_rules := flow_rules p;
     flow_rules_cnt := flow_rules_cnt p;
     kvzalloc_requests := kvzalloc_requests p |}.

Definition set_cfg v (p : gve_priv) : gve_priv :=
  {| aq := aq p; cfg := v; flow_rules := flow_rules p;
     flow_rules_cnt := flow_rules_cnt p;
     kvzalloc_requests := kvzalloc_requests p |}.

Definition set_flow_rules v (p : gve_priv) : gve_priv :=
  {| aq := aq p; cfg := cfg p; flow_rules := v;
     flow_rules_cnt := flow_rules_cnt p;
     kvzalloc_requests := kvzalloc_requests p |}.

Definition set_flow_rules_cnt v (p : gve_priv) : gve_priv :=
  {| aq := aq p; cfg := cfg p; flow_rules := flow_rules p;
     flow_rules_cnt := v;
     kvzalloc_requests := kvzalloc_requests p |}.

Definition set_kvzalloc_requested (p : gve_priv) : gve_priv :=
  {| aq := aq p; cfg := cfg p; flow_rules := flow_rules p;
     flow_rules_cnt := flow_rules_cnt p;
     kvzalloc_requests := S (kvzalloc_requests p) |}.

(** Computations over the driver instance. *)
Abbreviation P := (ST gve_priv).

(** A transport function called on [priv]. *)
Definition lift_aq {A} (m : M A) : P A := fun p =>
  let '(x, a') := m (aq p) in (x, set_aq a' p).

(** ** Describe device ([gve_adminq.c], lines 896-1013) *)

Definition ETH_MIN_MTU : Z := 68.

Section DescribeDevice.

Variable pf : platform.
Variable C : gve_consts.

(** Lines 942-968: the queue format and the supported-features mask that
    goes with it. *)
Definition describe_device_select_format (d : gve_device_descriptor)
    (ops : dev_ops) (priv : gve_cfg) : gve_cfg * Z :=
  match dev_op_dqo_rda ops with
  | Some p =>
      (set_queue_format GVE_DQO_RDA_FORMAT priv,
       be32_at C d (p + off_dqo_rda_supported_features_mask C))
  | None =>
      match dev_op_dqo_qpl ops with
      | Some p =>
          (set_queue_format GVE_DQO_QPL_FORMAT priv,
           be32_at C d (p + off_dqo_qpl_supported_features_mask C))
      | None =>
          match dev_op_gqi_rda ops with
          | Some p =>
              (set_queue_format GVE_GQI_RDA_FORMAT priv,
               be32_at C d (p + off_gqi_rda_supported_features_mask C))
          | None =>
              if decide (queue_format priv = GVE_GQI_RDA_FORMAT) then (priv, 0)
              else
                (set_queue_format GVE_GQI_QPL_FORMAT priv,
                 match dev_op_gqi_qpl ops with
                 | Some p =>
                     be32_at C d (p + off_gqi_qpl_supported_features_mask C)
                 | None => 0
                 end)
          end
      end
  end.

(** Lines 929-1007: what describe-device does with the descriptor once the
    command has passed, up to the [free_device_descriptor] label. *)
Definition describe_device_apply (d : gve_device_descriptor) (priv : gve_cfg)
  : Z * gve_cfg :=
  let '(err, (priv, ops)) := gve_process_device_options C d (priv, dev_ops_null) in
  if negb (err =? 0) then (err, priv)
  else
    let '(priv, supported_features_mask) :=
      describe_device_select_format d ops priv in
    let '(err, priv) :=
      if gve_is_gqi priv then gve_set_desc_cnt C d priv
      else
        (* DQO supports LRO and flow-steering *)
        let priv := set_hw_features_lro true priv in
        let priv := set_hw_features_ntuple true priv in
        gve_set_desc_cnt_dqo C d (dev_op_dqo_rda ops) priv in
    if negb (err =? 0) then (err, priv)
    else
      let priv := set_max_registered_pages (desc_max_registered_pages d) priv in
      let mtu := desc_mtu d in
      if mtu <? ETH_MIN_MTU then (- EINVAL, priv)
      else
        let priv := set_max_mtu mtu priv in
        let priv := set_num_event_counters (desc_counters d) priv in
        let priv := set_dev_addr (desc_mac d) priv in
        let priv := set_tx_pages_per_qpl (desc_tx_pages_per_qpl d) priv in
        let priv := set_rx_data_slot_cnt (desc_rx_pages_per_qpl d) priv in
        let priv :=
          if gve_is_gqi priv && (rx_data_slot_cnt priv <? rx_desc_cnt priv)
          then set_rx_desc_cnt (rx_data_slot_cnt priv) priv
          else priv in
        let priv := set_default_num_queues (desc_default_num_queues d) priv in
        (0, gve_enable_supported_features C d supported_features_mask ops priv).

Definition gve_adminq_describe_device : P Z :=
  do descriptor <- lift_aq (dma_alloc_coherent pf (PAGE_SIZE C));
  match descriptor with
  | None => ret (- ENOMEM)
  | Some descriptor_bus =>
      let cmd := mk_cmd GVE_ADMINQ_DESCRIBE_DEVICE
                   (payload_describe_device descriptor_bus
                      (GVE_ADMINQ_DEVICE_DESCRIPTOR_VERSION C)
                      (u32 (PAGE_SIZE C))) in
      do err <- lift_aq (gve_adminq_execute_cmd pf cmd);
      do err <-
        (if negb (err =? 0) then ret err
         else
           do n <- gets (fun p => io_reads (aq p));
           do priv <- gets cfg;
           let '(err, priv') := describe_device_apply (descriptor_at pf n) priv in
           exec modify (set_cfg priv');
           ret err);
      (* free_device_descriptor: *)
      exec lift_aq (dma_free_coherent descriptor_bus);
      ret err
  end.

End DescribeDevice.

(** ** The flow-rule directory ([gve_ethtool.c], lines 943-1400) *)

(** Flow types and flags of the ethtool interface ([linux/ethtool.h]). *)
Definition TCP_V4_FLOW : Z := 1.
Definition UDP_V4_FLOW : Z := 2.
Definition SCTP_V4_FLOW : Z := 3.
Definition TCP_V6_FLOW : Z := 5.
Definition UDP_V6_FLOW : Z := 6.
Definition SCTP_V6_FLOW : Z := 7.
Definition AH_V4_FLOW : Z := 9.
Definition ESP_V4_FLOW : Z := 10.
Definition AH_V6_FLOW : Z := 11.
Definition ESP_V6_FLOW : Z := 12.
Definition FLOW_EXT : Z := 2147483648.
Definition FLOW_MAC_EXT : Z := 1073741824.
Definition FLOW_RSS : Z := 536870912.
Definition RX_CLS_FLOW_DISC : Z := 2 ^ 64 - 1.

(** [struct ethtool_rx_flow_spec].  [h_u] and [m_u] are the words of
    [union ethtool_flow_union]: in an IPv4 view word 0 and 1 are the
    addresses, word 2 the two ports or the SPI and the top byte of word 3
    the TOS; in an IPv6 view words 0-3 and 4-7 are the addresses, word 8 the
    ports or the SPI and the top byte of word 9 the traffic class. *)
Record ethtool_rx_flow_spec : Type := {
  fs_flow_type : Z;
  h_u : list Z;
  m_u : list Z;
  ring_cookie : Z;
  location : Z;
}.

Inductive ethtool_rxnfc_cmd : Type :=
  | ETHTOOL_GRXRINGS | ETHTOOL_GRXCLSRLCNT | ETHTOOL_GRXCLSRULE
  | ETHTOOL_GRXCLSRLALL | ETHTOOL_GRXFH
  | ETHTOOL_SRXCLSRLINS | ETHTOOL_SRXCLSRLDEL | ETHTOOL_SRXFH
  | ETHTOOL_CMD_OTHER (w : Z).

(** [struct ethtool_rxnfc], the members the driver uses. *)
Record ethtool_rxnfc : Type := {
  nfc_cmd : ethtool_rxnfc_cmd;
  nfc_data : Z;
  fs : ethtool_rx_flow_spec;
  rule_cnt : Z;
}.

Definition set_nfc_data v (c : ethtool_rxnfc) : ethtool_rxnfc :=
  {| nfc_cmd := nfc_cmd c; nfc_data := v; fs := fs c; rule_cnt := rule_cnt c |}.
Definition set_rule_cnt v (c : ethtool_rxnfc) : ethtool_rxnfc :=
  {| nfc_cmd := nfc_cmd c; nfc_data := nfc_data c; fs := fs c; rule_cnt := v |}.
Definition set_fs v (c : ethtool_rxnfc) : ethtool_rxnfc :=
  {| nfc_cmd := nfc_cmd c; nfc_data := nfc_data c; fs := v; rule_cnt := rule_cnt c |}.

Definition word (u : list Z) (k : nat) : Z := u32 (default 0 (u !! k)).
Definition hi16 (w : Z) : Z := w / 65536.
Definition lo16 (w : Z) : Z := w mod 65536.
Definition ports_word (psrc pdst : Z) : Z := psrc * 65536 + pdst.
Definition top_byte (w : Z) : Z := w / 16777216.

(** A rule as [kvzalloc] returns it. *)
Definition flow_spec_zero : gve_flow_spec :=
  {| src_ip := [0; 0; 0; 0]; dst_ip := [0; 0; 0; 0]; l4_word := 0; tos := 0 |}.
Definition flow_rule_zero : gve_flow_rule :=
  {| loc := 0; flow_type := GVE_FLOW_TYPE_TCPV4; action := 0;
     key := flow_spec_zero; mask := flow_spec_zero |}.

Definition set_spec_ip4 (src dst : Z) (s : gve_flow_spec) : gve_flow_spec :=
  {| src_ip := <[0%nat := src]> (src_ip s); dst_ip := <[0%nat := dst]> (dst_ip s);
     l4_word := l4_word s; tos := tos s |}.
Definition set_spec_ip6 (src dst : list Z) (s : gve_flow_spec) : gve_flow_spec :=
  {| src_ip := src; dst_ip := dst; l4_word := l4_word s; tos := tos s |}.
Definition set_spec_l4 (w : Z) (s : gve_flow_spec) : gve_flow_spec :=
  {| src_ip := src_ip s; dst_ip := dst_ip s; l4_word := w; tos := tos s |}.

Definition ip6_of (u : list Z) (k : nat) : list Z :=
  [word u k; word u (k + 1); word u (k + 2); word u (k + 3)].

Section FlowRules.

Variable pf : platform.
Variable C : gve_consts.

(** [list_for_each_entry] with the two tests of the loop body. *)
Fixpoint gve_flow_rule_is_dup_rule (rules : list gve_flow_rule)
    (rule : gve_flow_rule) : bool :=
  match rules with
  | [] => false
  | tmp :: rest =>
      if negb (bool_decide (flow_type tmp = flow_type rule))
      then gve_flow_rule_is_dup_rule rest rule
      else if bool_decide (key tmp = key rule)
              && bool_decide (mask tmp = mask rule)
      then true
      else gve_flow_rule_is_dup_rule rest rule
  end.

(** The rule found is named by its position in the list; [l] is a [u16]. *)
Fixpoint gve_find_flow_rule_by_loc (rules : list gve_flow_rule) (l : Z)
  : option nat :=
  match rules with
  | [] => None
  | rule :: rest =>
      if loc rule =? l then Some 0%nat
      else S <$> gve_find_flow_rule_by_loc rest l
  end.

(** The scan of [gve_flow_rules_add_rule]: the number of entries passed
    before the [break]; the last of them is [parent]. *)
Fixpoint add_rule_scan (rules : list gve_flow_rule) (rule : gve_flow_rule) : nat :=
  match rules with
  | [] => 0%nat
  | tmp :: rest =>
      if loc tmp >=? loc rule then 0%nat else S (add_rule_scan rest rule)
  end.

(** [list_add] after [parent], or after the list head when there is none:
    in both cases the rule lands behind the entries the scan passed. *)
Definition gve_flow_rules_add_rule (rule : gve_flow_rule) : P unit :=
  do rules <- gets flow_rules;
  let n := add_rule_scan rules rule in
  exec modify (set_flow_rules (take n rules ++ rule :: drop n rules));
  modify (fun p => set_flow_rules_cnt
                     ((flow_rules_cnt p + 1) mod flow_rules_cnt_modulus C) p).

Definition gve_flow_rules_del_rule (rule : nat) : P unit :=
  exec modify (fun p => set_flow_rules (delete rule (flow_rules p)) p);
  modify (fun p => set_flow_rules_cnt
                     ((flow_rules_cnt p - 1) mod flow_rules_cnt_modulus C) p).

Definition gve_flow_type_of (flow_type : Z) : option gve_adminq_flow_type :=
  if flow_type =? TCP_V4_FLOW then Some GVE_FLOW_TYPE_TCPV4
  else if flow_type =? UDP_V4_FLOW then Some GVE_FLOW_TYPE_UDPV4
  else if flow_type =? SCTP_V4_FLOW then Some GVE_FLOW_TYPE_SCTPV4
  else if flow_type =? AH_V4_FLOW then Some GVE_FLOW_TYPE_AHV4
  else if flow_type =? ESP_V4_FLOW then Some GVE_FLOW_TYPE_ESPV4
  else if flow_type =? TCP_V6_FLOW then Some GVE_FLOW_TYPE_TCPV6
  else if flow_type =? UDP_V6_FLOW then Some GVE_FLOW_TYPE_UDPV6
  else if flow_type =? SCTP_V6_FLOW then Some GVE_FLOW_TYPE_SCTPV6
  else if flow_type =? AH_V6_FLOW then Some GVE_FLOW_TYPE_AHV6
  else if flow_type =? ESP_V6_FLOW then Some GVE_FLOW_TYPE_ESPV6
  else None.

(** The second [switch] of [gve_add_flow_rule_info]: the key and the mask.
    The AH and ESP cases over IPv6 store the SPI of the key twice and never
    that of the mask, as the source does. *)
Definition add_flow_rule_info_specs (ft : gve_adminq_flow_type)
    (fsp : ethtool_rx_flow_spec) (rule : gve_flow_rule) : gve_flow_rule :=
  let h := h_u fsp in
  let m := m_u fsp in
  let '(k, mk) :=
    match ft with
    | GVE_FLOW_TYPE_TCPV4 | GVE_FLOW_TYPE_UDPV4 | GVE_FLOW_TYPE_SCTPV4 =>
        (set_spec_l4 (ports_word (hi16 (word h 2)) (lo16 (word h 2)))
           (set_spec_ip4 (word h 0) (word h 1) (key rule)),
         set_spec_l4 (ports_word (hi16 (word m 2)) (lo16 (word m 2)))
           (set_spec_ip4 (word m 0) (word m 1) (mask rule)))
    | GVE_FLOW_TYPE_AHV4 | GVE_FLOW_TYPE_ESPV4 =>
        (set_spec_l4 (word h 2) (set_spec_ip4 (word h 0) (word h 1) (key rule)),
         set_spec_l4 (word m 2) (set_spec_ip4 (word m 0) (word m 1) (mask rule)))
    | GVE_FLOW_TYPE_TCPV6 | GVE_FLOW_TYPE_UDPV6 | GVE_FLOW_TYPE_SCTPV6 =>
        (set_spec_l4 (ports_word (hi16 (word h 8)) (lo16 (word h 8)))
           (set_spec_ip6 (ip6_of h 0) (ip6_of h 4) (key rule)),
         set_spec_l4 (ports_word (hi16 (word m 8)) (lo16 (word m 8)))
           (set_spec_ip6 (ip6_of m 0) (ip6_of m 4) (mask rule)))
    | GVE_FLOW_TYPE_AHV6 | GVE_FLOW_TYPE_ESPV6 =>
        (set_spec_l4 (word h 8) (set_spec_ip6 (ip6_of h 0) (ip6_of h 4) (key rule)),
         set_spec_ip6 (ip6_of m 0) (ip6_of m 4) (mask rule))
    end in
  {| loc := loc rule; flow_type := flow_type rule; action := action rule;
     key := k; mask := mk |}.

(** Returns the error and the rule as filled in so far. *)
Definition gve_add_flow_rule_info (priv : gve_priv) (fsp : ethtool_rx_flow_spec)
    (rule : gve_flow_rule) : Z * gve_flow_rule :=
  if ring_cookie fsp =? RX_CLS_FLOW_DISC then (- EOPNOTSUPP, rule)
  else
    let q_index := u32 (ring_cookie fsp) in
    if q_index >=? u32 (rx_cfg_num_queues (cfg priv)) then (- EINVAL, rule)
    else
      let rule := {| loc := u16 (location fsp); flow_type := flow_type rule;
                     action := u16 q_index; key := key rule; mask := mask rule |} in
      let flow_type_ :=
        Z.land (u32 (fs_flow_type fsp))
               (2 ^ 32 - 1 - Z.lor FLOW_EXT (Z.lor FLOW_MAC_EXT FLOW_RSS)) in
      match gve_flow_type_of flow_type_ with
      | None => (- EINVAL, rule)
      | Some ft =>
          let rule := {| loc := loc rule; flow_type := ft; action := action rule;
                         key := key rule; mask := mask rule |} in
          let rule := add_flow_rule_info_specs ft fsp rule in
          if gve_flow_rule_is_dup_rule (flow_rules priv) rule
          then (- EEXIST, rule)
          else (0, rule)
      end.

Definition kvzalloc_rule : P (option gve_flow_rule) := fun p =>
  (if kvzalloc_ok pf (kvzalloc_requests p) then Some flow_rule_zero else None,
   set_kvzalloc_requested p).

Definition gve_add_flow_rule (cmd : ethtool_rxnfc) : P Z :=
  let fsp := fs cmd in
  do max <- gets (fun p => flow_rules_max (cfg p));
  if max =? 0 then ret (- EOPNOTSUPP)
  else
    do cnt <- gets flow_rules_cnt;
    if cnt >=? max then ret (- ENOSPC)
    else
      (* spin_lock_bh *)
      do rules <- gets flow_rules;
      match gve_find_flow_rule_by_loc rules (u16 (location fsp)) with
      | Some _ => ret (- EEXIST)
      | None =>
          do r <- kvzalloc_rule;
          match r with
          | None => ret (- ENOMEM)
          | Some rule =>
              do priv <- gets id;
              let '(err, rule) := gve_add_flow_rule_info priv fsp rule in
              if negb (err =? 0) then ret err
              else
                do err <- lift_aq (gve_adminq_add_flow_rule pf C rule);
                if negb (err =? 0) then ret err
                else
                  exec gve_flow_rules_add_rule rule;
                  ret err
          end
      end.

Definition gve_del_flow_rule (cmd : ethtool_rxnfc) : P Z :=
  let fsp := fs cmd in
  do max <- gets (fun p => flow_rules_max (cfg p));
  if max =? 0 then ret (- EOPNOTSUPP)
  else
    do rules <- gets flow_rules;
    match gve_find_flow_rule_by_loc rules (u16 (location fsp)) with
    | None => ret (- EINVAL)
    | Some rule =>
        do err <- lift_aq (gve_adminq_del_flow_rule pf C (location fsp));
        if negb (err =? 0) then ret err
        else
          exec gve_flow_rules_del_rule rule;
          ret err
    end.

(** The loop of [gve_get_flow_rule_ids]: [cnt] rules copied so far into
    [rule_locs], [capacity] the caller's [cmd->rule_cnt].  Returns the
    error, the count and the array. *)
Fixpoint get_flow_rule_ids_loop (rules : list gve_flow_rule) (capacity : Z)
    (cnt : Z) (rule_locs : list Z) : Z * Z * list Z :=
  match rules with
  | [] => (0, cnt, rule_locs)
  | rule :: rest =>
      if cnt =? capacity then (- EMSGSIZE, cnt, rule_locs)
      else get_flow_rule_ids_loop rest capacity (u32 (cnt + 1))
             (<[Z.to_nat cnt := loc rule]> rule_locs)
  end.

Definition gve_get_flow_rule_ids (cmd : ethtool_rxnfc) (rule_locs : list Z)
  : P (Z * ethtool_rxnfc * list Z) :=
  do max <- gets (fun p => flow_rules_max (cfg p));
  if max =? 0 then ret (- EOPNOTSUPP, cmd, rule_locs)
  else
    let cmd := set_nfc_data max cmd in
    do rules <- gets flow_rules;
    let '(err, cnt, rule_locs) :=
      get_flow_rule_ids_loop rules (rule_cnt cmd) 0 rule_locs in
    if negb (err =? 0) then ret (err, cmd, rule_locs)
    else ret (err, set_rule_cnt cnt cmd, rule_locs).

End FlowRules.

(** *** The ethtool entry points ([gve_ethtool.c], lines 996-1123, 1343-1400) *)

Definition ethtool_flow_type_of (ft : gve_adminq_flow_type) : Z :=
  match ft with
  | GVE_FLOW_TYPE_TCPV4 => TCP_V4_FLOW
  | GVE_FLOW_TYPE_UDPV4 => UDP_V4_FLOW
  | GVE_FLOW_TYPE_SCTPV4 => SCTP_V4_FLOW
  | GVE_FLOW_TYPE_AHV4 => AH_V4_FLOW
  | GVE_FLOW_TYPE_ESPV4 => ESP_V4_FLOW
  | GVE_FLOW_TYPE_TCPV6 => TCP_V6_FLOW
  | GVE_FLOW_TYPE_UDPV6 => UDP_V6_FLOW
  | GVE_FLOW_TYPE_SCTPV6 => SCTP_V6_FLOW
  | GVE_FLOW_TYPE_AHV6 => AH_V6_FLOW
  | GVE_FLOW_TYPE_ESPV6 => ESP_V6_FLOW
  end.

(** The union after its [memset], thirteen words. *)
Definition flow_union_zero : list Z := replicate 13 0.

(** The words of [h_u] or [m_u] written from a key or a mask. *)
Definition flow_union_of (ft : gve_adminq_flow_type) (s : gve_flow_spec) : list Z :=
  match ft with
  | GVE_FLOW_TYPE_TCPV4 | GVE_FLOW_TYPE_UDPV4 | GVE_FLOW_TYPE_SCTPV4
  | GVE_FLOW_TYPE_AHV4 | GVE_FLOW_TYPE_ESPV4 =>
      <[3%nat := tos s * 16777216]>
        (<[2%nat := l4_word s]>
           (<[1%nat := default 0 (dst_ip s !! 0%nat)]>
              (<[0%nat := default 0 (src_ip s !! 0%nat)]> flow_union_zero)))
  | _ =>
      ip_words (src_ip s) ++ ip_words (dst_ip s)
        ++ [l4_word s; tos s * 16777216; 0; 0; 0]
  end.

Definition gve_get_flow_rule_entry (priv : gve_priv) (cmd : ethtool_rxnfc)
  : Z * ethtool_rxnfc :=
  let fsp := fs cmd in
  if flow_rules_max (cfg priv) =? 0 then (- EOPNOTSUPP, cmd)
  else
    match gve_find_flow_rule_by_loc (flow_rules priv) (u16 (location fsp)) with
    | None => (- EINVAL, cmd)
    | Some n =>
        let rule := default flow_rule_zero (flow_rules priv !! n) in
        (0, set_fs {| fs_flow_type := ethtool_flow_type_of (flow_type rule);
                      h_u := flow_union_of (flow_type rule) (key rule);
                      m_u := flow_union_of (flow_type rule) (mask rule);
                      ring_cookie := action rule;
                      location := location fsp |} cmd)
    end.

Section Ethtool.

Variable pf : platform.
Variable C : gve_consts.

Definition gve_set_rxnfc (cmd : ethtool_rxnfc) : P Z :=
  do ntuple <- gets (fun p => features_ntuple (cfg p));
  if negb ntuple then ret (- EOPNOTSUPP)
  else
    match nfc_cmd cmd with
    | ETHTOOL_SRXCLSRLINS => gve_add_flow_rule pf C cmd
    | ETHTOOL_SRXCLSRLDEL => gve_del_flow_rule pf C cmd
    | _ => ret (- EOPNOTSUPP)
    end.

Definition gve_get_rxnfc (cmd : ethtool_rxnfc) (rule_locs : list Z)
  : P (Z * ethtool_rxnfc * list Z) :=
  match nfc_cmd cmd with
  | ETHTOOL_GRXRINGS =>
      do n <- gets (fun p => rx_cfg_num_queues (cfg p));
      ret (0, set_nfc_data n cmd, rule_locs)
  | ETHTOOL_GRXCLSRLCNT =>
      do max <- gets (fun p => flow_rules_max (cfg p));
      if max =? 0 then ret (- EOPNOTSUPP, cmd, rule_locs)
      else
        do cnt <- gets flow_rules_cnt;
        ret (0, set_nfc_data max (set_rule_cnt cnt cmd), rule_locs)
  | ETHTOOL_GRXCLSRULE =>
      do priv <- gets id;
      let '(err, cmd') := gve_get_flow_rule_entry priv cmd in
      ret (err, cmd', rule_locs)
  | ETHTOOL_GRXCLSRLALL => gve_get_flow_rule_ids cmd rule_locs
  | _ => ret (- EOPNOTSUPP, cmd, rule_locs)
  end.

(** The calls the rest of the driver and the ethtool core make into the
    modelled code. *)
Inductive driver_call : Type :=
  | call_set_rxnfc (cmd : ethtool_rxnfc)
  | call_get_rxnfc (cmd : ethtool_rxnfc) (rule_locs : list Z)
  | call_reset_flow_rules
  | call_configure_rss (rss_config : gve_rss_config)
  | call_describe_device
  | call_issue_cmd (cmd : gve_adminq_command)
  | call_kick_and_wait.

(** The return value and the driver instance after one call. *)
Definition run_call (c : driver_call) (p : gve_priv) : Z * gve_priv :=
  match c with
  | call_set_rxnfc cmd => gve_set_rxnfc cmd p
  | call_get_rxnfc cmd rule_locs =>
      let '(r, p') := gve_get_rxnfc cmd rule_locs p in (r.1.1, p')
  | call_reset_flow_rules => lift_aq (gve_adminq_reset_flow_rules pf C) p
  | call_configure_rss rss_config =>
      lift_aq (gve_adminq_configure_rss pf C rss_config) p
  | call_describe_device => gve_adminq_describe_device pf C p
  | call_issue_cmd cmd => lift_aq (gve_adminq_issue_cmd pf cmd) p
  | call_kick_and_wait => lift_aq (gve_adminq_kick_and_wait pf) p
  end.

Fixpoint run_calls (cs : list driver_call) (p : gve_priv) : gve_priv :=
  match cs with
  | [] => p
  | c :: rest => run_calls rest (run_call c p).2
  end.

End Ethtool.

(** ** Vocabulary of the specification *)

(** The ring is fully drained: the producer counter equals the event
    counter. *)
Definition drained (a : gve_adminq_priv) : Prop :=
  adminq_prod_cnt a = reg_event_counter a.

(** The device reaches [head] within [n] reads of the event counter, the
    first of them being read number [start]. *)
Definition completes_within (pf : platform) (n start : nat) (head : Z) : bool :=
  existsb (fun k => u32 (event_counter_at pf (start + k)) =? head) (seq 0 n).

(** The first status of a batch that is not a success. *)
Fixpoint first_failed (sts : list gve_adminq_statuses) : option gve_adminq_statuses :=
  match sts with
  | [] => None
  | st :: rest =>
      if decide (st = GVE_ADMINQ_COMMAND_PASSED) then first_failed rest
      else Some st
  end.

(** The status words of the slots [tail, head) of a ring, in issue order. *)
Definition batch_statuses (a : gve_adminq_priv) (tail head : Z)
  : list gve_adminq_statuses :=
  (fun i => status (default cmd_zero
                      (adminq a !! Z.to_nat (Z.land i (adminq_mask a)))))
    <$> seqZ tail (head - tail).

(** What the transport leaves alone while it waits: everything but the
    status words, the event counter and the read index. *)
Definition same_bookkeeping (a a' : gve_adminq_priv) : Prop :=
  adminq_mask a' = adminq_mask a /\
  adminq_prod_cnt a' = adminq_prod_cnt a /\
  adminq_cmd_fail a' = adminq_cmd_fail a /\
  adminq_timeouts a' = adminq_timeouts a /\
  adminq_opcode_cnt a' = adminq_opcode_cnt a /\
  reg_doorbell a' = reg_doorbell a /\
  dma_live a' = dma_live a /\
  dma_requests a' = dma_requests a /\
  length (adminq a') = length (adminq a) /\
  (forall k, opcode <$> (adminq a' !! k) = opcode <$> (adminq a !! k)) /\
  (forall k, payload <$> (adminq a' !! k) = payload <$> (adminq a !! k)).

(** *** Worked example: a device that never answers *)

Definition descriptor_empty : gve_device_descriptor :=
  {| desc_max_registered_pages := 0; desc_tx_queue_entries := 0;
     desc_rx_queue_entries := 0; desc_default_num_queues := 0; desc_mtu := 0;
     desc_counters := 0; desc_tx_pages_per_qpl := 0; desc_rx_pages_per_qpl := 0;
     desc_mac := []; desc_num_device_options := 0; desc_total_length := 0;
     options_area := [] |}.

(** The event counter stays at zero and no status is written. *)
Definition pf_stuck : platform :=
  {| event_counter_at := fun _ => 0;
     status_written_at := fun _ _ => None;
     dma_alloc_ok := fun _ => true;
     kvzalloc_ok := fun _ => true;
     descriptor_at := fun _ => descriptor_empty |}.

(** A ring of four slots right after [gve_adminq_alloc]. *)
Definition aq_fresh : gve_adminq_priv :=
  {| adminq := replicate 4 cmd_zero; adminq_mask := 3; adminq_prod_cnt := 0;
     adminq_cmd_fail := 0; adminq_timeouts := 0;
     adminq_opcode_cnt := fun _ => 0;
     reg_event_counter := 0; reg_doorbell := []; io_reads := 0;
     dma_live := ∅; dma_requests := 0 |}.

Definition cmd_destroy_tx : gve_adminq_command :=
  mk_cmd GVE_ADMINQ_DESTROY_TX_QUEUE payload_zero.

(** The ring with [n] commands issued and none completed. *)
Definition aq_pending (n : Z) : gve_adminq_priv :=
  set_adminq_prod_cnt n
    (set_adminq (replicate (Z.to_nat n) cmd_destroy_tx
                   ++ replicate (4 - Z.to_nat n) cmd_zero) aq_fresh).

(** *** Worked example: a device that fails two commands of three

    The device completes the three pending commands at the second read of
    the event counter, the first with success and the other two with an
    error. *)
Definition pf_two_failures : platform :=
  {| event_counter_at := fun n => if (n <? 1)%nat then 0 else 3;
     status_written_at := fun n k =>
       if (n =? 1)%nat then
         match k with
         | 0%nat => Some GVE_ADMINQ_COMMAND_PASSED
         | 1%nat => Some GVE_ADMINQ_COMMAND_ERROR_INVALID_ARGUMENT
         | 2%nat => Some GVE_ADMINQ_COMMAND_ERROR_RESOURCE_EXHAUSTED
         | _ => None
         end
       else None;
     dma_alloc_ok := fun _ => true;
     kvzalloc_ok := fun _ => true;
     descriptor_at := fun _ => descriptor_empty |}.

(** A ring of [2^k] slots with its mask. *)
Definition ring_wf (a : gve_adminq_priv) : Prop :=
  exists k, 0 <= k /\ adminq_mask a = Z.ones k /\
            length (adminq a) = Z.to_nat (2 ^ k).

(** The commands in the ring are the same: only status words differ. *)
Definition same_commands (a a' : gve_adminq_priv) : Prop :=
  adminq_mask a' = adminq_mask a /\
  adminq_prod_cnt a' = adminq_prod_cnt a /\
  length (adminq a') = length (adminq a) /\
  (forall k, opcode <$> (adminq a' !! k) = opcode <$> (adminq a !! k)) /\
  (forall k, payload <$> (adminq a' !! k) = payload <$> (adminq a !! k)).

(** The slot the next command goes to. *)
Definition next_slot (a : gve_adminq_priv) : nat :=
  Z.to_nat (Z.land (adminq_prod_cnt a) (adminq_mask a)).

(** The ring is full as the driver sees it at its last read of the event
    counter. *)
Definition ring_full (a : gve_adminq_priv) : bool :=
  adminq_full (adminq_prod_cnt a) (adminq_mask a) (reg_event_counter a).

(** *** Worked example: a full ring and a device that fails one command

    Three commands are pending in a ring of four.  The device completes them
    at the third read of the event counter, the second one with an error. *)
Definition pf_one_failure : platform :=
  {| event_counter_at := fun n => if (n <? 2)%nat then 0 else 3;
     status_written_at := fun n k =>
       if (n =? 2)%nat then
         match k with
         | 0%nat => Some GVE_ADMINQ_COMMAND_PASSED
         | 1%nat => Some GVE_ADMINQ_COMMAND_ERROR_INVALID_ARGUMENT
         | 2%nat => Some GVE_ADMINQ_COMMAND_PASSED
         | _ => None
         end
       else None;
     dma_alloc_ok := fun _ => true;
     kvzalloc_ok := fun _ => true;
     descriptor_at := fun _ => descriptor_empty |}.

Definition cmd_create_rx : gve_adminq_command :=
  mk_cmd GVE_ADMINQ_CREATE_RX_QUEUE payload_zero.

(** ** Vocabulary of the option chain *)

Section OptionChain.

Variable C : gve_consts.

(** The computed end of the node at [opt]: the offset of the node after it. *)
Definition option_end (d : gve_device_descriptor) (opt : Z) : Z :=
  opt + sizeof_device_option + option_length_at C d opt.

(** The offset of the [k]-th node of a chain that starts at [start], as the
    declared lengths give it. *)
Fixpoint option_offset (d : gve_device_descriptor) (start : Z) (k : nat) : Z :=
  match k with
  | O => start
  | S k' => option_offset d (option_end d start) k'
  end.

(** The [k]-th node ends past the descriptor's declared total length. *)
Definition overruns (d : gve_device_descriptor) (start : Z) (k : nat) : bool :=
  option_end d (option_offset d start k) >? desc_total_length d.

(** The first of the [n] nodes that overruns, if one does. *)
Definition first_overrun (d : gve_device_descriptor) (start : Z) (n : nat)
  : option nat :=
  List.find (overruns d start) (seq 0 n).

(** The first [n] nodes of the descriptor's chain. *)
Definition chain_nodes (d : gve_device_descriptor) (n : nat) : list Z :=
  option_offset d (sizeof_device_descriptor C) <$> seq 0 n.

(** [gve_parse_device_option] applied to the nodes in turn. *)
Definition parse_nodes (d : gve_device_descriptor) (nodes : list Z)
    (st : parse_state) : parse_state :=
  foldl (fun s opt => gve_parse_device_option C d opt s) st nodes.

(** The options the driver recognizes. *)
Inductive dev_opt_kind : Type :=
  | OPT_GQI_RAW_ADDRESSING | OPT_GQI_RDA | OPT_GQI_QPL | OPT_DQO_RDA
  | OPT_DQO_QPL | OPT_JUMBO_FRAMES | OPT_BUFFER_SIZES | OPT_FLOW_STEERING.

#[global] Instance dev_opt_kind_eq_dec : EqDecision dev_opt_kind.
Proof. solve_decision. Defined.

Definition opt_id (k : dev_opt_kind) : Z :=
  match k with
  | OPT_GQI_RAW_ADDRESSING => GVE_DEV_OPT_ID_GQI_RAW_ADDRESSING C
  | OPT_GQI_RDA => GVE_DEV_OPT_ID_GQI_RDA C
  | OPT_GQI_QPL => GVE_DEV_OPT_ID_GQI_QPL C
  | OPT_DQO_RDA => GVE_DEV_OPT_ID_DQO_RDA C
  | OPT_DQO_QPL => GVE_DEV_OPT_ID_DQO_QPL C
  | OPT_JUMBO_FRAMES => GVE_DEV_OPT_ID_JUMBO_FRAMES C
  | OPT_BUFFER_SIZES => GVE_DEV_OPT_ID_BUFFER_SIZES C
  | OPT_FLOW_STEERING => GVE_DEV_OPT_ID_FLOW_STEERING C
  end.

(** The expected size: the size of the option structure, or the fixed
    length of the legacy raw-addressing option. *)
Definition opt_expected_len (k : dev_opt_kind) : Z :=
  match k with
  | OPT_GQI_RAW_ADDRESSING => GVE_DEV_OPT_LEN_GQI_RAW_ADDRESSING C
  | OPT_GQI_RDA => sizeof_gqi_rda C
  | OPT_GQI_QPL => sizeof_gqi_qpl C
  | OPT_DQO_RDA => sizeof_dqo_rda C
  | OPT_DQO_QPL => sizeof_dqo_qpl C
  | OPT_JUMBO_FRAMES => sizeof_jumbo_frames C
  | OPT_BUFFER_SIZES => sizeof_buffer_sizes C
  | OPT_FLOW_STEERING => sizeof_flow_steering C
  end.

Definition opt_expected_mask (k : dev_opt_kind) : Z :=
  match k with
  | OPT_GQI_RAW_ADDRESSING => GVE_DEV_OPT_REQ_FEAT_MASK_GQI_RAW_ADDRESSING C
  | OPT_GQI_RDA => GVE_DEV_OPT_REQ_FEAT_MASK_GQI_RDA C
  | OPT_GQI_QPL => GVE_DEV_OPT_REQ_FEAT_MASK_GQI_QPL C
  | OPT_DQO_RDA => GVE_DEV_OPT_REQ_FEAT_MASK_DQO_RDA C
  | OPT_DQO_QPL => GVE_DEV_OPT_REQ_FEAT_MASK_DQO_QPL C
  | OPT_JUMBO_FRAMES => GVE_DEV_OPT_REQ_FEAT_MASK_JUMBO_FRAMES C
  | OPT_BUFFER_SIZES => GVE_DEV_OPT_REQ_FEAT_MASK_BUFFER_SIZES C
  | OPT_FLOW_STEERING => GVE_DEV_OPT_REQ_FEAT_MASK_FLOW_STEERING C
  end.

(** The option identifiers are pairwise distinct, as the labels of a
    [switch] are. *)
Definition consts_wf : Prop :=
  NoDup (opt_id <$> [OPT_GQI_RAW_ADDRESSING; OPT_GQI_RDA; OPT_GQI_QPL;
                     OPT_DQO_RDA; OPT_DQO_QPL; OPT_JUMBO_FRAMES;
                     OPT_BUFFER_SIZES; OPT_FLOW_STEERING]).

(** The pointer a recognized option is recorded in; the legacy
    raw-addressing option has none. *)
Definition opt_pointer (k : dev_opt_kind) (ops : dev_ops) : option Z :=
  match k with
  | OPT_GQI_RAW_ADDRESSING => None
  | OPT_GQI_RDA => dev_op_gqi_rda ops
  | OPT_GQI_QPL => dev_op_gqi_qpl ops
  | OPT_DQO_RDA => dev_op_dqo_rda ops
  | OPT_DQO_QPL => dev_op_dqo_qpl ops
  | OPT_JUMBO_FRAMES => dev_op_jumbo_frames ops
  | OPT_BUFFER_SIZES => dev_op_buffer_sizes ops
  | OPT_FLOW_STEERING => dev_op_flow_steering ops
  end.

(** The three header fields of the node at [opt]. *)
Definition node_header (d : gve_device_descriptor) (opt : Z) : Z * Z * Z :=
  (option_id_at C d opt, option_length_at C d opt,
   required_features_mask_at C d opt).

(** The checks of [gve_parse_device_option] on the length and the mask: the
    length test is [>=] for the option structures and [=] for the legacy
    raw-addressing option. *)
Definition header_checks (k : dev_opt_kind) (h : Z * Z * Z) : bool :=
  (match k with
   | OPT_GQI_RAW_ADDRESSING => h.1.2 =? opt_expected_len k
   | _ => h.1.2 >=? opt_expected_len k
   end)
  && (h.2 =? opt_expected_mask k).

(** A header of an option of kind [k] that passes the checks. *)
Definition header_accepted (k : dev_opt_kind) (h : Z * Z * Z) : bool :=
  (h.1.1 =? opt_id k) && header_checks k h.

(** Some header of the list is an accepted option of kind [k]. *)
Definition advertised (hs : list (Z * Z * Z)) (k : dev_opt_kind) : bool :=
  existsb (header_accepted k) hs.

(** The headers of the descriptor's [num_device_options] nodes, in chain
    order. *)
Definition chain_headers (d : gve_device_descriptor) : list (Z * Z * Z) :=
  node_header d <$> chain_nodes d (Z.to_nat (desc_num_device_options d)).

(** The [switch] of [gve_parse_device_option] as a table: the recognized
    option an identifier denotes, in the order of the [case] labels. *)
Definition kind_of_id (id : Z) : option dev_opt_kind :=
  if id =? GVE_DEV_OPT_ID_GQI_RAW_ADDRESSING C then Some OPT_GQI_RAW_ADDRESSING
  else if id =? GVE_DEV_OPT_ID_GQI_RDA C then Some OPT_GQI_RDA
  else if id =? GVE_DEV_OPT_ID_GQI_QPL C then Some OPT_GQI_QPL
  else if id =? GVE_DEV_OPT_ID_DQO_RDA C then Some OPT_DQO_RDA
  else if id =? GVE_DEV_OPT_ID_DQO_QPL C then Some OPT_DQO_QPL
  else if id =? GVE_DEV_OPT_ID_JUMBO_FRAMES C then Some OPT_JUMBO_FRAMES
  else if id =? GVE_DEV_OPT_ID_BUFFER_SIZES C then Some OPT_BUFFER_SIZES
  else if id =? GVE_DEV_OPT_ID_FLOW_STEERING C then Some OPT_FLOW_STEERING
  else None.

(** What accepting the node at [opt] as an option of kind [k] does. *)
Definition accept_effect (d : gve_device_descriptor) (k : dev_opt_kind)
    (opt : Z) (st : parse_state) : parse_state :=
  let body := opt + sizeof_device_option in
  match k with
  | OPT_GQI_RAW_ADDRESSING => (set_queue_format GVE_GQI_RDA_FORMAT st.1, st.2)
  | OPT_GQI_RDA => (st.1, set_dev_op_gqi_rda (Some body) st.2)
  | OPT_GQI_QPL => (st.1, set_dev_op_gqi_qpl (Some body) st.2)
  | OPT_DQO_RDA => (st.1, set_dev_op_dqo_rda (Some body) st.2)
  | OPT_DQO_QPL => (st.1, set_dev_op_dqo_qpl (Some body) st.2)
  | OPT_JUMBO_FRAMES => (st.1, set_dev_op_jumbo_frames (Some body) st.2)
  | OPT_BUFFER_SIZES =>
      (if negb (be16_at C d (body + off_buffer_sizes_header_buffer_size C) =? 0)
       then set_ethtool_defaults
              (Z.lor (ethtool_defaults st.1)
                     (Z.shiftl 1 (GVE_PRIV_FLAGS_ENABLE_HEADER_SPLIT C))) st.1
       else st.1,
       set_dev_op_buffer_sizes (Some body) st.2)
  | OPT_FLOW_STEERING => (st.1, set_dev_op_flow_steering (Some body) st.2)
  end.

(** An option pointer is not NULL. *)
Definition is_set (o : option Z) : bool :=
  match o with Some _ => true | None => false end.

(** The strict priority of the queue formats. *)
Definition format_by_priority (dqo_rda dqo_qpl gqi_rda pinned : bool)
  : gve_queue_format :=
  if dqo_rda then GVE_DQO_RDA_FORMAT
  else if dqo_qpl then GVE_DQO_QPL_FORMAT
  else if gqi_rda then GVE_GQI_RDA_FORMAT
  else if pinned then GVE_GQI_RDA_FORMAT
  else GVE_GQI_QPL_FORMAT.

End OptionChain.

(** *** Worked examples: descriptors *)

Definition cfg_fresh : gve_cfg :=
  {| queue_format := GVE_QUEUE_FORMAT_UNSPECIFIED; ethtool_defaults := 0;
     tx_desc_cnt := 0; rx_desc_cnt := 0;
     options_dqo_rda_tx_comp_ring_entries := 0;
     options_dqo_rda_rx_buff_ring_entries := 0;
     max_registered_pages := 0; max_mtu := 0;
     hw_features_lro := false; hw_features_ntuple := false;
     num_event_counters := 0; dev_addr := []; tx_pages_per_qpl := 0;
     rx_pages_per_qpl := 0; rx_data_slot_cnt := 0; default_num_queues := 0;
     data_buffer_size_dqo := 0; dev_max_rx_buffer_size := 0;
     header_buf_size := 0; flow_rules_max := 0; rx_cfg_num_queues := 4;
     features_ntuple := true |}.

Definition priv_fresh : gve_priv :=
  {| aq := aq_fresh; cfg := cfg_fresh; flow_rules := []; flow_rules_cnt := 0;
     kvzalloc_requests := 0 |}.

Definition be16_bytes (v : Z) : list Z := [v / 256; v mod 256].
Definition be32_bytes (v : Z) : list Z :=
  be16_bytes (v / 65536) ++ be16_bytes (v mod 65536).

(** A node on the wire: header, then payload. *)
Definition tlv (id len req_mask : Z) (body : list Z) : list Z :=
  be16_bytes id ++ be16_bytes len ++ be32_bytes req_mask ++ body.

(** A descriptor with plausible fixed fields and the given option area. *)
Definition descriptor_with (num_options total_length : Z) (area : list Z)
  : gve_device_descriptor :=
  {| desc_max_registered_pages := 65536; desc_tx_queue_entries := 1024;
     desc_rx_queue_entries := 1024; desc_default_num_queues := 4;
     desc_mtu := 1460; desc_counters := 64; desc_tx_pages_per_qpl := 512;
     desc_rx_pages_per_qpl := 1024; desc_mac := [2; 0; 0; 0; 0; 1];
     desc_num_device_options := num_options;
     desc_total_length := total_length; options_area := area |}.

(** The legacy raw-addressing option followed by a DQO-RDA option whose
    eight payload bytes do not fit: the descriptor declares 60 bytes, the
    second node ends at 64. *)
Definition descriptor_overrun : gve_device_descriptor :=
  descriptor_with 2 60
    (tlv 1 0 0 [] ++ tlv 4 8 0 [0; 0; 0; 0; 1; 0; 1; 0]).

(** A device that completes the one command of a describe-device call and
    leaves [d] in the buffer. *)
Definition pf_describe (d : gve_device_descriptor) : platform :=
  {| event_counter_at := fun n => if (n <? 3)%nat then 0 else 1;
     status_written_at := fun n k =>
       if (n =? 3)%nat && (k =? 0)%nat then Some GVE_ADMINQ_COMMAND_PASSED
       else None;
     dma_alloc_ok := fun _ => true;
     kvzalloc_ok := fun _ => true;
     descriptor_at := fun _ => d |}.

(** A DQO-RDA option and a GQI-QPL option, in both orders. *)
Definition tlv_dqo_rda : list Z := tlv 4 8 0 [0; 0; 0; 0; 1; 0; 1; 0].
Definition tlv_gqi_qpl : list Z := tlv 3 4 0 [0; 0; 0; 0].
Definition descriptor_dqo_first : gve_device_descriptor :=
  descriptor_with 2 68 (tlv_dqo_rda ++ tlv_gqi_qpl).
Definition descriptor_gqi_first : gve_device_descriptor :=
  descriptor_with 2 68 (tlv_gqi_qpl ++ tlv_dqo_rda).

(** ** Vocabulary of the buffer sizes *)

Definition is_power_of_two (v : Z) : Prop := exists k, 0 <= k /\ v = 2 ^ k.

(** A value brought into [lo, hi]: raised to [lo] first, then lowered to
    [hi]. *)
Definition clamp (v lo hi : Z) : Z := Z.min (Z.max v lo) hi.

(** A DQO-RDA option that supports buffer sizes, and a buffer-sizes option
    that declares a packet buffer of 8192 bytes and a header buffer of 32
    bytes: both powers of two, both outside the accepted range. *)
Definition tlv_dqo_rda_buffers : list Z := tlv 4 8 0 [0; 0; 0; 16; 1; 0; 1; 0].
Definition tlv_buffer_sizes : list Z := tlv 10 8 0 [0; 0; 0; 0; 32; 0; 0; 32].
Definition descriptor_buffer_sizes : gve_device_descriptor :=
  descriptor_with 2 72 (tlv_dqo_rda_buffers ++ tlv_buffer_sizes).

(** The pointers after that chain has been parsed. *)
Definition ops_buffer_sizes : dev_ops :=
  set_dev_op_buffer_sizes (Some 64) (set_dev_op_dqo_rda (Some 48) dev_ops_null).

(** ** Vocabulary of the flow-rule directory *)

(** Strictly ascending by location. *)
Definition loc_lt (r1 r2 : gve_flow_rule) : Prop := loc r1 < loc r2.
Definition rules_sorted (rules : list gve_flow_rule) : Prop :=
  StronglySorted loc_lt rules.

(** Two rules match the same traffic: same flow type, key and mask. *)
Definition same_match (r1 r2 : gve_flow_rule) : Prop :=
  flow_type r1 = flow_type r2 /\ key r1 = key r2 /\ mask r1 = mask r2.

(** The counter of [priv->flow_rules_cnt] can hold every value a 16-bit
    maximum allows. *)
Definition consts_cnt_wf (C : gve_consts) : Prop :=
  2 ^ 16 <= flow_rules_cnt_modulus C.

(** The state of the directory between calls. *)
Definition flow_inv (C : gve_consts) (p : gve_priv) : Prop :=
  0 <= flow_rules_max (cfg p) < flow_rules_cnt_modulus C /\
  flow_rules_cnt p = Z.of_nat (length (flow_rules p)) /\
  flow_rules_cnt p < flow_rules_cnt_modulus C /\
  rules_sorted (flow_rules p).

(** The request passes the checks [gve_add_flow_rule_info] makes before it
    looks for a duplicate: the rule does not discard, the target queue
    exists, the flow type is one the driver handles. *)
Definition request_valid (p : gve_priv) (fsp : ethtool_rx_flow_spec) : bool :=
  negb (ring_cookie fsp =? RX_CLS_FLOW_DISC)
  && (u32 (ring_cookie fsp) <? u32 (rx_cfg_num_queues (cfg p)))
  && bool_decide
       (is_Some (gve_flow_type_of
                   (Z.land (u32 (fs_flow_type fsp))
                      (2 ^ 32 - 1 - Z.lor FLOW_EXT (Z.lor FLOW_MAC_EXT FLOW_RSS))))).

(** The rule an add request describes. *)
Definition requested_rule (p : gve_priv) (fsp : ethtool_rx_flow_spec)
  : gve_flow_rule :=
  (gve_add_flow_rule_info p fsp flow_rule_zero).2.

(** The location occupied, as the driver compares locations. *)
Definition loc_occupied (p : gve_priv) (l : Z) : Prop :=
  exists r, r ∈ flow_rules p /\ loc r = l.

(** *** Worked examples: flow rules *)

(** A TCP-over-IPv4 rule at location 1 that steers to queue 0. *)
Definition rule_a : gve_flow_rule :=
  {| loc := 1; flow_type := GVE_FLOW_TYPE_TCPV4; action := 0;
     key := {| src_ip := [167772161; 0; 0; 0]; dst_ip := [167772162; 0; 0; 0];
               l4_word := 5243680; tos := 0 |};
     mask := {| src_ip := [4294967295; 0; 0; 0]; dst_ip := [4294967295; 0; 0; 0];
                l4_word := 4294967295; tos := 0 |} |}.

(** A driver instance with flow steering for up to eight rules and [rule_a]
    installed. *)
Definition priv_one_rule : gve_priv :=
  {| aq := aq_fresh; cfg := set_flow_rules_max 8 cfg_fresh;
     flow_rules := [rule_a]; flow_rules_cnt := 1; kvzalloc_requests := 0 |}.

(** A request for the traffic of [rule_a] at location [l] and queue [q]. *)
Definition request_like_rule_a (l q : Z) : ethtool_rxnfc :=
  {| nfc_cmd := ETHTOOL_SRXCLSRLINS; nfc_data := 0;
     fs := {| fs_flow_type := TCP_V4_FLOW;
              h_u := [167772161; 167772162; 5243680];
              m_u := [4294967295; 4294967295; 4294967295];
              ring_cookie := q; location := l |};
     rule_cnt := 0 |}.

(** A delete request for location [l]. *)
Definition request_delete (l : Z) : ethtool_rxnfc :=
  {| nfc_cmd := ETHTOOL_SRXCLSRLDEL; nfc_data := 0;
     fs := {| fs_flow_type := 0; h_u := []; m_u := [];
              ring_cookie := 0; location := l |};
     rule_cnt := 0 |}.
From Stdlib Require Ascii String.
From stdpp Require pretty.
Import Ascii.AsciiSyntax String.StringSyntax.

Delimit Scope char_scope with char.
Delimit Scope string_scope with string.
Bind Scope string_scope with String.string.

Abbreviation string := String.string.


(** ** Vocabulary for further properties of the transport *)

(** Number of reads of the event counter the wait loop makes when it is
    allowed [n] of them and the first is read number [start]: it stops at
    the first read that shows [head]. *)
Fixpoint polls_until (pf : platform) (n start : nat) (head : Z) : nat :=
  match n with
  | O => 0%nat
  | S n' =>
      if u32 (event_counter_at pf start) =? head then 1%nat
      else S (polls_until pf n' (S start) head)
  end.

(** The opcode [gve_adminq_issue_cmd] counts a command under. *)
Definition counted_opcode (cmd : gve_adminq_command) : gve_adminq_opcodes :=
  if decide (opcode cmd = GVE_ADMINQ_EXTENDED_COMMAND)
  then extended_inner_opcode (payload cmd) else opcode cmd.

(** ** Vocabulary for describe-device

    What [gve_adminq_describe_device] has in hand when it turns to the
    descriptor: the bus address of its buffer, the command that names it,
    the admin queue with the buffer allocated, the outcome of executing the
    command on it, and the descriptor the device has written into the
    buffer by then. *)

Definition describe_device_bus (p : gve_priv) : Z :=
  fresh ({[0]} ∪ dom (dma_live (aq p))).

Definition describe_device_cmd (C : gve_consts) (p : gve_priv)
  : gve_adminq_command :=
  mk_cmd GVE_ADMINQ_DESCRIBE_DEVICE
    (payload_describe_device (describe_device_bus p)
       (GVE_ADMINQ_DEVICE_DESCRIPTOR_VERSION C) (u32 (PAGE_SIZE C))).

Definition describe_device_ready (C : gve_consts) (p : gve_priv)
  : gve_adminq_priv :=
  set_dma (<[describe_device_bus p :=
               {| dma_size := PAGE_SIZE C; dma_data := dma_uninit |}]>
             (dma_live (aq p)))
    (set_dma_requested (aq p)).

Definition describe_device_executed (pf : platform) (C : gve_consts)
    (p : gve_priv) : Z * gve_adminq_priv :=
  gve_adminq_execute_cmd pf (describe_device_cmd C p)
    (describe_device_ready C p).

Definition device_descriptor (pf : platform) (C : gve_consts) (p : gve_priv)
  : gve_device_descriptor :=
  descriptor_at pf (io_reads (describe_device_executed pf C p).2).

(** ** Vocabulary for further properties of the option chain *)

(** The node at [opt] carries an identifier of the [switch]. *)
Definition recognized (C : gve_consts) (d : gve_device_descriptor) (opt : Z)
  : bool :=
  match kind_of_id C (option_id_at C d opt) with
  | Some _ => true
  | None => false
  end.

(** The node at [opt] is an accepted option of kind [k]. *)
Definition node_accepted (C : gve_consts) (d : gve_device_descriptor)
    (k : dev_opt_kind) (opt : Z) : bool :=
  header_accepted C k (node_header C d opt).

(** ** Vocabulary for further properties of the flow-rule directory *)

(** What a rule matches: the part [gve_flow_rule_is_dup_rule] compares. *)
Definition match_of (r : gve_flow_rule)
  : gve_adminq_flow_type * gve_flow_spec * gve_flow_spec :=
  (flow_type r, key r, mask r).

(** The rule [gve_find_flow_rule_by_loc] returns for a location. *)
Definition rule_at_loc (rules : list gve_flow_rule) (l : Z)
  : option gve_flow_rule :=
  match gve_find_flow_rule_by_loc rules l with
  | Some i => rules !! i
  | None => None
  end.

(** The ethtool flow type of a request with the extension flags cleared, as
    [gve_add_flow_rule_info] computes it. *)
Definition request_flow_type (fsp : ethtool_rx_flow_spec) : Z :=
  Z.land (u32 (fs_flow_type fsp))
         (2 ^ 32 - 1 - Z.lor FLOW_EXT (Z.lor FLOW_MAC_EXT FLOW_RSS)).

(** The flow type is one of the IPv4 ones. *)
Definition flow_type_is_v4 (ft : gve_adminq_flow_type) : bool :=
  match ft with
  | GVE_FLOW_TYPE_TCPV4 | GVE_FLOW_TYPE_UDPV4 | GVE_FLOW_TYPE_SCTPV4
  | GVE_FLOW_TYPE_AHV4 | GVE_FLOW_TYPE_ESPV4 => true
  | _ => false
  end.

(** The calls that go through the flow-rule entry points or the transport,
    that is, every call but describe-device. *)
Definition keeps_limits (c : driver_call) : bool :=
  match c with
  | call_describe_device => false
  | _ => true
  end.

(** *** Worked examples for the further properties *)

(** A device that completes the first command it is given. *)
Definition pf_completes : platform := pf_describe descriptor_empty.

(** A driver instance with flow steering for up to eight rules and none
    installed. *)
Definition priv_no_rule : gve_priv :=
  set_flow_rules [] (set_flow_rules_cnt 0 priv_one_rule).

(** An RSS configuration with a key of two bytes and a table of two
    entries. *)
Definition rss_small : gve_rss_config :=
  {| alg := 1; key_size := 2; rss_key := [1; 2];
     indir_size := 2; indir := [0; 1] |}.

(** ** Queue commands ([gve_adminq.c], lines 591-782)

    The create and destroy functions fill a view of the command union from
    [priv] and from the ring structures of [gve.h].  [gve_adminq_payload]
    has no constructor for these four views, so they are parameters of the
    section, one view per queue index; the opcode, the way the command is
    issued and the batching are the source's. *)

Section Queues.

Variable pf : platform.
Variable create_tx_queue_view create_rx_queue_view : Z -> gve_adminq_payload.
Variable destroy_tx_queue_view destroy_rx_queue_view : Z -> gve_adminq_payload.

Definition gve_adminq_create_tx_queue (queue_index : Z) : M Z :=
  gve_adminq_issue_cmd pf
    (mk_cmd GVE_ADMINQ_CREATE_TX_QUEUE (create_tx_queue_view queue_index)).

Definition gve_adminq_create_rx_queue (queue_index : Z) : M Z :=
  gve_adminq_issue_cmd pf
    (mk_cmd GVE_ADMINQ_CREATE_RX_QUEUE (create_rx_queue_view queue_index)).

Definition gve_adminq_destroy_tx_queue (queue_index : Z) : M Z :=
  do err <- gve_adminq_issue_cmd pf
              (mk_cmd GVE_ADMINQ_DESTROY_TX_QUEUE
                 (destroy_tx_queue_view queue_index));
  if negb (err =? 0) then ret err else ret 0.

Definition gve_adminq_destroy_rx_queue (queue_index : Z) : M Z :=
  do err <- gve_adminq_issue_cmd pf
              (mk_cmd GVE_ADMINQ_DESTROY_RX_QUEUE
                 (destroy_rx_queue_view queue_index));
  if negb (err =? 0) then ret err else ret 0.

(** The [for] loop of the four batch functions over the indices it visits:
    it returns at the first queue whose command could not be issued, and
    zero when it has run to its end. *)
Fixpoint queues_loop (one : Z -> M Z) (ids : list Z) : M Z :=
  match ids with
  | [] => ret 0
  | i :: rest =>
      do err <- one i;
      if negb (err =? 0) then ret err else queues_loop one rest
  end.

(** [i] is compared with [start_id + num_queues] as a [u32], so the loop
    visits [start_id, ..., (u32)(start_id + num_queues) - 1], and nothing
    when the sum has wrapped below [start_id]. *)
Definition gve_adminq_create_tx_queues (start_id num_queues : Z) : M Z :=
  do err <- queues_loop gve_adminq_create_tx_queue
              (seqZ start_id (u32 (start_id + num_queues) - start_id));
  if negb (err =? 0) then ret err else gve_adminq_kick_and_wait pf.

Definition gve_adminq_create_rx_queues (num_queues : Z) : M Z :=
  do err <- queues_loop gve_adminq_create_rx_queue (seqZ 0 num_queues);
  if negb (err =? 0) then ret err else gve_adminq_kick_and_wait pf.

Definition gve_adminq_destroy_tx_queues (start_id num_queues : Z) : M Z :=
  do err <- queues_loop gve_adminq_destroy_tx_queue
              (seqZ start_id (u32 (start_id + num_queues) - start_id));
  if negb (err =? 0) then ret err else gve_adminq_kick_and_wait pf.

Definition gve_adminq_destroy_rx_queues (num_queues : Z) : M Z :=
  do err <- queues_loop gve_adminq_destroy_rx_queue (seqZ 0 num_queues);
  if negb (err =? 0) then ret err else gve_adminq_kick_and_wait pf.

End Queues.

(** The slot the [j]-th command issued from the ring [a] on goes to: the
    producer counter, advanced [j] times as a [u32], under the mask. *)
Definition batch_slot (a : gve_adminq_priv) (j : Z) : nat :=
  Z.to_nat (Z.land (u32 (adminq_prod_cnt a + j)) (adminq_mask a)).

(** The slot [s] of the ring [b] holds the command of opcode [op] for the
    queue [i]. *)
Definition holds_queue_cmd (op : gve_adminq_opcodes)
    (view : Z -> gve_adminq_payload) (b : gve_adminq_priv) (s : nat) (i : Z)
  : Prop :=
  opcode <$> adminq b !! s = Some op /\
  payload <$> adminq b !! s = Some (view i).

(** The ring [b] holds the commands of the queues [start_id, ...,
    start_id + k - 1], issued in this order from the ring [a] on: the
    command of queue [start_id + j] lies in the slot of the [j]-th issue,
    unless a later command of the run has come round to that slot, and
    the slots no command of the run went to hold what they held in [a]. *)
Definition batch_in_ring (op : gve_adminq_opcodes)
    (view : Z -> gve_adminq_payload) (start_id k : Z)
    (a b : gve_adminq_priv) : Prop :=
  (forall j, 0 <= j < k ->
     (forall j', j < j' < k -> batch_slot a j' <> batch_slot a j) ->
     holds_queue_cmd op view b (batch_slot a j) (start_id + j)) /\
  (forall s, (forall j, 0 <= j < k -> batch_slot a j <> s) ->
     opcode <$> adminq b !! s = opcode <$> adminq a !! s /\
     payload <$> adminq b !! s = payload <$> adminq a !! s).

(** What a batch of [n] commands of opcode [op], for the queues from
    [start_id] on, has done to the ring [a] when it returns [res]: it has
    issued the commands of the first [k] queues, in order, all [n] of them
    when it returns zero, and then has flushed them.  A batch that is not
    longer than the ring leaves every command it issued in the ring. *)
Definition batch_outcome (op : gve_adminq_opcodes)
    (view : Z -> gve_adminq_payload) (start_id n : Z)
    (a : gve_adminq_priv) (res : Z * gve_adminq_priv) : Prop :=
  (exists k, 0 <= k <= n /\
     adminq_prod_cnt res.2 = u32 (adminq_prod_cnt a + k) /\
     adminq_opcode_cnt res.2 op = u32 (adminq_opcode_cnt a op + k) /\
     (res.1 = 0 -> k = n) /\
     batch_in_ring op view start_id k a res.2 /\
     (n <= adminq_mask a + 1 ->
      forall j, 0 <= j < k ->
        holds_queue_cmd op view res.2 (batch_slot a j) (start_id + j))) /\
  (forall o, o <> op -> adminq_opcode_cnt res.2 o = adminq_opcode_cnt a o) /\
  (res.1 = 0 ->
   drained res.2 /\ head (reg_doorbell res.2) = Some (adminq_prod_cnt res.2)).

(** The counters of the ring are [u32] members. *)
Definition counters_u32 (a : gve_adminq_priv) : Prop :=
  0 <= adminq_prod_cnt a < 2 ^ 32 /\
  forall o, 0 <= adminq_opcode_cnt a o < 2 ^ 32.

(** ** The ethtool entry points outside flow steering

    [gve_ethtool.c] reads constants of [gve.h] and [gve_adminq.h] that the
    functions above do not need; they are taken from a
    [gve_ethtool_consts], and the theorems hold for every choice. *)
Record gve_ethtool_consts : Type := {
  (** Bit numbers of the private flags and the mask of the known ones. *)
  GVE_PRIV_FLAGS_ENABLE_STRICT_HEADER_SPLIT : Z;
  GVE_PRIV_FLAGS_ENABLE_MAX_RX_BUFFER_SIZE : Z;
  GVE_PRIV_FLAGS_MASK : Z;
  GVE_RING_LENGTH_LIMIT_MIN : Z;
  GVE_RING_LENGTH_LIMIT_MAX : Z;
  GVE_TX_PAGE_COUNT : Z;
  (** [enum gve_rss_hash_alg]. *)
  GVE_RSS_HASH_UNDEFINED : Z;
  GVE_RSS_HASH_TOEPLITZ : Z;
}.

(** One choice of these constants, used for the worked examples only. *)
Definition gve_ethtool_consts_default : gve_ethtool_consts := {|
  GVE_PRIV_FLAGS_ENABLE_STRICT_HEADER_SPLIT := 2;
  GVE_PRIV_FLAGS_ENABLE_MAX_RX_BUFFER_SIZE := 3;
  GVE_PRIV_FLAGS_MASK := 15;
  GVE_RING_LENGTH_LIMIT_MIN := 64;
  GVE_RING_LENGTH_LIMIT_MAX := 2048;
  GVE_TX_PAGE_COUNT := 64;
  GVE_RSS_HASH_UNDEFINED := 0;
  GVE_RSS_HASH_TOEPLITZ := 1;
|}.

(** The driver instance with the members of [struct gve_priv] that these
    entry points use and the instance above does not hold. *)
Record gve_ethtool_priv : Type := {
  base : gve_priv;
  max_tx_desc_cnt : Z;
  max_rx_desc_cnt : Z;
  ethtool_flags : Z;
  header_split_strict : bool;
  priv_rss_config : gve_rss_config;
}.

Definition set_base v (p : gve_ethtool_priv) : gve_ethtool_priv :=
  {| base := v; max_tx_desc_cnt := max_tx_desc_cnt p;
     max_rx_desc_cnt := max_rx_desc_cnt p; ethtool_flags := ethtool_flags p;
     header_split_strict := header_split_strict p;
     priv_rss_config := priv_rss_config p |}.

Definition set_ethtool_flags v (p : gve_ethtool_priv) : gve_ethtool_priv :=
  {| base := base p; max_tx_desc_cnt := max_tx_desc_cnt p;
     max_rx_desc_cnt := max_rx_desc_cnt p; ethtool_flags := v;
     header_split_strict := header_split_strict p;
     priv_rss_config := priv_rss_config p |}.

Definition set_header_split_strict v (p : gve_ethtool_priv)
  : gve_ethtool_priv :=
  {| base := base p; max_tx_desc_cnt := max_tx_desc_cnt p;
     max_rx_desc_cnt := max_rx_desc_cnt p; ethtool_flags := ethtool_flags p;
     header_split_strict := v;
     priv_rss_config := priv_rss_config p |}.

Definition set_priv_rss_config v (p : gve_ethtool_priv) : gve_ethtool_priv :=
  {| base := base p; max_tx_desc_cnt := max_tx_desc_cnt p;
     max_rx_desc_cnt := max_rx_desc_cnt p; ethtool_flags := ethtool_flags p;
     header_split_strict := header_split_strict p;
     priv_rss_config := v |}.

(** Computations over this instance, and a function of the driver instance
    called on it. *)
Abbreviation E := (ST gve_ethtool_priv).

Definition lift_base {A} (m : P A) : E A := fun p =>
  let '(x, b') := m (base p) in (x, set_base b' p).

(** Conversion to [int], and arithmetic in a 64-bit unsigned type. *)
Definition s32 (x : Z) : Z := (x + 2 ^ 31) mod 2 ^ 32 - 2 ^ 31.
Definition u64 (x : Z) : Z := x mod 2 ^ 64.

(** [BIT(n)]. *)
Definition BIT (n : Z) : Z := Z.shiftl 1 n.

(** *** Statistics names and their number ([gve_ethtool.c], lines 37-155) *)

(** [ETH_GSTRING_LEN] and the string sets of [linux/ethtool.h]. *)
Definition ETH_GSTRING_LEN : Z := 32.
Definition ETH_SS_STATS : Z := 1.
Definition ETH_SS_PRIV_FLAGS : Z := 2.

Definition gve_gstrings_main_stats : list string := [
  "rx_packets"; "rx_packets_sph"; "rx_packets_hbo"; "tx_packets";
  "rx_bytes"; "tx_bytes"; "rx_dropped"; "tx_dropped"; "tx_timeouts";
  "rx_skb_alloc_fail"; "rx_buf_alloc_fail"; "rx_desc_err_dropped_pkt";
  "rx_hsplit_err_dropped_pkt";
  "interface_up_cnt"; "interface_down_cnt"; "reset_cnt";
  "page_alloc_fail"; "dma_mapping_error"; "stats_report_trigger_cnt"
]%string.

Definition gve_gstrings_rx_stats : list string := [
  "rx_posted_desc[%u]"; "rx_completed_desc[%u]"; "rx_consumed_desc[%u]";
  "rx_bytes[%u]"; "rx_header_bytes[%u]";
  "rx_cont_packet_cnt[%u]"; "rx_frag_flip_cnt[%u]"; "rx_frag_copy_cnt[%u]";
  "rx_frag_alloc_cnt[%u]";
  "rx_dropped_pkt[%u]"; "rx_copybreak_pkt[%u]"; "rx_copied_pkt[%u]";
  "rx_queue_drop_cnt[%u]"; "rx_no_buffers_posted[%u]";
  "rx_drops_packet_over_mru[%u]"; "rx_drops_invalid_checksum[%u]";
  "rx_xdp_aborted[%u]"; "rx_xdp_drop[%u]"; "rx_xdp_pass[%u]";
  "rx_xdp_tx[%u]"; "rx_xdp_redirect[%u]";
  "rx_xdp_tx_errors[%u]"; "rx_xdp_redirect_errors[%u]";
  "rx_xdp_alloc_fails[%u]"
]%string.

Definition gve_gstrings_tx_stats : list string := [
  "tx_posted_desc[%u]"; "tx_completed_desc[%u]"; "tx_consumed_desc[%u]";
  "tx_bytes[%u]";
  "tx_wake[%u]"; "tx_stop[%u]"; "tx_event_counter[%u]";
  "tx_dma_mapping_error[%u]"; "tx_xsk_wakeup[%u]";
  "tx_xsk_done[%u]"; "tx_xsk_sent[%u]"; "tx_xdp_xmit[%u]";
  "tx_xdp_xmit_errors[%u]"
]%string.

Definition gve_gstrings_adminq_stats : list string := [
  "adminq_prod_cnt"; "adminq_cmd_fail"; "adminq_timeouts";
  "adminq_describe_device_cnt"; "adminq_cfg_device_resources_cnt";
  "adminq_register_page_list_cnt"; "adminq_unregister_page_list_cnt";
  "adminq_create_tx_queue_cnt"; "adminq_create_rx_queue_cnt";
  "adminq_destroy_tx_queue_cnt"; "adminq_destroy_rx_queue_cnt";
  "adminq_dcfg_device_resources_cnt"; "adminq_set_driver_parameter_cnt";
  "adminq_report_stats_cnt"; "adminq_report_link_speed_cnt";
  "adminq_cfg_flow_rule"; "adminq_cfg_rss_cnt"
]%string.

Definition gve_gstrings_priv_flags : list string := [
  "report-stats"; "enable-header-split"; "enable-strict-header-split";
  "enable-max-rx-buffer-size"
]%string.

(** [ARRAY_SIZE] of the tables. *)
Definition GVE_MAIN_STATS_LEN : Z := Z.of_nat (length gve_gstrings_main_stats).
Definition GVE_ADMINQ_STATS_LEN : Z :=
  Z.of_nat (length gve_gstrings_adminq_stats).
Definition NUM_GVE_TX_CNTS : Z := Z.of_nat (length gve_gstrings_tx_stats).
Definition NUM_GVE_RX_CNTS : Z := Z.of_nat (length gve_gstrings_rx_stats).
Definition GVE_PRIV_FLAGS_STR_LEN : Z :=
  Z.of_nat (length gve_gstrings_priv_flags).

(** The expansion of a format whose only conversion is [%u]. *)
Fixpoint format_u (fmt : string) (i : Z) : string :=
  match fmt with
  | String.EmptyString => String.EmptyString
  | String.String "%"%char (String.String "u"%char rest) =>
      String.append (pretty.pretty (Z.to_N i)) (format_u rest i)
  | String.String c rest => String.String c (format_u rest i)
  end.

(** [snprintf(s, size, fmt, i)] with an [int] argument for [%u]: at most
    [size - 1] characters are stored before the terminator. *)
Definition snprintf_u (size : Z) (fmt : string) (i : Z) : string :=
  String.substring 0 (Z.to_nat (size - 1)) (format_u fmt (u32 i)).

(** [data] is an array of slots of [ETH_GSTRING_LEN] bytes, one name per
    slot; [s] walks it from its start, so the names written replace a
    prefix of the array.  [num_tx_queues] is the value of
    [gve_num_tx_queues(priv)], a helper of [gve.h]. *)
Definition gve_get_strings (priv : gve_priv) (num_tx_queues : Z)
    (stringset : Z) (data : list string) : list string :=
  if stringset =? ETH_SS_STATS then
    let names :=
      gve_gstrings_main_stats
      ++ flat_map (fun i =>
           (fun fmt => snprintf_u ETH_GSTRING_LEN fmt i)
             <$> gve_gstrings_rx_stats)
           (seqZ 0 (rx_cfg_num_queues (cfg priv)))
      ++ flat_map (fun i =>
           (fun fmt => snprintf_u ETH_GSTRING_LEN fmt i)
             <$> gve_gstrings_tx_stats)
           (seqZ 0 num_tx_queues)
      ++ gve_gstrings_adminq_stats in
    names ++ drop (length names) data
  else if stringset =? ETH_SS_PRIV_FLAGS then
    gve_gstrings_priv_flags ++ drop (length gve_gstrings_priv_flags) data
  else data.

(** The sum is formed in [size_t] and returned as an [int]. *)
Definition gve_get_sset_count (priv : gve_priv) (num_tx_queues : Z)
    (sset : Z) : Z :=
  if sset =? ETH_SS_STATS then
    s32 (u64 (GVE_MAIN_STATS_LEN + GVE_ADMINQ_STATS_LEN
              + rx_cfg_num_queues (cfg priv) * NUM_GVE_RX_CNTS
              + num_tx_queues * NUM_GVE_TX_CNTS))
  else if sset =? ETH_SS_PRIV_FLAGS then s32 (u64 GVE_PRIV_FLAGS_STR_LEN)
  else - EOPNOTSUPP.

(** *** Ring sizes ([gve_ethtool.c], lines 506-572) *)

Section RingParam.

Variable EC : gve_ethtool_consts.
(** [gve_num_rx_qpls] and [gve_num_tx_qpls] of [gve.h], and
    [gve_adjust_ring_sizes] of [gve_main.c]. *)
Variable gve_num_rx_qpls gve_num_tx_qpls : gve_ethtool_priv -> Z.
Variable gve_adjust_ring_sizes : Z -> Z -> E Z.

(** The requested sizes are [u32] members read into [int] variables; the
    page count is an [int] compared with the 64-bit
    [priv->max_registered_pages]. *)
Definition gve_set_ringparam (tx_pending rx_pending : Z) : E Z := fun priv =>
  let old_rx_desc_cnt := rx_desc_cnt (cfg (base priv)) in
  let old_tx_desc_cnt := tx_desc_cnt (cfg (base priv)) in
  let new_tx_desc_cnt := s32 tx_pending in
  let new_rx_desc_cnt := s32 rx_pending in
  let new_max_registered_pages :=
    s32 (new_rx_desc_cnt * gve_num_rx_qpls priv
         + GVE_TX_PAGE_COUNT EC * gve_num_tx_qpls priv) in
  if (new_tx_desc_cnt <? GVE_RING_LENGTH_LIMIT_MIN EC)
     || (new_rx_desc_cnt <? GVE_RING_LENGTH_LIMIT_MIN EC) then
    (- EINVAL, priv)
  else if (new_tx_desc_cnt >? GVE_RING_LENGTH_LIMIT_MAX EC)
          || (new_rx_desc_cnt >? GVE_RING_LENGTH_LIMIT_MAX EC) then
    (- EINVAL, priv)
  else if negb (Z.land new_tx_desc_cnt (new_tx_desc_cnt - 1) =? 0)
          || negb (Z.land new_rx_desc_cnt (new_rx_desc_cnt - 1) =? 0) then
    (- EINVAL, priv)
  else if new_tx_desc_cnt >? max_tx_desc_cnt priv then (- EINVAL, priv)
  else if new_rx_desc_cnt >? max_rx_desc_cnt priv then (- EINVAL, priv)
  else if u64 new_max_registered_pages
          >? max_registered_pages (cfg (base priv)) then
    (- EINVAL, priv)
  else if (new_tx_desc_cnt =? old_tx_desc_cnt)
          && (new_rx_desc_cnt =? old_rx_desc_cnt) then
    (* Nothing to change return success *)
    (0, priv)
  else gve_adjust_ring_sizes new_tx_desc_cnt new_rx_desc_cnt priv.

End RingParam.

(** *** Private flags ([gve_ethtool.c], lines 624-715) *)

Section PrivFlags.

Variable C : gve_consts.
Variable EC : gve_ethtool_consts.
(** [gve_get_enable_header_split] of [gve.h] and
    [gve_reconfigure_rx_rings] of [gve_main.c]. *)
Variable gve_get_enable_header_split : gve_ethtool_priv -> bool.
Variable gve_reconfigure_rx_rings : bool -> Z -> E Z.

Definition gve_get_priv_flags (priv : gve_ethtool_priv) : Z :=
  u32 (Z.land (ethtool_flags priv) (GVE_PRIV_FLAGS_MASK EC)).

(** [flags] is a [u32].  The statistics-report timer and the report buffer,
    which the last part of the function starts, stops and clears, are not
    part of the state. *)
Definition gve_set_priv_flags (flags : Z) : E Z := fun priv =>
  let hs := BIT (GVE_PRIV_FLAGS_ENABLE_HEADER_SPLIT C) in
  let strict := BIT (GVE_PRIV_FLAGS_ENABLE_STRICT_HEADER_SPLIT EC) in
  let maxbuf := BIT (GVE_PRIV_FLAGS_ENABLE_MAX_RX_BUFFER_SIZE EC) in
  (* If turning off header split, strict header split will be turned off too *)
  let flags :=
    if gve_get_enable_header_split priv && (Z.land flags hs =? 0)
    then Z.ldiff (Z.ldiff flags hs) strict
    else flags in
  (* If strict header-split is requested, turn on regular header-split *)
  let flags :=
    if negb (Z.land flags strict =? 0) then u32 (Z.lor flags hs)
    else flags in
  (* Make sure header-split is available *)
  if negb (Z.land flags hs =? 0)
     && (Z.land (ethtool_defaults (cfg (base priv))) hs =? 0) then
    (- EINVAL, priv)
  else if negb (Z.land flags maxbuf =? 0)
          && (dev_max_rx_buffer_size (cfg (base priv))
              <=? GVE_MIN_RX_BUFFER_SIZE C) then
    (- EINVAL, priv)
  else
    let ori_flags := ethtool_flags priv in
    let new_flags := Z.land flags (GVE_PRIV_FLAGS_MASK EC) in
    let flag_diff := Z.lxor new_flags ori_flags in
    let '(err, priv1) :=
      if negb (Z.land flag_diff hs =? 0)
         || negb (Z.land flag_diff maxbuf =? 0) then
        let enable_hdr_split := negb (Z.land new_flags hs =? 0) in
        let enable_max_buffer_size := negb (Z.land new_flags maxbuf =? 0) in
        let new_packet_buffer_size :=
          if enable_max_buffer_size
          then dev_max_rx_buffer_size (cfg (base priv))
          else GVE_RX_BUFFER_SIZE_DQO C in
        gve_reconfigure_rx_rings enable_hdr_split new_packet_buffer_size priv
      else (0, priv) in
    if negb (err =? 0) then (err, priv1)
    else
      let priv2 := set_ethtool_flags new_flags priv1 in
      (0, set_header_split_strict
            (negb (Z.land (ethtool_flags priv2) strict =? 0)) priv2).

(** The request after the two adjustments at the head of
    [gve_set_priv_flags]. *)
Definition adjusted_flags (flags : Z) (priv : gve_ethtool_priv) : Z :=
  let hs := BIT (GVE_PRIV_FLAGS_ENABLE_HEADER_SPLIT C) in
  let strict := BIT (GVE_PRIV_FLAGS_ENABLE_STRICT_HEADER_SPLIT EC) in
  let flags :=
    if gve_get_enable_header_split priv && (Z.land flags hs =? 0)
    then Z.ldiff (Z.ldiff flags hs) strict
    else flags in
  if negb (Z.land flags strict =? 0) then u32 (Z.lor flags hs) else flags.

End PrivFlags.

(** *** RSS hash settings ([gve_ethtool.c], lines 797-865) *)

(** [ETH_RSS_HASH_NO_CHANGE] and [ETH_RSS_HASH_TOP] of [linux/ethtool.h]. *)
Definition ETH_RSS_HASH_NO_CHANGE : Z := 0.
Definition ETH_RSS_HASH_TOP : Z := 1.

Definition set_alg v (r : gve_rss_config) : gve_rss_config :=
  {| alg := v; key_size := key_size r; rss_key := rss_key r;
     indir_size := indir_size r; indir := indir r |}.

Definition set_rss_key v (r : gve_rss_config) : gve_rss_config :=
  {| alg := alg r; key_size := key_size r; rss_key := v;
     indir_size := indir_size r; indir := indir r |}.

Definition set_indir v (r : gve_rss_config) : gve_rss_config :=
  {| alg := alg r; key_size := key_size r; rss_key := rss_key r;
     indir_size := indir_size r; indir := v |}.

(** A copy of the first [n] entries of [src] over the first [n] entries of
    [dst], as [memcpy] and the two copy loops make it.  Both arrays hold at
    least [n] entries in the callers' contract; a read past the end of
    [src] is modelled as zero and a write past the end of [dst] as
    extending it. *)
Definition copy_entries (dst src : list Z) (n : Z) : list Z :=
  array_prefix n src ++ drop (Z.to_nat n) dst.

Section Rxfh.

Variable pf : platform.
Variable C : gve_consts.
Variable EC : gve_ethtool_consts.
(** [gve_rss_config_init] of [gve_main.c]. *)
Variable gve_rss_config_init : E Z.

(** [indir], [key] and [hfunc] may be NULL ([None]).  The result carries
    the three buffers as the call leaves them. *)
Definition gve_get_rxfh (indir_p key_p : option (list Z)) (hfunc_p : option Z)
    (priv : gve_ethtool_priv)
  : Z * (option (list Z) * option (list Z) * option Z) :=
  let rss_config := priv_rss_config priv in
  let hfunc_r :=
    match hfunc_p with
    | Some _ =>
        if alg rss_config =? GVE_RSS_HASH_TOEPLITZ EC
        then inr (Some ETH_RSS_HASH_TOP)
        else (* GVE_RSS_HASH_UNDEFINED, default *) inl tt
    | None => inr None
    end in
  match hfunc_r with
  | inl _ => (- EOPNOTSUPP, (indir_p, key_p, hfunc_p))
  | inr hfunc' =>
      let key' :=
        (fun k => copy_entries k (rss_key rss_config) (key_size rss_config))
          <$> key_p in
      let indir' :=
        (fun t => copy_entries t (u32 <$> indir rss_config)
                    (indir_size rss_config)) <$> indir_p in
      (0, (indir', key', hfunc'))
  end.

Definition gve_set_rxfh (indir_p key_p : option (list Z)) (hfunc : Z) : E Z :=
  do alg0 <- gets (fun priv => alg (priv_rss_config priv));
  (* Initialize RSS if not configured before *)
  do r <- (if alg0 =? GVE_RSS_HASH_UNDEFINED EC then
             do err <- gve_rss_config_init;
             ret (if negb (err =? 0) then inl err else inr true)
           else ret (inr false));
  match r with
  | inl err => ret err
  | inr init =>
      if negb ((hfunc =? ETH_RSS_HASH_NO_CHANGE) || (hfunc =? ETH_RSS_HASH_TOP))
      then ret (- EOPNOTSUPP)
      else
        exec (if hfunc =? ETH_RSS_HASH_NO_CHANGE then ret tt
              else modify (fun priv =>
                     set_priv_rss_config
                       (set_alg (GVE_RSS_HASH_TOEPLITZ EC)
                          (priv_rss_config priv)) priv));
        if negb (bool_decide (is_Some key_p))
           && negb (bool_decide (is_Some indir_p)) && negb init
        then ret 0
        else
          exec (match key_p with
                | Some k =>
                    modify (fun priv =>
                      let c := priv_rss_config priv in
                      set_priv_rss_config
                        (set_rss_key (copy_entries (rss_key c) k (key_size c)) c)
                        priv)
                | None => ret tt
                end);
          exec (match indir_p with
                | Some t =>
                    modify (fun priv =>
                      let c := priv_rss_config priv in
                      set_priv_rss_config
                        (set_indir (copy_entries (indir c) t (indir_size c)) c)
                        priv)
                | None => ret tt
                end);
          do rss_config <- gets priv_rss_config;
          lift_base (lift_aq (gve_adminq_configure_rss pf C rss_config))
  end.

End Rxfh.

(** *** Worked examples for the ethtool entry points *)

(** A driver instance on the DQO format with header split made available
    by the device, rings of 512 entries that may grow to 1024, and RSS
    configured with a key of two bytes and a table of two entries. *)
Definition epriv_example : gve_ethtool_priv :=
  {| base := set_cfg
               (set_ethtool_defaults 2
                  (set_dev_max_rx_buffer_size 4096
                     (set_max_registered_pages 65536
                        (set_rx_desc_cnt 512
                           (set_tx_desc_cnt 512 (cfg priv_fresh))))))
               priv_fresh;
     max_tx_desc_cnt := 1024; max_rx_desc_cnt := 1024;
     ethtool_flags := 0; header_split_strict := false;
     priv_rss_config := rss_small |}.

(** A device that completes the first two commands it is given, each at
    the first poll of its flush. *)
Definition pf_two_commands : platform :=
  {| event_counter_at := fun n =>
       if (n <? 3)%nat then 0 else if (n <? 7)%nat then 1 else 2;
     status_written_at := fun n k =>
       if ((n =? 3)%nat && (k =? 0)%nat) || ((n =? 7)%nat && (k =? 1)%nat)
       then Some GVE_ADMINQ_COMMAND_PASSED
       else None;
     dma_alloc_ok := fun _ => true;
     kvzalloc_ok := fun _ => true;
     descriptor_at := fun _ => descriptor_empty |}.

(** *** Worked examples for the option chain *)

(** An option with an identifier the driver does not know, followed by a
    DQO-RDA option. *)
Definition descriptor_unknown_first : gve_device_descriptor :=
  descriptor_with 2 64 (tlv 99 0 0 [] ++ tlv_dqo_rda).

(** A DQO-RDA option twice, the second with other ring sizes. *)
Definition tlv_dqo_rda_again : list Z := tlv 4 8 0 [0; 0; 0; 0; 2; 0; 2; 0].
Definition descriptor_dqo_twice : gve_device_descriptor :=
  descriptor_with 2 72 (tlv_dqo_rda ++ tlv_dqo_rda_again).

(** *** Worked examples for the flow-rule directory *)

(** The traffic of [rule_a] over UDP, at location 2. *)
Definition rule_b : gve_flow_rule :=
  {| loc := 2; flow_type := GVE_FLOW_TYPE_UDPV4; action := 0;
     key := key rule_a; mask := mask rule_a |}.

(** A driver instance with flow steering for up to eight rules and two of
    them installed. *)
Definition priv_two_rules : gve_priv :=
  {| aq := aq_fresh; cfg := set_flow_rules_max 8 cfg_fresh;
     flow_rules := [rule_a; rule_b]; flow_rules_cnt := 2;
     kvzalloc_requests := 0 |}.

(** A driver instance with flow steering for up to two rules and [rule_a]
    installed. *)
Definition priv_room_for_one : gve_priv :=
  {| aq := aq_fresh; cfg := set_flow_rules_max 2 cfg_fresh;
     flow_rules := [rule_a]; flow_rules_cnt := 1; kvzalloc_requests := 0 |}.

(** A request for the traffic of [rule_a] over SCTP at location [l] and
    queue [q]. *)
Definition request_sctp (l q : Z) : ethtool_rxnfc :=
  {| nfc_cmd := ETHTOOL_SRXCLSRLINS; nfc_data := 0;
     fs := {| fs_flow_type := SCTP_V4_FLOW;
              h_u := [167772161; 167772162; 5243680];
              m_u := [4294967295; 4294967295; 4294967295];
              ring_cookie := q; location := l |};
     rule_cnt := 0 |}.

(** An enumeration request with room for [n] locations. *)
Definition request_enumerate (n : Z) : ethtool_rxnfc :=
  {| nfc_cmd := ETHTOOL_GRXCLSRLALL; nfc_data := 0;
     fs := fs (request_delete 0); rule_cnt := n |}.

(** *** Worked example for the queue batches *)

(** A device that completes two commands at the first poll of the flush
    that follows two issues. *)
Definition pf_batch_of_two : platform :=
  {| event_counter_at := fun n => if (n <? 3)%nat then 0 else 2;
     status_written_at := fun n k =>
       if (n =? 3)%nat && (k <? 2)%nat then Some GVE_ADMINQ_COMMAND_PASSED
       else None;
     dma_alloc_ok := fun _ => true;
     kvzalloc_ok := fun _ => true;
     descriptor_at := fun _ => descriptor_empty |}.

(** A view of the command union that holds the queue index in its first
    word, as the views of the four queue commands do. *)
Definition queue_view_example (queue_index : Z) : gve_adminq_payload :=
  payload_describe_device queue_index 0 0.

(** * Properties *)

(** ** The transport engine *)

Section TransportFacts.

Variable pf : platform.

Lemma same_bookkeeping_refl a : same_bookkeeping a a.
Proof. repeat split; reflexivity. Qed.

Lemma same_bookkeeping_trans a b c :
  same_bookkeeping a b -> same_bookkeeping b c -> same_bookkeeping a c.
Proof.
  unfold same_bookkeeping.
  intros (?&?&?&?&?&?&?&?&?&Ho&Hp) (?&?&?&?&?&?&?&?&?&Ho'&Hp').
  repeat split; congruence.
Qed.

Lemma device_writeback_lookup n ring k :
  device_writeback pf n ring !! k =
  (fun cmd => match status_written_at pf n k with
              | Some st => {| opcode := opcode cmd; status := st;
                              payload := payload cmd |}
              | None => cmd
              end) <$> (ring !! k).
Proof. unfold device_writeback. apply list_lookup_imap. Qed.

Lemma ioread_bookkeeping a :
  same_bookkeeping a (ioread32be_event_counter pf a).2.
Proof.
  unfold same_bookkeeping, ioread32be_event_counter, device_writeback; simpl.
  repeat split; try reflexivity.
  - apply length_imap.
  - intros k. rewrite list_lookup_imap.
    destruct (adminq a !! k); simpl; [|reflexivity].
    destruct (status_written_at pf (io_reads a) k); reflexivity.
  - intros k. rewrite list_lookup_imap.
    destruct (adminq a !! k); simpl; [|reflexivity].
    destruct (status_written_at pf (io_reads a) k); reflexivity.
Qed.

Lemma existsb_seq_shift (f : nat -> bool) s n :
  existsb f (seq (S s) n) = existsb (fun k => f (S k)) (seq s n).
Proof.
  revert s. induction n as [|n IH]; intros s; simpl; [reflexivity|].
  rewrite IH. reflexivity.
Qed.

Lemma existsb_pointwise (f g : nat -> bool) l :
  (forall k, f k = g k) -> existsb f l = existsb g l.
Proof.
  intros H. induction l as [|x l IH]; simpl; [reflexivity|].
  rewrite H, IH. reflexivity.
Qed.

Lemma wait_for_cmd_loop_spec n prod a :
  let res := wait_for_cmd_loop pf n prod a in
  same_bookkeeping a res.2 /\
  res.1 = completes_within pf n (io_reads a) prod /\
  (res.1 = true -> reg_event_counter res.2 = prod) /\
  (res.1 = false -> n <> 0%nat -> reg_event_counter res.2 <> prod).
Proof.
  revert a. induction n as [|n IH]; intros a; simpl.
  - split; [apply same_bookkeeping_refl|].
    split; [reflexivity|]. split; [discriminate | congruence].
  - unfold bind. unfold completes_within. simpl.
    rewrite Nat.add_0_r.
    destruct (u32 (event_counter_at pf (io_reads a)) =? prod) eqn:E; simpl.
    + split; [apply (ioread_bookkeeping a)|].
      split; [reflexivity|]. split; [intros _; lia | discriminate].
    + specialize (IH (ioread32be_event_counter pf a).2).
      simpl in IH. destruct IH as (Hb & Hr & Hev & Hlast).
      split; [eapply same_bookkeeping_trans; [apply (ioread_bookkeeping a) | exact Hb]|].
      split.
      { rewrite Hr. unfold completes_within. simpl.
        rewrite existsb_seq_shift.
        apply existsb_pointwise. intros k.
        replace (io_reads a + S k)%nat with (S (io_reads a + k)) by lia.
        reflexivity. }
      split; [exact Hev|].
      intros Hf _. destruct n as [|n']; [simpl; lia|].
      apply Hlast; [exact Hf | discriminate].
Qed.

Lemma parse_err_code_zero st :
  parse_err_code st = 0 <-> st = GVE_ADMINQ_COMMAND_PASSED.
Proof. destruct st; simpl; split; intros H; try reflexivity; discriminate. Qed.

Lemma kick_and_wait_check_spec idx a :
  let res := kick_and_wait_check idx a in
  let sts := (fun i => status (default cmd_zero
                (adminq a !! Z.to_nat (Z.land i (adminq_mask a))))) <$> idx in
  res.1 = match first_failed sts with
          | None => 0
          | Some st => parse_err_code st
          end /\
  res.2 = match first_failed sts with
          | Some st =>
              if status_counts_as_failure st
              then set_adminq_cmd_fail (u32 (adminq_cmd_fail a + 1)) a
              else a
          | None => a
          end.
Proof.
  induction idx as [|i idx IH]; simpl; [split; reflexivity|].
  unfold bind, gets, adminq_slot, gve_adminq_parse_err, bind, ret, modify; simpl.
  set (st := status (default cmd_zero
                (adminq a !! Z.to_nat (Z.land i (adminq_mask a))))).
  destruct (decide (st = GVE_ADMINQ_COMMAND_PASSED)) as [Hp|Hp].
  - rewrite Hp. simpl. exact IH.
  - assert (Hne : parse_err_code st <> 0)
      by (intros H; apply Hp, parse_err_code_zero, H).
    apply Z.eqb_neq in Hne.
    destruct (status_counts_as_failure st) eqn:Hc; simpl; rewrite Hne;
      split; reflexivity.
Qed.

Lemma kick_and_wait_unfold a :
  gve_adminq_kick_and_wait pf a =
  let tl := u32 (event_counter_at pf (io_reads a)) in
  let a1 := (ioread32be_event_counter pf a).2 in
  let head := adminq_prod_cnt a in
  let a2 := set_reg_doorbell (head :: reg_doorbell a1) a1 in
  let w := wait_for_cmd_loop pf GVE_MAX_ADMINQ_EVENT_COUNTER_CHECK head a2 in
  if w.1 then kick_and_wait_check (seqZ tl (head - tl)) w.2
  else (- ENOTRECOVERABLE,
        set_adminq_timeouts (u32 (adminq_timeouts w.2 + 1)) w.2).
Proof.
  unfold gve_adminq_kick_and_wait, bind, gets, gve_adminq_kick_cmd, modify,
    gve_adminq_wait_for_cmd, ret.
  cbv zeta.
  change (ioread32be_event_counter pf a) with
    (u32 (event_counter_at pf (io_reads a)), (ioread32be_event_counter pf a).2).
  cbv beta iota.
  change (adminq_prod_cnt (ioread32be_event_counter pf a).2)
    with (adminq_prod_cnt a).
  destruct (wait_for_cmd_loop pf GVE_MAX_ADMINQ_EVENT_COUNTER_CHECK _ _)
    as [[] a3]; reflexivity.
Qed.

(** A flush writes the doorbell once, with the producer counter, and leaves
    the producer counter alone. *)
Lemma kick_and_wait_doorbell (a : gve_adminq_priv) :
  adminq_prod_cnt (gve_adminq_kick_and_wait pf a).2 = adminq_prod_cnt a /\
  reg_doorbell (gve_adminq_kick_and_wait pf a).2
    = adminq_prod_cnt a :: reg_doorbell a.
Proof.
  rewrite kick_and_wait_unfold. cbv zeta.
  set (tl := u32 (event_counter_at pf (io_reads a))).
  set (a1 := (ioread32be_event_counter pf a).2).
  set (a2 := set_reg_doorbell _ a1).
  pose proof (wait_for_cmd_loop_spec GVE_MAX_ADMINQ_EVENT_COUNTER_CHECK
                (adminq_prod_cnt a) a2) as Hw.
  cbv zeta in Hw.
  set (w := wait_for_cmd_loop pf GVE_MAX_ADMINQ_EVENT_COUNTER_CHECK
              (adminq_prod_cnt a) a2) in *.
  destruct Hw as (Hb3 & _).
  destruct Hb3 as (_&Hpc3&_&_&_&Hdb3&_).
  change (adminq_prod_cnt a2) with (adminq_prod_cnt a) in Hpc3.
  change (reg_doorbell a2) with (adminq_prod_cnt a :: reg_doorbell a) in Hdb3.
  destruct (w.1).
  - pose proof (kick_and_wait_check_spec
                  (seqZ tl (adminq_prod_cnt a - tl)) w.2) as Hc.
    cbv zeta in Hc. destruct Hc as (_ & Hs). rewrite Hs.
    destruct (first_failed _) as [st|]; [|split; congruence].
    destruct (status_counts_as_failure st); split; simpl; congruence.
  - simpl. split; congruence.
Qed.

(** C1, as the code has it: the flush kicks with the producer counter and
    waits.  If the device reaches the producer counter within the bounded
    number of reads, the ring is drained on return, the statuses of the
    slots [tail, head) are read in issue order up to the first one that is
    not a success, and that status, translated, is the result (zero when all
    passed).  If the device does not, the result is [-ENOTRECOVERABLE], the
    timeout counter is incremented, no status is read and the ring is not
    drained. *)
Theorem kick_and_wait_drains_unless_timeout (a : gve_adminq_priv) :
  let res := gve_adminq_kick_and_wait pf a in
  let tail := u32 (event_counter_at pf (io_reads a)) in
  let head := adminq_prod_cnt a in
  adminq_prod_cnt res.2 = head /\
  reg_doorbell res.2 = head :: reg_doorbell a /\
  if completes_within pf GVE_MAX_ADMINQ_EVENT_COUNTER_CHECK (S (io_reads a)) head
  then
    drained res.2 /\
    adminq_timeouts res.2 = adminq_timeouts a /\
    res.1 = match first_failed (batch_statuses res.2 tail head) with
            | None => 0
            | Some st => parse_err_code st
            end /\
    adminq_cmd_fail res.2 =
      match first_failed (batch_statuses res.2 tail head) with
      | Some st => if status_counts_as_failure st
                   then u32 (adminq_cmd_fail a + 1) else adminq_cmd_fail a
      | None => adminq_cmd_fail a
      end
  else
    res.1 = - ENOTRECOVERABLE /\
    ~ drained res.2 /\
    adminq_timeouts res.2 = u32 (adminq_timeouts a + 1) /\
    adminq_cmd_fail res.2 = adminq_cmd_fail a.
Proof.
  cbv zeta. rewrite kick_and_wait_unfold. cbv zeta.
  set (tl := u32 (event_counter_at pf (io_reads a))).
  set (a1 := (ioread32be_event_counter pf a).2).
  set (a2 := set_reg_doorbell _ a1).
  pose proof (wait_for_cmd_loop_spec GVE_MAX_ADMINQ_EVENT_COUNTER_CHECK
                (adminq_prod_cnt a) a2) as Hw.
  cbv zeta in Hw.
  set (w := wait_for_cmd_loop pf GVE_MAX_ADMINQ_EVENT_COUNTER_CHECK
              (adminq_prod_cnt a) a2) in *.
  destruct Hw as (Hb3 & Hok & Hev & Hnev).
  destruct Hb3 as (Hm3&Hpc3&Hcf3&Hto3&Hoc3&Hdb3&_).
  change (io_reads a2) with (S (io_reads a)) in Hok.
  change (adminq_prod_cnt a2) with (adminq_prod_cnt a) in Hpc3.
  change (reg_doorbell a2) with (adminq_prod_cnt a :: reg_doorbell a) in Hdb3.
  change (adminq_cmd_fail a2) with (adminq_cmd_fail a) in Hcf3.
  change (adminq_timeouts a2) with (adminq_timeouts a) in Hto3.
  rewrite <- Hok.
  destruct (w.1) eqn:Eok.
  - pose proof (kick_and_wait_check_spec
                  (seqZ tl (adminq_prod_cnt a - tl)) w.2) as Hc.
    cbv zeta in Hc. destruct Hc as (Hr & Hs).
    fold (batch_statuses w.2 tl (adminq_prod_cnt a)) in Hr, Hs.
    set (res := kick_and_wait_check (seqZ tl (adminq_prod_cnt a - tl)) w.2)
      in *.
    assert (Hsame : adminq res.2 = adminq w.2
                    /\ adminq_mask res.2 = adminq_mask w.2
                    /\ adminq_prod_cnt res.2 = adminq_prod_cnt w.2
                    /\ reg_doorbell res.2 = reg_doorbell w.2
                    /\ reg_event_counter res.2 = reg_event_counter w.2
                    /\ adminq_timeouts res.2 = adminq_timeouts w.2).
    { rewrite Hs. destruct (first_failed _) as [st|]; [|repeat split].
      destruct (status_counts_as_failure st); repeat split. }
    destruct Hsame as (Ha & Hmk & Hp & Hd & He & Ht).
    assert (Hbs : batch_statuses res.2 tl (adminq_prod_cnt a) =
                  batch_statuses w.2 tl (adminq_prod_cnt a)).
    { unfold batch_statuses. rewrite Ha, Hmk. reflexivity. }
    rewrite Hbs.
    split; [congruence|]. split; [congruence|].
    split; [unfold drained; rewrite Hp, He, Hev by reflexivity; congruence|].
    split; [congruence|]. split; [exact Hr|].
    rewrite Hs. destruct (first_failed _) as [st|]; [|congruence].
    destruct (status_counts_as_failure st); simpl; congruence.
  - simpl.
    split; [congruence|]. split; [congruence|]. split; [reflexivity|].
    split; [|split; [congruence|congruence]].
    unfold drained; simpl. intros Hd.
    apply Hnev; [reflexivity | discriminate |].
    congruence.
Qed.

End TransportFacts.

(** C1, as stated, fails in two ways.  When the device never answers, the
    flush returns [-ENOTRECOVERABLE] with one command still outstanding.
    When the device fails the second and the third command of three, the
    flush reports the second and stops: the failure counter, which counts
    every failed status that is read, goes up by one, not by two. *)
Lemma kick_and_wait_counterexample :
  (gve_adminq_kick_and_wait pf_stuck (aq_pending 1)).1 = - ENOTRECOVERABLE /\
  ~ drained (gve_adminq_kick_and_wait pf_stuck (aq_pending 1)).2 /\
  batch_statuses (gve_adminq_kick_and_wait pf_two_failures (aq_pending 3)).2 0 3
    = [GVE_ADMINQ_COMMAND_PASSED; GVE_ADMINQ_COMMAND_ERROR_INVALID_ARGUMENT;
       GVE_ADMINQ_COMMAND_ERROR_RESOURCE_EXHAUSTED] /\
  (gve_adminq_kick_and_wait pf_two_failures (aq_pending 3)).1 = - EINVAL /\
  adminq_cmd_fail (gve_adminq_kick_and_wait pf_two_failures (aq_pending 3)).2 = 1.
Proof.
  split; [vm_compute; reflexivity|].
  split; [unfold drained; vm_compute; discriminate|].
  split; [vm_compute; reflexivity|].
  split; vm_compute; reflexivity.
Qed.

Section IssueFacts.

Variable pf : platform.

Lemma same_commands_refl a : same_commands a a.
Proof. repeat split; reflexivity. Qed.

Lemma same_commands_trans a b c :
  same_commands a b -> same_commands b c -> same_commands a c.
Proof.
  unfold same_commands. intros (?&?&?&Ho&Hp) (?&?&?&Ho'&Hp').
  repeat split; congruence.
Qed.

Lemma same_bookkeeping_commands a a' :
  same_bookkeeping a a' -> same_commands a a'.
Proof.
  unfold same_bookkeeping, same_commands.
  intros (?&?&?&?&?&?&?&?&?&?&?). repeat split; assumption.
Qed.

Lemma ring_wf_same_commands a a' :
  same_commands a a' -> ring_wf a -> ring_wf a'.
Proof.
  intros (Hm&_&Hl&_) (k&Hk&Hmk&Hlen). exists k.
  split; [exact Hk|]. split; congruence.
Qed.

Lemma kick_and_wait_check_same idx a :
  same_commands a (kick_and_wait_check idx a).2 /\
  reg_doorbell (kick_and_wait_check idx a).2 = reg_doorbell a /\
  reg_event_counter (kick_and_wait_check idx a).2 = reg_event_counter a /\
  io_reads (kick_and_wait_check idx a).2 = io_reads a.
Proof.
  destruct (kick_and_wait_check_spec idx a) as (_ & Hs). rewrite Hs.
  destruct (first_failed _) as [st|];
    [destruct (status_counts_as_failure st)|];
    (split; [repeat split; reflexivity | repeat split]).
Qed.

Lemma kick_and_wait_same_commands a :
  same_commands a (gve_adminq_kick_and_wait pf a).2.
Proof.
  rewrite kick_and_wait_unfold. cbv zeta.
  set (a1 := (ioread32be_event_counter pf a).2).
  set (a2 := set_reg_doorbell _ a1).
  set (w := wait_for_cmd_loop pf _ _ a2).
  assert (H1 : same_commands a a2).
  { apply (same_bookkeeping_commands a a1), ioread_bookkeeping. }
  assert (H2 : same_commands a2 w.2).
  { apply same_bookkeeping_commands.
    apply (wait_for_cmd_loop_spec pf GVE_MAX_ADMINQ_EVENT_COUNTER_CHECK). }
  destruct (w.1).
  - eapply same_commands_trans; [exact H1|].
    eapply same_commands_trans; [exact H2|].
    apply kick_and_wait_check_same.
  - eapply same_commands_trans; [exact H1|]. exact H2.
Qed.

Lemma next_slot_in_range a : ring_wf a -> (next_slot a < length (adminq a))%nat.
Proof.
  intros (k & Hk & Hm & Hl). unfold next_slot. rewrite Hl, Hm.
  rewrite Z.land_ones by exact Hk.
  pose proof (Z.mod_pos_bound (adminq_prod_cnt a) (2 ^ k)
                (Z.pow_pos_nonneg 2 k ltac:(lia) Hk)).
  lia.
Qed.

Lemma issue_cmd_write_spec cmd a :
  let res := issue_cmd_write cmd a in
  res.1 = 0 /\
  adminq res.2 = <[next_slot a := cmd]> (adminq a) /\
  adminq_prod_cnt res.2 = u32 (adminq_prod_cnt a + 1) /\
  adminq_mask res.2 = adminq_mask a /\
  reg_doorbell res.2 = reg_doorbell a /\
  reg_event_counter res.2 = reg_event_counter a.
Proof.
  unfold issue_cmd_write, bind, gets, modify, adminq_slot, bump_opcode_cnt, ret.
  cbv zeta. simpl.
  match goal with
  | |- context [opcode_is_counted ?o] => destruct (opcode_is_counted o)
  end; simpl; repeat split; reflexivity.
Qed.

Lemma issue_cmd_unfold cmd a :
  gve_adminq_issue_cmd pf cmd a =
  let tail := u32 (event_counter_at pf (io_reads a)) in
  let a1 := (ioread32be_event_counter pf a).2 in
  if ring_full a1 then
    let fl := gve_adminq_kick_and_wait pf a1 in
    if negb (fl.1 =? 0) then fl
    else
      let a3 := (ioread32be_event_counter pf fl.2).2 in
      if ring_full a3 then (- ENOMEM, a3)
      else issue_cmd_write cmd a3
  else issue_cmd_write cmd a1.
Proof.
  unfold gve_adminq_issue_cmd, bind, gets, ret, ring_full. cbv zeta.
  change (ioread32be_event_counter pf a) with
    (u32 (event_counter_at pf (io_reads a)), (ioread32be_event_counter pf a).2).
  cbv beta iota.
  change (adminq_prod_cnt (ioread32be_event_counter pf a).2)
    with (adminq_prod_cnt a).
  change (adminq_mask (ioread32be_event_counter pf a).2)
    with (adminq_mask a).
  change (reg_event_counter (ioread32be_event_counter pf a).2)
    with (u32 (event_counter_at pf (io_reads a))).
  destruct (adminq_full _ _ _); [|reflexivity].
  destruct (gve_adminq_kick_and_wait pf _) as [e a2]. simpl.
  destruct (e =? 0); simpl; [|reflexivity].
  destruct (adminq_full _ _ _); reflexivity.
Qed.

(** C2, as the code has it.  When the ring is full at the first read of the
    event counter, the doorbell is written exactly once.  If that flush
    fails, its error is the result and the command is not written.  If it
    succeeds and the ring is still full at the next read, the result is
    [-ENOMEM] and the command is not written.  Otherwise the command is in
    slot [producer & mask] and the producer counter is one higher.  In every
    case a zero result means the command is in the ring. *)
Theorem issue_cmd_on_full_ring (a : gve_adminq_priv) (cmd : gve_adminq_command) :
  ring_wf a ->
  let res := gve_adminq_issue_cmd pf cmd a in
  let a1 := (ioread32be_event_counter pf a).2 in
  ring_full a1 = true ->
  let fl := gve_adminq_kick_and_wait pf a1 in
  let a3 := (ioread32be_event_counter pf fl.2).2 in
  reg_doorbell res.2 = adminq_prod_cnt a :: reg_doorbell a /\
  (fl.1 <> 0 -> res = fl) /\
  (fl.1 = 0 -> ring_full a3 = true -> res = (- ENOMEM, a3)) /\
  (fl.1 = 0 -> ring_full a3 = false -> res.1 = 0) /\
  (res.1 = 0 ->
     adminq res.2 !! next_slot a = Some cmd /\
     adminq_prod_cnt res.2 = u32 (adminq_prod_cnt a + 1)) /\
  (res.1 <> 0 -> same_commands a res.2).
Proof.
  intros Hwf res a1 Hfull fl a3. subst res.
  rewrite issue_cmd_unfold. cbv zeta. fold a1. rewrite Hfull. fold fl. fold a3.
  assert (H1 : same_commands a a1)
    by apply same_bookkeeping_commands, ioread_bookkeeping.
  assert (H2 : same_commands a1 fl.2) by apply kick_and_wait_same_commands.
  assert (H3 : same_commands fl.2 a3)
    by apply same_bookkeeping_commands, ioread_bookkeeping.
  assert (Hd : reg_doorbell fl.2 = adminq_prod_cnt a :: reg_doorbell a).
  { apply (kick_and_wait_doorbell pf a1). }
  assert (H13 : same_commands a a3).
  { eapply same_commands_trans; [exact H1|].
    eapply same_commands_trans; [exact H2|exact H3]. }
  destruct (fl.1 =? 0) eqn:E; simpl.
  - apply Z.eqb_eq in E.
    destruct (ring_full a3) eqn:F.
    + simpl. split; [exact Hd|]. split; [congruence|].
      split; [reflexivity|]. split; [discriminate|].
      split; [unfold ENOMEM; discriminate|]. intros _. exact H13.
    + destruct (issue_cmd_write_spec cmd a3) as (Hr & Ha & Hp & Hm & Hdb & _).
      destruct H13 as (Hm13 & Hp13 & Hl13 & _).
      assert (Hns : next_slot a3 = next_slot a)
        by (unfold next_slot; rewrite Hm13, Hp13; reflexivity).
      split; [rewrite Hdb; exact Hd|]. split; [congruence|].
      split; [discriminate|]. split; [intros _ _; exact Hr|].
      split; [|congruence].
      intros _. rewrite Ha, Hp, Hns, Hp13. split; [|reflexivity].
      apply list_lookup_insert_eq. rewrite Hl13.
      apply next_slot_in_range, Hwf.
  - apply Z.eqb_neq in E.
    split; [exact Hd|]. split; [reflexivity|].
    split; [congruence|]. split; [congruence|]. split; [congruence|].
    intros _. eapply same_commands_trans; [exact H1|exact H2].
Qed.

End IssueFacts.

(** The hypotheses of [issue_cmd_on_full_ring] hold for three pending
    commands in a ring of four. *)
Lemma issue_cmd_on_full_ring_witness :
  reg_doorbell
    (gve_adminq_issue_cmd pf_one_failure cmd_create_rx (aq_pending 3)).2 = [3].
Proof.
  refine (proj1 (issue_cmd_on_full_ring pf_one_failure (aq_pending 3)
                   cmd_create_rx _ _)).
  - exists 2. split; [lia|]. split; reflexivity.
  - reflexivity.
Defined.

(** C2, as stated, fails when the flush itself reports an error.  Three
    commands are pending in a ring of four, so the ring is full; the device
    completes them and fails the second.  The one flush drains the ring, so
    it is not full any more, yet the call returns [-EINVAL], the producer
    counter stays at three and slot three still holds what it held. *)
Lemma issue_cmd_counterexample :
  let a := aq_pending 3 in
  let res := gve_adminq_issue_cmd pf_one_failure cmd_create_rx a in
  ring_full (ioread32be_event_counter pf_one_failure a).2 = true /\
  reg_doorbell res.2 = [3] /\
  ring_full res.2 = false /\
  res.1 = - EINVAL /\
  adminq_prod_cnt res.2 = 3 /\
  adminq res.2 !! next_slot a = Some cmd_zero.
Proof. vm_compute. repeat split; reflexivity. Qed.

(** ** The device-option negotiator *)

Section OptionFacts.

Variable C : gve_consts.

Lemma find_seq_first (f : nat -> bool) s n k :
  List.find f (seq s n) = Some k ->
  (s <= k < s + n)%nat /\ f k = true /\
  (forall j, (s <= j < k)%nat -> f j = false).
Proof.
  revert s. induction n as [|n IH]; intros s; simpl; [discriminate|].
  destruct (f s) eqn:E.
  - intros [= <-]. split; [lia|]. split; [exact E|]. intros j Hj. lia.
  - intros H. apply IH in H as (Hk & Hf & Hlt).
    split; [lia|]. split; [exact Hf|].
    intros j Hj. destruct (decide (j = s)) as [->|]; [exact E|].
    apply Hlt. lia.
Qed.

Lemma find_seq_none (f : nat -> bool) s n :
  List.find f (seq s n) = None ->
  forall j, (s <= j < s + n)%nat -> f j = false.
Proof.
  revert s. induction n as [|n IH]; intros s; simpl; [intros _ j Hj; lia|].
  destruct (f s) eqn:E; [discriminate|].
  intros H j Hj. destruct (decide (j = s)) as [->|]; [exact E|].
  apply (IH _ H). lia.
Qed.

Lemma find_seq_shift (f : nat -> bool) s n :
  List.find f (seq (S s) n) = S <$> List.find (fun k => f (S k)) (seq s n).
Proof.
  revert s. induction n as [|n IH]; intros s; simpl; [reflexivity|].
  destruct (f (S s)); [reflexivity|]. apply IH.
Qed.

Lemma chain_from_cons d start k :
  option_offset C d start <$> seq 0 (S k) =
  start :: (option_offset C d (option_end C d start) <$> seq 0 k).
Proof.
  simpl. f_equal. rewrite <- fmap_S_seq, <- list_fmap_compose. reflexivity.
Qed.

Lemma process_device_options_loop_spec n d start st :
  process_device_options_loop C n d start st =
  match first_overrun C d start n with
  | Some k =>
      (- EINVAL, parse_nodes C d (option_offset C d start <$> seq 0 k) st)
  | None => (0, parse_nodes C d (option_offset C d start <$> seq 0 n) st)
  end.
Proof.
  revert start st. induction n as [|n IH]; intros start st; [reflexivity|].
  unfold first_overrun. cbn [process_device_options_loop seq List.find].
  unfold gve_get_next_option. fold (option_end C d start).
  unfold overruns at 1. cbn [option_offset].
  destruct (option_end C d start >? desc_total_length d) eqn:E;
    [reflexivity|].
  rewrite IH, find_seq_shift. unfold first_overrun.
  change (fun k => overruns C d start (S k))
    with (overruns C d (option_end C d start)).
  destruct (List.find _ _) as [k|].
  - change (S <$> Some k) with (Some (S k)). cbv iota.
    rewrite chain_from_cons. reflexivity.
  - change (S <$> @None nat) with (@None nat). cbv iota.
    change (0%nat :: seq 1 n) with (seq 0 (S n)).
    rewrite chain_from_cons. reflexivity.
Qed.

(** The outcome of parsing in one equation: stop with [-EINVAL] at the first
    node that overruns, having dispatched the nodes before it. *)
Lemma process_device_options_result (d : gve_device_descriptor)
    (st : parse_state) :
  gve_process_device_options C d st =
  match first_overrun C d (sizeof_device_descriptor C)
          (Z.to_nat (desc_num_device_options d)) with
  | Some k => (- EINVAL, parse_nodes C d (chain_nodes C d k) st)
  | None =>
      (0, parse_nodes C d
            (chain_nodes C d (Z.to_nat (desc_num_device_options d))) st)
  end.
Proof.
  unfold gve_process_device_options. cbv zeta.
  rewrite process_device_options_loop_spec. reflexivity.
Qed.

(** C3, as the code has it.  If one of the [num_device_options] nodes ends
    past [total_length], parsing returns [-EINVAL] at the first such node,
    having dispatched exactly the nodes before it and neither that node nor
    a later one.  If none does, parsing dispatches exactly
    [num_device_options] nodes and returns zero. *)
Theorem process_device_options_bounds (d : gve_device_descriptor)
    (st : parse_state) :
  let n := Z.to_nat (desc_num_device_options d) in
  let start := sizeof_device_descriptor C in
  let res := gve_process_device_options C d st in
  ((exists k, (k < n)%nat /\ overruns C d start k = true) ->
   res.1 = - EINVAL) /\
  match first_overrun C d start n with
  | Some k =>
      (k < n)%nat /\ overruns C d start k = true /\
      (forall j, (j < k)%nat -> overruns C d start j = false) /\
      res.1 = - EINVAL /\
      res.2 = parse_nodes C d (chain_nodes C d k) st
  | None =>
      (forall j, (j < n)%nat -> overruns C d start j = false) /\
      res.1 = 0 /\
      res.2 = parse_nodes C d (chain_nodes C d n) st /\
      length (chain_nodes C d n) = n
  end.
Proof.
  intros n start res. subst res. unfold gve_process_device_options.
  fold n. fold start. rewrite process_device_options_loop_spec.
  unfold chain_nodes. fold start.
  destruct (first_overrun C d start n) as [k|] eqn:E; unfold first_overrun in E.
  - apply find_seq_first in E as (Hk & Hf & Hlt).
    split; [reflexivity|]. split; [lia|]. split; [exact Hf|].
    split; [intros j Hj; apply Hlt; lia|]. split; reflexivity.
  - pose proof (find_seq_none _ _ _ E) as Hnone.
    split.
    { intros (k & Hk & Hov). rewrite Hnone in Hov by lia. discriminate. }
    split; [intros j Hj; apply Hnone; lia|].
    split; [reflexivity|]. split; [reflexivity|].
    rewrite length_fmap, length_seq. reflexivity.
Qed.

End OptionFacts.

(** C3, as stated, fails on what "rejected" leaves behind.  The first node
    is the legacy raw-addressing option, the second overruns.  Parsing, and
    describe-device with it, returns [-EINVAL], but the first option has
    been applied: the queue format is raw-addressing GQI. *)
Lemma process_device_options_counterexample :
  let res := gve_process_device_options gve_consts_default descriptor_overrun
               (cfg_fresh, dev_ops_null) in
  let out := gve_adminq_describe_device (pf_describe descriptor_overrun)
               gve_consts_default priv_fresh in
  overruns gve_consts_default descriptor_overrun 40 1 = true /\
  res.1 = - EINVAL /\
  queue_format cfg_fresh = GVE_QUEUE_FORMAT_UNSPECIFIED /\
  queue_format res.2.1 = GVE_GQI_RDA_FORMAT /\
  out.1 = - EINVAL /\
  queue_format (cfg out.2) = GVE_GQI_RDA_FORMAT.
Proof. vm_compute. repeat split; reflexivity. Qed.

(** The hypothesis of the first part of [process_device_options_bounds]
    holds for the descriptor whose second node overruns. *)
Lemma process_device_options_bounds_witness :
  overruns gve_consts_default descriptor_overrun 40 1 = true /\
  (gve_process_device_options gve_consts_default descriptor_overrun
     (cfg_fresh, dev_ops_null)).1 = - EINVAL.
Proof.
  split; [vm_compute; reflexivity|].
  refine (proj1 (process_device_options_bounds gve_consts_default
                   descriptor_overrun (cfg_fresh, dev_ops_null)) _).
  exists 1%nat. split; [vm_compute; lia|vm_compute; reflexivity].
Defined.

Section OptionDispatch.

Variable C : gve_consts.

(** The dispatch in normal form: the table, then the checks. *)
Lemma parse_device_option_unfold d opt st :
  gve_parse_device_option C d opt st =
  match kind_of_id C (option_id_at C d opt) with
  | Some k =>
      if header_checks C k (node_header C d opt)
      then accept_effect C d k opt st else st
  | None => st
  end.
Proof.
  unfold gve_parse_device_option, kind_of_id, header_checks, node_header,
    accept_effect.
  destruct st as [priv ops]. cbn [fst snd].
  repeat match goal with
  | |- context [option_id_at C d opt =? ?x] =>
      destruct (option_id_at C d opt =? x);
      [cbn [opt_expected_len opt_expected_mask];
       repeat match goal with
       | |- context [?a =? ?b] => destruct (a =? b)
       | |- context [?a <? ?b] =>
           rewrite (Z.geb_leb a b), (Z.leb_antisym a b);
           destruct (a <? b)
       end; reflexivity |]
  end.
  reflexivity.
Qed.

Hypothesis Hwf : consts_wf C.

Lemma opt_id_inj k1 k2 : opt_id C k1 = opt_id C k2 -> k1 = k2.
Proof.
  pose proof Hwf as H. unfold consts_wf in H. cbn [fmap list_fmap] in H.
  repeat match type of H with
  | NoDup (_ :: _) => apply NoDup_cons in H as [? H]
  end.
  repeat match goal with
  | Hn : _ ∉ _ :: _ |- _ => apply not_elem_of_cons in Hn as [? Hn]
  end.
  intros E. destruct k1, k2; try reflexivity; exfalso; cbn [opt_id] in *;
    congruence.
Qed.

Lemma kind_of_id_opt_id k : kind_of_id C (opt_id C k) = Some k.
Proof.
  unfold kind_of_id.
  repeat match goal with
  | |- context [opt_id C k =? ?x] =>
      let E := fresh "E" in
      destruct (Z.eqb_spec (opt_id C k) x) as [E|E];
      [match type of E with
       | _ = ?f C =>
           match goal with
           | |- Some ?k' = _ =>
               change (f C) with (opt_id C k') in E;
               apply opt_id_inj in E; subst; reflexivity
           end
       end|]
  end.
  exfalso. destruct k; cbn [opt_id] in *; congruence.
Qed.

Lemma kind_of_id_some id k : kind_of_id C id = Some k -> id = opt_id C k.
Proof.
  unfold kind_of_id.
  repeat match goal with
  | |- context [id =? ?x] => destruct (Z.eqb_spec id x)
  end; intros [= <-]; assumption.
Qed.

(** The dispatch of a node whose identifier is that of [k]. *)
Lemma parse_device_option_kind d opt st k :
  option_id_at C d opt = opt_id C k ->
  gve_parse_device_option C d opt st =
  if header_checks C k (node_header C d opt)
  then accept_effect C d k opt st else st.
Proof.
  intros E. rewrite parse_device_option_unfold, E, kind_of_id_opt_id.
  reflexivity.
Qed.

Lemma header_checks_true k h :
  header_checks C k h = true <->
  (if decide (k = OPT_GQI_RAW_ADDRESSING)
   then h.1.2 = opt_expected_len C k else h.1.2 >= opt_expected_len C k) /\
  h.2 = opt_expected_mask C k.
Proof.
  unfold header_checks. rewrite andb_true_iff, Z.eqb_eq.
  destruct k; cbn [decide decide_rel]; (destruct (decide _) as [|]; [try discriminate|try congruence]);
    rewrite ?Z.eqb_eq, ?Z.geb_leb, ?Z.leb_le; intuition lia.
Qed.

Lemma header_accepted_iff d opt k :
  header_accepted C k (node_header C d opt) = true <->
  kind_of_id C (option_id_at C d opt) = Some k /\
  header_checks C k (node_header C d opt) = true.
Proof.
  unfold header_accepted. rewrite andb_true_iff, Z.eqb_eq.
  cbn [node_header fst snd]. split; intros [H1 H2]; split; try exact H2.
  - rewrite H1. apply kind_of_id_opt_id.
  - apply kind_of_id_some, H1.
Qed.

Lemma accept_effect_pointer_same d k opt st :
  k <> OPT_GQI_RAW_ADDRESSING ->
  opt_pointer k (accept_effect C d k opt st).2 = Some (opt + sizeof_device_option).
Proof. destruct k; intros H; try congruence; reflexivity. Qed.

Lemma accept_effect_pointer_other d k k0 opt st :
  k <> k0 ->
  opt_pointer k (accept_effect C d k0 opt st).2 = opt_pointer k st.2.
Proof. destruct k, k0; intros H; try congruence; reflexivity. Qed.

Lemma accept_effect_format d k opt st :
  queue_format (accept_effect C d k opt st).1 =
  if decide (k = OPT_GQI_RAW_ADDRESSING) then GVE_GQI_RDA_FORMAT
  else queue_format st.1.
Proof.
  destruct k; cbn [accept_effect fst]; try reflexivity.
  destruct (negb _); reflexivity.
Qed.

Lemma parse_device_option_pointer d opt st k :
  k <> OPT_GQI_RAW_ADDRESSING ->
  is_set (opt_pointer k (gve_parse_device_option C d opt st).2) =
  is_set (opt_pointer k st.2) || header_accepted C k (node_header C d opt).
Proof.
  intros Hk. rewrite parse_device_option_unfold.
  destruct (header_accepted C k (node_header C d opt)) eqn:Ha.
  - apply header_accepted_iff in Ha as [Hkind Hc]. rewrite Hkind, Hc.
    rewrite accept_effect_pointer_same by exact Hk.
    rewrite orb_true_r. reflexivity.
  - rewrite orb_false_r.
    destruct (kind_of_id C (option_id_at C d opt)) as [k0|] eqn:Hkind;
      [|reflexivity].
    destruct (header_checks C k0 (node_header C d opt)) eqn:Hc; [|reflexivity].
    destruct (decide (k = k0)) as [->|Hne].
    + assert (header_accepted C k0 (node_header C d opt) = true)
        by (apply header_accepted_iff; split; assumption).
      congruence.
    + rewrite accept_effect_pointer_other by exact Hne. reflexivity.
Qed.

Lemma parse_device_option_format d opt st :
  queue_format (gve_parse_device_option C d opt st).1 =
  if header_accepted C OPT_GQI_RAW_ADDRESSING (node_header C d opt)
  then GVE_GQI_RDA_FORMAT else queue_format st.1.
Proof.
  rewrite parse_device_option_unfold.
  destruct (header_accepted C _ (node_header C d opt)) eqn:Ha.
  - apply header_accepted_iff in Ha as [Hkind Hc]. rewrite Hkind, Hc.
    apply accept_effect_format.
  - destruct (kind_of_id C (option_id_at C d opt)) as [k0|] eqn:Hkind;
      [|reflexivity].
    destruct (header_checks C k0 (node_header C d opt)) eqn:Hc; [|reflexivity].
    rewrite accept_effect_format.
    destruct (decide (k0 = _)) as [->|]; [|reflexivity].
    assert (header_accepted C OPT_GQI_RAW_ADDRESSING (node_header C d opt) = true)
      by (apply header_accepted_iff; split; assumption).
    congruence.
Qed.

Lemma parse_nodes_pointer d nodes st k :
  k <> OPT_GQI_RAW_ADDRESSING ->
  is_set (opt_pointer k (parse_nodes C d nodes st).2) =
  is_set (opt_pointer k st.2) || advertised C (node_header C d <$> nodes) k.
Proof.
  intros Hk. revert st. unfold parse_nodes, advertised.
  induction nodes as [|opt nodes IH]; intros st; cbn [foldl fmap list_fmap existsb].
  - rewrite orb_false_r. reflexivity.
  - rewrite IH, parse_device_option_pointer by exact Hk.
    rewrite orb_assoc. reflexivity.
Qed.

Lemma parse_nodes_format d nodes st :
  queue_format (parse_nodes C d nodes st).1 =
  if advertised C (node_header C d <$> nodes) OPT_GQI_RAW_ADDRESSING
  then GVE_GQI_RDA_FORMAT else queue_format st.1.
Proof.
  revert st. unfold parse_nodes, advertised.
  induction nodes as [|opt nodes IH]; intros st; cbn [foldl fmap list_fmap existsb].
  - reflexivity.
  - rewrite IH, parse_device_option_format.
    destruct (header_accepted C _ (node_header C d opt)); cbn [orb];
      [destruct (existsb _ _)|]; reflexivity.
Qed.

(** C4.  For a node that carries the identifier of a recognized option:
    a length below the expected size or a mask other than the expected one
    leaves the parse state as it was; the state changes only when the length
    is at least the expected size and the mask is the expected one; an
    option structure that passes both checks is recorded, and so is the
    legacy raw-addressing option when its length is exactly the expected
    one; and whatever the outcome the loop goes on to the next node. *)
Theorem parse_device_option_checks (d : gve_device_descriptor) (opt : Z)
    (st : parse_state) (k : dev_opt_kind) :
  option_id_at C d opt = opt_id C k ->
  let st' := gve_parse_device_option C d opt st in
  let len := option_length_at C d opt in
  let msk := required_features_mask_at C d opt in
  ((len < opt_expected_len C k \/ msk <> opt_expected_mask C k) -> st' = st) /\
  (st' <> st -> len >= opt_expected_len C k /\ msk = opt_expected_mask C k) /\
  (k <> OPT_GQI_RAW_ADDRESSING ->
   len >= opt_expected_len C k -> msk = opt_expected_mask C k ->
   opt_pointer k st'.2 = Some (opt + sizeof_device_option)) /\
  (k = OPT_GQI_RAW_ADDRESSING ->
   len = opt_expected_len C k -> msk = opt_expected_mask C k ->
   queue_format st'.1 = GVE_GQI_RDA_FORMAT) /\
  (forall n nx, gve_get_next_option C d opt = Some nx ->
     process_device_options_loop C (S n) d opt st =
     process_device_options_loop C n d nx st').
Proof.
  intros Hid st' len msk. subst st'.
  rewrite (parse_device_option_kind d opt st k Hid).
  pose proof (header_checks_true k (node_header C d opt)) as Hc.
  cbn [node_header fst snd] in Hc. fold len msk in Hc.
  destruct (header_checks C k (node_header C d opt)) eqn:E.
  - destruct (proj1 Hc eq_refl) as [Hlen Hmsk].
    assert (Hge : len >= opt_expected_len C k)
      by (destruct (decide _); lia).
    split; [intros [H|H]; [lia|congruence]|].
    split; [intros _; split; assumption|].
    split; [intros Hk _ _; apply accept_effect_pointer_same, Hk|].
    split; [intros -> _ _; reflexivity|].
    intros n nx Hnx. cbn [process_device_options_loop]. rewrite Hnx.
    rewrite (parse_device_option_kind d opt st k Hid), E. reflexivity.
  - split; [reflexivity|]. split; [congruence|].
    split.
    { intros Hk Hlen Hmsk. assert (false = true); [|discriminate].
      apply Hc. destruct (decide _); [congruence|]. split; assumption. }
    split.
    { intros Hk Hlen Hmsk. assert (false = true); [|discriminate].
      apply Hc. destruct (decide _); [|congruence]. split; assumption. }
    intros n nx Hnx. cbn [process_device_options_loop]. rewrite Hnx.
    rewrite (parse_device_option_kind d opt st k Hid), E. reflexivity.
Qed.

End OptionDispatch.

(** The hypotheses of [parse_device_option_checks] hold for the reference
    constants and the DQO-RDA node at the head of a chain: the node passes
    both checks and its option structure, eight bytes further on, is
    recorded. *)
Lemma parse_device_option_checks_witness :
  option_id_at gve_consts_default descriptor_dqo_first 40
    = opt_id gve_consts_default OPT_DQO_RDA /\
  dev_op_dqo_rda
    (gve_parse_device_option gve_consts_default descriptor_dqo_first 40
       (cfg_fresh, dev_ops_null)).2 = Some 48.
Proof.
  split; [vm_compute; reflexivity|].
  refine (proj1 (proj2 (proj2
            (parse_device_option_checks gve_consts_default _
               descriptor_dqo_first 40 (cfg_fresh, dev_ops_null) OPT_DQO_RDA _)))
            _ _ _).
  - apply (bool_decide_unpack _). vm_compute. exact I.
  - vm_compute. reflexivity.
  - discriminate.
  - vm_compute. discriminate.
  - vm_compute. reflexivity.
Defined.

(** ** Describe device *)

Section DescribeFacts.

Variable C : gve_consts.
Hypothesis Hwf : consts_wf C.

Lemma existsb_Permutation {A} (f : A -> bool) l l' :
  l ≡ₚ l' -> existsb f l = existsb f l'.
Proof.
  induction 1 as [|x l l' _ IH|x y l|l l' l'' _ IH1 _ IH2]; cbn [existsb].
  - reflexivity.
  - rewrite IH. reflexivity.
  - destruct (f x), (f y); reflexivity.
  - congruence.
Qed.

Lemma select_format_spec d ops priv :
  queue_format (describe_device_select_format C d ops priv).1 =
  format_by_priority (is_set (dev_op_dqo_rda ops)) (is_set (dev_op_dqo_qpl ops))
    (is_set (dev_op_gqi_rda ops))
    (bool_decide (queue_format priv = GVE_GQI_RDA_FORMAT)).
Proof.
  unfold describe_device_select_format, format_by_priority.
  destruct (dev_op_dqo_rda ops); [reflexivity|].
  destruct (dev_op_dqo_qpl ops); [reflexivity|].
  destruct (dev_op_gqi_rda ops); [reflexivity|]. cbn [is_set].
  destruct (decide (queue_format priv = GVE_GQI_RDA_FORMAT)) as [E|E].
  - rewrite (bool_decide_eq_true_2 _ E). exact E.
  - rewrite (bool_decide_eq_false_2 _ E). reflexivity.
Qed.

Ltac break_match :=
  repeat match goal with
  | |- context [match ?x with _ => _ end] => destruct x
  end.

Lemma set_desc_cnt_format d priv :
  queue_format (gve_set_desc_cnt C d priv).2 = queue_format priv.
Proof. unfold gve_set_desc_cnt. cbv zeta. break_match; reflexivity. Qed.

Lemma set_desc_cnt_dqo_format d p priv :
  queue_format (gve_set_desc_cnt_dqo C d p priv).2 = queue_format priv.
Proof. unfold gve_set_desc_cnt_dqo. cbv zeta. break_match; reflexivity. Qed.

Lemma enable_supported_features_format d m ops priv :
  queue_format (gve_enable_supported_features C d m ops priv) =
  queue_format priv.
Proof.
  unfold gve_enable_supported_features. cbv zeta.
  destruct (dev_op_jumbo_frames ops), (dev_op_buffer_sizes ops),
    (dev_op_flow_steering ops), (dev_op_dqo_qpl ops);
    break_match; reflexivity.
Qed.

(** Once the chain has been parsed, the rest of describe-device keeps the
    format that was selected, whether it goes on to succeed or not. *)
Lemma describe_device_apply_format d priv :
  (gve_process_device_options C d (priv, dev_ops_null)).1 = 0 ->
  queue_format (describe_device_apply C d priv).2 =
  queue_format
    (describe_device_select_format C d
       (gve_process_device_options C d (priv, dev_ops_null)).2.2
       (gve_process_device_options C d (priv, dev_ops_null)).2.1).1.
Proof.
  unfold describe_device_apply.
  destruct (gve_process_device_options C d (priv, dev_ops_null))
    as [err [p ops]]. cbn [fst snd]. intros ->. cbn [Z.eqb negb].
  destruct (describe_device_select_format C d ops p) as [p2 m]. cbn [fst].
  destruct (gve_is_gqi p2).
  - pose proof (set_desc_cnt_format d p2) as H.
    destruct (gve_set_desc_cnt C d p2) as [e p3]. cbn [snd] in H.
    destruct (negb (e =? 0)); [exact H|].
    destruct (desc_mtu d <? ETH_MIN_MTU); cbn [snd]; [exact H|].
    rewrite enable_supported_features_format.
    break_match; exact H.
  - pose proof (set_desc_cnt_dqo_format d (dev_op_dqo_rda ops)
                  (set_hw_features_ntuple true (set_hw_features_lro true p2)))
      as H.
    destruct (gve_set_desc_cnt_dqo C d _ _) as [e p3]. cbn [snd] in H.
    change (queue_format p3 = queue_format p2) in H.
    destruct (negb (e =? 0)); [exact H|].
    destruct (desc_mtu d <? ETH_MIN_MTU); cbn [snd]; [exact H|].
    rewrite enable_supported_features_format.
    break_match; exact H.
Qed.

Lemma process_ok_no_overrun d st :
  (gve_process_device_options C d st).1 = 0 ->
  first_overrun C d (sizeof_device_descriptor C)
    (Z.to_nat (desc_num_device_options d)) = None.
Proof.
  intros H. rewrite process_device_options_result in H.
  destruct (first_overrun _ _ _ _) as [k|]; [|reflexivity].
  discriminate H.
Qed.

(** What a describe-device call that returns zero has done to the
    configuration: it has applied the descriptor the device wrote. *)
Lemma describe_device_cfg pf p :
  (gve_adminq_describe_device pf C p).1 = 0 ->
  exists d,
    (describe_device_apply C d (cfg p)).1 = 0 /\
    cfg (gve_adminq_describe_device pf C p).2 =
    (describe_device_apply C d (cfg p)).2.
Proof.
  unfold gve_adminq_describe_device, bind, lift_aq, dma_alloc_coherent, ret.
  cbn [aq]. destruct (dma_alloc_ok pf (dma_requests (aq p)));
    [|cbn; unfold ENOMEM; discriminate].
  cbn [aq set_aq].
  destruct (gve_adminq_execute_cmd pf _ _) as [e a2]. cbn [fst snd].
  destruct (negb (e =? 0)) eqn:E.
  - cbn. intros ->. discriminate.
  - unfold gets, modify, bind, ret. cbn [aq cfg set_aq].
    set (d := descriptor_at pf (io_reads a2)).
    destruct (describe_device_apply C d (cfg p)) as [e2 c2] eqn:Ea.
    cbn. intros ->. exists d. rewrite Ea. split; reflexivity.
Qed.

(** The three ways a describe-device call can go: the allocation fails,
    the command fails, or the descriptor the device wrote is applied. *)
Lemma describe_device_result pf p :
  let res := gve_adminq_describe_device pf C p in
  let ex := describe_device_executed pf C p in
  let ap := describe_device_apply C (device_descriptor pf C p) (cfg p) in
  (dma_alloc_ok pf (dma_requests (aq p)) = false ->
   res.1 = - ENOMEM /\ cfg res.2 = cfg p) /\
  (dma_alloc_ok pf (dma_requests (aq p)) = true -> ex.1 <> 0 ->
   res.1 = ex.1 /\ cfg res.2 = cfg p) /\
  (dma_alloc_ok pf (dma_requests (aq p)) = true -> ex.1 = 0 ->
   res.1 = ap.1 /\ cfg res.2 = ap.2).
Proof.
  cbv zeta. unfold device_descriptor, describe_device_executed,
    describe_device_cmd, describe_device_ready, describe_device_bus.
  unfold gve_adminq_describe_device, bind, lift_aq, dma_alloc_coherent, ret.
  cbn [aq]. destruct (dma_alloc_ok pf (dma_requests (aq p))).
  2:{ cbn [fst snd cfg set_aq].
      split; [intros _; split; reflexivity|].
      split; intros H; discriminate H. }
  cbn [aq set_aq].
  destruct (gve_adminq_execute_cmd pf _ _) as [e a2]. cbn [fst snd].
  split; [intros H; discriminate H|].
  destruct (Z.eqb_spec e 0) as [He|He]; cbn [negb].
  - unfold gets, modify, bind, ret. cbn [aq cfg set_aq].
    destruct (describe_device_apply C (descriptor_at pf (io_reads a2)) (cfg p))
      as [e2 c2]. cbn [fst snd cfg set_aq set_cfg].
    split; [intros _ H; contradiction|]. intros _ _. split; reflexivity.
  - cbn [fst snd cfg set_aq].
    split; [intros _ _; split; reflexivity|]. intros _ H; contradiction.
Qed.

(** C5.  Once the option chain has been parsed, the queue format is the
    first of DQO-RDA, DQO-QPL and GQI-RDA that an accepted option of the
    chain advertises; failing those it is GQI-RDA when the legacy
    raw-addressing option was accepted or the format was GQI-RDA already,
    and GQI-QPL otherwise.  The format depends on the chain only through
    which kinds are advertised, so a chain with the same options in another
    order selects the same format; a chain that advertises DQO-RDA selects
    DQO-RDA whatever else it advertises.  [gve_adminq_describe_device]
    does this with the descriptor the device wrote: once its buffer is
    allocated and its command has passed, its result and the configuration
    it leaves are those of applying that descriptor, and the format is
    selected in this way whenever the chain stays within the descriptor,
    as it does in every call that returns zero. *)
Theorem describe_device_format_priority (d : gve_device_descriptor)
    (priv : gve_cfg) :
  first_overrun C d (sizeof_device_descriptor C)
    (Z.to_nat (desc_num_device_options d)) = None ->
  let selected (d : gve_device_descriptor) (priv : gve_cfg) :=
    format_by_priority
      (advertised C (chain_headers C d) OPT_DQO_RDA)
      (advertised C (chain_headers C d) OPT_DQO_QPL)
      (advertised C (chain_headers C d) OPT_GQI_RDA)
      (advertised C (chain_headers C d) OPT_GQI_RAW_ADDRESSING
       || bool_decide (queue_format priv = GVE_GQI_RDA_FORMAT)) in
  queue_format (describe_device_apply C d priv).2 = selected d priv /\
  (advertised C (chain_headers C d) OPT_DQO_RDA = true ->
   queue_format (describe_device_apply C d priv).2 = GVE_DQO_RDA_FORMAT) /\
  (forall d',
     first_overrun C d' (sizeof_device_descriptor C)
       (Z.to_nat (desc_num_device_options d')) = None ->
     chain_headers C d' ≡ₚ chain_headers C d ->
     queue_format (describe_device_apply C d' priv).2 =
     queue_format (describe_device_apply C d priv).2) /\
  (forall pf p,
     let res := gve_adminq_describe_device pf C p in
     let d0 := device_descriptor pf C p in
     (dma_alloc_ok pf (dma_requests (aq p)) = true ->
      (describe_device_executed pf C p).1 = 0 ->
      res.1 = (describe_device_apply C d0 (cfg p)).1 /\
      cfg res.2 = (describe_device_apply C d0 (cfg p)).2 /\
      (first_overrun C d0 (sizeof_device_descriptor C)
         (Z.to_nat (desc_num_device_options d0)) = None ->
       queue_format (cfg res.2) = selected d0 (cfg p) /\
       (advertised C (chain_headers C d0) OPT_DQO_RDA = true ->
        queue_format (cfg res.2) = GVE_DQO_RDA_FORMAT))) /\
     (res.1 = 0 ->
      dma_alloc_ok pf (dma_requests (aq p)) = true /\
      (describe_device_executed pf C p).1 = 0 /\
      first_overrun C d0 (sizeof_device_descriptor C)
        (Z.to_nat (desc_num_device_options d0)) = None /\
      queue_format (cfg res.2) = selected d0 (cfg p))).
Proof.
  assert (Hsel : forall d priv,
    first_overrun C d (sizeof_device_descriptor C)
      (Z.to_nat (desc_num_device_options d)) = None ->
    queue_format (describe_device_apply C d priv).2 =
    format_by_priority
      (advertised C (chain_headers C d) OPT_DQO_RDA)
      (advertised C (chain_headers C d) OPT_DQO_QPL)
      (advertised C (chain_headers C d) OPT_GQI_RDA)
      (advertised C (chain_headers C d) OPT_GQI_RAW_ADDRESSING
       || bool_decide (queue_format priv = GVE_GQI_RDA_FORMAT))).
  { clear d priv. intros d priv Hno.
    pose proof (process_device_options_result C d (priv, dev_ops_null)) as B.
    rewrite Hno in B.
    assert (Hr : (gve_process_device_options C d (priv, dev_ops_null)).1 = 0)
      by (rewrite B; reflexivity).
    assert (Hs : (gve_process_device_options C d (priv, dev_ops_null)).2 =
                 parse_nodes C d
                   (chain_nodes C d (Z.to_nat (desc_num_device_options d)))
                   (priv, dev_ops_null))
      by (rewrite B; reflexivity).
    rewrite describe_device_apply_format by exact Hr.
    rewrite select_format_spec, Hs.
    set (st' := parse_nodes C d _ _).
    change (dev_op_dqo_rda st'.2) with (opt_pointer OPT_DQO_RDA st'.2).
    change (dev_op_dqo_qpl st'.2) with (opt_pointer OPT_DQO_QPL st'.2).
    change (dev_op_gqi_rda st'.2) with (opt_pointer OPT_GQI_RDA st'.2).
    subst st'.
    rewrite !(parse_nodes_pointer C Hwf) by discriminate.
    rewrite (parse_nodes_format C Hwf).
    cbn [opt_pointer dev_ops_null snd fst is_set orb].
    fold (chain_headers C d).
    destruct (advertised C (chain_headers C d) OPT_GQI_RAW_ADDRESSING);
      cbn [orb]; [|reflexivity].
    rewrite bool_decide_eq_true_2 by reflexivity. reflexivity. }
  intros Hno selected. subst selected. cbv beta.
  split; [apply Hsel, Hno|].
  split.
  { intros Hadv. rewrite (Hsel d priv Hno), Hadv. reflexivity. }
  split.
  { intros d' Hno' Hperm. rewrite (Hsel d priv Hno), (Hsel d' priv Hno').
    unfold advertised. rewrite !(existsb_Permutation _ _ _ Hperm).
    reflexivity. }
  intros pf p. cbv zeta.
  destruct (describe_device_result pf p) as (Rfail & Rcmd & Rok).
  set (d0 := device_descriptor pf C p) in *.
  assert (Hno_of : (describe_device_apply C d0 (cfg p)).1 = 0 ->
            first_overrun C d0 (sizeof_device_descriptor C)
              (Z.to_nat (desc_num_device_options d0)) = None).
  { intros He. apply (process_ok_no_overrun d0 (cfg p, dev_ops_null)).
    revert He. unfold describe_device_apply.
    destruct (gve_process_device_options C d0 (cfg p, dev_ops_null))
      as [err [p1 ops]]. cbn [fst].
    destruct (Z.eqb_spec err 0) as [->|Hne]; [reflexivity|].
    cbn [negb fst]. intros ->. congruence. }
  split.
  - intros Ha Hx. destruct (Rok Ha Hx) as [R1 R2].
    split; [exact R1|]. split; [exact R2|].
    intros Hno0. rewrite R2.
    split; [apply Hsel, Hno0|].
    intros Hadv. rewrite (Hsel d0 (cfg p) Hno0), Hadv. reflexivity.
  - intros Hz.
    destruct (dma_alloc_ok pf (dma_requests (aq p))) eqn:Ha.
    2:{ destruct (Rfail eq_refl) as [R1 _]. rewrite R1 in Hz.
        discriminate Hz. }
    destruct (Z.eq_dec (describe_device_executed pf C p).1 0) as [Hx|Hx].
    2:{ destruct (Rcmd eq_refl Hx) as [R1 _]. congruence. }
    destruct (Rok eq_refl Hx) as [R1 R2].
    assert (Hno0 := Hno_of ltac:(congruence)).
    split; [reflexivity|]. split; [exact Hx|]. split; [exact Hno0|].
    rewrite R2. apply Hsel, Hno0.
Qed.

End DescribeFacts.

(** The hypotheses of [describe_device_format_priority] hold for the
    reference constants and a device that answers describe-device with a
    chain of a DQO-RDA and a GQI-QPL option: the call selects DQO-RDA. *)
Lemma describe_device_format_priority_witness :
  queue_format
    (cfg (gve_adminq_describe_device (pf_describe descriptor_dqo_first)
            gve_consts_default priv_fresh).2)
  = GVE_DQO_RDA_FORMAT.
Proof.
  assert (Hwf : consts_wf gve_consts_default)
    by (apply (bool_decide_unpack _); vm_compute; exact I).
  assert (Hno : first_overrun gve_consts_default descriptor_dqo_first
                  (sizeof_device_descriptor gve_consts_default)
                  (Z.to_nat (desc_num_device_options descriptor_dqo_first))
                = None) by (vm_compute; reflexivity).
  destruct (describe_device_format_priority gve_consts_default Hwf
              descriptor_dqo_first cfg_fresh Hno) as (_ & _ & _ & T).
  destruct (T (pf_describe descriptor_dqo_first) priv_fresh) as [T1 _].
  destruct (T1 ltac:(reflexivity) ltac:(vm_compute; reflexivity))
    as (_ & _ & T2).
  destruct (T2 ltac:(vm_compute; reflexivity)) as [_ T3].
  apply T3. vm_compute. reflexivity.
Defined.

(** The two orders of the same two options, through the whole call. *)
Lemma describe_device_both_orders :
  let out1 := gve_adminq_describe_device (pf_describe descriptor_dqo_first)
                gve_consts_default priv_fresh in
  let out2 := gve_adminq_describe_device (pf_describe descriptor_gqi_first)
                gve_consts_default priv_fresh in
  out1.1 = 0 /\ queue_format (cfg out1.2) = GVE_DQO_RDA_FORMAT /\
  out2.1 = 0 /\ queue_format (cfg out2.2) = GVE_DQO_RDA_FORMAT /\
  dma_live (aq out1.2) = ∅.
Proof. vm_compute. repeat split; reflexivity. Qed.

(** ** Buffer sizes *)

Lemma land_pred_power_of_two v :
  0 < v -> (Z.land v (v - 1) = 0 <-> is_power_of_two v).
Proof.
  intros Hv. split.
  - intros Hl. exists (Z.log2 v). split; [apply Z.log2_nonneg|].
    destruct (Z.log2_spec v Hv) as [Hlo Hhi].
    destruct (Z.eq_dec v (2 ^ Z.log2 v)) as [|Hne]; [assumption|exfalso].
    assert (Hk : Z.log2 (v - 1) = Z.log2 v).
    { apply Z.log2_unique; [apply Z.log2_nonneg|]. lia. }
    assert (Hb1 : Z.testbit v (Z.log2 v) = true) by (apply Z.bit_log2, Hv).
    assert (Hb2 : Z.testbit (v - 1) (Z.log2 v) = true).
    { rewrite <- Hk. apply Z.bit_log2.
      pose proof (Z.pow_pos_nonneg 2 (Z.log2 v) ltac:(lia) (Z.log2_nonneg v)).
      lia. }
    assert (Hb : Z.testbit (Z.land v (v - 1)) (Z.log2 v) = true)
      by (rewrite Z.land_spec, Hb1, Hb2; reflexivity).
    rewrite Hl, Z.bits_0 in Hb. discriminate.
  - intros (k & Hk & ->).
    replace (2 ^ k - 1) with (Z.ones k) by (rewrite Z.ones_equiv; lia).
    rewrite Z.land_ones by exact Hk. apply Z_mod_same_full.
Qed.

Lemma sanitize_buf_size_spec v dflt lo hi :
  0 < v ->
  (is_power_of_two v -> sanitize_buf_size v dflt lo hi = clamp v lo hi) /\
  (~ is_power_of_two v -> sanitize_buf_size v dflt lo hi = clamp dflt lo hi).
Proof.
  intros Hv. pose proof (land_pred_power_of_two v Hv) as Hp.
  unfold sanitize_buf_size, clamp. cbv zeta.
  destruct (Z.eqb_spec (Z.land v (v - 1)) 0) as [E|E]; cbn [negb].
  - split; [intros _|intros Hn; exfalso; apply Hn, Hp, E].
    destruct (Z.ltb_spec v lo);
      [destruct (Z.gtb_spec lo hi)|destruct (Z.gtb_spec v hi)]; lia.
  - split; [intros Hy; exfalso; apply E, Hp, Hy|intros _].
    destruct (Z.ltb_spec dflt lo);
      [destruct (Z.gtb_spec lo hi)|destruct (Z.gtb_spec dflt hi)]; lia.
Qed.

Section BufferSizes.

Variable C : gve_consts.

Lemma desc_byte_range d off : 0 <= desc_byte C d off < 256.
Proof.
  unfold desc_byte. destruct (off <? _); [lia|].
  apply Z.mod_pos_bound. lia.
Qed.

Lemma be16_at_range d off : 0 <= be16_at C d off < 65536.
Proof.
  unfold be16_at.
  pose proof (desc_byte_range d off). pose proof (desc_byte_range d (off + 1)).
  lia.
Qed.

(** C8, as the code has it.  When the buffer-sizes option is applied, each
    declared size is handled on its own: zero leaves the value set just
    before (the DQO default for the packet buffer, zero for the header
    buffer); a power of two is kept if it lies in the range and otherwise
    moved to the bound it is beyond; any other value is replaced by the
    fixed default, brought into the range in the same way.  The function
    has no failure path. *)
Theorem buffer_sizes_sanitized (d : gve_device_descriptor) (m : Z)
    (ops : dev_ops) (priv : gve_cfg) (p : Z) :
  dev_op_buffer_sizes ops = Some p ->
  Z.land m (GVE_SUP_BUFFER_SIZES_MASK C) <> 0 ->
  let priv' := gve_enable_supported_features C d m ops priv in
  let pkt := be16_at C d (p + off_buffer_sizes_packet_buffer_size C) in
  let hdr := be16_at C d (p + off_buffer_sizes_header_buffer_size C) in
  (pkt = 0 -> dev_max_rx_buffer_size priv' = GVE_RX_BUFFER_SIZE_DQO C) /\
  (is_power_of_two pkt ->
   dev_max_rx_buffer_size priv' =
   clamp pkt (GVE_MIN_RX_BUFFER_SIZE C) (GVE_MAX_RX_BUFFER_SIZE C)) /\
  (pkt <> 0 -> ~ is_power_of_two pkt ->
   dev_max_rx_buffer_size priv' =
   clamp (GVE_RX_BUFFER_SIZE_DQO C)
     (GVE_MIN_RX_BUFFER_SIZE C) (GVE_MAX_RX_BUFFER_SIZE C)) /\
  (hdr = 0 -> header_buf_size priv' = 0) /\
  (is_power_of_two hdr ->
   header_buf_size priv' =
   clamp hdr (GVE_HEADER_BUFFER_SIZE_MIN C) (GVE_HEADER_BUFFER_SIZE_MAX C)) /\
  (hdr <> 0 -> ~ is_power_of_two hdr ->
   header_buf_size priv' =
   clamp (GVE_HEADER_BUFFER_SIZE_DEFAULT C)
     (GVE_HEADER_BUFFER_SIZE_MIN C) (GVE_HEADER_BUFFER_SIZE_MAX C)).
Proof.
  intros Hp Hm priv' pkt hdr.
  assert (Hpow0 : forall v, is_power_of_two v -> 0 < v).
  { intros v (k & Hk & ->). apply Z.pow_pos_nonneg; lia. }
  assert (Hpkt : dev_max_rx_buffer_size priv' =
                 if pkt =? 0 then GVE_RX_BUFFER_SIZE_DQO C
                 else sanitize_buf_size pkt (GVE_RX_BUFFER_SIZE_DQO C)
                        (GVE_MIN_RX_BUFFER_SIZE C) (GVE_MAX_RX_BUFFER_SIZE C)).
  { subst priv'. unfold gve_enable_supported_features. cbv zeta.
    rewrite Hp. apply Z.eqb_neq in Hm. rewrite Hm. cbn [negb]. fold pkt hdr.
    destruct (dev_op_jumbo_frames ops), (dev_op_flow_steering ops),
      (dev_op_dqo_qpl ops), (pkt =? 0), (hdr =? 0); cbn [negb];
      repeat match goal with
      | |- context [if ?b then _ else _] => destruct b
      end; reflexivity. }
  assert (Hhdr : header_buf_size priv' =
                 if hdr =? 0 then 0
                 else sanitize_buf_size hdr (GVE_HEADER_BUFFER_SIZE_DEFAULT C)
                        (GVE_HEADER_BUFFER_SIZE_MIN C)
                        (GVE_HEADER_BUFFER_SIZE_MAX C)).
  { subst priv'. unfold gve_enable_supported_features. cbv zeta.
    rewrite Hp. apply Z.eqb_neq in Hm. rewrite Hm. cbn [negb]. fold pkt hdr.
    destruct (dev_op_jumbo_frames ops), (dev_op_flow_steering ops),
      (dev_op_dqo_qpl ops), (pkt =? 0), (hdr =? 0); cbn [negb];
      repeat match goal with
      | |- context [if ?b then _ else _] => destruct b
      end; reflexivity. }
  pose proof (be16_at_range d (p + off_buffer_sizes_packet_buffer_size C)) as R1.
  pose proof (be16_at_range d (p + off_buffer_sizes_header_buffer_size C)) as R2.
  fold pkt in R1. fold hdr in R2.
  rewrite Hpkt, Hhdr.
  split; [intros ->; reflexivity|].
  split.
  { intros Hy. pose proof (Hpow0 _ Hy) as H0.
    destruct (Z.eqb_spec pkt 0); [lia|].
    apply sanitize_buf_size_spec; assumption. }
  split.
  { intros Hne Hn. destruct (Z.eqb_spec pkt 0); [lia|].
    apply sanitize_buf_size_spec; [lia|assumption]. }
  split; [intros ->; reflexivity|].
  split.
  { intros Hy. pose proof (Hpow0 _ Hy) as H0.
    destruct (Z.eqb_spec hdr 0); [lia|].
    apply sanitize_buf_size_spec; assumption. }
  intros Hne Hn. destruct (Z.eqb_spec hdr 0); [lia|].
  apply sanitize_buf_size_spec; [lia|assumption].
Qed.

End BufferSizes.

(** The hypotheses of [buffer_sizes_sanitized] hold for the reference
    constants and a buffer-sizes option that declares 8192 and 32. *)
Lemma buffer_sizes_sanitized_witness :
  dev_max_rx_buffer_size
    (gve_enable_supported_features gve_consts_default descriptor_buffer_sizes
       16 ops_buffer_sizes cfg_fresh) = 4096.
Proof.
  refine (proj1 (proj2 (buffer_sizes_sanitized gve_consts_default
                          descriptor_buffer_sizes 16 ops_buffer_sizes
                          cfg_fresh 64 _ _)) _).
  - reflexivity.
  - vm_compute. discriminate.
  - exists 13. split; [lia|]. vm_compute. reflexivity.
Defined.

(** C8, as stated, fails for a power of two outside the range.  The device
    declares a packet buffer of 8192 bytes and a header buffer of 32 bytes.
    Describe-device succeeds; the packet buffer size becomes the upper bound
    4096 and the header buffer size the lower bound 64, neither of which is
    the fixed default (2048 and 128). *)
Lemma buffer_sizes_counterexample :
  let out := gve_adminq_describe_device (pf_describe descriptor_buffer_sizes)
               gve_consts_default priv_fresh in
  be16_at gve_consts_default descriptor_buffer_sizes 68 = 8192 /\
  be16_at gve_consts_default descriptor_buffer_sizes 70 = 32 /\
  out.1 = 0 /\
  dev_max_rx_buffer_size (cfg out.2) = 4096 /\
  GVE_RX_BUFFER_SIZE_DQO gve_consts_default = 2048 /\
  header_buf_size (cfg out.2) = 64 /\
  GVE_HEADER_BUFFER_SIZE_DEFAULT gve_consts_default = 128.
Proof. vm_compute. repeat split; reflexivity. Qed.

(** ** Side buffers *)

Section SideBuffers.

Variable pf : platform.

Lemma kick_and_wait_dma a :
  dma_live (gve_adminq_kick_and_wait pf a).2 = dma_live a.
Proof.
  rewrite kick_and_wait_unfold. cbv zeta.
  set (a1 := (ioread32be_event_counter pf a).2).
  set (a2 := set_reg_doorbell _ a1).
  pose proof (wait_for_cmd_loop_spec pf GVE_MAX_ADMINQ_EVENT_COUNTER_CHECK
                (adminq_prod_cnt a) a2) as Hw.
  cbv zeta in Hw. destruct Hw as ((_&_&_&_&_&_&Hd&_) & _).
  set (w := wait_for_cmd_loop pf _ _ a2) in *.
  change (dma_live a2) with (dma_live a) in Hd.
  destruct (w.1).
  - destruct (kick_and_wait_check_spec (seqZ (u32 (event_counter_at pf (io_reads a)))
                (adminq_prod_cnt a - u32 (event_counter_at pf (io_reads a)))) w.2)
      as (_ & Hs).
    rewrite Hs. destruct (first_failed _) as [st|];
      [destruct (status_counts_as_failure st)|]; exact Hd.
  - exact Hd.
Qed.

Lemma issue_cmd_write_dma cmd a :
  dma_live (issue_cmd_write cmd a).2 = dma_live a.
Proof.
  unfold issue_cmd_write, bind, gets, modify, adminq_slot, bump_opcode_cnt, ret.
  cbv zeta. simpl.
  match goal with
  | |- context [opcode_is_counted ?o] => destruct (opcode_is_counted o)
  end; reflexivity.
Qed.

Lemma issue_cmd_dma cmd a :
  dma_live (gve_adminq_issue_cmd pf cmd a).2 = dma_live a.
Proof.
  rewrite issue_cmd_unfold. cbv zeta.
  destruct (ring_full _).
  - pose proof (kick_and_wait_dma (ioread32be_event_counter pf a).2) as Hk.
    change (dma_live (ioread32be_event_counter pf a).2) with (dma_live a) in Hk.
    destruct (negb _); [exact Hk|].
    destruct (ring_full _); [exact Hk|].
    rewrite issue_cmd_write_dma. exact Hk.
  - rewrite issue_cmd_write_dma. reflexivity.
Qed.

Lemma execute_cmd_dma cmd a :
  dma_live (gve_adminq_execute_cmd pf cmd a).2 = dma_live a.
Proof.
  unfold gve_adminq_execute_cmd, bind, gets, ret.
  change (ioread32be_event_counter pf a) with
    (u32 (event_counter_at pf (io_reads a)), (ioread32be_event_counter pf a).2).
  cbv beta iota.
  destruct (negb _); [reflexivity|].
  pose proof (issue_cmd_dma cmd (ioread32be_event_counter pf a).2) as Hi.
  change (dma_live (ioread32be_event_counter pf a).2) with (dma_live a) in Hi.
  destruct (gve_adminq_issue_cmd pf cmd _) as [e a2]. cbn [snd] in Hi.
  destruct (negb _); [exact Hi|].
  rewrite kick_and_wait_dma. exact Hi.
Qed.

Lemma fresh_bus_address_unused (live : gmap Z dma_buffer) :
  live !! fresh ({[0]} ∪ dom live) = None.
Proof.
  apply not_elem_of_dom.
  pose proof (is_fresh ({[0]} ∪ dom live)) as H. set_solver.
Qed.

Lemma alloc_store_free (live : gmap Z dma_buffer) h b f :
  live !! h = None -> delete h (alter f h (<[h := b]> live)) = live.
Proof.
  intros Hn. apply map_eq. intros i.
  destruct (decide (i = h)) as [->|Hne].
  - rewrite lookup_delete_eq. symmetry. exact Hn.
  - rewrite lookup_delete_ne, lookup_alter_ne, lookup_insert_ne by congruence.
    reflexivity.
Qed.

Lemma extended_cmd_frees op size content a :
  dma_live (gve_adminq_execute_extended_cmd pf op size content a).2 = dma_live a.
Proof.
  unfold gve_adminq_execute_extended_cmd, bind, dma_alloc_coherent, ret.
  destruct (dma_alloc_ok pf (dma_requests a)); [|reflexivity].
  unfold dma_store, dma_free_coherent, modify. cbv beta iota.
  set (h := fresh ({[0]} ∪ dom (dma_live a))).
  match goal with
  | |- context [gve_adminq_execute_cmd pf ?c ?s] =>
      pose proof (execute_cmd_dma c s) as He;
      destruct (gve_adminq_execute_cmd pf c s) as [e a2]
  end.
  cbn [snd dma_live set_dma set_dma_requested] in He |- *. rewrite He.
  apply alloc_store_free, fresh_bus_address_unused.
Qed.

Lemma alloc_live size a :
  let r := dma_alloc_coherent pf size a in
  match r.1 with
  | Some h =>
      dma_live a !! h = None /\
      dma_live r.2 = <[h := {| dma_size := size; dma_data := dma_uninit |}]>
                       (dma_live a)
  | None => dma_live r.2 = dma_live a
  end.
Proof.
  unfold dma_alloc_coherent. cbv zeta.
  destruct (dma_alloc_ok pf (dma_requests a)); cbn [fst snd];
    [|reflexivity].
  split; [apply fresh_bus_address_unused|reflexivity].
Qed.

Lemma rss_frees C rss_config a :
  dma_live (gve_adminq_configure_rss pf C rss_config a).2 = dma_live a.
Proof.
  unfold gve_adminq_configure_rss, configure_rss_body, bind, ret.
  destruct (negb (indir_size rss_config =? 0)).
  - pose proof (alloc_live (indir_size rss_config * sizeof_indir_entry) a) as H1.
    cbv zeta in H1.
    destruct (dma_alloc_coherent pf _ a) as [[h1|] a1]; cbn [fst snd] in H1;
      [|exact H1].
    destruct H1 as [Hn1 Hl1].
    unfold dma_store at 1. unfold modify at 1. cbv beta iota.
    set (a1' := set_dma _ a1).
    assert (Hl1' : dma_live a1' =
                   alter (fun b => {| dma_size := dma_size b;
                      dma_data := dma_words (array_prefix (indir_size rss_config)
                                               (indir rss_config)) |}) h1
                     (<[h1 := {| dma_size := indir_size rss_config * sizeof_indir_entry;
                                 dma_data := dma_uninit |}]> (dma_live a)))
      by (subst a1'; cbn [dma_live set_dma]; rewrite Hl1; reflexivity).
    destruct (negb (key_size rss_config =? 0)).
    + pose proof (alloc_live (key_size rss_config * sizeof_key_entry) a1') as H2.
      cbv zeta in H2.
      destruct (dma_alloc_coherent pf _ a1') as [[h2|] a2]; cbn [fst snd] in H2.
      * destruct H2 as [Hn2 Hl2].
        unfold dma_store, dma_free_coherent, modify. cbv beta iota.
        match goal with
        | |- context [gve_adminq_execute_cmd pf ?c ?s] =>
            pose proof (execute_cmd_dma c s) as He;
            destruct (gve_adminq_execute_cmd pf c s) as [e a3]
        end.
        cbn [snd dma_live set_dma] in He |- *. rewrite He, Hl2.
        rewrite delete_delete, alloc_store_free by exact Hn2.
        rewrite Hl1'. apply alloc_store_free, Hn1.
      * unfold dma_free_coherent, modify. cbn [snd dma_live set_dma].
        rewrite H2, Hl1'. apply alloc_store_free, Hn1.
    + unfold dma_free_coherent, modify. cbv beta iota.
      match goal with
      | |- context [gve_adminq_execute_cmd pf ?c ?s] =>
          pose proof (execute_cmd_dma c s) as He;
          destruct (gve_adminq_execute_cmd pf c s) as [e a3]
      end.
      cbn [snd dma_live set_dma] in He |- *. rewrite He, Hl1'.
      apply alloc_store_free, Hn1.
  - cbv beta iota.
    destruct (negb (key_size rss_config =? 0)).
    + pose proof (alloc_live (key_size rss_config * sizeof_key_entry) a) as H2.
      cbv zeta in H2.
      destruct (dma_alloc_coherent pf _ a) as [[h2|] a2]; cbn [fst snd] in H2;
        [|exact H2].
      destruct H2 as [Hn2 Hl2].
      unfold dma_store, dma_free_coherent, modify. cbv beta iota.
      match goal with
      | |- context [gve_adminq_execute_cmd pf ?c ?s] =>
          pose proof (execute_cmd_dma c s) as He;
          destruct (gve_adminq_execute_cmd pf c s) as [e a3]
      end.
      cbn [snd dma_live set_dma] in He |- *. rewrite He, Hl2.
      apply alloc_store_free, Hn2.
    + cbv beta iota.
      match goal with
      | |- context [gve_adminq_execute_cmd pf ?c ?s] =>
          pose proof (execute_cmd_dma c s) as He;
          destruct (gve_adminq_execute_cmd pf c s) as [e a3]
      end.
      exact He.
Qed.

(** C9.  Whatever the allocator and the device do, the coherent buffers
    that are live when an extended command or an RSS configuration returns
    are exactly those that were live when it was called: every buffer the
    call allocated has been freed, on the paths where an allocation fails,
    where the command fails and where it succeeds. *)
Theorem side_buffers_freed (C : gve_consts) (a : gve_adminq_priv) :
  (forall op size content,
     dma_live (gve_adminq_execute_extended_cmd pf op size content a).2
     = dma_live a) /\
  (forall rss_config,
     dma_live (gve_adminq_configure_rss pf C rss_config a).2 = dma_live a).
Proof.
  split; [intros; apply extended_cmd_frees|intros; apply rss_frees].
Qed.

End SideBuffers.

(** ** The flow-rule directory *)

Section FlowRuleLists.

Lemma find_flow_rule_none rules l :
  gve_find_flow_rule_by_loc rules l = None <->
  (forall r, r ∈ rules -> loc r <> l).
Proof.
  induction rules as [|r0 rules IH]; cbn [gve_find_flow_rule_by_loc].
  - split; [intros _ r Hr; inversion Hr|reflexivity].
  - destruct (Z.eqb_spec (loc r0) l) as [E|E].
    + split; [discriminate|]. intros H. exfalso. apply (H r0); [left|exact E].
    + destruct (gve_find_flow_rule_by_loc rules l) as [i|]; cbn.
      * split; [discriminate|]. intros H.
        assert (Some i = None); [|discriminate].
        apply IH. intros r Hr. apply H. right. exact Hr.
      * split; [|reflexivity]. intros _ r Hr.
        apply elem_of_cons in Hr as [->|Hr]; [exact E|].
        apply (proj1 IH eq_refl), Hr.
Qed.

Lemma find_flow_rule_some rules l i :
  gve_find_flow_rule_by_loc rules l = Some i ->
  exists r, rules !! i = Some r /\ loc r = l.
Proof.
  revert i. induction rules as [|r0 rules IH]; intros i;
    cbn [gve_find_flow_rule_by_loc]; [discriminate|].
  destruct (Z.eqb_spec (loc r0) l) as [E|E].
  - intros [= <-]. exists r0. split; [reflexivity|exact E].
  - destruct (gve_find_flow_rule_by_loc rules l) as [j|]; cbn; [|discriminate].
    intros [= <-]. destruct (IH j eq_refl) as (r & Hr & Hl).
    exists r. split; assumption.
Qed.

Lemma dup_rule_spec rules rule :
  gve_flow_rule_is_dup_rule rules rule = true <->
  exists r, r ∈ rules /\ same_match r rule.
Proof.
  unfold same_match.
  induction rules as [|r0 rules IH]; cbn [gve_flow_rule_is_dup_rule].
  - split; [discriminate|]. intros (r & Hr & _). inversion Hr.
  - destruct (decide (flow_type r0 = flow_type rule)) as [Ef|Ef].
    + rewrite (bool_decide_eq_true_2 _ Ef). cbn [negb].
      destruct (decide (key r0 = key rule)) as [Ek|Ek];
        [rewrite (bool_decide_eq_true_2 _ Ek)
        |rewrite (bool_decide_eq_false_2 _ Ek)]; cbn [andb].
      * destruct (decide (mask r0 = mask rule)) as [Em|Em];
          [rewrite (bool_decide_eq_true_2 _ Em)
          |rewrite (bool_decide_eq_false_2 _ Em)].
        -- split; [|reflexivity]. intros _. exists r0. split; [left|auto].
        -- rewrite IH. split.
           ++ intros (r & Hr & H). exists r. split; [right; exact Hr|exact H].
           ++ intros (r & Hr & H). apply elem_of_cons in Hr as [->|Hr];
                [destruct H as (_&_&H); congruence|]. exists r. auto.
      * rewrite IH. split.
        -- intros (r & Hr & H). exists r. split; [right; exact Hr|exact H].
        -- intros (r & Hr & H). apply elem_of_cons in Hr as [->|Hr];
             [destruct H as (_&H&_); congruence|]. exists r. auto.
    + rewrite (bool_decide_eq_false_2 _ Ef). cbn [negb]. rewrite IH. split.
      * intros (r & Hr & H). exists r. split; [right; exact Hr|exact H].
      * intros (r & Hr & H). apply elem_of_cons in Hr as [->|Hr];
          [destruct H as (H&_&_); congruence|]. exists r. auto.
Qed.

Lemma Forall_insert_at {A} (P : A -> Prop) n x (l : list A) :
  Forall P (take n l ++ x :: drop n l) <-> P x /\ Forall P l.
Proof.
  rewrite Forall_app, Forall_cons.
  pose proof (Forall_app P (take n l) (drop n l)) as H.
  rewrite take_drop in H. tauto.
Qed.

(** The list stays strictly ascending when a rule with a new location is
    put where the scan stops. *)
Lemma add_rule_sorted rules rule :
  rules_sorted rules ->
  (forall r, r ∈ rules -> loc r <> loc rule) ->
  rules_sorted (take (add_rule_scan rules rule) rules
                ++ rule :: drop (add_rule_scan rules rule) rules).
Proof.
  unfold rules_sorted.
  induction rules as [|tmp rest IH]; intros Hs Hne; cbn [add_rule_scan].
  - cbn. apply StronglySorted_cons. split; constructor.
  - apply StronglySorted_cons in Hs as [Hall Hs].
    assert (Htmp : loc tmp <> loc rule) by (apply Hne; left).
    destruct (Z.geb_spec (loc tmp) (loc rule)) as [Hge|Hlt].
    + cbn [take drop app]. apply StronglySorted_cons. split.
      * apply Forall_cons. split; [unfold loc_lt; lia|].
        eapply Forall_impl; [exact Hall|]. unfold loc_lt. intros r Hr. lia.
      * apply StronglySorted_cons. split; assumption.
    + cbn [take drop app]. apply StronglySorted_cons. split.
      * apply Forall_insert_at. split; [exact Hlt|exact Hall].
      * apply IH; [exact Hs|]. intros r Hr. apply Hne. right. exact Hr.
Qed.

Lemma delete_rule_sorted rules i :
  rules_sorted rules -> rules_sorted (delete i rules).
Proof.
  unfold rules_sorted. revert i.
  induction rules as [|r rest IH]; intros i Hs; [destruct i; exact Hs|].
  apply StronglySorted_cons in Hs as [Hall Hs].
  destruct i as [|i]; cbn [delete list_delete]; [exact Hs|].
  apply StronglySorted_cons. split; [apply Forall_delete, Hall|apply IH, Hs].
Qed.

Lemma length_insert_at {A} n x (l : list A) :
  length (take n l ++ x :: drop n l) = S (length l).
Proof.
  rewrite length_app. cbn [length]. rewrite Nat.add_succ_r, <- length_app.
  rewrite take_drop. reflexivity.
Qed.

End FlowRuleLists.

Section FlowRuleFacts.

Variable pf : platform.
Variable C : gve_consts.

(** A transport call leaves the directory and the configuration alone. *)
Lemma lift_aq_frame {A} (m : M A) p :
  cfg (lift_aq m p).2 = cfg p /\
  flow_rules (lift_aq m p).2 = flow_rules p /\
  flow_rules_cnt (lift_aq m p).2 = flow_rules_cnt p /\
  (lift_aq m p).1 = (m (aq p)).1.
Proof. unfold lift_aq. destruct (m (aq p)). repeat split. Qed.

Lemma add_flow_rule_unfold cmd p :
  gve_add_flow_rule pf C cmd p =
  let fsp := fs cmd in
  if flow_rules_max (cfg p) =? 0 then (- EOPNOTSUPP, p)
  else if flow_rules_cnt p >=? flow_rules_max (cfg p) then (- ENOSPC, p)
  else
    match gve_find_flow_rule_by_loc (flow_rules p) (u16 (location fsp)) with
    | Some _ => (- EEXIST, p)
    | None =>
        let p1 := set_kvzalloc_requested p in
        if kvzalloc_ok pf (kvzalloc_requests p) then
          let info := gve_add_flow_rule_info p fsp flow_rule_zero in
          if negb (info.1 =? 0) then (info.1, p1)
          else
            let dev := gve_adminq_add_flow_rule pf C info.2 (aq p) in
            if negb (dev.1 =? 0) then (dev.1, set_aq dev.2 p1)
            else
              let n := add_rule_scan (flow_rules p) info.2 in
              (dev.1,
               set_flow_rules_cnt
                 ((flow_rules_cnt p + 1) mod flow_rules_cnt_modulus C)
                 (set_flow_rules
                    (take n (flow_rules p) ++ info.2 :: drop n (flow_rules p))
                    (set_aq dev.2 p1)))
        else (- ENOMEM, p1)
    end.
Proof.
  unfold gve_add_flow_rule, bind, gets, ret, kvzalloc_rule. cbv zeta.
  destruct (flow_rules_max (cfg p) =? 0); [reflexivity|].
  destruct (flow_rules_cnt p >=? flow_rules_max (cfg p)); [reflexivity|].
  destruct (gve_find_flow_rule_by_loc _ _); [reflexivity|].
  destruct (kvzalloc_ok pf (kvzalloc_requests p)); [|reflexivity].
  cbv beta iota. unfold id.
  change (gve_add_flow_rule_info (set_kvzalloc_requested p))
    with (gve_add_flow_rule_info p).
  destruct (gve_add_flow_rule_info p (fs cmd) flow_rule_zero) as [e rule].
  cbn [fst snd]. destruct (negb (e =? 0)); [reflexivity|].
  unfold lift_aq. cbn [aq set_kvzalloc_requested].
  destruct (gve_adminq_add_flow_rule pf C rule (aq p)) as [e2 a2].
  cbn [fst snd]. destruct (negb (e2 =? 0)); reflexivity.
Qed.

Lemma del_flow_rule_unfold cmd p :
  gve_del_flow_rule pf C cmd p =
  let fsp := fs cmd in
  if flow_rules_max (cfg p) =? 0 then (- EOPNOTSUPP, p)
  else
    match gve_find_flow_rule_by_loc (flow_rules p) (u16 (location fsp)) with
    | None => (- EINVAL, p)
    | Some rule =>
        let dev := gve_adminq_del_flow_rule pf C (location fsp) (aq p) in
        if negb (dev.1 =? 0) then (dev.1, set_aq dev.2 p)
        else
          (dev.1,
           set_flow_rules_cnt
             ((flow_rules_cnt p - 1) mod flow_rules_cnt_modulus C)
             (set_flow_rules (delete rule (flow_rules p)) (set_aq dev.2 p)))
    end.
Proof.
  unfold gve_del_flow_rule, bind, gets, ret. cbv zeta.
  destruct (flow_rules_max (cfg p) =? 0); [reflexivity|].
  destruct (gve_find_flow_rule_by_loc _ _); [|reflexivity].
  unfold lift_aq.
  destruct (gve_adminq_del_flow_rule pf C _ (aq p)) as [e2 a2].
  cbn [fst snd]. destruct (negb (e2 =? 0)); reflexivity.
Qed.

Lemma add_flow_rule_info_valid p fsp :
  request_valid p fsp = true ->
  (gve_add_flow_rule_info p fsp flow_rule_zero).1 =
  if gve_flow_rule_is_dup_rule (flow_rules p) (requested_rule p fsp)
  then - EEXIST else 0.
Proof.
  unfold request_valid, requested_rule, gve_add_flow_rule_info.
  intros H. apply andb_true_iff in H as [H Hft].
  apply andb_true_iff in H as [Hdisc Hq].
  apply negb_true_iff in Hdisc. rewrite Hdisc.
  apply Z.ltb_lt in Hq.
  destruct (Z.geb_spec (u32 (ring_cookie fsp)) (u32 (rx_cfg_num_queues (cfg p))))
    as [Hge|_]; [lia|].
  apply bool_decide_eq_true in Hft. destruct Hft as [ft Hft].
  cbv zeta. rewrite Hft.
  set (r := add_flow_rule_info_specs ft fsp _).
  destruct (gve_flow_rule_is_dup_rule (flow_rules p) r) eqn:E;
    cbn [fst snd]; rewrite E; reflexivity.
Qed.

(** The order of the checks of an add request and the outcome of each. *)
Lemma add_flow_rule_order (cmd : ethtool_rxnfc) (p : gve_priv) :
  let res := gve_add_flow_rule pf C cmd p in
  let fsp := fs cmd in
  let max := flow_rules_max (cfg p) in
  let rule := requested_rule p fsp in
  let n := add_rule_scan (flow_rules p) rule in
  (max = 0 -> res.1 = - EOPNOTSUPP) /\
  (max <> 0 -> flow_rules_cnt p >= max -> res.1 = - ENOSPC) /\
  (max <> 0 -> flow_rules_cnt p < max ->
   0 <= location fsp < 2 ^ 16 -> loc_occupied p (location fsp) ->
   res.1 = - EEXIST) /\
  (max <> 0 -> flow_rules_cnt p < max ->
   0 <= location fsp < 2 ^ 16 -> ~ loc_occupied p (location fsp) ->
   kvzalloc_ok pf (kvzalloc_requests p) = true ->
   request_valid p fsp = true ->
   (exists r, r ∈ flow_rules p /\ same_match r rule) ->
   res.1 = - EEXIST) /\
  (res.1 <> 0 ->
   flow_rules res.2 = flow_rules p /\ flow_rules_cnt res.2 = flow_rules_cnt p) /\
  (res.1 = 0 ->
   (gve_adminq_add_flow_rule pf C rule (aq p)).1 = 0 /\
   flow_rules res.2 = take n (flow_rules p) ++ rule :: drop n (flow_rules p) /\
   flow_rules_cnt res.2 = (flow_rules_cnt p + 1) mod flow_rules_cnt_modulus C).
Proof.
  intros res fsp max rule n. subst res. rewrite add_flow_rule_unfold.
  cbv zeta. fold fsp max.
  assert (Hu16 : 0 <= location fsp < 2 ^ 16 -> u16 (location fsp) = location fsp)
    by (intros H; unfold u16; apply Z.mod_small; exact H).
  destruct (Z.eqb_spec max 0) as [Hmax|Hmax].
  { cbn [fst snd].
    split; [reflexivity|]. split; [congruence|]. split; [congruence|].
    split; [congruence|].
    split; [intros _; split; reflexivity|intros H; discriminate H]. }
  destruct (Z.geb_spec (flow_rules_cnt p) max) as [Hcnt|Hcnt].
  { cbn [fst snd].
    split; [congruence|]. split; [reflexivity|]. split; [intros; lia|].
    split; [intros; lia|].
    split; [intros _; split; reflexivity|intros H; discriminate H]. }
  destruct (gve_find_flow_rule_by_loc (flow_rules p) (u16 (location fsp)))
    as [i|] eqn:Hfind.
  { cbn [fst snd]. unfold EEXIST.
    split; [congruence|]. split; [intros; lia|]. split; [reflexivity|].
    split.
    - intros _ _ Hr Hfree. exfalso. apply Hfree.
      apply find_flow_rule_some in Hfind as (r & Hr1 & Hr2).
      exists r. split; [eapply list_elem_of_lookup_2; exact Hr1|].
      rewrite Hr2. apply Hu16, Hr.
    - split; [intros _; split; reflexivity|intros H; discriminate H]. }
  assert (Hfree : 0 <= location fsp < 2 ^ 16 -> ~ loc_occupied p (location fsp)).
  { intros Hr (r & Hin & Hl).
    apply (proj1 (find_flow_rule_none _ _) Hfind r Hin).
    rewrite Hl. symmetry. apply Hu16, Hr. }
  destruct (kvzalloc_ok pf (kvzalloc_requests p)) eqn:Hkv.
  2:{ cbn [fst snd]. unfold ENOMEM.
      split; [congruence|]. split; [intros; lia|].
      split; [intros _ _ Hr Ho; exfalso; exact (Hfree Hr Ho)|].
      split; [intros; discriminate|].
      split; [intros _; split; reflexivity|intros H; discriminate H]. }
  fold rule.
  change (gve_add_flow_rule_info p fsp flow_rule_zero).2 with rule.
  destruct (Z.eqb_spec (gve_add_flow_rule_info p fsp flow_rule_zero).1 0)
    as [Hinfo|Hinfo]; cbn [negb].
  2:{ cbn [fst snd].
      split; [congruence|]. split; [intros; lia|].
      split; [intros _ _ Hr Ho; exfalso; exact (Hfree Hr Ho)|].
      split.
      - intros _ _ _ _ _ Hv Hdup. rewrite (add_flow_rule_info_valid p fsp Hv).
        apply dup_rule_spec in Hdup. fold rule. rewrite Hdup. reflexivity.
      - split; [intros _; split; reflexivity|intros H; congruence]. }
  destruct (Z.eqb_spec (gve_adminq_add_flow_rule pf C rule (aq p)).1 0)
    as [Hdev|Hdev]; cbn [negb fst snd].
  2:{ split; [congruence|]. split; [intros; lia|].
      split; [intros _ _ Hr Ho; exfalso; exact (Hfree Hr Ho)|].
      split.
      - intros _ _ _ _ _ Hv Hdup. exfalso.
        rewrite (add_flow_rule_info_valid p fsp Hv) in Hinfo.
        apply dup_rule_spec in Hdup. fold rule in Hinfo. rewrite Hdup in Hinfo.
        discriminate Hinfo.
      - split; [intros _; split; reflexivity|intros H; congruence]. }
  split; [congruence|]. split; [intros; lia|].
  split; [intros _ _ Hr Ho; exfalso; exact (Hfree Hr Ho)|].
  split.
  - intros _ _ _ _ _ Hv Hdup. exfalso.
    rewrite (add_flow_rule_info_valid p fsp Hv) in Hinfo.
    apply dup_rule_spec in Hdup. fold rule in Hinfo. rewrite Hdup in Hinfo.
    discriminate Hinfo.
  - split; [intros H; congruence|].
    intros _. split; [exact Hdev|]. split; reflexivity.
Qed.


(** What an add request that has found room and a free location is refused
    for, check by check, and what it returns when no check refuses it. *)
Lemma add_flow_rule_refusals (cmd : ethtool_rxnfc) (p : gve_priv) :
  let res := gve_add_flow_rule pf C cmd p in
  let fsp := fs cmd in
  let max := flow_rules_max (cfg p) in
  let rule := requested_rule p fsp in
  max <> 0 -> flow_rules_cnt p < max ->
  0 <= location fsp < 2 ^ 16 -> ~ loc_occupied p (location fsp) ->
  (kvzalloc_ok pf (kvzalloc_requests p) = false -> res.1 = - ENOMEM) /\
  (kvzalloc_ok pf (kvzalloc_requests p) = true ->
   (ring_cookie fsp = RX_CLS_FLOW_DISC -> res.1 = - EOPNOTSUPP) /\
   (ring_cookie fsp <> RX_CLS_FLOW_DISC ->
    u32 (rx_cfg_num_queues (cfg p)) <= u32 (ring_cookie fsp) ->
    res.1 = - EINVAL) /\
   (ring_cookie fsp <> RX_CLS_FLOW_DISC ->
    u32 (ring_cookie fsp) < u32 (rx_cfg_num_queues (cfg p)) ->
    gve_flow_type_of (request_flow_type fsp) = None ->
    res.1 = - EINVAL) /\
   (request_valid p fsp = true ->
    ~ (exists r, r ∈ flow_rules p /\ same_match r rule) ->
    res.1 = (gve_adminq_add_flow_rule pf C rule (aq p)).1)).
Proof.
  intros res fsp max rule Hmax Hcnt Hloc Hfree. subst res.
  rewrite add_flow_rule_unfold. cbv zeta. fold fsp max.
  destruct (Z.eqb_spec max 0) as [|_]; [contradiction|].
  destruct (Z.geb_spec (flow_rules_cnt p) max) as [|_]; [lia|].
  destruct (gve_find_flow_rule_by_loc (flow_rules p) (u16 (location fsp)))
    as [i|] eqn:Hfind.
  { exfalso. apply Hfree.
    apply find_flow_rule_some in Hfind as (r & Hr1 & Hr2).
    exists r. split; [eapply list_elem_of_lookup_2; exact Hr1|].
    rewrite Hr2. unfold u16. apply Z.mod_small, Hloc. }
  destruct (kvzalloc_ok pf (kvzalloc_requests p)).
  2:{ split; [intros _; reflexivity|intros H; discriminate H]. }
  split; [intros H; discriminate H|]. intros _.
  fold rule. change (gve_add_flow_rule_info p fsp flow_rule_zero).2 with rule.
  split; [|split; [|split]].
  - intros Hd. unfold gve_add_flow_rule_info.
    apply Z.eqb_eq in Hd. rewrite Hd. reflexivity.
  - intros Hd Hq. unfold gve_add_flow_rule_info.
    apply Z.eqb_neq in Hd. rewrite Hd. cbv zeta.
    destruct (Z.geb_spec (u32 (ring_cookie fsp))
                (u32 (rx_cfg_num_queues (cfg p)))) as [_|Hlt]; [|lia].
    reflexivity.
  - intros Hd Hq Hft. unfold gve_add_flow_rule_info.
    apply Z.eqb_neq in Hd. rewrite Hd. cbv zeta.
    destruct (Z.geb_spec (u32 (ring_cookie fsp))
                (u32 (rx_cfg_num_queues (cfg p)))) as [Hge|_]; [lia|].
    unfold request_flow_type in Hft. rewrite Hft. reflexivity.
  - intros Hv Hnd.
    assert (Hinfo : (gve_add_flow_rule_info p fsp flow_rule_zero).1 = 0).
    { rewrite (add_flow_rule_info_valid p fsp Hv). fold rule.
      destruct (gve_flow_rule_is_dup_rule (flow_rules p) rule) eqn:Hdup;
        [|reflexivity].
      exfalso. apply Hnd. apply dup_rule_spec. exact Hdup. }
    rewrite Hinfo. cbn [Z.eqb negb].
    destruct (negb _); reflexivity.
Qed.

(** C6, as the code has it.  An add request is refused with [-EOPNOTSUPP]
    when the advertised maximum is zero; otherwise with [-ENOSPC] when the
    rule count has reached the maximum; otherwise with [-EEXIST] when its
    location is occupied; otherwise with [-ENOMEM] when the rule cannot be
    allocated; otherwise with [-EOPNOTSUPP] when it asks to discard, with
    [-EINVAL] when its target queue does not exist or its flow type is not
    one the driver handles; otherwise with [-EEXIST] when a rule for the
    same flow type, key and mask exists; otherwise its result is that of
    the device's ADD command.  On every failure the list and the rule count
    are what they were.  On success the device command has succeeded and
    the rule sits in the list where the scan by location stopped. *)
Theorem add_flow_rule_outcomes (cmd : ethtool_rxnfc) (p : gve_priv) :
  let res := gve_add_flow_rule pf C cmd p in
  let fsp := fs cmd in
  let max := flow_rules_max (cfg p) in
  let rule := requested_rule p fsp in
  let n := add_rule_scan (flow_rules p) rule in
  (max = 0 -> res.1 = - EOPNOTSUPP) /\
  (max <> 0 -> flow_rules_cnt p >= max -> res.1 = - ENOSPC) /\
  (max <> 0 -> flow_rules_cnt p < max ->
   0 <= location fsp < 2 ^ 16 -> loc_occupied p (location fsp) ->
   res.1 = - EEXIST) /\
  (max <> 0 -> flow_rules_cnt p < max ->
   0 <= location fsp < 2 ^ 16 -> ~ loc_occupied p (location fsp) ->
   kvzalloc_ok pf (kvzalloc_requests p) = true ->
   request_valid p fsp = true ->
   (exists r, r ∈ flow_rules p /\ same_match r rule) ->
   res.1 = - EEXIST) /\
  (res.1 <> 0 ->
   flow_rules res.2 = flow_rules p /\ flow_rules_cnt res.2 = flow_rules_cnt p) /\
  (res.1 = 0 ->
   (gve_adminq_add_flow_rule pf C rule (aq p)).1 = 0 /\
   flow_rules res.2 = take n (flow_rules p) ++ rule :: drop n (flow_rules p) /\
   flow_rules_cnt res.2 = (flow_rules_cnt p + 1) mod flow_rules_cnt_modulus C) /\
  (max <> 0 -> flow_rules_cnt p < max ->
   0 <= location fsp < 2 ^ 16 -> ~ loc_occupied p (location fsp) ->
   (kvzalloc_ok pf (kvzalloc_requests p) = false -> res.1 = - ENOMEM) /\
   (kvzalloc_ok pf (kvzalloc_requests p) = true ->
    (ring_cookie fsp = RX_CLS_FLOW_DISC -> res.1 = - EOPNOTSUPP) /\
    (ring_cookie fsp <> RX_CLS_FLOW_DISC ->
     u32 (rx_cfg_num_queues (cfg p)) <= u32 (ring_cookie fsp) ->
     res.1 = - EINVAL) /\
    (ring_cookie fsp <> RX_CLS_FLOW_DISC ->
     u32 (ring_cookie fsp) < u32 (rx_cfg_num_queues (cfg p)) ->
     gve_flow_type_of (request_flow_type fsp) = None ->
     res.1 = - EINVAL) /\
    (request_valid p fsp = true ->
     ~ (exists r, r ∈ flow_rules p /\ same_match r rule) ->
     res.1 = (gve_adminq_add_flow_rule pf C rule (aq p)).1))).
Proof.
  intros res fsp max rule n.
  destruct (add_flow_rule_order cmd p) as (H1 & H2 & H3 & H4 & H5 & H6).
  split; [exact H1|]. split; [exact H2|]. split; [exact H3|].
  split; [exact H4|]. split; [exact H5|]. split; [exact H6|].
  apply (add_flow_rule_refusals cmd p).
Qed.

End FlowRuleFacts.

(** C6, as stated, fails for a request that does not pass validation.
    [rule_a] is installed at location 1.  A request for the same flow type,
    key and mask at the free location 2 is refused with [-EEXIST] when it
    names queue 0, but with [-EINVAL] when it names queue 7 of 4: the queue
    is checked before the duplicate is looked for. *)
Lemma add_flow_rule_counterexample :
  let p := priv_one_rule in
  flow_rules_max (cfg p) = 8 /\ flow_rules_cnt p = 1 /\
  rx_cfg_num_queues (cfg p) = 4 /\
  gve_find_flow_rule_by_loc (flow_rules p) 2 = None /\
  requested_rule p (fs (request_like_rule_a 2 0))
    = {| loc := 2; flow_type := flow_type rule_a; action := 0;
         key := key rule_a; mask := mask rule_a |} /\
  (gve_add_flow_rule pf_stuck gve_consts_default (request_like_rule_a 2 0) p).1
    = - EEXIST /\
  (gve_add_flow_rule pf_stuck gve_consts_default (request_like_rule_a 2 7) p).1
    = - EINVAL.
Proof. vm_compute. repeat split; reflexivity. Qed.

Section FlowInvariant.

Variable pf : platform.
Variable C : gve_consts.
Hypothesis HM : consts_cnt_wf C.

Lemma add_flow_rule_info_loc p fsp r0 :
  (gve_add_flow_rule_info p fsp r0).1 = 0 ->
  loc (gve_add_flow_rule_info p fsp r0).2 = u16 (location fsp).
Proof.
  unfold gve_add_flow_rule_info. cbv zeta.
  destruct (ring_cookie fsp =? RX_CLS_FLOW_DISC); [intros H; discriminate H|].
  destruct (_ >=? _); [intros H; discriminate H|].
  destruct (gve_flow_type_of _) as [ft|]; [|intros H; discriminate H].
  destruct (gve_flow_rule_is_dup_rule _ _); [intros H; discriminate H|].
  intros _. cbn [snd]. unfold add_flow_rule_info_specs.
  destruct ft; reflexivity.
Qed.

Lemma flow_inv_frame p p' :
  cfg p' = cfg p -> flow_rules p' = flow_rules p ->
  flow_rules_cnt p' = flow_rules_cnt p ->
  flow_inv C p -> flow_inv C p'.
Proof. unfold flow_inv. intros -> -> ->. tauto. Qed.

Lemma flow_inv_add cmd p :
  flow_inv C p -> flow_inv C (gve_add_flow_rule pf C cmd p).2.
Proof.
  intros Hinv. pose proof Hinv as (Hmax & Hcnt & Hlt & Hs).
  rewrite add_flow_rule_unfold. cbv zeta.
  destruct (flow_rules_max (cfg p) =? 0); [exact Hinv|].
  destruct (Z.geb_spec (flow_rules_cnt p) (flow_rules_max (cfg p)))
    as [|Hroom]; [exact Hinv|].
  destruct (gve_find_flow_rule_by_loc _ _) eqn:Hfind; [exact Hinv|].
  destruct (kvzalloc_ok pf _); [|exact Hinv].
  destruct (Z.eqb_spec (gve_add_flow_rule_info p (fs cmd) flow_rule_zero).1 0)
    as [Hinfo|]; cbn [negb]; [|exact Hinv].
  destruct (negb _); [exact Hinv|].
  unfold flow_inv.
  cbn [snd cfg flow_rules flow_rules_cnt set_flow_rules_cnt set_flow_rules
         set_aq set_kvzalloc_requested].
  rewrite length_insert_at.
  rewrite Z.mod_small by lia.
  split; [exact Hmax|]. split; [lia|]. split; [lia|].
  apply add_rule_sorted; [exact Hs|].
  rewrite (add_flow_rule_info_loc _ _ _ Hinfo).
  apply find_flow_rule_none, Hfind.
Qed.

Lemma flow_inv_del cmd p :
  flow_inv C p -> flow_inv C (gve_del_flow_rule pf C cmd p).2.
Proof.
  intros Hinv. pose proof Hinv as (Hmax & Hcnt & Hlt & Hs).
  rewrite del_flow_rule_unfold. cbv zeta.
  destruct (flow_rules_max (cfg p) =? 0); [exact Hinv|].
  destruct (gve_find_flow_rule_by_loc _ _) as [i|] eqn:Hfind; [|exact Hinv].
  destruct (negb _); [exact Hinv|].
  apply find_flow_rule_some in Hfind as (r & Hr & _).
  apply lookup_lt_Some in Hr.
  unfold flow_inv.
  cbn [snd cfg flow_rules flow_rules_cnt set_flow_rules_cnt set_flow_rules
         set_aq].
  split; [exact Hmax|].
  assert (Hlen : length (delete i (flow_rules p)) = (length (flow_rules p) - 1)%nat).
  { apply length_delete. apply lookup_lt_is_Some_2, Hr. }
  rewrite Z.mod_small by lia.
  split; [rewrite Hlen; lia|]. split; [lia|].
  apply delete_rule_sorted, Hs.
Qed.

Ltac break_match_goal :=
  repeat match goal with
  | |- context [match ?x with _ => _ end] => destruct x
  end.

Lemma parse_keeps_flow_rules_max d opt st :
  flow_rules_max (gve_parse_device_option C d opt st).1 = flow_rules_max st.1.
Proof.
  rewrite parse_device_option_unfold.
  destruct (kind_of_id C _) as [k|]; [|reflexivity].
  destruct (header_checks C k _); [|reflexivity].
  destruct k; cbn [accept_effect fst]; try reflexivity.
  destruct (negb _); reflexivity.
Qed.

Lemma process_keeps_flow_rules_max d st :
  flow_rules_max (gve_process_device_options C d st).2.1 = flow_rules_max st.1.
Proof.
  unfold gve_process_device_options.
  generalize (sizeof_device_descriptor C) as start.
  generalize (Z.to_nat (desc_num_device_options d)) as n.
  intros n. revert st. induction n as [|n IH]; intros st start;
    cbn [process_device_options_loop]; [reflexivity|].
  destruct (gve_get_next_option C d start); [|reflexivity].
  rewrite IH. apply parse_keeps_flow_rules_max.
Qed.

Lemma enable_supported_features_flow_rules_max d m ops priv :
  flow_rules_max (gve_enable_supported_features C d m ops priv)
    = flow_rules_max priv \/
  exists off,
    flow_rules_max (gve_enable_supported_features C d m ops priv)
    = be16_at C d off.
Proof.
  unfold gve_enable_supported_features. cbv zeta.
  destruct (dev_op_jumbo_frames ops), (dev_op_buffer_sizes ops),
    (dev_op_flow_steering ops), (dev_op_dqo_qpl ops);
    break_match_goal;
    first [left; reflexivity | right; eexists; reflexivity].
Qed.

Lemma describe_device_apply_flow_rules_max d priv :
  0 <= flow_rules_max priv < flow_rules_cnt_modulus C ->
  0 <= flow_rules_max (describe_device_apply C d priv).2
    < flow_rules_cnt_modulus C.
Proof.
  intros Hr. unfold describe_device_apply.
  pose proof (process_keeps_flow_rules_max d (priv, dev_ops_null)) as Hp.
  destruct (gve_process_device_options C d (priv, dev_ops_null))
    as [err [p ops]]. cbn [fst snd] in Hp |- *.
  destruct (negb (err =? 0)); cbn [snd]; [rewrite Hp; exact Hr|].
  assert (Hsel : flow_rules_max (describe_device_select_format C d ops p).1
                 = flow_rules_max p).
  { unfold describe_device_select_format. break_match_goal; reflexivity. }
  destruct (describe_device_select_format C d ops p) as [p2 m].
  cbn [fst] in Hsel.
  assert (Hcnt : forall e p3,
    flow_rules_max p3 = flow_rules_max p2 ->
    0 <= flow_rules_max
      (if negb (e =? 0) then (e, p3)
       else
         if desc_mtu d <? ETH_MIN_MTU then (- EINVAL,
              set_max_registered_pages (desc_max_registered_pages d) p3)
         else
           (0, gve_enable_supported_features C d m ops
                 (set_default_num_queues (desc_default_num_queues d)
                    (let priv0 :=
                       set_rx_data_slot_cnt (desc_rx_pages_per_qpl d)
                         (set_tx_pages_per_qpl (desc_tx_pages_per_qpl d)
                            (set_dev_addr (desc_mac d)
                               (set_num_event_counters (desc_counters d)
                                  (set_max_mtu (desc_mtu d)
                                     (set_max_registered_pages
                                        (desc_max_registered_pages d) p3))))) in
                     if gve_is_gqi priv0
                        && (rx_data_slot_cnt priv0 <? rx_desc_cnt priv0)
                     then set_rx_desc_cnt (rx_data_slot_cnt priv0) priv0
                     else priv0)))).2
      < flow_rules_cnt_modulus C).
  { intros e p3 H3.
    destruct (negb (e =? 0)); cbn [snd]; [rewrite H3, Hsel, Hp; exact Hr|].
    destruct (desc_mtu d <? ETH_MIN_MTU); cbn [snd];
      [change (flow_rules_max (set_max_registered_pages _ p3))
         with (flow_rules_max p3); rewrite H3, Hsel, Hp; exact Hr|].
    match goal with
    | |- context [gve_enable_supported_features C d m ops ?x] =>
        destruct (enable_supported_features_flow_rules_max d m ops x)
          as [E|[off E]]; rewrite E;
        [assert (Hx : flow_rules_max x = flow_rules_max p3)
           by (cbv zeta; break_match_goal; reflexivity);
         rewrite Hx, H3, Hsel, Hp; exact Hr|]
    end.
    pose proof (be16_at_range C d off). unfold consts_cnt_wf in HM. lia. }
  destruct (gve_is_gqi p2).
  - pose proof (Hcnt (gve_set_desc_cnt C d p2).1 (gve_set_desc_cnt C d p2).2) as H.
    destruct (gve_set_desc_cnt C d p2) as [e p3] eqn:E. apply H.
    cbn [snd]. replace p3 with (gve_set_desc_cnt C d p2).2 by (rewrite E; reflexivity).
    unfold gve_set_desc_cnt. cbv zeta. break_match_goal; reflexivity.
  - set (q := set_hw_features_ntuple true (set_hw_features_lro true p2)).
    pose proof (Hcnt (gve_set_desc_cnt_dqo C d (dev_op_dqo_rda ops) q).1
                  (gve_set_desc_cnt_dqo C d (dev_op_dqo_rda ops) q).2) as H.
    destruct (gve_set_desc_cnt_dqo C d (dev_op_dqo_rda ops) q) as [e p3] eqn:E.
    apply H. cbn [snd].
    replace p3 with (gve_set_desc_cnt_dqo C d (dev_op_dqo_rda ops) q).2
      by (rewrite E; reflexivity).
    unfold gve_set_desc_cnt_dqo. cbv zeta. break_match_goal; reflexivity.
Qed.

Lemma describe_device_frame p :
  flow_rules (gve_adminq_describe_device pf C p).2 = flow_rules p /\
  flow_rules_cnt (gve_adminq_describe_device pf C p).2 = flow_rules_cnt p /\
  (cfg (gve_adminq_describe_device pf C p).2 = cfg p \/
   exists d, cfg (gve_adminq_describe_device pf C p).2
             = (describe_device_apply C d (cfg p)).2).
Proof.
  unfold gve_adminq_describe_device, bind, lift_aq, dma_alloc_coherent, ret.
  cbn [aq]. destruct (dma_alloc_ok pf (dma_requests (aq p)));
    [|cbn; repeat split; left; reflexivity].
  cbn [aq set_aq].
  destruct (gve_adminq_execute_cmd pf _ _) as [e a2]. cbn [fst snd].
  destruct (negb (e =? 0)).
  - cbn. repeat split. left; reflexivity.
  - unfold gets, modify, bind, ret. cbn [aq cfg set_aq].
    set (d := descriptor_at pf (io_reads a2)).
    destruct (describe_device_apply C d (cfg p)) as [e2 c2] eqn:Ea.
    cbn. repeat split. right. exists d. rewrite Ea. reflexivity.
Qed.

Lemma get_rxnfc_state cmd rule_locs p :
  (gve_get_rxnfc cmd rule_locs p).2 = p.
Proof.
  unfold gve_get_rxnfc, gve_get_flow_rule_ids, bind, gets, ret.
  destruct (nfc_cmd cmd); try reflexivity.
  - destruct (_ =? 0); reflexivity.
  - unfold id. destruct (gve_get_flow_rule_entry p cmd). reflexivity.
  - destruct (_ =? 0); [reflexivity|]. cbv zeta.
    destruct (get_flow_rule_ids_loop _ _ _ _) as [[e c] l].
    destruct (negb _); reflexivity.
Qed.

(** Every call keeps the directory in order. *)
Lemma flow_inv_run_call c p :
  flow_inv C p -> flow_inv C (run_call pf C c p).2.
Proof.
  intros Hinv. destruct c as [cmd|cmd locs| |rss| |cmd|]; cbn [run_call].
  - unfold gve_set_rxnfc, bind, gets, ret.
    destruct (negb _); [exact Hinv|].
    destruct (nfc_cmd cmd); try exact Hinv;
      [apply flow_inv_add, Hinv|apply flow_inv_del, Hinv].
  - pose proof (get_rxnfc_state cmd locs p) as H.
    destruct (gve_get_rxnfc cmd locs p) as [r p']. cbn [snd] in H |- *.
    rewrite H. exact Hinv.
  - destruct (lift_aq_frame (gve_adminq_reset_flow_rules pf C) p)
      as (H1&H2&H3&_).
    eapply flow_inv_frame; eassumption.
  - destruct (lift_aq_frame (gve_adminq_configure_rss pf C rss) p)
      as (H1&H2&H3&_).
    eapply flow_inv_frame; eassumption.
  - destruct (describe_device_frame p) as (H1 & H2 & H3).
    pose proof Hinv as (Hmax & Hcnt & Hlt & Hs).
    unfold flow_inv. rewrite H1, H2.
    split; [|tauto].
    destruct H3 as [->|[d ->]]; [exact Hmax|].
    apply describe_device_apply_flow_rules_max, Hmax.
  - destruct (lift_aq_frame (gve_adminq_issue_cmd pf cmd) p) as (H1&H2&H3&_).
    eapply flow_inv_frame; eassumption.
  - destruct (lift_aq_frame (gve_adminq_kick_and_wait pf) p) as (H1&H2&H3&_).
    eapply flow_inv_frame; eassumption.
Qed.

Lemma flow_inv_run_calls cs p :
  flow_inv C p -> flow_inv C (run_calls pf C cs p).
Proof.
  revert p. induction cs as [|c cs IH]; intros p Hinv; cbn [run_calls];
    [exact Hinv|].
  apply IH, flow_inv_run_call, Hinv.
Qed.

End FlowInvariant.

Section Enumerate.

Lemma get_flow_rule_ids_loop_spec rules cap cnt arr :
  0 <= cnt <= cap -> cap < 2 ^ 32 -> cap <= Z.of_nat (length arr) ->
  let out := get_flow_rule_ids_loop rules cap cnt arr in
  let k := Nat.min (length rules) (Z.to_nat (cap - cnt)) in
  out.1.2 = cnt + Z.of_nat k /\
  out.1.1 = (if decide (length rules <= Z.to_nat (cap - cnt))%nat
             then 0 else - EMSGSIZE) /\
  take (Z.to_nat cnt + k) out.2
    = take (Z.to_nat cnt) arr ++ take k (loc <$> rules).
Proof.
  revert cnt arr. induction rules as [|rule rest IH]; intros cnt arr Hc Hcap Harr;
    cbn [get_flow_rule_ids_loop length].
  - cbn [fst snd Nat.min]. rewrite Nat.add_0_r. cbn [fmap list_fmap take].
    rewrite app_nil_r. split; [lia|]. split; reflexivity.
  - destruct (Z.eqb_spec cnt cap) as [E|E].
    + cbn [fst snd]. subst cnt. rewrite Z.sub_diag. cbn [Z.to_nat].
      rewrite Nat.min_0_r, Nat.add_0_r. cbn [take]. rewrite app_nil_r.
      split; [lia|]. split; [|reflexivity].
      destruct (decide _) as [H|_]; [lia|reflexivity].
    + assert (Hu : u32 (cnt + 1) = cnt + 1)
        by (unfold u32; apply Z.mod_small; lia).
      rewrite Hu.
      specialize (IH (cnt + 1) (<[Z.to_nat cnt := loc rule]> arr)).
      rewrite length_insert in IH.
      specialize (IH ltac:(lia) Hcap Harr). cbv zeta in IH.
      destruct IH as (H1 & H2 & H3).
      set (out := get_flow_rule_ids_loop rest cap (cnt + 1)
                    (<[Z.to_nat cnt := loc rule]> arr)) in *.
      assert (Hk : Nat.min (S (length rest)) (Z.to_nat (cap - cnt)) =
                   S (Nat.min (length rest) (Z.to_nat (cap - (cnt + 1)))))
        by lia.
      rewrite Hk. split; [lia|]. split.
      * rewrite H2. destruct (decide _), (decide _); try reflexivity; lia.
      * replace (Z.to_nat cnt + S (Nat.min (length rest) (Z.to_nat (cap - (cnt + 1)))))%nat
          with (Z.to_nat (cnt + 1) + Nat.min (length rest) (Z.to_nat (cap - (cnt + 1))))%nat
          by lia.
        rewrite H3.
        replace (Z.to_nat (cnt + 1)) with (S (Z.to_nat cnt)) by lia.
        rewrite (take_S_r _ _ (loc rule))
          by (apply list_lookup_insert_eq; lia).
        rewrite take_insert_ge by lia.
        rewrite <- app_assoc. reflexivity.
Qed.

Lemma take_sorted (l : list Z) n :
  StronglySorted Z.lt l -> StronglySorted Z.lt (take n l).
Proof.
  intros H. rewrite <- (take_drop n l) in H.
  apply StronglySorted_app_1_l in H. exact H.
Qed.

End Enumerate.

Section FlowTheorems.

Variable pf : platform.
Variable C : gve_consts.
Hypothesis HM : consts_cnt_wf C.

(** C7, as the code has it.  After any sequence of calls the list is
    strictly ascending by location.  Enumeration on a device that advertises
    flow rules copies the locations in list order into the caller's array,
    as many as the caller has room for, so what it returns is strictly
    ascending; it returns zero and the count when all fit and [-EMSGSIZE]
    when they do not.  Deleting a location in the 16-bit range that is not
    in the list changes nothing and returns [-EINVAL], or [-EOPNOTSUPP]
    when the advertised maximum is zero. *)
Theorem flow_rules_ascending_and_delete_missing (cs : list driver_call)
    (p0 : gve_priv) :
  flow_inv C p0 ->
  let p := run_calls pf C cs p0 in
  rules_sorted (flow_rules p) /\
  (forall cmd rule_locs,
     flow_rules_max (cfg p) <> 0 ->
     0 <= rule_cnt cmd < 2 ^ 32 ->
     rule_cnt cmd <= Z.of_nat (length rule_locs) ->
     let out := (gve_get_flow_rule_ids cmd rule_locs p).1 in
     let n := Nat.min (length (flow_rules p)) (Z.to_nat (rule_cnt cmd)) in
     take n out.2 = take n (loc <$> flow_rules p) /\
     StronglySorted Z.lt (take n out.2) /\
     ((length (flow_rules p) <= Z.to_nat (rule_cnt cmd))%nat ->
      out.1.1 = 0 /\ rule_cnt out.1.2 = Z.of_nat (length (flow_rules p))) /\
     ((length (flow_rules p) > Z.to_nat (rule_cnt cmd))%nat ->
      out.1.1 = - EMSGSIZE)) /\
  (forall cmd,
     0 <= location (fs cmd) < 2 ^ 16 ->
     ~ loc_occupied p (location (fs cmd)) ->
     gve_del_flow_rule pf C cmd p =
     (if flow_rules_max (cfg p) =? 0 then - EOPNOTSUPP else - EINVAL, p)).
Proof.
  intros Hinv0 p.
  assert (Hinv : flow_inv C p) by apply (flow_inv_run_calls pf C HM), Hinv0.
  destruct Hinv as (Hmax & Hcnt & Hlt & Hs).
  split; [exact Hs|]. split.
  - intros cmd rule_locs Hne Hcap Harr out n. subst out.
    unfold gve_get_flow_rule_ids, bind, gets, ret.
    apply Z.eqb_neq in Hne. rewrite Hne. cbv zeta.
    change (rule_cnt (set_nfc_data (flow_rules_max (cfg p)) cmd))
      with (rule_cnt cmd).
    pose proof (get_flow_rule_ids_loop_spec (flow_rules p) (rule_cnt cmd) 0
                  rule_locs ltac:(lia) ltac:(lia) Harr) as L.
    cbv zeta in L. rewrite Z.sub_0_r in L. fold n in L.
    destruct (get_flow_rule_ids_loop (flow_rules p) (rule_cnt cmd) 0 rule_locs)
      as [[e c] locs]. cbn [fst snd] in L.
    destruct L as (Lc & Le & Lt).
    change (Z.to_nat 0) with 0%nat in Lt. rewrite Nat.add_0_l in Lt.
    rewrite take_0, app_nil_l in Lt.
    assert (Hsorted : StronglySorted Z.lt (take n locs)).
    { rewrite Lt. apply take_sorted.
      apply (StronglySorted_fmap loc loc_lt Z.lt); [|exact Hs].
      intros x y H. exact H. }
    destruct (decide _) as [Hn|Hn]; subst e;
      cbn [Z.eqb negb fst snd rule_cnt set_rule_cnt].
    + split; [exact Lt|]. split; [exact Hsorted|].
      split; [|intros; lia].
      intros _. split; [reflexivity|]. subst n. lia.
    + split; [exact Lt|]. split; [exact Hsorted|].
      split; [intros; lia|]. intros _. reflexivity.
  - intros cmd Hr Hfree. rewrite del_flow_rule_unfold. cbv zeta.
    destruct (flow_rules_max (cfg p) =? 0); [reflexivity|].
    destruct (gve_find_flow_rule_by_loc _ _) as [i|] eqn:Hfind; [|reflexivity].
    exfalso. apply Hfree.
    apply find_flow_rule_some in Hfind as (r & Hr1 & Hr2).
    exists r. split; [eapply list_elem_of_lookup_2; exact Hr1|].
    rewrite Hr2. unfold u16. apply Z.mod_small. exact Hr.
Qed.

Lemma del_flow_rule_success cmd p :
  (gve_del_flow_rule pf C cmd p).1 = 0 ->
  exists i r, flow_rules p !! i = Some r /\
    flow_rules (gve_del_flow_rule pf C cmd p).2 = delete i (flow_rules p) /\
    flow_rules_cnt (gve_del_flow_rule pf C cmd p).2
      = (flow_rules_cnt p - 1) mod flow_rules_cnt_modulus C.
Proof.
  rewrite del_flow_rule_unfold. cbv zeta.
  destruct (flow_rules_max (cfg p) =? 0); [intros H; discriminate H|].
  destruct (gve_find_flow_rule_by_loc _ _) as [i|] eqn:Hfind;
    [|intros H; discriminate H].
  apply find_flow_rule_some in Hfind as (r & Hr & _).
  destruct (Z.eqb_spec (gve_adminq_del_flow_rule pf C (location (fs cmd)) (aq p)).1 0)
    as [E|E]; cbn [negb fst snd]; [|congruence].
  intros _. exists i, r. split; [exact Hr|]. split; reflexivity.
Qed.

Lemma del_flow_rule_failure cmd p :
  (gve_del_flow_rule pf C cmd p).1 <> 0 ->
  flow_rules (gve_del_flow_rule pf C cmd p).2 = flow_rules p /\
  flow_rules_cnt (gve_del_flow_rule pf C cmd p).2 = flow_rules_cnt p.
Proof.
  rewrite del_flow_rule_unfold. cbv zeta.
  destruct (flow_rules_max (cfg p) =? 0); [split; reflexivity|].
  destruct (gve_find_flow_rule_by_loc _ _) as [i|]; [|split; reflexivity].
  destruct (Z.eqb_spec (gve_adminq_del_flow_rule pf C (location (fs cmd)) (aq p)).1 0)
    as [E|E]; cbn [negb fst snd]; [congruence|]. split; reflexivity.
Qed.

Lemma add_flow_rule_success cmd p :
  (gve_add_flow_rule pf C cmd p).1 = 0 ->
  exists n r,
    flow_rules (gve_add_flow_rule pf C cmd p).2
      = take n (flow_rules p) ++ r :: drop n (flow_rules p).
Proof.
  rewrite add_flow_rule_unfold. cbv zeta.
  destruct (flow_rules_max (cfg p) =? 0); [intros H; discriminate H|].
  destruct (flow_rules_cnt p >=? flow_rules_max (cfg p));
    [intros H; discriminate H|].
  destruct (gve_find_flow_rule_by_loc _ _); [intros H; discriminate H|].
  destruct (kvzalloc_ok pf (kvzalloc_requests p)); [|intros H; discriminate H].
  destruct (Z.eqb_spec (gve_add_flow_rule_info p (fs cmd) flow_rule_zero).1 0)
    as [E|E]; cbn [negb fst snd]; [|congruence].
  destruct (Z.eqb_spec
              (gve_adminq_add_flow_rule pf C
                 (gve_add_flow_rule_info p (fs cmd) flow_rule_zero).2 (aq p)).1 0)
    as [E2|E2]; cbn [negb fst snd]; [|congruence].
  intros _. eexists _, _. reflexivity.
Qed.

Lemma add_flow_rule_failure cmd p :
  (gve_add_flow_rule pf C cmd p).1 <> 0 ->
  flow_rules (gve_add_flow_rule pf C cmd p).2 = flow_rules p /\
  flow_rules_cnt (gve_add_flow_rule pf C cmd p).2 = flow_rules_cnt p.
Proof.
  rewrite add_flow_rule_unfold. cbv zeta.
  destruct (flow_rules_max (cfg p) =? 0); [split; reflexivity|].
  destruct (flow_rules_cnt p >=? flow_rules_max (cfg p)); [split; reflexivity|].
  destruct (gve_find_flow_rule_by_loc _ _); [split; reflexivity|].
  destruct (kvzalloc_ok pf (kvzalloc_requests p)); [|split; reflexivity].
  destruct (Z.eqb_spec (gve_add_flow_rule_info p (fs cmd) flow_rule_zero).1 0)
    as [E|E]; cbn [negb fst snd]; [|split; reflexivity].
  destruct (Z.eqb_spec
              (gve_adminq_add_flow_rule pf C
                 (gve_add_flow_rule_info p (fs cmd) flow_rule_zero).2 (aq p)).1 0)
    as [E2|E2]; cbn [negb fst snd]; [congruence|split; reflexivity].
Qed.

(** C10.  After any sequence of calls the rule counter equals the length of
    the list, and it is the count reported to a caller that asks for it.  A
    successful add makes both one larger, a successful delete makes both one
    smaller, and every other call, as well as a failed add or delete, leaves
    both as they were. *)
Theorem flow_rules_cnt_is_list_length (cs : list driver_call) (p0 : gve_priv) :
  flow_inv C p0 ->
  let p := run_calls pf C cs p0 in
  flow_rules_cnt p = Z.of_nat (length (flow_rules p)) /\
  (forall cmd rule_locs,
     nfc_cmd cmd = ETHTOOL_GRXCLSRLCNT -> flow_rules_max (cfg p) <> 0 ->
     let out := (gve_get_rxnfc cmd rule_locs p).1 in
     out.1.1 = 0 /\ rule_cnt out.1.2 = Z.of_nat (length (flow_rules p))) /\
  (forall cmd,
     let res := gve_add_flow_rule pf C cmd p in
     res.1 = 0 ->
     flow_rules_cnt res.2 = flow_rules_cnt p + 1 /\
     length (flow_rules res.2) = S (length (flow_rules p))) /\
  (forall cmd,
     let res := gve_del_flow_rule pf C cmd p in
     res.1 = 0 ->
     flow_rules_cnt res.2 = flow_rules_cnt p - 1 /\
     S (length (flow_rules res.2)) = length (flow_rules p)) /\
  (forall c,
     let res := run_call pf C c p in
     res.1 <> 0 \/ (forall cmd, c <> call_set_rxnfc cmd) ->
     flow_rules_cnt res.2 = flow_rules_cnt p /\
     flow_rules res.2 = flow_rules p).
Proof.
  intros Hinv0 p.
  assert (Hinv : flow_inv C p) by apply (flow_inv_run_calls pf C HM), Hinv0.
  pose proof Hinv as (Hmax & Hcnt & Hlt & Hs).
  split; [exact Hcnt|]. split.
  { intros cmd rule_locs Hc Hne out. subst out.
    unfold gve_get_rxnfc, bind, gets, ret. rewrite Hc.
    apply Z.eqb_neq in Hne. rewrite Hne. cbn. split; [reflexivity|exact Hcnt]. }
  split.
  { intros cmd res Hok.
    pose proof (flow_inv_add pf C cmd p Hinv) as (_ & Hcnt' & _).
    destruct (add_flow_rule_success cmd p Hok) as (n & r & Hl).
    fold res in Hcnt', Hl.
    assert (Hlen : length (flow_rules res.2) = S (length (flow_rules p)))
      by (rewrite Hl; apply length_insert_at).
    split; [lia|exact Hlen]. }
  split.
  { intros cmd res Hok.
    pose proof (flow_inv_del pf C cmd p Hinv) as (_ & Hcnt' & _).
    destruct (del_flow_rule_success cmd p Hok) as (i & r & Hr & Hl & _).
    fold res in Hcnt', Hl.
    assert (Hlen : length (flow_rules res.2) = (length (flow_rules p) - 1)%nat).
    { rewrite Hl. apply length_delete. exists r. exact Hr. }
    apply lookup_lt_Some in Hr. split; lia. }
  intros c res Hc. subst res.
  destruct c as [cmd|cmd locs| |rss| |cmd|]; cbn [run_call].
  - destruct Hc as [Hf|Hn]; [|exfalso; apply (Hn cmd); reflexivity].
    cbn [run_call] in Hf. revert Hf.
    unfold gve_set_rxnfc, bind, gets, ret.
    destruct (negb _); [split; reflexivity|].
    destruct (nfc_cmd cmd); try (split; reflexivity).
    + intros Hf.
      destruct (add_flow_rule_failure cmd p Hf) as [H1 H2].
      split; [exact H2|exact H1].
    + intros Hf. destruct (del_flow_rule_failure cmd p Hf) as [H1 H2].
      split; [exact H2|exact H1].
  - pose proof (get_rxnfc_state cmd locs p) as H.
    destruct (gve_get_rxnfc cmd locs p) as [r p']. cbn [snd] in H |- *.
    rewrite H. split; reflexivity.
  - destruct (lift_aq_frame (gve_adminq_reset_flow_rules pf C) p)
      as (_&H2&H3&_). split; assumption.
  - destruct (lift_aq_frame (gve_adminq_configure_rss pf C rss) p)
      as (_&H2&H3&_). split; assumption.
  - destruct (describe_device_frame pf C p) as (H1 & H2 & _).
    split; assumption.
  - destruct (lift_aq_frame (gve_adminq_issue_cmd pf cmd) p) as (_&H2&H3&_).
    split; assumption.
  - destruct (lift_aq_frame (gve_adminq_kick_and_wait pf) p) as (_&H2&H3&_).
    split; assumption.
Qed.

End FlowTheorems.

(** *** The flow-rule theorems on the worked examples *)

Lemma consts_cnt_wf_default : consts_cnt_wf gve_consts_default.
Proof. unfold consts_cnt_wf. vm_compute. discriminate. Defined.

Lemma flow_inv_priv_one_rule : flow_inv gve_consts_default priv_one_rule.
Proof.
  split; [vm_compute; split; [discriminate|reflexivity]|].
  split; [reflexivity|]. split; [reflexivity|].
  apply SSorted_cons; [apply SSorted_nil|apply Forall_nil_2].
Defined.

(** The hypotheses of [add_flow_rule_outcomes] hold for a request that
    repeats the traffic of [rule_a] at the free location 2 and names an
    existing queue. *)
Lemma add_flow_rule_outcomes_witness :
  (gve_add_flow_rule pf_stuck gve_consts_default (request_like_rule_a 2 0)
     priv_one_rule).1 = - EEXIST.
Proof.
  refine (proj1 (proj2 (proj2 (proj2
            (add_flow_rule_outcomes pf_stuck gve_consts_default
               (request_like_rule_a 2 0) priv_one_rule)))) _ _ _ _ _ _ _).
  - vm_compute. discriminate.
  - reflexivity.
  - vm_compute. split; [discriminate|reflexivity].
  - intros (r & Hin & Hl). change (r ∈ [rule_a]) in Hin.
    apply list_elem_of_singleton in Hin. subst r. discriminate Hl.
  - reflexivity.
  - vm_compute. reflexivity.
  - exists rule_a. split; [apply list_elem_of_singleton; reflexivity|].
    split; [reflexivity|]. split; reflexivity.
Defined.

(** The hypotheses of [flow_rules_ascending_and_delete_missing] hold for the
    directory with [rule_a] and a delete request for the free location 5. *)
Lemma flow_rules_ascending_and_delete_missing_witness :
  flow_inv gve_consts_default priv_one_rule /\
  gve_del_flow_rule pf_stuck gve_consts_default (request_delete 5) priv_one_rule
  = (- EINVAL, priv_one_rule).
Proof.
  split; [exact flow_inv_priv_one_rule|].
  refine (proj2 (proj2 (flow_rules_ascending_and_delete_missing pf_stuck
                          gve_consts_default consts_cnt_wf_default []
                          priv_one_rule flow_inv_priv_one_rule))
            (request_delete 5) _ _).
  - vm_compute. split; [discriminate|reflexivity].
  - intros (r & Hin & Hl). change (r ∈ [rule_a]) in Hin.
    apply list_elem_of_singleton in Hin. subst r. discriminate Hl.
Defined.

(** C7, as stated, fails on a device that advertises no flow rules: the
    list is empty, so location 5 is not in it, and the delete is refused
    with [-EOPNOTSUPP], not with [-EINVAL]. *)
Lemma del_flow_rule_counterexample :
  let p := priv_fresh in
  let res := gve_del_flow_rule pf_stuck gve_consts_default (request_delete 5) p in
  flow_inv gve_consts_default p /\
  flow_rules p = [] /\ flow_rules_max (cfg p) = 0 /\
  res.1 = - EOPNOTSUPP /\ res.1 <> - EINVAL /\ flow_rules res.2 = [].
Proof.
  cbv zeta. split.
  { split; [vm_compute; split; [discriminate|reflexivity]|].
    split; [reflexivity|]. split; [reflexivity|]. apply SSorted_nil. }
  split; [reflexivity|]. split; [reflexivity|].
  split; [vm_compute; reflexivity|].
  split; [vm_compute; discriminate|vm_compute; reflexivity].
Qed.

(** The hypothesis of [flow_rules_cnt_is_list_length] holds for the
    directory with [rule_a]; the rule is deleted, an add at location 3 then
    fails at the device, which no longer answers, and the counter and the
    list agree on zero. *)
Lemma flow_rules_cnt_is_list_length_witness :
  let p := run_calls (pf_describe descriptor_empty) gve_consts_default
             [call_set_rxnfc (request_delete 1);
              call_set_rxnfc (request_like_rule_a 3 0)] priv_one_rule in
  flow_inv gve_consts_default priv_one_rule /\
  flow_rules_cnt p = Z.of_nat (length (flow_rules p)).
Proof.
  split; [exact flow_inv_priv_one_rule|].
  exact (proj1 (flow_rules_cnt_is_list_length (pf_describe descriptor_empty)
                  gve_consts_default consts_cnt_wf_default
                  [call_set_rxnfc (request_delete 1);
                   call_set_rxnfc (request_like_rule_a 3 0)]
                  priv_one_rule flow_inv_priv_one_rule)).
Defined.

(** * Further properties of the modelled code *)

(** ** The transport engine: polling, issuing, executing *)

Section TransportMore.

Variable pf : platform.

Lemma wait_for_cmd_loop_reads n prod a :
  io_reads (wait_for_cmd_loop pf n prod a).2
  = (io_reads a + polls_until pf n (io_reads a) prod)%nat.
Proof.
  revert a. induction n as [|n IH]; intros a; cbn [wait_for_cmd_loop polls_until].
  - cbn. lia.
  - unfold bind.
    change (ioread32be_event_counter pf a) with
      (u32 (event_counter_at pf (io_reads a)), (ioread32be_event_counter pf a).2).
    cbv beta iota.
    destruct (u32 (event_counter_at pf (io_reads a)) =? prod).
    + cbn. lia.
    + rewrite IH. cbn [ioread32be_event_counter snd io_reads set_after_read].
      lia.
Qed.

Lemma polls_until_bounds n start head :
  (polls_until pf n start head <= n)%nat /\
  (n <> 0 -> 1 <= polls_until pf n start head)%nat.
Proof.
  revert start. induction n as [|n IH]; intros start; cbn [polls_until].
  - split; [lia|congruence].
  - destruct (_ =? _); [split; lia|].
    destruct (IH (S start)). split; lia.
Qed.

Lemma parse_err_code_not_timeout st : parse_err_code st <> - ENOTRECOVERABLE.
Proof. destruct st; cbn; discriminate. Qed.

(** X1.  A flush reads the event counter once for the tail and then polls
    it at most [GVE_MAX_ADMINQ_EVENT_COUNTER_CHECK] times, stopping at the
    first read that shows the producer counter.  Its result is
    [-ENOTRECOVERABLE] exactly when no poll showed the producer counter: no
    status a device can write is reported as a timeout. *)
Theorem kick_and_wait_polls_bounded (a : gve_adminq_priv) :
  let res := gve_adminq_kick_and_wait pf a in
  let polls := polls_until pf GVE_MAX_ADMINQ_EVENT_COUNTER_CHECK
                 (S (io_reads a)) (adminq_prod_cnt a) in
  io_reads res.2 = (S (io_reads a) + polls)%nat /\
  (1 <= polls <= GVE_MAX_ADMINQ_EVENT_COUNTER_CHECK)%nat /\
  (res.1 = - ENOTRECOVERABLE <->
   completes_within pf GVE_MAX_ADMINQ_EVENT_COUNTER_CHECK (S (io_reads a))
     (adminq_prod_cnt a) = false).
Proof.
  cbv zeta. rewrite kick_and_wait_unfold. cbv zeta.
  set (a1 := (ioread32be_event_counter pf a).2).
  set (a2 := set_reg_doorbell _ a1).
  pose proof (wait_for_cmd_loop_spec pf GVE_MAX_ADMINQ_EVENT_COUNTER_CHECK
                (adminq_prod_cnt a) a2) as Hw.
  pose proof (wait_for_cmd_loop_reads GVE_MAX_ADMINQ_EVENT_COUNTER_CHECK
                (adminq_prod_cnt a) a2) as Hr.
  cbv zeta in Hw.
  set (w := wait_for_cmd_loop pf GVE_MAX_ADMINQ_EVENT_COUNTER_CHECK
              (adminq_prod_cnt a) a2) in *.
  destruct Hw as (_ & Hok & _).
  change (io_reads a2) with (S (io_reads a)) in Hok, Hr.
  pose proof (polls_until_bounds GVE_MAX_ADMINQ_EVENT_COUNTER_CHECK
                (S (io_reads a)) (adminq_prod_cnt a)) as [Hle Hge].
  rewrite <- Hok.
  destruct (w.1) eqn:Ew.
  - destruct (kick_and_wait_check_same
                (seqZ (u32 (event_counter_at pf (io_reads a)))
                   (adminq_prod_cnt a - u32 (event_counter_at pf (io_reads a))))
                w.2) as (_ & _ & _ & Hio).
    rewrite Hio, Hr.
    split; [reflexivity|]. split; [split; [apply Hge; discriminate|exact Hle]|].
    split; [|discriminate].
    intros H. exfalso.
    destruct (kick_and_wait_check_spec
                (seqZ (u32 (event_counter_at pf (io_reads a)))
                   (adminq_prod_cnt a - u32 (event_counter_at pf (io_reads a))))
                w.2) as (He & _).
    rewrite He in H. destruct (first_failed _) as [st|].
    + exact (parse_err_code_not_timeout st H).
    + discriminate H.
  - cbn [fst snd io_reads set_adminq_timeouts]. rewrite Hr.
    split; [reflexivity|]. split; [split; [apply Hge; discriminate|exact Hle]|].
    split; reflexivity.
Qed.

(** The store of [issue_cmd_write] in full: the slot, the producer counter
    and the one opcode counter. *)
Lemma issue_cmd_write_counts cmd a :
  ring_wf a ->
  let res := issue_cmd_write cmd a in
  res.1 = 0 /\
  adminq res.2 = <[next_slot a := cmd]> (adminq a) /\
  adminq_prod_cnt res.2 = u32 (adminq_prod_cnt a + 1) /\
  reg_doorbell res.2 = reg_doorbell a /\
  io_reads res.2 = io_reads a /\
  adminq_cmd_fail res.2 = adminq_cmd_fail a /\
  adminq_timeouts res.2 = adminq_timeouts a /\
  (forall o, adminq_opcode_cnt res.2 o =
             if bool_decide (o = counted_opcode cmd) && opcode_is_counted o
             then u32 (adminq_opcode_cnt a o + 1)
             else adminq_opcode_cnt a o).
Proof.
  intros Hwf.
  unfold issue_cmd_write, bind, gets, modify, adminq_slot, bump_opcode_cnt, ret.
  cbv zeta. cbn [fst snd adminq set_adminq set_adminq_prod_cnt adminq_mask
                 adminq_prod_cnt].
  unfold gets. cbv beta iota. cbn [adminq set_adminq set_adminq_prod_cnt].
  fold (next_slot a).
  rewrite list_lookup_insert_eq by (apply next_slot_in_range, Hwf).
  cbn [default]. unfold id. fold (counted_opcode cmd).
  destruct (opcode_is_counted (counted_opcode cmd)) eqn:Hc;
    cbn [fst snd adminq set_adminq set_adminq_prod_cnt adminq_mask
         adminq_prod_cnt set_adminq_opcode_cnt adminq_opcode_cnt reg_doorbell
         io_reads adminq_cmd_fail adminq_timeouts modify ret].
  - repeat (split; [reflexivity|]). intros o.
    destruct (decide (o = counted_opcode cmd)) as [->|Hn].
    + rewrite bool_decide_eq_true_2 by reflexivity. cbn [andb]. rewrite Hc.
      reflexivity.
    + rewrite bool_decide_eq_false_2 by exact Hn. reflexivity.
  - repeat (split; [reflexivity|]). intros o.
    destruct (decide (o = counted_opcode cmd)) as [->|Hn].
    + rewrite bool_decide_eq_true_2 by reflexivity. cbn [andb]. rewrite Hc.
      reflexivity.
    + rewrite bool_decide_eq_false_2 by exact Hn. reflexivity.
Qed.

(** X2.  Issuing into a ring that has room stores the command in slot
    [producer & mask], leaves every other slot as the device left it,
    advances the producer counter and counts the command under its opcode
    (the inner opcode for an extended command, nothing for an opcode the
    switch does not know).  It costs one register read and does not ring
    the doorbell: the device is told at the next flush. *)
Theorem issue_cmd_with_room (a : gve_adminq_priv) (cmd : gve_adminq_command) :
  ring_wf a ->
  let a1 := (ioread32be_event_counter pf a).2 in
  ring_full a1 = false ->
  let res := gve_adminq_issue_cmd pf cmd a in
  res.1 = 0 /\
  adminq res.2 !! next_slot a = Some cmd /\
  (forall k, k <> next_slot a -> adminq res.2 !! k = adminq a1 !! k) /\
  adminq_prod_cnt res.2 = u32 (adminq_prod_cnt a + 1) /\
  reg_doorbell res.2 = reg_doorbell a /\
  io_reads res.2 = S (io_reads a) /\
  (forall o, adminq_opcode_cnt res.2 o =
             if bool_decide (o = counted_opcode cmd) && opcode_is_counted o
             then u32 (adminq_opcode_cnt a o + 1)
             else adminq_opcode_cnt a o).
Proof.
  intros Hwf a1 Hroom res. subst res.
  rewrite issue_cmd_unfold. cbv zeta. fold a1. rewrite Hroom.
  assert (Hwf1 : ring_wf a1).
  { eapply ring_wf_same_commands; [|exact Hwf].
    apply same_bookkeeping_commands, ioread_bookkeeping. }
  destruct (issue_cmd_write_counts cmd a1 Hwf1)
    as (Hr & Ha & Hp & Hd & Hio & _ & _ & Hcnt).
  assert (Hns : next_slot a1 = next_slot a) by reflexivity.
  rewrite Hns in Ha.
  split; [exact Hr|]. rewrite Ha.
  split.
  { apply list_lookup_insert_eq.
    replace (length (adminq a1)) with (length (adminq a))
      by (symmetry; apply length_imap).
    apply next_slot_in_range, Hwf. }
  split; [intros k Hk; apply list_lookup_insert_ne; congruence|].
  split; [exact Hp|]. split; [exact Hd|]. split; [exact Hio|].
  exact Hcnt.
Qed.

Lemma execute_cmd_unfold cmd a :
  gve_adminq_execute_cmd pf cmd a =
  let tail := u32 (event_counter_at pf (io_reads a)) in
  let a1 := (ioread32be_event_counter pf a).2 in
  if negb (tail =? adminq_prod_cnt a) then (- EINVAL, a1)
  else
    let iss := gve_adminq_issue_cmd pf cmd a1 in
    if negb (iss.1 =? 0) then iss else gve_adminq_kick_and_wait pf iss.2.
Proof.
  unfold gve_adminq_execute_cmd, bind, gets, ret.
  change (ioread32be_event_counter pf a) with
    (u32 (event_counter_at pf (io_reads a)), (ioread32be_event_counter pf a).2).
  cbv beta iota zeta.
  change (adminq_prod_cnt (ioread32be_event_counter pf a).2)
    with (adminq_prod_cnt a).
  destruct (negb _); [reflexivity|].
  destruct (gve_adminq_issue_cmd pf cmd _) as [e a2]. cbn [fst snd].
  destruct (negb _); reflexivity.
Qed.

(** Whatever path an issue takes: a zero result means the command is in
    the slot the producer counter pointed at and the counter is one higher;
    a nonzero result means no command was written; no other slot's command
    is touched. *)
Lemma issue_cmd_slots cmd a :
  ring_wf a ->
  let res := gve_adminq_issue_cmd pf cmd a in
  ring_wf res.2 /\
  (res.1 = 0 ->
   adminq res.2 !! next_slot a = Some cmd /\
   adminq_prod_cnt res.2 = u32 (adminq_prod_cnt a + 1)) /\
  (res.1 <> 0 -> same_commands a res.2) /\
  (forall k, k <> next_slot a ->
     opcode <$> adminq res.2 !! k = opcode <$> adminq a !! k /\
     payload <$> adminq res.2 !! k = payload <$> adminq a !! k).
Proof.
  intros Hwf res. subst res. rewrite issue_cmd_unfold. cbv zeta.
  set (a1 := (ioread32be_event_counter pf a).2).
  assert (H1 : same_commands a a1)
    by apply same_bookkeeping_commands, ioread_bookkeeping.
  assert (Hwrite : forall b, same_commands a b ->
    ring_wf (issue_cmd_write cmd b).2 /\
    ((issue_cmd_write cmd b).1 = 0 ->
     adminq (issue_cmd_write cmd b).2 !! next_slot a = Some cmd /\
     adminq_prod_cnt (issue_cmd_write cmd b).2 = u32 (adminq_prod_cnt a + 1)) /\
    ((issue_cmd_write cmd b).1 <> 0 -> same_commands a (issue_cmd_write cmd b).2) /\
    (forall k, k <> next_slot a ->
       opcode <$> adminq (issue_cmd_write cmd b).2 !! k = opcode <$> adminq a !! k /\
       payload <$> adminq (issue_cmd_write cmd b).2 !! k
         = payload <$> adminq a !! k)).
  { intros b Hab.
    assert (Hwfb : ring_wf b) by (eapply ring_wf_same_commands; eassumption).
    destruct (issue_cmd_write_spec cmd b) as (Hr & Ha & Hp & Hm & _).
    destruct Hab as (Hmb & Hpb & Hlb & Hob & Hplb).
    assert (Hns : next_slot b = next_slot a)
      by (unfold next_slot; rewrite Hmb, Hpb; reflexivity).
    rewrite Hns in Ha.
    assert (Hin : (next_slot a < length (adminq b))%nat)
      by (rewrite Hlb; apply next_slot_in_range, Hwf).
    split.
    { destruct Hwfb as (k & Hk & Hmk & Hl). exists k.
      split; [exact Hk|]. split; [congruence|].
      rewrite Ha, length_insert. exact Hl. }
    split.
    { intros _. rewrite Ha, Hp, Hpb.
      split; [apply list_lookup_insert_eq, Hin|reflexivity]. }
    split; [intros Hn; contradiction|].
    intros k Hk. rewrite Ha, list_lookup_insert_ne by congruence.
    split; [apply Hob|apply Hplb]. }
  assert (Hsame : forall b, same_commands a b ->
    ring_wf b /\ (forall k,
       opcode <$> adminq b !! k = opcode <$> adminq a !! k /\
       payload <$> adminq b !! k = payload <$> adminq a !! k)).
  { intros b Hab. split; [eapply ring_wf_same_commands; eassumption|].
    intros k. destruct Hab as (_&_&_&Ho&Hp). split; [apply Ho|apply Hp]. }
  destruct (ring_full a1).
  - set (fl := gve_adminq_kick_and_wait pf a1).
    assert (H2 : same_commands a fl.2).
    { eapply same_commands_trans; [exact H1|].
      apply kick_and_wait_same_commands. }
    destruct (Z.eqb_spec fl.1 0) as [Hz|Hnz]; cbn [negb].
    + set (a3 := (ioread32be_event_counter pf fl.2).2).
      assert (H3 : same_commands a a3).
      { eapply same_commands_trans; [exact H2|].
        apply same_bookkeeping_commands, ioread_bookkeeping. }
      destruct (ring_full a3); [|apply Hwrite, H3].
      cbn [fst snd]. destruct (Hsame a3 H3) as [Hw Hk].
      split; [exact Hw|]. split; [intros H; discriminate H|].
      split; [intros _; exact H3|]. intros k _. apply Hk.
    + destruct (Hsame fl.2 H2) as [Hw Hk].
      split; [exact Hw|]. split; [intros H; contradiction|].
      split; [intros _; exact H2|]. intros k _. apply Hk.
  - apply Hwrite, H1.
Qed.

(** A flush that returns zero has drained the ring. *)
Lemma kick_and_wait_zero_drained b :
  (gve_adminq_kick_and_wait pf b).1 = 0 ->
  drained (gve_adminq_kick_and_wait pf b).2.
Proof.
  rewrite kick_and_wait_unfold. cbv zeta.
  set (b1 := (ioread32be_event_counter pf b).2).
  set (b2 := set_reg_doorbell _ b1).
  pose proof (wait_for_cmd_loop_spec pf GVE_MAX_ADMINQ_EVENT_COUNTER_CHECK
                (adminq_prod_cnt b) b2) as Hw.
  cbv zeta in Hw.
  set (w := wait_for_cmd_loop pf GVE_MAX_ADMINQ_EVENT_COUNTER_CHECK
              (adminq_prod_cnt b) b2) in *.
  destruct Hw as (Hb & _ & Hev & _).
  destruct (w.1); [|intros Hz; discriminate Hz].
  intros _.
  destruct (kick_and_wait_check_same
              (seqZ (u32 (event_counter_at pf (io_reads b)))
                 (adminq_prod_cnt b - u32 (event_counter_at pf (io_reads b))))
              w.2) as ((_ & Hp & _) & _ & He & _).
  unfold drained. rewrite Hp, He, Hev by reflexivity.
  destruct Hb as (_ & Hpb & _). rewrite Hpb. reflexivity.
Qed.

(** X3.  A command is executed only on a drained ring.  When the event
    counter differs from the producer counter at entry the call returns
    [-EINVAL] after that one read, with no command written and the doorbell
    not rung.  When the call returns zero the ring is drained again, the
    producer counter is one higher and the command is in the slot the
    producer counter pointed at.  In no case is another slot's command
    changed. *)
Theorem execute_cmd_outcomes (a : gve_adminq_priv) (cmd : gve_adminq_command) :
  ring_wf a ->
  let res := gve_adminq_execute_cmd pf cmd a in
  let tail := u32 (event_counter_at pf (io_reads a)) in
  (tail <> adminq_prod_cnt a ->
   res.1 = - EINVAL /\ same_commands a res.2 /\
   reg_doorbell res.2 = reg_doorbell a /\ io_reads res.2 = S (io_reads a)) /\
  (res.1 = 0 ->
   tail = adminq_prod_cnt a /\ drained res.2 /\
   adminq_prod_cnt res.2 = u32 (adminq_prod_cnt a + 1) /\
   opcode <$> adminq res.2 !! next_slot a = Some (opcode cmd) /\
   payload <$> adminq res.2 !! next_slot a = Some (payload cmd)) /\
  (forall k, k <> next_slot a ->
     opcode <$> adminq res.2 !! k = opcode <$> adminq a !! k /\
     payload <$> adminq res.2 !! k = payload <$> adminq a !! k).
Proof.
  intros Hwf res tail. subst res. rewrite execute_cmd_unfold. cbv zeta.
  fold tail.
  set (a1 := (ioread32be_event_counter pf a).2).
  assert (H1 : same_commands a a1)
    by apply same_bookkeeping_commands, ioread_bookkeeping.
  assert (Hwf1 : ring_wf a1) by (eapply ring_wf_same_commands; eassumption).
  destruct (Z.eqb_spec tail (adminq_prod_cnt a)) as [Heq|Hne]; cbn [negb].
  2:{ cbn [fst snd].
      split; [intros _; split; [reflexivity|]; split; [exact H1|];
              split; reflexivity|].
      split; [intros H; discriminate H|].
      intros k _. destruct H1 as (_&_&_&Ho&Hp). split; [apply Ho|apply Hp]. }
  split; [intros Hne; contradiction|].
  destruct (issue_cmd_slots cmd a1 Hwf1) as (Hwf2 & Hok & Hfail & Hoth).
  change (next_slot a1) with (next_slot a) in Hok, Hoth.
  change (adminq_prod_cnt a1) with (adminq_prod_cnt a) in Hok.
  set (iss := gve_adminq_issue_cmd pf cmd a1) in *.
  assert (Hoth' : forall k, k <> next_slot a ->
     opcode <$> adminq iss.2 !! k = opcode <$> adminq a !! k /\
     payload <$> adminq iss.2 !! k = payload <$> adminq a !! k).
  { intros k Hk. destruct (Hoth k Hk) as [Ho Hp].
    destruct H1 as (_&_&_&Ho1&Hp1). rewrite Ho, Hp. split; [apply Ho1|apply Hp1]. }
  destruct (Z.eqb_spec iss.1 0) as [Hz|Hnz]; cbn [negb].
  - destruct (Hok Hz) as [Hslot Hprod].
    destruct (kick_and_wait_same_commands pf iss.2) as (_ & Hpf & _ & Hof & Hpl).
    split.
    + intros Hres. split; [exact Heq|].
      split; [apply kick_and_wait_zero_drained, Hres|].
      split; [rewrite Hpf; exact Hprod|].
      rewrite Hof, Hpl, Hslot. split; reflexivity.
    + intros k Hk. rewrite Hof, Hpl. apply Hoth', Hk.
  - split; [intros H; contradiction|exact Hoth'].
Qed.

(** What a successful execution leaves in the ring. *)
Lemma execute_cmd_zero cmd a :
  ring_wf a ->
  (gve_adminq_execute_cmd pf cmd a).1 = 0 ->
  drained (gve_adminq_execute_cmd pf cmd a).2 /\
  adminq_prod_cnt (gve_adminq_execute_cmd pf cmd a).2
    = u32 (adminq_prod_cnt a + 1) /\
  opcode <$> adminq (gve_adminq_execute_cmd pf cmd a).2 !! next_slot a
    = Some (opcode cmd) /\
  payload <$> adminq (gve_adminq_execute_cmd pf cmd a).2 !! next_slot a
    = Some (payload cmd).
Proof.
  intros Hwf. rewrite execute_cmd_unfold. cbv zeta.
  set (a1 := (ioread32be_event_counter pf a).2).
  assert (H1 : same_commands a a1)
    by apply same_bookkeeping_commands, ioread_bookkeeping.
  assert (Hwf1 : ring_wf a1) by (eapply ring_wf_same_commands; eassumption).
  destruct (negb _); [intros H; discriminate H|].
  destruct (issue_cmd_slots cmd a1 Hwf1) as (_ & Hok & _).
  change (next_slot a1) with (next_slot a) in Hok.
  change (adminq_prod_cnt a1) with (adminq_prod_cnt a) in Hok.
  set (iss := gve_adminq_issue_cmd pf cmd a1) in *.
  destruct (Z.eqb_spec iss.1 0) as [Hz|Hnz]; cbn [negb];
    [|intros H; contradiction].
  destruct (Hok Hz) as [Hslot Hprod].
  destruct (kick_and_wait_same_commands pf iss.2) as (_ & Hpf & _ & Hof & Hpl).
  intros Hres. split; [apply kick_and_wait_zero_drained, Hres|].
  split; [rewrite Hpf; exact Hprod|].
  rewrite Hof, Hpl, Hslot. split; reflexivity.
Qed.

Lemma kick_and_wait_requests a :
  dma_requests (gve_adminq_kick_and_wait pf a).2 = dma_requests a.
Proof.
  rewrite kick_and_wait_unfold. cbv zeta.
  set (a1 := (ioread32be_event_counter pf a).2).
  set (a2 := set_reg_doorbell _ a1).
  pose proof (wait_for_cmd_loop_spec pf GVE_MAX_ADMINQ_EVENT_COUNTER_CHECK
                (adminq_prod_cnt a) a2) as Hw.
  cbv zeta in Hw. destruct Hw as ((_&_&_&_&_&_&_&Hd&_) & _).
  set (w := wait_for_cmd_loop pf _ _ a2) in *.
  change (dma_requests a2) with (dma_requests a) in Hd.
  destruct (w.1).
  - destruct (kick_and_wait_check_spec (seqZ (u32 (event_counter_at pf (io_reads a)))
                (adminq_prod_cnt a - u32 (event_counter_at pf (io_reads a)))) w.2)
      as (_ & Hs).
    rewrite Hs. destruct (first_failed _) as [st|];
      [destruct (status_counts_as_failure st)|]; exact Hd.
  - exact Hd.
Qed.

Lemma issue_cmd_write_requests cmd a :
  dma_requests (issue_cmd_write cmd a).2 = dma_requests a.
Proof.
  unfold issue_cmd_write, bind, gets, modify, adminq_slot, bump_opcode_cnt, ret.
  cbv zeta. simpl.
  match goal with
  | |- context [opcode_is_counted ?o] => destruct (opcode_is_counted o)
  end; reflexivity.
Qed.

Lemma issue_cmd_requests cmd a :
  dma_requests (gve_adminq_issue_cmd pf cmd a).2 = dma_requests a.
Proof.
  rewrite issue_cmd_unfold. cbv zeta.
  destruct (ring_full _).
  - pose proof (kick_and_wait_requests (ioread32be_event_counter pf a).2) as Hk.
    change (dma_requests (ioread32be_event_counter pf a).2)
      with (dma_requests a) in Hk.
    destruct (negb _); [exact Hk|].
    destruct (ring_full _); [exact Hk|].
    rewrite issue_cmd_write_requests. exact Hk.
  - rewrite issue_cmd_write_requests. reflexivity.
Qed.

Lemma execute_cmd_requests cmd a :
  dma_requests (gve_adminq_execute_cmd pf cmd a).2 = dma_requests a.
Proof.
  rewrite execute_cmd_unfold. cbv zeta.
  destruct (negb _); [reflexivity|].
  pose proof (issue_cmd_requests cmd (ioread32be_event_counter pf a).2) as Hi.
  change (dma_requests (ioread32be_event_counter pf a).2)
    with (dma_requests a) in Hi.
  destruct (negb _); [exact Hi|].
  rewrite kick_and_wait_requests. exact Hi.
Qed.

Lemma fresh_bus_address_nonzero (live : gmap Z dma_buffer) :
  fresh ({[0]} ∪ dom live) <> 0.
Proof.
  pose proof (is_fresh ({[0]} ∪ dom live)) as H. set_solver.
Qed.

(** X4.  An extended command makes one allocation request.  When the
    allocation fails the call returns [-ENOMEM] and has touched neither the
    ring nor a register.  When the call returns zero, the slot the producer
    counter pointed at holds an extended command that names the inner
    opcode, the inner length and the bus address of the staging buffer; that
    address is not null and was not in use when the call was made, and the
    ring is drained, so the device is done with the buffer when it is
    freed. *)
Theorem extended_cmd_outcomes (op : gve_adminq_opcodes) (size : Z)
    (content : dma_content) (a : gve_adminq_priv) :
  ring_wf a ->
  let res := gve_adminq_execute_extended_cmd pf op size content a in
  let h := fresh ({[0]} ∪ dom (dma_live a)) in
  dma_requests res.2 = S (dma_requests a) /\
  (dma_alloc_ok pf (dma_requests a) = false ->
   res = (- ENOMEM, set_dma_requested a)) /\
  (res.1 = 0 ->
   dma_alloc_ok pf (dma_requests a) = true /\
   h <> 0 /\ dma_live a !! h = None /\
   opcode <$> adminq res.2 !! next_slot a
     = Some GVE_ADMINQ_EXTENDED_COMMAND /\
   payload <$> adminq res.2 !! next_slot a
     = Some (payload_extended_command op (u32 size) h) /\
   drained res.2 /\ dma_live res.2 !! h = None).
Proof.
  intros Hwf res h. subst res.
  pose proof (extended_cmd_frees pf op size content a) as Hfree.
  revert Hfree.
  unfold gve_adminq_execute_extended_cmd, bind, dma_alloc_coherent, ret.
  cbv zeta. fold h.
  destruct (dma_alloc_ok pf (dma_requests a)).
  2:{ intros _. cbn [fst snd dma_requests set_dma_requested].
      split; [reflexivity|]. split; [reflexivity|].
      intros H; discriminate H. }
  unfold dma_store, dma_free_coherent, modify. cbv beta iota.
  set (a1 := set_dma _ (set_dma _ (set_dma_requested a))).
  set (cmd := mk_cmd GVE_ADMINQ_EXTENDED_COMMAND
                (payload_extended_command op (u32 size) h)).
  assert (Hwf1 : ring_wf a1) by exact Hwf.
  pose proof (execute_cmd_requests cmd a1) as Hreq.
  pose proof (execute_cmd_zero cmd a1 Hwf1) as Hz.
  change (next_slot a1) with (next_slot a) in Hz.
  destruct (gve_adminq_execute_cmd pf cmd a1) as [e a2].
  cbn [fst snd dma_requests set_dma dma_live adminq] in *.
  intros Hfree.
  split; [exact Hreq|]. split; [intros H; discriminate H|].
  intros He. destruct (Hz He) as (Hd & _ & Ho & Hp).
  split; [reflexivity|].
  split; [apply fresh_bus_address_nonzero|].
  split; [apply fresh_bus_address_unused|].
  split; [exact Ho|]. split; [exact Hp|].
  split; [exact Hd|].
  rewrite Hfree. apply fresh_bus_address_unused.
Qed.

End TransportMore.

(** ** RSS configuration: what is staged and what the command names *)

Section RssMore.

Variable pf : platform.
Variable C : gve_consts.

Lemma dma_alloc_coherent_eq size a :
  dma_alloc_coherent pf size a =
  if dma_alloc_ok pf (dma_requests a) then
    (Some (fresh ({[0]} ∪ dom (dma_live a))),
     set_dma (<[fresh ({[0]} ∪ dom (dma_live a)) :=
                  {| dma_size := size; dma_data := dma_uninit |}]> (dma_live a))
       (set_dma_requested a))
  else (None, set_dma_requested a).
Proof. reflexivity. Qed.

(** The command of [gve_adminq_configure_rss] for given staging addresses. *)
Lemma configure_rss_unfold rss_config a :
  gve_adminq_configure_rss pf C rss_config a =
  let cmd hkey hindir :=
    mk_cmd GVE_ADMINQ_CONFIGURE_RSS
      (payload_configure_rss (GVE_RSS_HASH_TYPES C) (alg rss_config)
         (u16 (key_size rss_config)) (u16 (indir_size rss_config))
         hkey hindir) in
  let stage size content (b : gve_adminq_priv) :=
    let h := fresh ({[0]} ∪ dom (dma_live b)) in
    (h, set_dma (alter (fun x => {| dma_size := dma_size x; dma_data := content |}) h
                   (<[h := {| dma_size := size; dma_data := dma_uninit |}]>
                      (dma_live b)))
          (set_dma_requested b)) in
  let free h (b : gve_adminq_priv) := set_dma (delete h (dma_live b)) b in
  let indir_c := dma_words (array_prefix (indir_size rss_config)
                              (indir rss_config)) in
  let key_c := dma_bytes (array_prefix (key_size rss_config)
                            (rss_key rss_config)) in
  if indir_size rss_config =? 0 then
    if key_size rss_config =? 0 then gve_adminq_execute_cmd pf (cmd 0 0) a
    else if dma_alloc_ok pf (dma_requests a) then
      let s2 := stage (key_size rss_config * sizeof_key_entry) key_c a in
      let ex := gve_adminq_execute_cmd pf (cmd s2.1 0) s2.2 in
      (ex.1, free s2.1 ex.2)
    else (- ENOMEM, set_dma_requested a)
  else if dma_alloc_ok pf (dma_requests a) then
    let s1 := stage (indir_size rss_config * sizeof_indir_entry) indir_c a in
    if key_size rss_config =? 0 then
      let ex := gve_adminq_execute_cmd pf (cmd 0 s1.1) s1.2 in
      (ex.1, free s1.1 ex.2)
    else if dma_alloc_ok pf (S (dma_requests a)) then
      let s2 := stage (key_size rss_config * sizeof_key_entry) key_c s1.2 in
      let ex := gve_adminq_execute_cmd pf (cmd s2.1 s1.1) s2.2 in
      (ex.1, free s2.1 (free s1.1 ex.2))
    else (- ENOMEM, free s1.1 (set_dma_requested s1.2))
  else (- ENOMEM, set_dma_requested a).
Proof.
  unfold gve_adminq_configure_rss, configure_rss_body, bind, ret.
  cbv zeta.
  destruct (indir_size rss_config =? 0); cbn [negb]; cbv beta iota.
  - destruct (key_size rss_config =? 0); cbn [negb]; cbv beta iota.
    + cbn [default].
      destruct (gve_adminq_execute_cmd pf _ a) as [e a2]. reflexivity.
    + rewrite dma_alloc_coherent_eq.
      destruct (dma_alloc_ok pf (dma_requests a)); cbv beta iota;
        [|reflexivity].
      unfold dma_store, dma_free_coherent, modify. cbv beta iota.
      cbn [default fst snd dma_live set_dma set_dma_requested].
      destruct (gve_adminq_execute_cmd pf _ _) as [e a2]. reflexivity.
  - rewrite dma_alloc_coherent_eq.
    destruct (dma_alloc_ok pf (dma_requests a)); cbv beta iota;
      [|reflexivity].
    unfold dma_store at 1. unfold modify at 1. cbv beta iota.
    destruct (key_size rss_config =? 0); cbn [negb]; cbv beta iota.
    + unfold dma_free_coherent, modify. cbv beta iota.
      cbn [default fst snd dma_live set_dma set_dma_requested].
      destruct (gve_adminq_execute_cmd pf _ _) as [e a2]. reflexivity.
    + rewrite dma_alloc_coherent_eq.
      cbn [dma_requests set_dma set_dma_requested].
      destruct (dma_alloc_ok pf (S (dma_requests a))); cbv beta iota.
      * unfold dma_store, dma_free_coherent, modify. cbv beta iota.
        cbn [default fst snd dma_live set_dma set_dma_requested].
        destruct (gve_adminq_execute_cmd pf _ _) as [e a2]. reflexivity.
      * reflexivity.
Qed.

(** X5.  The RSS command names a staging buffer exactly for the tables that
    are not empty: an empty key or indirection table goes out as a null
    address with length zero and costs no allocation, a non-empty one as a
    non-null address, and the two addresses differ.  When an allocation
    fails the call returns [-ENOMEM] without having issued a command or read
    a register. *)
Theorem configure_rss_staging (rss_config : gve_rss_config)
    (a : gve_adminq_priv) :
  ring_wf a ->
  let res := gve_adminq_configure_rss pf C rss_config a in
  let n := dma_requests a in
  (indir_size rss_config = 0 -> key_size rss_config = 0 ->
   dma_requests res.2 = n) /\
  (indir_size rss_config <> 0 \/ key_size rss_config <> 0 ->
   dma_alloc_ok pf n = false ->
   res = (- ENOMEM, set_dma_requested a)) /\
  (indir_size rss_config <> 0 -> key_size rss_config <> 0 ->
   dma_alloc_ok pf n = true -> dma_alloc_ok pf (S n) = false ->
   res.1 = - ENOMEM /\ adminq res.2 = adminq a /\
   adminq_prod_cnt res.2 = adminq_prod_cnt a /\
   reg_doorbell res.2 = reg_doorbell a /\ io_reads res.2 = io_reads a) /\
  (res.1 = 0 ->
   exists hkey hindir,
     opcode <$> adminq res.2 !! next_slot a = Some GVE_ADMINQ_CONFIGURE_RSS /\
     payload <$> adminq res.2 !! next_slot a
       = Some (payload_configure_rss (GVE_RSS_HASH_TYPES C) (alg rss_config)
                 (u16 (key_size rss_config)) (u16 (indir_size rss_config))
                 hkey hindir) /\
     (hkey = 0 <-> key_size rss_config = 0) /\
     (hindir = 0 <-> indir_size rss_config = 0) /\
     (key_size rss_config <> 0 -> indir_size rss_config <> 0 ->
      hkey <> hindir) /\
     drained res.2).
Proof.
  intros Hwf res n.
  assert (Heq := configure_rss_unfold rss_config a). fold res in Heq.
  cbv zeta in Heq. clearbody res. subst res n.
  assert (Hstage : forall size content b,
    ring_wf b ->
    ring_wf (set_dma (alter (fun x => {| dma_size := dma_size x;
                                         dma_data := content |})
                        (fresh ({[0]} ∪ dom (dma_live b)))
                        (<[fresh ({[0]} ∪ dom (dma_live b)) :=
                             {| dma_size := size; dma_data := dma_uninit |}]>
                           (dma_live b)))
               (set_dma_requested b))) by (intros ? ? b Hb; exact Hb).
  destruct (Z.eqb_spec (indir_size rss_config) 0) as [Hi|Hi].
  - destruct (Z.eqb_spec (key_size rss_config) 0) as [Hk|Hk].
    + pose proof (execute_cmd_requests pf
                    (mk_cmd GVE_ADMINQ_CONFIGURE_RSS
                       (payload_configure_rss (GVE_RSS_HASH_TYPES C)
                          (alg rss_config) (u16 (key_size rss_config))
                          (u16 (indir_size rss_config)) 0 0)) a) as Hreq.
      split; [intros _ _; exact Hreq|].
      split; [intros [H|H]; contradiction|].
      split; [intros H; contradiction|].
      intros He. destruct (execute_cmd_zero pf _ a Hwf He) as (Hd & _ & Ho & Hp).
      exists 0, 0. split; [exact Ho|]. split; [exact Hp|].
      split; [split; intros _; [exact Hk|reflexivity]|].
      split; [split; intros _; [exact Hi|reflexivity]|].
      split; [intros H; contradiction|exact Hd].
    + destruct (dma_alloc_ok pf (dma_requests a)) eqn:Hal.
      2:{ split; [intros _ H; contradiction|].
          split; [intros _ _; reflexivity|].
          split; [intros H; contradiction|]. intros H; discriminate H. }
      set (h := fresh ({[0]} ∪ dom (dma_live a))).
      assert (Hh : h <> 0) by apply fresh_bus_address_nonzero.
      cbn [fst snd].
      split; [intros _ H; contradiction|].
      split; [intros _ H; discriminate H|].
      split; [intros H; contradiction|].
      intros He.
      destruct (execute_cmd_zero pf _ _ (Hstage _ _ a Hwf) He)
        as (Hd & _ & Ho & Hp).
      exists h, 0. split; [exact Ho|]. split; [exact Hp|].
      split; [split; intros H; contradiction|].
      split; [split; intros _; [exact Hi|reflexivity]|].
      split; [intros _ H; contradiction|exact Hd].
  - destruct (dma_alloc_ok pf (dma_requests a)) eqn:Hal.
    2:{ split; [intros H; contradiction|].
        split; [intros _ _; reflexivity|].
        split; [intros _ _ H; discriminate H|]. intros H; discriminate H. }
    set (h1 := fresh ({[0]} ∪ dom (dma_live a))).
    assert (Hh1 : h1 <> 0) by apply fresh_bus_address_nonzero.
    cbn [fst snd].
    set (a1 := set_dma _ (set_dma_requested a)).
    assert (Hwf1 : ring_wf a1) by exact Hwf.
    assert (Hlive1 : h1 ∈ dom (dma_live a1)).
    { subst a1. cbn [dma_live set_dma].
      apply elem_of_dom. rewrite lookup_alter_eq, lookup_insert_eq.
      eexists. reflexivity. }
    destruct (Z.eqb_spec (key_size rss_config) 0) as [Hk|Hk].
    + cbn [fst snd].
      split; [intros H; contradiction|].
      split; [intros _ H; discriminate H|].
      split; [intros _ H; contradiction|].
      intros He.
      destruct (execute_cmd_zero pf _ _ Hwf1 He) as (Hd & _ & Ho & Hp).
      exists 0, h1. split; [exact Ho|]. split; [exact Hp|].
      split; [split; intros _; [exact Hk|reflexivity]|].
      split; [split; intros H; contradiction|].
      split; [intros H; contradiction|exact Hd].
    + destruct (dma_alloc_ok pf (S (dma_requests a))) eqn:Hal2.
      2:{ cbn [fst snd adminq set_dma set_dma_requested adminq_prod_cnt
               reg_doorbell io_reads].
          split; [intros H; contradiction|].
          split; [intros _ H; discriminate H|].
          split; [intros _ _ _ _; repeat split; reflexivity|].
          intros H; discriminate H. }
      set (h2 := fresh ({[0]} ∪ dom (dma_live a1))).
      assert (Hh2 : h2 <> 0) by apply fresh_bus_address_nonzero.
      assert (Hne : h2 <> h1).
      { intros E. pose proof (is_fresh ({[0]} ∪ dom (dma_live a1))) as Hf.
        fold h2 in Hf. rewrite E in Hf.
        apply Hf, elem_of_union_r, Hlive1. }
      cbn [fst snd].
      split; [intros H; contradiction|].
      split; [intros _ H; discriminate H|].
      split; [intros _ _ _ H; discriminate H|].
      intros He.
      destruct (execute_cmd_zero pf _ _ (Hstage _ _ a1 Hwf1) He)
        as (Hd & _ & Ho & Hp).
      exists h2, h1. split; [exact Ho|]. split; [exact Hp|].
      split; [split; intros H; contradiction|].
      split; [split; intros H; contradiction|].
      split; [intros _ _; exact Hne|exact Hd].
Qed.

End RssMore.

(** ** Describe device: the buffer, the failures and what success means *)

Section DescribeMore.

Variable pf : platform.
Variable C : gve_consts.

Lemma describe_device_unfold p :
  gve_adminq_describe_device pf C p =
  if dma_alloc_ok pf (dma_requests (aq p)) then
    let h := fresh ({[0]} ∪ dom (dma_live (aq p))) in
    let a1 := set_dma (<[h := {| dma_size := PAGE_SIZE C;
                                 dma_data := dma_uninit |}]> (dma_live (aq p)))
                (set_dma_requested (aq p)) in
    let cmd := mk_cmd GVE_ADMINQ_DESCRIBE_DEVICE
                 (payload_describe_device h
                    (GVE_ADMINQ_DEVICE_DESCRIPTOR_VERSION C)
                    (u32 (PAGE_SIZE C))) in
    let ex := gve_adminq_execute_cmd pf cmd a1 in
    let free (b : gve_adminq_priv) := set_dma (delete h (dma_live b)) b in
    if negb (ex.1 =? 0) then (ex.1, set_aq (free ex.2) p)
    else
      let ap := describe_device_apply C (descriptor_at pf (io_reads ex.2))
                  (cfg p) in
      (ap.1, set_aq (free ex.2) (set_cfg ap.2 p))
  else (- ENOMEM, set_aq (set_dma_requested (aq p)) p).
Proof.
  unfold gve_adminq_describe_device, bind, lift_aq, ret.
  rewrite dma_alloc_coherent_eq.
  destruct (dma_alloc_ok pf (dma_requests (aq p))); cbv beta iota zeta;
    [|reflexivity].
  cbn [aq set_aq].
  destruct (gve_adminq_execute_cmd pf _ _) as [e a2]. cbn [fst snd].
  destruct (negb (e =? 0)).
  - unfold dma_free_coherent, modify. reflexivity.
  - unfold gets, modify, bind, ret, dma_free_coherent. cbn [aq cfg set_aq].
    destruct (describe_device_apply C _ (cfg p)) as [e2 c2]. reflexivity.
Qed.

(** X6.  Describe-device frees its descriptor buffer on every path.  A
    failed allocation returns [-ENOMEM] with nothing else done, and a
    failed command returns the command's error with the configuration
    untouched.  Once the command has passed, the result and the
    configuration are those of applying the descriptor the device wrote
    into the buffer.  A call that returns zero issued a describe-device
    command that names the buffer, the descriptor version and a page as the
    available length, and the device's descriptor was accepted. *)
Theorem describe_device_outcomes (p : gve_priv) :
  ring_wf (aq p) ->
  let res := gve_adminq_describe_device pf C p in
  let h := describe_device_bus p in
  let ex := describe_device_executed pf C p in
  let ap := describe_device_apply C (device_descriptor pf C p) (cfg p) in
  dma_live (aq res.2) = dma_live (aq p) /\
  (dma_alloc_ok pf (dma_requests (aq p)) = false ->
   res = (- ENOMEM, set_aq (set_dma_requested (aq p)) p)) /\
  (dma_alloc_ok pf (dma_requests (aq p)) = true -> ex.1 <> 0 ->
   res.1 = ex.1 /\ cfg res.2 = cfg p) /\
  (dma_alloc_ok pf (dma_requests (aq p)) = true -> ex.1 = 0 ->
   res.1 = ap.1 /\ cfg res.2 = ap.2) /\
  (res.1 = 0 ->
   dma_alloc_ok pf (dma_requests (aq p)) = true /\ ex.1 = 0 /\ ap.1 = 0 /\
   h <> 0 /\
   opcode <$> adminq (aq res.2) !! next_slot (aq p)
     = Some GVE_ADMINQ_DESCRIBE_DEVICE /\
   payload <$> adminq (aq res.2) !! next_slot (aq p)
     = Some (payload_describe_device h (GVE_ADMINQ_DEVICE_DESCRIPTOR_VERSION C)
               (u32 (PAGE_SIZE C)))).
Proof.
  intros Hwf res h ex ap.
  assert (Heq := describe_device_unfold p). fold res in Heq.
  cbv zeta in Heq.
  change (fresh ({[0]} ∪ dom (dma_live (aq p)))) with h in Heq.
  change (gve_adminq_execute_cmd pf _ _) with ex in Heq.
  change (describe_device_apply C (descriptor_at pf (io_reads ex.2)) (cfg p))
    with ap in Heq.
  clearbody res. subst res.
  destruct (dma_alloc_ok pf (dma_requests (aq p))).
  2:{ cbn [fst snd aq set_aq cfg dma_live set_dma_requested].
      split; [reflexivity|]. split; [reflexivity|].
      split; [intros H; discriminate H|].
      split; [intros H; discriminate H|]. intros H; discriminate H. }
  pose proof (execute_cmd_dma pf (describe_device_cmd C p)
                (describe_device_ready C p)) as Hdma.
  pose proof (execute_cmd_zero pf (describe_device_cmd C p)
                (describe_device_ready C p) Hwf) as Hz.
  change (next_slot (describe_device_ready C p)) with (next_slot (aq p)) in Hz.
  change (gve_adminq_execute_cmd pf (describe_device_cmd C p)
            (describe_device_ready C p)) with ex in Hdma, Hz.
  assert (Hfree : delete h (dma_live ex.2) = dma_live (aq p)).
  { rewrite Hdma. unfold describe_device_ready. cbn [dma_live set_dma].
    apply delete_insert_id. apply fresh_bus_address_unused. }
  destruct (Z.eqb_spec ex.1 0) as [He|He]; cbn [negb].
  - cbn [fst snd aq set_aq cfg set_cfg dma_live set_dma adminq].
    split; [exact Hfree|]. split; [intros H; discriminate H|].
    split; [intros _ H; contradiction|].
    split; [intros _ _; split; reflexivity|].
    intros Hap. destruct (Hz He) as (_ & _ & Ho & Hp).
    split; [reflexivity|]. split; [exact He|]. split; [exact Hap|].
    split; [apply fresh_bus_address_nonzero|].
    split; [exact Ho|exact Hp].
  - cbn [fst snd aq set_aq cfg dma_live set_dma].
    split; [exact Hfree|]. split; [intros H; discriminate H|].
    split; [intros _ _; split; reflexivity|].
    split; [intros _ H; contradiction|]. intros H; contradiction.
Qed.

Ltac break_ifs :=
  repeat match goal with
  | |- context [match ?x with _ => _ end] => destruct x
  end.

(** [gve_enable_supported_features] writes the maximum MTU, the buffer
    sizes, the maximum number of flow rules and the pages per QPL; the rest
    of the configuration is as it was. *)
Lemma enable_supported_features_frame d m ops priv :
  let priv' := gve_enable_supported_features C d m ops priv in
  queue_format priv' = queue_format priv /\
  tx_desc_cnt priv' = tx_desc_cnt priv /\
  rx_desc_cnt priv' = rx_desc_cnt priv /\
  max_registered_pages priv' = max_registered_pages priv /\
  num_event_counters priv' = num_event_counters priv /\
  dev_addr priv' = dev_addr priv /\
  default_num_queues priv' = default_num_queues priv /\
  rx_data_slot_cnt priv' = rx_data_slot_cnt priv /\
  hw_features_lro priv' = hw_features_lro priv /\
  hw_features_ntuple priv' = hw_features_ntuple priv /\
  ethtool_defaults priv' = ethtool_defaults priv.
Proof.
  unfold gve_enable_supported_features. cbv zeta.
  destruct (dev_op_jumbo_frames ops), (dev_op_buffer_sizes ops),
    (dev_op_flow_steering ops), (dev_op_dqo_qpl ops);
    break_ifs; repeat split; reflexivity.
Qed.

(** X7.  What a descriptor that describe-device accepts has told the
    driver.  Its MTU is at least [ETH_MIN_MTU]; the ring sizes, the page
    budget, the number of event counters, the MAC address, the default
    number of queues and the number of RX data slots are the descriptor's.
    In a GQI format both rings, as the descriptor sizes them, fill at least
    a page, and the RX ring is then cut down to the number of data slots if
    that is smaller.  In a DQO format the RX ring is the descriptor's and
    LRO and n-tuple filtering are announced as hardware features. *)
Theorem describe_device_apply_accepts (d : gve_device_descriptor)
    (priv : gve_cfg) :
  let res := describe_device_apply C d priv in
  res.1 = 0 ->
  ETH_MIN_MTU <= desc_mtu d /\
  tx_desc_cnt res.2 = desc_tx_queue_entries d /\
  max_registered_pages res.2 = desc_max_registered_pages d /\
  num_event_counters res.2 = desc_counters d /\
  dev_addr res.2 = desc_mac d /\
  default_num_queues res.2 = desc_default_num_queues d /\
  rx_data_slot_cnt res.2 = desc_rx_pages_per_qpl d /\
  (gve_is_gqi res.2 = true ->
   PAGE_SIZE C <= desc_tx_queue_entries d * sizeof_tx_desc C /\
   PAGE_SIZE C <= desc_rx_queue_entries d * sizeof_rx_desc C /\
   rx_desc_cnt res.2
     = Z.min (desc_rx_queue_entries d) (desc_rx_pages_per_qpl d)) /\
  (gve_is_gqi res.2 = false ->
   rx_desc_cnt res.2 = desc_rx_queue_entries d /\
   hw_features_lro res.2 = true /\ hw_features_ntuple res.2 = true).
Proof.
  intros res. subst res. unfold describe_device_apply.
  destruct (gve_process_device_options C d (priv, dev_ops_null))
    as [err [p ops]].
  destruct (negb (err =? 0)) eqn:Eerr.
  { cbn [fst]. intros ->. discriminate Eerr. }
  destruct (describe_device_select_format C d ops p) as [p2 m].
  assert (Hgqi_of : forall q, queue_format q = queue_format p2 ->
                    gve_is_gqi q = gve_is_gqi p2).
  { intros q Hq. unfold gve_is_gqi. rewrite Hq. reflexivity. }
  destruct (gve_is_gqi p2) eqn:Hgqi.
  - (* GQI *)
    unfold gve_set_desc_cnt. cbv zeta.
    cbn [tx_desc_cnt set_tx_desc_cnt rx_desc_cnt set_rx_desc_cnt].
    destruct (Z.ltb_spec (desc_tx_queue_entries d * sizeof_tx_desc C)
                (PAGE_SIZE C)) as [Htx|Htx].
    { cbn [fst snd Z.eqb negb EINVAL Z.opp]. intros H. discriminate H. }
    destruct (Z.ltb_spec (desc_rx_queue_entries d * sizeof_rx_desc C)
                (PAGE_SIZE C)) as [Hrx|Hrx].
    { cbn [fst snd Z.eqb negb EINVAL Z.opp]. intros H. discriminate H. }
    cbn [Z.eqb negb].
    destruct (Z.ltb_spec (desc_mtu d) ETH_MIN_MTU) as [Hmtu|Hmtu].
    { cbn [fst]. intros H. discriminate H. }
    match goal with
    | |- context [gve_is_gqi ?q && _] => rewrite (Hgqi_of q eq_refl)
    end.
    cbn [andb fst snd]. intros _.
    match goal with
    | |- context [gve_enable_supported_features C d m ops ?q] =>
        destruct (enable_supported_features_frame d m ops q)
          as (Hqf & Htxc & Hrxc & Hpg & Hev & Hmac & Hdq & Hslot & Hlro & Hnt & _);
        assert (Hq : gve_is_gqi (gve_enable_supported_features C d m ops q)
                     = true)
          by (apply Hgqi_of; rewrite Hqf;
              destruct (_ <? _); reflexivity)
    end.
    rewrite Htxc, Hpg, Hev, Hmac, Hdq, Hslot, Hrxc, Hq.
    clear Hqf Htxc Hrxc Hpg Hev Hmac Hdq Hslot Hlro Hnt Hq.
    cbn -[Z.min Z.mul Z.ltb ETH_MIN_MTU].
    destruct (Z.ltb_spec (desc_rx_pages_per_qpl d) (desc_rx_queue_entries d));
      cbn -[Z.min Z.mul ETH_MIN_MTU];
      (split; [exact Hmtu|]); repeat (split; [reflexivity|]);
      (split; [intros _; split; [lia|]; split; lia
              |intros H'; discriminate H']).
  - (* DQO *)
    unfold gve_set_desc_cnt_dqo. cbv zeta.
    match goal with
    | |- context [if decide ?P then _ else _] => destruct (decide P)
    end; cbn [fst snd Z.eqb negb];
    (destruct (Z.ltb_spec (desc_mtu d) ETH_MIN_MTU) as [Hmtu|Hmtu];
     [cbn [fst]; intros H; discriminate H|]);
    (match goal with
     | |- context [gve_is_gqi ?q && _] => rewrite (Hgqi_of q eq_refl)
     end);
    cbn [andb fst snd]; intros _;
    (match goal with
     | |- context [gve_enable_supported_features C d m ops ?q] =>
         destruct (enable_supported_features_frame d m ops q)
           as (Hqf & Htxc & Hrxc & Hpg & Hev & Hmac & Hdq & Hslot & Hlro & Hnt & _);
         assert (Hq : gve_is_gqi (gve_enable_supported_features C d m ops q)
                      = false)
           by (apply Hgqi_of; rewrite Hqf; reflexivity)
     end);
    rewrite Htxc, Hpg, Hev, Hmac, Hdq, Hslot, Hrxc, Hlro, Hnt, Hq;
    clear Hqf Htxc Hrxc Hpg Hev Hmac Hdq Hslot Hlro Hnt Hq;
    cbn -[Z.min Z.mul Z.ltb ETH_MIN_MTU];
    (split; [exact Hmtu|]); repeat (split; [reflexivity|]);
    (split; [intros H'; discriminate H'|intros _; repeat split]).
Qed.

(** A feature whose option pointer is NULL is left at its default. *)
Lemma enable_supported_features_absent d m ops priv :
  let priv' := gve_enable_supported_features C d m ops priv in
  (dev_op_jumbo_frames ops = None -> max_mtu priv' = max_mtu priv) /\
  (dev_op_flow_steering ops = None ->
   flow_rules_max priv' = flow_rules_max priv) /\
  (dev_op_buffer_sizes ops = None ->
   dev_max_rx_buffer_size priv' = GVE_RX_BUFFER_SIZE_DQO C /\
   header_buf_size priv' = 0) /\
  data_buffer_size_dqo priv' = GVE_RX_BUFFER_SIZE_DQO C /\
  (dev_op_dqo_qpl ops = None ->
   tx_pages_per_qpl priv' = tx_pages_per_qpl priv /\
   rx_pages_per_qpl priv' = rx_pages_per_qpl priv).
Proof.
  unfold gve_enable_supported_features. cbv zeta.
  destruct (dev_op_jumbo_frames ops), (dev_op_buffer_sizes ops),
    (dev_op_flow_steering ops), (dev_op_dqo_qpl ops);
    break_ifs; repeat split; first [reflexivity | discriminate].
Qed.

Lemma select_format_frame d ops priv :
  let q := (describe_device_select_format C d ops priv).1 in
  max_mtu q = max_mtu priv /\ flow_rules_max q = flow_rules_max priv /\
  ethtool_defaults q = ethtool_defaults priv /\
  rx_pages_per_qpl q = rx_pages_per_qpl priv.
Proof.
  unfold describe_device_select_format. break_ifs; repeat split; reflexivity.
Qed.

Section Advertised.

Hypothesis Hwf : consts_wf C.

Lemma parse_nodes_defaults d nodes st :
  advertised C (node_header C d <$> nodes) OPT_BUFFER_SIZES = false ->
  ethtool_defaults (parse_nodes C d nodes st).1 = ethtool_defaults st.1.
Proof.
  revert st. unfold parse_nodes, advertised.
  induction nodes as [|opt nodes IH]; intros st;
    cbn [foldl fmap list_fmap existsb]; [reflexivity|].
  intros H. apply orb_false_iff in H as [Ha Hrest].
  rewrite IH by exact Hrest. rewrite parse_device_option_unfold.
  destruct (kind_of_id C (option_id_at C d opt)) as [k|] eqn:Hk; [|reflexivity].
  destruct (header_checks C k (node_header C d opt)) eqn:Hc; [|reflexivity].
  destruct (decide (k = OPT_BUFFER_SIZES)) as [->|Hne].
  - assert (header_accepted C OPT_BUFFER_SIZES (node_header C d opt) = true)
      by (apply (header_accepted_iff C Hwf); split; assumption).
    congruence.
  - destruct k; try reflexivity. contradiction.
Qed.

Lemma parse_nodes_absent d nodes priv k :
  k <> OPT_GQI_RAW_ADDRESSING ->
  advertised C (node_header C d <$> nodes) k = false ->
  opt_pointer k (parse_nodes C d nodes (priv, dev_ops_null)).2 = None.
Proof.
  intros Hk Ha.
  pose proof (parse_nodes_pointer C Hwf d nodes (priv, dev_ops_null) k Hk) as H.
  rewrite Ha in H. destruct k; try contradiction;
    cbn [opt_pointer snd dev_ops_null is_set orb] in H |- *;
    match goal with
    | |- ?o = None => destruct o; [discriminate H|reflexivity]
    end.
Qed.

(** X8.  An optional feature needs its option.  When describe-device
    accepts a descriptor whose chain has no accepted jumbo-frames option
    the maximum MTU is the descriptor's; with no accepted flow-steering
    option the maximum number of flow rules is what it was; with no
    accepted buffer-sizes option the maximum RX buffer size is the DQO
    default, the header buffer size is zero and header split is not made
    available; with no accepted DQO-QPL option the TX pages per QPL are the
    descriptor's and the RX pages per QPL what they were.  The DQO data
    buffer size is the default in every case. *)
Theorem describe_device_optional_features (d : gve_device_descriptor)
    (priv : gve_cfg) :
  let res := describe_device_apply C d priv in
  let adv := advertised C (chain_headers C d) in
  res.1 = 0 ->
  (adv OPT_JUMBO_FRAMES = false -> max_mtu res.2 = desc_mtu d) /\
  (adv OPT_FLOW_STEERING = false ->
   flow_rules_max res.2 = flow_rules_max priv) /\
  (adv OPT_BUFFER_SIZES = false ->
   dev_max_rx_buffer_size res.2 = GVE_RX_BUFFER_SIZE_DQO C /\
   header_buf_size res.2 = 0 /\
   ethtool_defaults res.2 = ethtool_defaults priv) /\
  (adv OPT_DQO_QPL = false ->
   tx_pages_per_qpl res.2 = desc_tx_pages_per_qpl d /\
   rx_pages_per_qpl res.2 = rx_pages_per_qpl priv) /\
  data_buffer_size_dqo res.2 = GVE_RX_BUFFER_SIZE_DQO C.
Proof.
  intros res adv. subst res adv. unfold describe_device_apply, chain_headers.
  rewrite process_device_options_result.
  set (nodes := chain_nodes C d (Z.to_nat (desc_num_device_options d))).
  destruct (first_overrun C d _ _) as [k|].
  { destruct (parse_nodes C d _ _) as [p ops].
    cbn [fst Z.eqb negb EINVAL Z.opp]. intros H; discriminate H. }
  pose proof (fun k Hk => parse_nodes_absent d nodes priv k Hk) as Habs.
  pose proof (parse_nodes_defaults d nodes (priv, dev_ops_null)) as Hdef.
  assert (Hmax : forall st, flow_rules_max (parse_nodes C d nodes st).1
                            = flow_rules_max st.1).
  { clear. unfold parse_nodes.
    induction nodes as [|o nodes IH]; intros st; cbn [foldl]; [reflexivity|].
    rewrite IH. apply parse_keeps_flow_rules_max. }
  assert (Hrx : forall st, rx_pages_per_qpl (parse_nodes C d nodes st).1
                           = rx_pages_per_qpl st.1).
  { clear. unfold parse_nodes.
    induction nodes as [|o nodes IH]; intros st; cbn [foldl]; [reflexivity|].
    rewrite IH. rewrite parse_device_option_unfold.
    destruct (kind_of_id C _) as [k|]; [|reflexivity].
    destruct (header_checks C k _); [|reflexivity].
    destruct k; cbn [accept_effect fst]; try reflexivity.
    destruct (negb _); reflexivity. }
  specialize (Hmax (priv, dev_ops_null)). specialize (Hrx (priv, dev_ops_null)).
  destruct (parse_nodes C d nodes (priv, dev_ops_null)) as [p ops].
  cbn [fst snd] in *. cbn [Z.eqb negb].
  destruct (select_format_frame d ops p) as (Sm & Sf & Se & Sr).
  destruct (describe_device_select_format C d ops p) as [p2 m].
  cbn [fst] in Sm, Sf, Se, Sr.
  assert (Hcnt : forall q,
    let r := if gve_is_gqi p2 then gve_set_desc_cnt C d p2
             else gve_set_desc_cnt_dqo C d (dev_op_dqo_rda ops)
                    (set_hw_features_ntuple true (set_hw_features_lro true p2)) in
    q = r.2 ->
    flow_rules_max q = flow_rules_max p2 /\
    ethtool_defaults q = ethtool_defaults p2 /\
    rx_pages_per_qpl q = rx_pages_per_qpl p2).
  { intros q r ->. subst r.
    unfold gve_set_desc_cnt, gve_set_desc_cnt_dqo. cbv zeta.
    break_ifs; repeat split; reflexivity. }
  destruct (if gve_is_gqi p2 then gve_set_desc_cnt C d p2 else _) as [e p3].
  destruct (Hcnt p3 eq_refl) as (Cf & Ce & Cr). clear Hcnt.
  destruct (negb (e =? 0)) eqn:Ee.
  { cbn [fst]. intros ->. discriminate Ee. }
  destruct (desc_mtu d <? ETH_MIN_MTU);
    [cbn [fst]; intros H; discriminate H|].
  cbn [fst snd]. intros _.
  match goal with
  | |- context [gve_enable_supported_features C d m ops ?q] =>
      destruct (enable_supported_features_absent d m ops q)
        as (Aj & Af & Ab & Ad & Aq);
      destruct (enable_supported_features_frame d m ops q)
        as (_ & _ & _ & _ & _ & _ & _ & _ & _ & _ & Fe);
      assert (Hq : max_mtu q = desc_mtu d /\
                   flow_rules_max q = flow_rules_max p3 /\
                   ethtool_defaults q = ethtool_defaults p3 /\
                   tx_pages_per_qpl q = desc_tx_pages_per_qpl d /\
                   rx_pages_per_qpl q = rx_pages_per_qpl p3)
        by (destruct (gve_is_gqi _ && _); repeat split; reflexivity)
  end.
  destruct Hq as (Qm & Qf & Qe & Qt & Qr).
  split.
  { intros Ha. rewrite Aj by (apply (Habs OPT_JUMBO_FRAMES); [discriminate|exact Ha]).
    exact Qm. }
  split.
  { intros Ha.
    rewrite Af by (apply (Habs OPT_FLOW_STEERING); [discriminate|exact Ha]).
    congruence. }
  split.
  { intros Ha.
    destruct Ab as [A1 A2];
      [apply (Habs OPT_BUFFER_SIZES); [discriminate|exact Ha]|].
    split; [exact A1|]. split; [exact A2|].
    rewrite Fe, Qe, Ce, Se. apply Hdef, Ha. }
  split.
  { intros Ha.
    destruct Aq as [A1 A2];
      [apply (Habs OPT_DQO_QPL); [discriminate|exact Ha]|].
    split; congruence. }
  exact Ad.
Qed.

End Advertised.

End DescribeMore.

(** ** The option chain: unknown options and repeated options *)

Section ChainMore.

Variable C : gve_consts.

Lemma parse_nodes_app d l1 l2 st :
  parse_nodes C d (l1 ++ l2) st = parse_nodes C d l2 (parse_nodes C d l1 st).
Proof. unfold parse_nodes. apply foldl_app. Qed.

Lemma parse_nodes_recognized d nodes st :
  parse_nodes C d nodes st
  = parse_nodes C d (List.filter (recognized C d) nodes) st.
Proof.
  revert st. induction nodes as [|opt nodes IH]; intros st; [reflexivity|].
  cbn [List.filter]. unfold recognized at 1.
  destruct (kind_of_id C (option_id_at C d opt)) eqn:Hk.
  - change (parse_nodes C d (opt :: nodes) st)
      with (parse_nodes C d nodes (gve_parse_device_option C d opt st)).
    change (parse_nodes C d (opt :: List.filter (recognized C d) nodes) st)
      with (parse_nodes C d (List.filter (recognized C d) nodes)
              (gve_parse_device_option C d opt st)).
    apply IH.
  - change (parse_nodes C d (opt :: nodes) st)
      with (parse_nodes C d nodes (gve_parse_device_option C d opt st)).
    rewrite parse_device_option_unfold, Hk. apply IH.
Qed.

(** X9.  Options the driver does not know are skipped.  For a chain that
    stays within the descriptor, parsing succeeds and its outcome is the
    outcome of dispatching the nodes with a known identifier, in chain
    order; in particular a chain of unknown options only, or of no options
    at all, changes nothing. *)
Theorem unrecognized_options_skipped (d : gve_device_descriptor)
    (st : parse_state) :
  let n := Z.to_nat (desc_num_device_options d) in
  first_overrun C d (sizeof_device_descriptor C) n = None ->
  gve_process_device_options C d st
  = (0, parse_nodes C d (List.filter (recognized C d) (chain_nodes C d n)) st)
  /\ (List.filter (recognized C d) (chain_nodes C d n) = [] ->
      gve_process_device_options C d st = (0, st)).
Proof.
  intros n Hno. subst n.
  rewrite process_device_options_result, Hno, <- parse_nodes_recognized.
  split; [reflexivity|].
  intros He. rewrite parse_nodes_recognized, He. reflexivity.
Qed.

Section Repeated.

Hypothesis Hwf : consts_wf C.

Lemma parse_device_option_pointer_value d opt st k :
  k <> OPT_GQI_RAW_ADDRESSING ->
  opt_pointer k (gve_parse_device_option C d opt st).2
  = if node_accepted C d k opt then Some (opt + sizeof_device_option)
    else opt_pointer k st.2.
Proof.
  intros Hk. unfold node_accepted. rewrite parse_device_option_unfold.
  destruct (header_accepted C k (node_header C d opt)) eqn:Ha.
  - apply (header_accepted_iff C Hwf) in Ha as [Hkind Hc]. rewrite Hkind, Hc.
    apply accept_effect_pointer_same, Hk.
  - destruct (kind_of_id C (option_id_at C d opt)) as [k0|] eqn:Hkind;
      [|reflexivity].
    destruct (header_checks C k0 (node_header C d opt)) eqn:Hc; [|reflexivity].
    destruct (decide (k = k0)) as [->|Hne].
    + assert (header_accepted C k0 (node_header C d opt) = true)
        by (apply (header_accepted_iff C Hwf); split; assumption).
      congruence.
    + apply accept_effect_pointer_other, Hne.
Qed.

(** X10.  When an option of one kind is accepted more than once, the last
    accepted node is the one the driver uses: after a chain has been
    dispatched, the pointer of a kind is the offset just behind the header
    of the last accepted node of that kind, and is untouched when there is
    none. *)
Theorem repeated_option_last_wins (d : gve_device_descriptor)
    (nodes : list Z) (st : parse_state) (k : dev_opt_kind) :
  k <> OPT_GQI_RAW_ADDRESSING ->
  opt_pointer k (parse_nodes C d nodes st).2
  = match last (List.filter (node_accepted C d k) nodes) with
    | Some opt => Some (opt + sizeof_device_option)
    | None => opt_pointer k st.2
    end.
Proof.
  intros Hk. induction nodes as [|opt nodes IH] using rev_ind;
    [reflexivity|].
  rewrite parse_nodes_app, List.filter_app.
  change (parse_nodes C d [opt] (parse_nodes C d nodes st))
    with (gve_parse_device_option C d opt (parse_nodes C d nodes st)).
  rewrite parse_device_option_pointer_value by exact Hk.
  cbn [List.filter].
  destruct (node_accepted C d k opt).
  - rewrite last_snoc. reflexivity.
  - rewrite app_nil_r. exact IH.
Qed.

End Repeated.

End ChainMore.

(** ** The flow-rule directory: uniqueness, read-back, capacity *)

Section FlowLists.

Lemma same_match_iff r1 r2 : same_match r1 r2 <-> match_of r1 = match_of r2.
Proof.
  unfold same_match, match_of. split.
  - intros (-> & -> & ->). reflexivity.
  - intros [= -> -> ->]. repeat split.
Qed.

Lemma insert_at_Permutation {A} n (x : A) l :
  take n l ++ x :: drop n l ≡ₚ x :: l.
Proof.
  rewrite <- Permutation_middle. rewrite take_drop. reflexivity.
Qed.

Lemma sorted_locs_NoDup rules :
  rules_sorted rules -> NoDup (loc <$> rules).
Proof.
  unfold rules_sorted. induction 1 as [|r rules Hs IH Hall]; cbn [fmap list_fmap].
  - constructor.
  - constructor; [|exact IH].
    intros Hin. apply list_elem_of_fmap in Hin as (r' & Hl & Hr').
    rewrite Forall_forall in Hall. specialize (Hall r' Hr').
    unfold loc_lt in Hall. lia.
Qed.

Lemma NoDup_fmap_eq {A B} (f : A -> B) (l : list A) x y :
  NoDup (f <$> l) -> x ∈ l -> y ∈ l -> f x = f y -> x = y.
Proof.
  induction l as [|a l IH]; intros Hnd Hx Hy Hf; [inversion Hx|].
  cbn [fmap list_fmap] in Hnd. apply NoDup_cons in Hnd as [Ha Hnd].
  apply elem_of_cons in Hx as [->|Hx]; apply elem_of_cons in Hy as [->|Hy].
  - reflexivity.
  - exfalso. apply Ha. rewrite Hf. apply list_elem_of_fmap. eauto.
  - exfalso. apply Ha. rewrite <- Hf. apply list_elem_of_fmap. eauto.
  - apply IH; assumption.
Qed.

(** With distinct locations, looking a location up returns the rule of the
    list that has it. *)
Lemma rule_at_loc_spec rules l r :
  NoDup (loc <$> rules) ->
  rule_at_loc rules l = Some r <-> r ∈ rules /\ loc r = l.
Proof.
  intros Hnd. unfold rule_at_loc. split.
  - destruct (gve_find_flow_rule_by_loc rules l) as [i|] eqn:Hf;
      [|discriminate].
    intros Hi. apply find_flow_rule_some in Hf as (r' & Hr' & Hl).
    assert (r' = r) by congruence. subst r'.
    split; [eapply list_elem_of_lookup_2; exact Hi|exact Hl].
  - intros [Hin Hl].
    destruct (gve_find_flow_rule_by_loc rules l) as [i|] eqn:Hf.
    + apply find_flow_rule_some in Hf as (r' & Hr' & Hl').
      rewrite Hr'. f_equal.
      apply (NoDup_fmap_eq loc rules); [exact Hnd| |exact Hin|congruence].
      eapply list_elem_of_lookup_2; exact Hr'.
    + exfalso. apply (proj1 (find_flow_rule_none rules l) Hf r Hin Hl).
Qed.

Lemma rule_at_loc_none rules l :
  rule_at_loc rules l = None <-> (forall r, r ∈ rules -> loc r <> l).
Proof.
  unfold rule_at_loc. rewrite <- find_flow_rule_none.
  destruct (gve_find_flow_rule_by_loc rules l) as [i|] eqn:Hf.
  - apply find_flow_rule_some in Hf as (r & Hr & _). rewrite Hr.
    split; discriminate.
  - split; reflexivity.
Qed.

(** The read of one entry is a function of the rule found. *)
Lemma get_flow_rule_entry_rule priv cmd :
  gve_get_flow_rule_entry priv cmd =
  if flow_rules_max (cfg priv) =? 0 then (- EOPNOTSUPP, cmd)
  else
    match rule_at_loc (flow_rules priv) (u16 (location (fs cmd))) with
    | None => (- EINVAL, cmd)
    | Some rule =>
        (0, set_fs {| fs_flow_type := ethtool_flow_type_of (flow_type rule);
                      h_u := flow_union_of (flow_type rule) (key rule);
                      m_u := flow_union_of (flow_type rule) (mask rule);
                      ring_cookie := action rule;
                      location := location (fs cmd) |} cmd)
    end.
Proof.
  unfold gve_get_flow_rule_entry, rule_at_loc. cbv zeta.
  destruct (_ =? 0); [reflexivity|].
  destruct (gve_find_flow_rule_by_loc _ _) as [i|] eqn:Hf; [|reflexivity].
  apply find_flow_rule_some in Hf as (r & Hr & _). rewrite Hr. reflexivity.
Qed.

End FlowLists.

Section FlowMore.

Variable pf : platform.
Variable C : gve_consts.

(** What a successful add has checked and done. *)
Lemma add_flow_rule_zero cmd p :
  (gve_add_flow_rule pf C cmd p).1 = 0 ->
  let rule := requested_rule p (fs cmd) in
  let n := add_rule_scan (flow_rules p) rule in
  flow_rules_max (cfg p) <> 0 /\
  flow_rules_cnt p < flow_rules_max (cfg p) /\
  gve_find_flow_rule_by_loc (flow_rules p) (u16 (location (fs cmd))) = None /\
  (gve_add_flow_rule_info p (fs cmd) flow_rule_zero).1 = 0 /\
  (gve_adminq_add_flow_rule pf C rule (aq p)).1 = 0 /\
  flow_rules (gve_add_flow_rule pf C cmd p).2
    = take n (flow_rules p) ++ rule :: drop n (flow_rules p) /\
  cfg (gve_add_flow_rule pf C cmd p).2 = cfg p /\
  flow_rules_cnt (gve_add_flow_rule pf C cmd p).2
    = (flow_rules_cnt p + 1) mod flow_rules_cnt_modulus C.
Proof.
  rewrite add_flow_rule_unfold. cbv zeta. unfold requested_rule.
  destruct (Z.eqb_spec (flow_rules_max (cfg p)) 0) as [|Hmax];
    [intros E; discriminate E|].
  destruct (Z.geb_spec (flow_rules_cnt p) (flow_rules_max (cfg p)))
    as [|Hroom]; [intros E; discriminate E|].
  destruct (gve_find_flow_rule_by_loc _ _) eqn:Hfind;
    [intros E; discriminate E|].
  destruct (kvzalloc_ok pf _); [|intros E; discriminate E].
  destruct (Z.eqb_spec (gve_add_flow_rule_info p (fs cmd) flow_rule_zero).1 0)
    as [Hinfo|Hinfo]; cbn [negb]; [|intros E; contradiction].
  destruct (Z.eqb_spec
              (gve_adminq_add_flow_rule pf C
                 (gve_add_flow_rule_info p (fs cmd) flow_rule_zero).2 (aq p)).1 0)
    as [Hdev|Hdev]; cbn [negb]; [|intros E; contradiction].
  intros _. cbn [fst snd cfg flow_rules flow_rules_cnt set_flow_rules_cnt
                 set_flow_rules set_aq set_kvzalloc_requested].
  repeat split; try assumption; reflexivity.
Qed.

(** What a successful delete has checked and done. *)
Lemma del_flow_rule_zero cmd p :
  (gve_del_flow_rule pf C cmd p).1 = 0 ->
  exists i r,
    flow_rules_max (cfg p) <> 0 /\
    gve_find_flow_rule_by_loc (flow_rules p) (u16 (location (fs cmd))) = Some i /\
    flow_rules p !! i = Some r /\ loc r = u16 (location (fs cmd)) /\
    (gve_adminq_del_flow_rule pf C (location (fs cmd)) (aq p)).1 = 0 /\
    flow_rules (gve_del_flow_rule pf C cmd p).2 = delete i (flow_rules p) /\
    cfg (gve_del_flow_rule pf C cmd p).2 = cfg p.
Proof.
  rewrite del_flow_rule_unfold. cbv zeta.
  destruct (Z.eqb_spec (flow_rules_max (cfg p)) 0) as [|Hmax];
    [intros E; discriminate E|].
  destruct (gve_find_flow_rule_by_loc _ _) as [i|] eqn:Hfind;
    [|intros E; discriminate E].
  destruct (find_flow_rule_some _ _ _ Hfind) as (r & Hr & Hl).
  destruct (Z.eqb_spec (gve_adminq_del_flow_rule pf C (location (fs cmd)) (aq p)).1 0)
    as [Hdev|Hdev]; cbn [negb]; [|intros E; contradiction].
  intros _. exists i, r.
  cbn [fst snd cfg flow_rules set_flow_rules_cnt set_flow_rules set_aq].
  repeat split; try assumption; reflexivity.
Qed.

(** What a request that passed [gve_add_flow_rule_info] looks like. *)
Lemma add_flow_rule_info_zero p fsp :
  (gve_add_flow_rule_info p fsp flow_rule_zero).1 = 0 ->
  exists ft,
    ring_cookie fsp <> RX_CLS_FLOW_DISC /\
    u32 (ring_cookie fsp) < u32 (rx_cfg_num_queues (cfg p)) /\
    gve_flow_type_of (request_flow_type fsp) = Some ft /\
    requested_rule p fsp
      = add_flow_rule_info_specs ft fsp
          {| loc := u16 (location fsp); flow_type := ft;
             action := u16 (u32 (ring_cookie fsp));
             key := flow_spec_zero; mask := flow_spec_zero |} /\
    gve_flow_rule_is_dup_rule (flow_rules p) (requested_rule p fsp) = false.
Proof.
  unfold requested_rule, gve_add_flow_rule_info, request_flow_type. cbv zeta.
  destruct (Z.eqb_spec (ring_cookie fsp) RX_CLS_FLOW_DISC) as [|Hd];
    [intros E; discriminate E|].
  destruct (Z.geb_spec (u32 (ring_cookie fsp)) (u32 (rx_cfg_num_queues (cfg p))))
    as [|Hq]; [intros E; discriminate E|].
  destruct (gve_flow_type_of _) as [ft|]; [|intros E; discriminate E].
  cbn [loc flow_type action key mask flow_rule_zero].
  destruct (gve_flow_rule_is_dup_rule _ _) eqn:Hdup;
    [intros E; discriminate E|].
  intros _. exists ft. cbn [fst snd]. rewrite Hdup.
  repeat split; try assumption; reflexivity.
Qed.

(** A call either leaves the list alone or is a successful add or delete. *)
Lemma run_call_rules_cases c p :
  flow_rules (run_call pf C c p).2 = flow_rules p \/
  (exists cmd, (gve_add_flow_rule pf C cmd p).1 = 0 /\
               (run_call pf C c p).2 = (gve_add_flow_rule pf C cmd p).2) \/
  (exists cmd, (gve_del_flow_rule pf C cmd p).1 = 0 /\
               (run_call pf C c p).2 = (gve_del_flow_rule pf C cmd p).2).
Proof.
  destruct c as [cmd|cmd locs| |rss| |cmd|]; cbn [run_call].
  - unfold gve_set_rxnfc, bind, gets, ret.
    destruct (negb _); [left; reflexivity|].
    destruct (nfc_cmd cmd); try (left; reflexivity).
    + destruct (decide ((gve_add_flow_rule pf C cmd p).1 = 0)) as [Hz|Hnz].
      * right. left. exists cmd. split; [exact Hz|reflexivity].
      * left. apply (add_flow_rule_failure pf C cmd p Hnz).
    + destruct (decide ((gve_del_flow_rule pf C cmd p).1 = 0)) as [Hz|Hnz].
      * right. right. exists cmd. split; [exact Hz|reflexivity].
      * left. apply (del_flow_rule_failure pf C cmd p Hnz).
  - pose proof (get_rxnfc_state cmd locs p) as H.
    destruct (gve_get_rxnfc cmd locs p) as [r p']. cbn [snd] in H |- *.
    left. rewrite H. reflexivity.
  - left. apply (lift_aq_frame (gve_adminq_reset_flow_rules pf C) p).
  - left. apply (lift_aq_frame (gve_adminq_configure_rss pf C rss) p).
  - left. apply (describe_device_frame pf C p).
  - left. apply (lift_aq_frame (gve_adminq_issue_cmd pf cmd) p).
  - left. apply (lift_aq_frame (gve_adminq_kick_and_wait pf) p).
Qed.

Lemma add_keeps_matches_distinct cmd p :
  (gve_add_flow_rule pf C cmd p).1 = 0 ->
  NoDup (match_of <$> flow_rules p) ->
  NoDup (match_of <$> flow_rules (gve_add_flow_rule pf C cmd p).2).
Proof.
  intros Hz Hnd.
  destruct (add_flow_rule_zero cmd p Hz) as (_ & _ & _ & Hinfo & _ & Hl & _).
  destruct (add_flow_rule_info_zero p (fs cmd) Hinfo) as (ft & _ & _ & _ & _ & Hdup).
  rewrite Hl, insert_at_Permutation. cbn [fmap list_fmap].
  apply NoDup_cons. split; [|exact Hnd].
  intros Hin. apply list_elem_of_fmap in Hin as (r & Hm & Hr).
  assert (gve_flow_rule_is_dup_rule (flow_rules p)
            (requested_rule p (fs cmd)) = true); [|congruence].
  apply dup_rule_spec. exists r. split; [exact Hr|].
  apply same_match_iff. symmetry. exact Hm.
Qed.

Lemma del_keeps_matches_distinct cmd p :
  (gve_del_flow_rule pf C cmd p).1 = 0 ->
  NoDup (match_of <$> flow_rules p) ->
  NoDup (match_of <$> flow_rules (gve_del_flow_rule pf C cmd p).2).
Proof.
  intros Hz Hnd.
  destruct (del_flow_rule_zero cmd p Hz) as (i & r & _ & _ & _ & _ & _ & Hl & _).
  rewrite Hl, list_fmap_delete.
  eapply sublist_NoDup; [exact Hnd|apply sublist_delete].
Qed.

Section Distinct.

Hypothesis HM : consts_cnt_wf C.

(** X11.  The two uniqueness rules of the directory hold after any
    sequence of calls: no two rules of the list have the same location, and
    no two have the same flow type, key and mask. *)
Theorem flow_rules_stay_distinct (cs : list driver_call) (p0 : gve_priv) :
  flow_inv C p0 ->
  NoDup (match_of <$> flow_rules p0) ->
  let p := run_calls pf C cs p0 in
  NoDup (loc <$> flow_rules p) /\ NoDup (match_of <$> flow_rules p).
Proof.
  intros Hinv Hnd p. split.
  - apply sorted_locs_NoDup.
    apply (flow_inv_run_calls pf C HM cs p0 Hinv).
  - subst p. revert p0 Hinv Hnd.
    induction cs as [|c cs IH]; intros p0 Hinv Hnd; cbn [run_calls];
      [exact Hnd|].
    apply IH; [apply (flow_inv_run_call pf C HM), Hinv|].
    destruct (run_call_rules_cases c p0) as [E|[(cmd & Hz & E)|(cmd & Hz & E)]];
      rewrite E; [exact Hnd| |].
    + apply add_keeps_matches_distinct; assumption.
    + apply del_keeps_matches_distinct; assumption.
Qed.

End Distinct.

Lemma flow_type_of_inv x ft :
  gve_flow_type_of x = Some ft -> ethtool_flow_type_of ft = x.
Proof.
  unfold gve_flow_type_of.
  repeat match goal with
  | |- context [x =? ?c] => destruct (Z.eqb_spec x c) as [->|_]
  end; intros [= <-]; reflexivity || discriminate.
Qed.

Lemma ports_word_id w : 0 <= w < 2 ^ 32 -> ports_word (hi16 w) (lo16 w) = w.
Proof.
  intros Hw. unfold ports_word, hi16, lo16.
  pose proof (Z.div_mod w 65536 ltac:(lia)). lia.
Qed.

Lemma word_range u k : 0 <= word u k < 2 ^ 32.
Proof. unfold word, u32. apply Z.mod_pos_bound. lia. Qed.

(** After a successful add the list has the requested rule at its
    location. *)
Lemma add_then_rule_at_loc cmd p :
  flow_inv C p ->
  (gve_add_flow_rule pf C cmd p).1 = 0 ->
  rule_at_loc (flow_rules (gve_add_flow_rule pf C cmd p).2)
    (u16 (location (fs cmd)))
  = Some (requested_rule p (fs cmd)).
Proof.
  intros Hinv Hz.
  destruct (add_flow_rule_zero cmd p Hz) as (_ & _ & _ & Hinfo & _ & Hl & _).
  apply rule_at_loc_spec.
  - apply sorted_locs_NoDup. apply (flow_inv_add pf C cmd p Hinv).
  - split.
    + rewrite Hl. apply elem_of_app. right. left.
    + apply (add_flow_rule_info_loc _ _ _ Hinfo).
Qed.

(** X12.  Reading back the rule that was just added.  After a successful
    add, a query for the same location succeeds and returns the flow type of
    the request with the extension flags cleared, the target queue, and the
    addresses and the ports (or the SPI) of the key and of the mask as they
    were given.  The TOS or traffic-class word reads back as zero, as it is
    not stored, and so does the SPI of the mask of an AH or ESP rule over
    IPv6. *)
Theorem add_then_get_entry (cmd query : ethtool_rxnfc) (p : gve_priv) :
  flow_inv C p ->
  (gve_add_flow_rule pf C cmd p).1 = 0 ->
  location (fs query) = location (fs cmd) ->
  let fsp := fs cmd in
  let out := gve_get_flow_rule_entry (gve_add_flow_rule pf C cmd p).2 query in
  let h := h_u fsp in
  let m := m_u fsp in
  exists ft,
    gve_flow_type_of (request_flow_type fsp) = Some ft /\
    out.1 = 0 /\
    fs_flow_type (fs out.2) = request_flow_type fsp /\
    ring_cookie (fs out.2) = u16 (u32 (ring_cookie fsp)) /\
    location (fs out.2) = location fsp /\
    h_u (fs out.2)
      = (if flow_type_is_v4 ft
         then [word h 0; word h 1; word h 2; 0; 0; 0; 0; 0; 0; 0; 0; 0; 0]
         else ip6_of h 0 ++ ip6_of h 4 ++ [word h 8; 0; 0; 0; 0]) /\
    m_u (fs out.2)
      = (if flow_type_is_v4 ft
         then [word m 0; word m 1; word m 2; 0; 0; 0; 0; 0; 0; 0; 0; 0; 0]
         else ip6_of m 0 ++ ip6_of m 4
              ++ [if bool_decide (ft = GVE_FLOW_TYPE_AHV6
                                  \/ ft = GVE_FLOW_TYPE_ESPV6)
                  then 0 else word m 8; 0; 0; 0; 0]).
Proof.
  intros Hinv Hz Hloc fsp out h m. subst out.
  pose proof (add_then_rule_at_loc cmd p Hinv Hz) as Hat.
  destruct (add_flow_rule_zero cmd p Hz) as (Hmax & _ & _ & Hinfo & _ & _ & Hcfg & _).
  destruct (add_flow_rule_info_zero p (fs cmd) Hinfo)
    as (ft & _ & _ & Hft & Hrule & _).
  exists ft. split; [exact Hft|].
  rewrite get_flow_rule_entry_rule, Hcfg, Hloc, Hat.
  apply Z.eqb_neq in Hmax. rewrite Hmax.
  cbn [fst snd fs set_fs fs_flow_type ring_cookie location h_u m_u].
  rewrite Hrule. fold fsp h m.
  pose proof (word_range h 2) as Hh2. pose proof (word_range m 2) as Hm2.
  pose proof (word_range h 8) as Hh8. pose proof (word_range m 8) as Hm8.
  split; [reflexivity|].
  split; [destruct ft; cbn; exact (flow_type_of_inv _ _ Hft)|].
  split; [destruct ft; reflexivity|].
  split; [reflexivity|].
  destruct ft; cbn -[word Z.mul];
    rewrite ?ports_word_id by assumption; split; reflexivity.
Qed.

Lemma rule_at_loc_ext L L' l :
  NoDup (loc <$> L) -> NoDup (loc <$> L') ->
  (forall r, loc r = l -> (r ∈ L' <-> r ∈ L)) ->
  rule_at_loc L' l = rule_at_loc L l.
Proof.
  intros Hnd Hnd' Hext.
  destruct (rule_at_loc L l) as [r|] eqn:E.
  - apply (rule_at_loc_spec _ _ _ Hnd) in E as [Hin Hl].
    apply (rule_at_loc_spec _ _ _ Hnd'). split; [apply Hext; assumption|exact Hl].
  - apply rule_at_loc_none. intros r Hin Hl.
    apply (proj1 (rule_at_loc_none L l) E r); [apply Hext; assumption|exact Hl].
Qed.

Lemma elem_of_insert_at {A} n (x y : A) l :
  y ∈ take n l ++ x :: drop n l <-> y = x \/ y ∈ l.
Proof. rewrite insert_at_Permutation. apply elem_of_cons. Qed.

Lemma elem_of_delete_NoDup {A} (l : list A) i x y :
  NoDup l -> l !! i = Some x ->
  y ∈ delete i l <-> y ∈ l /\ y <> x.
Proof.
  intros Hnd Hi.
  rewrite <- (take_drop_middle l i x Hi) in Hnd |- * at 2.
  rewrite delete_take_drop.
  apply NoDup_app in Hnd as (_ & Hdis & Htl).
  apply NoDup_cons in Htl as [Hx _].
  rewrite !elem_of_app, elem_of_cons. split.
  - intros [H|H].
    + split; [left; exact H|]. intros ->. apply (Hdis x H). left.
    + split; [right; right; exact H|]. intros ->. contradiction.
  - intros [[H|[->|H]] Hne]; [left; exact H|contradiction|right; exact H].
Qed.

(** X13.  An add and a delete touch one location.  After a successful add
    or delete, a query for any other location returns exactly what it
    returned before; after a successful delete, a query for the deleted
    location is refused with [-EINVAL]. *)
Theorem add_del_touch_one_location (cmd : ethtool_rxnfc) (p : gve_priv) :
  flow_inv C p ->
  let l := u16 (location (fs cmd)) in
  let added := gve_add_flow_rule pf C cmd p in
  let deleted := gve_del_flow_rule pf C cmd p in
  (added.1 = 0 ->
   forall query, u16 (location (fs query)) <> l ->
     gve_get_flow_rule_entry added.2 query = gve_get_flow_rule_entry p query) /\
  (deleted.1 = 0 ->
   (forall query, u16 (location (fs query)) <> l ->
      gve_get_flow_rule_entry deleted.2 query
      = gve_get_flow_rule_entry p query) /\
   (forall query, u16 (location (fs query)) = l ->
      gve_get_flow_rule_entry deleted.2 query = (- EINVAL, query))).
Proof.
  intros Hinv l added deleted. subst added deleted.
  pose proof (sorted_locs_NoDup _ (proj2 (proj2 (proj2 Hinv)))) as Hnd.
  split.
  - intros Hz query Hq.
    pose proof (sorted_locs_NoDup _
                  (proj2 (proj2 (proj2 (flow_inv_add pf C cmd p Hinv))))) as Hnd'.
    destruct (add_flow_rule_zero cmd p Hz) as (_ & _ & _ & Hinfo & _ & Hl & Hcfg & _).
    rewrite !get_flow_rule_entry_rule, Hcfg.
    rewrite (rule_at_loc_ext (flow_rules p) _ _ Hnd Hnd'); [reflexivity|].
    intros r Hr. rewrite Hl, elem_of_insert_at.
    split; [|right; assumption].
    intros [->|H]; [|exact H]. exfalso. apply Hq. rewrite <- Hr.
    apply (add_flow_rule_info_loc _ _ _ Hinfo).
  - intros Hz.
    pose proof (sorted_locs_NoDup _
                  (proj2 (proj2 (proj2 (flow_inv_del pf C cmd p Hinv))))) as Hnd'.
    destruct (del_flow_rule_zero cmd p Hz)
      as (i & r & Hmax & _ & Hi & Hlr & _ & Hl & Hcfg).
    assert (Hndl : NoDup (flow_rules p)) by (eapply NoDup_fmap_1; exact Hnd).
    split.
    + intros query Hq. rewrite !get_flow_rule_entry_rule, Hcfg.
      rewrite (rule_at_loc_ext (flow_rules p) _ _ Hnd Hnd'); [reflexivity|].
      intros r' Hr'. rewrite Hl, (elem_of_delete_NoDup _ _ _ _ Hndl Hi).
      split; [intros [H _]; exact H|]. intros H. split; [exact H|].
      intros E. apply Hq. rewrite <- Hr', E. exact Hlr.
    + intros query Hq. rewrite get_flow_rule_entry_rule, Hcfg.
      apply Z.eqb_neq in Hmax. rewrite Hmax.
      assert (Hnone : rule_at_loc (flow_rules (gve_del_flow_rule pf C cmd p).2)
                        (u16 (location (fs query))) = None).
      { apply rule_at_loc_none. intros r' Hin Hr'.
        rewrite Hl in Hin.
        apply (elem_of_delete_NoDup _ _ _ _ Hndl Hi) in Hin as [Hin Hne].
        apply Hne.
        apply (NoDup_fmap_eq loc (flow_rules p)); [exact Hnd|exact Hin| |].
        - eapply list_elem_of_lookup_2; exact Hi.
        - rewrite Hr', Hq. symmetry. exact Hlr. }
      rewrite Hnone. reflexivity.
Qed.

Lemma filter_all {A} (P : A -> Prop) `{!forall x, Decision (P x)} (l : list A) :
  Forall P l -> filter P l = l.
Proof.
  induction 1 as [|x l Hx _ IH]; [reflexivity|].
  rewrite filter_cons_True by exact Hx. rewrite IH. reflexivity.
Qed.

Lemma delete_is_filter (L : list gve_flow_rule) i r :
  NoDup (loc <$> L) -> L !! i = Some r ->
  delete i L = filter (fun x => loc x <> loc r) L.
Proof.
  revert i. induction L as [|x L IH]; intros i Hnd Hi; [discriminate Hi|].
  cbn [fmap list_fmap] in Hnd. apply NoDup_cons in Hnd as [Hx Hnd].
  destruct i as [|i]; cbn [delete list_delete].
  - injection Hi as ->.
    rewrite filter_cons_False by (intros H; apply H; reflexivity).
    symmetry. apply filter_all. apply Forall_forall. intros y Hy E.
    apply Hx. rewrite <- E. apply list_elem_of_fmap. eauto.
  - cbn [lookup list_lookup] in Hi.
    rewrite filter_cons_True.
    + f_equal. apply (IH i Hnd Hi).
    + intros E. apply Hx. rewrite E. apply list_elem_of_fmap.
      exists r. split; [reflexivity|]. eapply list_elem_of_lookup_2; exact Hi.
Qed.

(** X14.  A delete and the device.  When the device advertises flow rules
    and the location is in the list, the result of a delete is the result
    of the device's DEL command.  A rule leaves the list only when that
    command has succeeded, and then the list is the old one without the
    rule of that location, the others in their order, and the counter is
    one lower.  When the call fails the list and the counter are as they
    were. *)
Theorem del_flow_rule_outcomes (cmd : ethtool_rxnfc) (p : gve_priv) :
  flow_inv C p ->
  let res := gve_del_flow_rule pf C cmd p in
  let l := u16 (location (fs cmd)) in
  let dev := gve_adminq_del_flow_rule pf C (location (fs cmd)) (aq p) in
  (flow_rules_max (cfg p) <> 0 -> loc_occupied p l -> res.1 = dev.1) /\
  (res.1 = 0 ->
   dev.1 = 0 /\ loc_occupied p l /\
   flow_rules res.2 = filter (fun r => loc r <> l) (flow_rules p) /\
   flow_rules_cnt res.2 = flow_rules_cnt p - 1) /\
  (res.1 <> 0 ->
   flow_rules res.2 = flow_rules p /\ flow_rules_cnt res.2 = flow_rules_cnt p).
Proof.
  intros Hinv res l dev.
  pose proof (sorted_locs_NoDup _ (proj2 (proj2 (proj2 Hinv)))) as Hnd.
  split; [|split].
  - intros Hmax (r & Hin & Hl). subst res dev.
    rewrite del_flow_rule_unfold. cbv zeta.
    apply Z.eqb_neq in Hmax. rewrite Hmax.
    destruct (gve_find_flow_rule_by_loc _ _) as [i|] eqn:Hf.
    + destruct (negb _); reflexivity.
    + exfalso. apply (proj1 (find_flow_rule_none _ _) Hf r Hin Hl).
  - intros Hz. subst res dev.
    destruct (del_flow_rule_zero cmd p Hz)
      as (i & r & _ & _ & Hi & Hlr & Hdev & Hl & _).
    split; [exact Hdev|].
    split; [exists r; split; [eapply list_elem_of_lookup_2; exact Hi|exact Hlr]|].
    split.
    + rewrite Hl. fold l in Hlr. rewrite <- Hlr.
      apply delete_is_filter; assumption.
    + pose proof (flow_inv_del pf C cmd p Hinv) as (_ & Hcnt' & _).
      destruct Hinv as (_ & Hcnt & _).
      rewrite Hcnt', Hcnt, Hl.
      rewrite length_delete by (exists r; exact Hi).
      apply lookup_lt_Some in Hi. lia.
  - intros Hnz. apply (del_flow_rule_failure pf C cmd p Hnz).
Qed.

Lemma run_call_keeps_cfg c p :
  keeps_limits c = true -> cfg (run_call pf C c p).2 = cfg p.
Proof.
  destruct c as [cmd|cmd locs| |rss| |cmd|]; cbn [run_call keeps_limits];
    intros Hk; try discriminate Hk.
  - unfold gve_set_rxnfc, bind, gets, ret.
    destruct (negb _); [reflexivity|].
    destruct (nfc_cmd cmd); try reflexivity.
    + rewrite add_flow_rule_unfold. cbv zeta.
      repeat match goal with
      | |- context [if ?b then _ else _] => destruct b
      | |- context [match ?x with Some _ => _ | None => _ end] => destruct x
      end; reflexivity.
    + rewrite del_flow_rule_unfold. cbv zeta.
      repeat match goal with
      | |- context [if ?b then _ else _] => destruct b
      | |- context [match ?x with Some _ => _ | None => _ end] => destruct x
      end; reflexivity.
  - pose proof (get_rxnfc_state cmd locs p) as H.
    destruct (gve_get_rxnfc cmd locs p) as [r p']. cbn [snd] in H |- *.
    rewrite H. reflexivity.
  - apply (lift_aq_frame (gve_adminq_reset_flow_rules pf C) p).
  - apply (lift_aq_frame (gve_adminq_configure_rss pf C rss) p).
  - apply (lift_aq_frame (gve_adminq_issue_cmd pf cmd) p).
  - apply (lift_aq_frame (gve_adminq_kick_and_wait pf) p).
Qed.

Section Capacity.

Hypothesis HM : consts_cnt_wf C.

(** X15.  The directory never holds more rules than the device advertised.
    Over any sequence of calls that does not renegotiate the device (every
    call but describe-device), the advertised maximum stays what it was and
    the number of rules in the list stays at or below it. *)
Theorem flow_rules_within_capacity (cs : list driver_call) (p0 : gve_priv) :
  flow_inv C p0 ->
  flow_rules_cnt p0 <= flow_rules_max (cfg p0) ->
  forallb keeps_limits cs = true ->
  let p := run_calls pf C cs p0 in
  flow_rules_max (cfg p) = flow_rules_max (cfg p0) /\
  Z.of_nat (length (flow_rules p)) <= flow_rules_max (cfg p).
Proof.
  intros Hinv Hcap Hcs p. subst p. revert p0 Hinv Hcap Hcs.
  induction cs as [|c cs IH]; intros p0 Hinv Hcap Hcs; cbn [run_calls].
  - destruct Hinv as (_ & Hcnt & _). split; [reflexivity|lia].
  - cbn [forallb] in Hcs. apply andb_true_iff in Hcs as [Hc Hcs].
    pose proof (run_call_keeps_cfg c p0 Hc) as Hcfg.
    pose proof (flow_inv_run_call pf C HM c p0 Hinv) as Hinv'.
    assert (Hcap' : flow_rules_cnt (run_call pf C c p0).2
                    <= flow_rules_max (cfg (run_call pf C c p0).2)).
    { rewrite Hcfg.
      destruct Hinv as (_ & Hcnt & _). destruct Hinv' as (_ & Hcnt' & _).
      rewrite Hcnt'.
      destruct (run_call_rules_cases c p0)
        as [E|[(cmd & Hz & E)|(cmd & Hz & E)]].
      - rewrite E. lia.
      - rewrite E.
        destruct (add_flow_rule_zero cmd p0 Hz) as (_ & Hroom & _ & _ & _ & Hl & _).
        rewrite Hl, length_insert_at. lia.
      - rewrite E.
        destruct (del_flow_rule_zero cmd p0 Hz) as (i & r & _ & _ & Hi & _ & _ & Hl & _).
        rewrite Hl, length_delete by (exists r; exact Hi). lia. }
    destruct (IH _ Hinv' Hcap' Hcs) as [H1 H2].
    split; [rewrite H1, Hcfg; reflexivity|exact H2].
Qed.

End Capacity.

End FlowMore.

(** ** Enumeration: the caller's array *)

Section EnumerateMore.

Lemma get_flow_rule_ids_loop_rest rules cap cnt arr :
  0 <= cnt <= cap -> cap < 2 ^ 32 ->
  let out := get_flow_rule_ids_loop rules cap cnt arr in
  length out.2 = length arr /\
  (forall i, (i < Z.to_nat cnt \/ Z.to_nat cnt + length rules <= i
              \/ Z.to_nat cap <= i)%nat ->
             out.2 !! i = arr !! i) /\
  (out.1.1 <> 0 -> out.1.1 = - EMSGSIZE).
Proof.
  revert cnt arr. induction rules as [|r rules IH]; intros cnt arr Hc Hcap;
    cbn [get_flow_rule_ids_loop].
  - cbn. split; [reflexivity|]. split; [reflexivity|]. intros H; contradiction.
  - destruct (Z.eqb_spec cnt cap) as [->|Hne].
    + cbn. split; [reflexivity|]. split; [reflexivity|]. reflexivity.
    + assert (Hu : u32 (cnt + 1) = cnt + 1)
        by (unfold u32; apply Z.mod_small; lia).
      rewrite Hu.
      destruct (IH (cnt + 1) (<[Z.to_nat cnt := loc r]> arr) ltac:(lia) Hcap)
        as (Hlen & Hrest & Herr).
      split; [rewrite Hlen; apply length_insert|].
      split; [|exact Herr].
      intros i Hi. rewrite Hrest.
      * apply list_lookup_insert_ne. cbn [length] in Hi. lia.
      * cbn [length] in Hi. lia.
Qed.

(** X16.  Enumeration stays inside what the caller offered.  For a
    caller's array that holds at least the capacity the caller names, the
    returned array has the length of the caller's array, its first entries
    are the locations of the rules in list order, as many as there are
    rules or as the capacity allows, and every entry at or beyond the
    capacity, or beyond the number of rules, is what the caller put there.
    On a device that advertises flow rules the call fails with [-EMSGSIZE]
    exactly when there are more rules than the capacity, leaving the
    capacity field alone, and otherwise returns zero with the number of
    rules and the advertised maximum; on a device without flow rules it
    fails with [-EOPNOTSUPP] and touches nothing.  The driver itself is
    not changed. *)
Theorem get_flow_rule_ids_in_bounds (cmd : ethtool_rxnfc) (rule_locs : list Z)
    (p : gve_priv) :
  0 <= rule_cnt cmd < 2 ^ 32 ->
  rule_cnt cmd <= Z.of_nat (length rule_locs) ->
  let res := gve_get_flow_rule_ids cmd rule_locs p in
  let out := res.1 in
  let rules := flow_rules p in
  let k := Nat.min (length rules) (Z.to_nat (rule_cnt cmd)) in
  res.2 = p /\
  length out.2 = length rule_locs /\
  (forall i, (Z.to_nat (rule_cnt cmd) <= i \/ length rules <= i)%nat ->
             out.2 !! i = rule_locs !! i) /\
  (out.1.1 <> 0 -> rule_cnt out.1.2 = rule_cnt cmd) /\
  (out.1.1 = 0 \/ out.1.1 = - EMSGSIZE \/ out.1.1 = - EOPNOTSUPP) /\
  (flow_rules_max (cfg p) = 0 -> out = (- EOPNOTSUPP, cmd, rule_locs)) /\
  (flow_rules_max (cfg p) <> 0 ->
   take k out.2 = take k (loc <$> rules) /\
   (rule_cnt cmd < Z.of_nat (length rules) -> out.1.1 = - EMSGSIZE) /\
   (Z.of_nat (length rules) <= rule_cnt cmd ->
    out.1.1 = 0 /\
    rule_cnt out.1.2 = Z.of_nat (length rules) /\
    nfc_data out.1.2 = flow_rules_max (cfg p) /\
    take (length rules) out.2 = loc <$> rules)).
Proof.
  intros Hcap Harr res out rules k. subst out res.
  unfold gve_get_flow_rule_ids, bind, gets, ret.
  destruct (Z.eqb_spec (flow_rules_max (cfg p)) 0) as [Hmax|Hmax].
  { cbn [fst snd]. split; [reflexivity|]. split; [reflexivity|].
    split; [reflexivity|]. split; [reflexivity|].
    split; [right; right; reflexivity|].
    split; [reflexivity|]. intros H; contradiction. }
  cbv zeta.
  change (rule_cnt (set_nfc_data (flow_rules_max (cfg p)) cmd))
    with (rule_cnt cmd).
  fold rules.
  destruct (get_flow_rule_ids_loop_rest rules (rule_cnt cmd) 0
              rule_locs ltac:(lia) ltac:(lia)) as (Hlen & Hrest & Herr).
  pose proof (get_flow_rule_ids_loop_spec rules (rule_cnt cmd) 0
                rule_locs ltac:(lia) ltac:(lia) Harr) as L.
  cbv zeta in L. rewrite Z.sub_0_r in L. fold k in L.
  destruct (get_flow_rule_ids_loop rules (rule_cnt cmd) 0 rule_locs)
    as [[e c] locs]. cbn [fst snd] in Hlen, Hrest, Herr, L.
  destruct L as (Lc & Le & Lt).
  change (Z.to_nat 0) with 0%nat in Lt. rewrite Nat.add_0_l in Lt.
  rewrite take_0, app_nil_l in Lt.
  destruct (decide (length rules <= Z.to_nat (rule_cnt cmd))%nat)
    as [Hfit|Hfit] in Le; subst e; cbn [Z.eqb negb fst snd Z.opp EMSGSIZE].
  - assert (Hk : k = length rules) by (subst k; lia).
    split; [reflexivity|]. split; [exact Hlen|].
    split; [intros i Hi; apply Hrest; cbn [Z.to_nat]; lia|].
    split; [intros H; contradiction|].
    split; [left; reflexivity|]. split; [intros H; contradiction|].
    intros _. split; [exact Lt|]. split; [intros H; lia|].
    intros _. split; [reflexivity|].
    cbn [rule_cnt set_rule_cnt nfc_data set_nfc_data].
    split; [lia|]. split; [reflexivity|].
    rewrite Hk in Lt. rewrite Lt. apply take_ge. rewrite length_fmap. lia.
  - split; [reflexivity|]. split; [exact Hlen|].
    split; [intros i Hi; apply Hrest; cbn [Z.to_nat]; lia|].
    split; [intros _; reflexivity|].
    split; [right; left; reflexivity|]. split; [intros H; contradiction|].
    intros _. split; [exact Lt|]. split; [intros _; reflexivity|].
    intros H; lia.
Qed.

(** X17.  Asking for the count and then for the rules always fits.  When
    the device advertises flow rules, a rule-count query returns the number
    of rules and the advertised maximum; an enumeration whose capacity is
    that count then succeeds and returns the location of every rule, in
    list order. *)
Theorem count_then_enumerate (C : gve_consts) (cmd1 cmd2 : ethtool_rxnfc)
    (locs1 rule_locs : list Z) (p : gve_priv) :
  flow_inv C p ->
  flow_rules_max (cfg p) <> 0 ->
  flow_rules_cnt p < 2 ^ 32 ->
  nfc_cmd cmd1 = ETHTOOL_GRXCLSRLCNT ->
  nfc_cmd cmd2 = ETHTOOL_GRXCLSRLALL ->
  let counted := (gve_get_rxnfc cmd1 locs1 p).1 in
  rule_cnt cmd2 = rule_cnt counted.1.2 ->
  rule_cnt cmd2 <= Z.of_nat (length rule_locs) ->
  let out := (gve_get_rxnfc cmd2 rule_locs p).1 in
  counted.1.1 = 0 /\
  rule_cnt counted.1.2 = Z.of_nat (length (flow_rules p)) /\
  nfc_data counted.1.2 = flow_rules_max (cfg p) /\
  out.1.1 = 0 /\
  take (length (flow_rules p)) out.2 = loc <$> flow_rules p /\
  rule_cnt out.1.2 = Z.of_nat (length (flow_rules p)).
Proof.
  intros Hinv Hmax H32 Hc1 Hc2 counted.
  destruct Hinv as (_ & Hcnt & _).
  apply Z.eqb_neq in Hmax.
  assert (Hq1 : counted = (0, set_nfc_data (flow_rules_max (cfg p))
                                (set_rule_cnt (flow_rules_cnt p) cmd1), locs1)).
  { subst counted. unfold gve_get_rxnfc. rewrite Hc1.
    unfold bind, gets, ret. rewrite Hmax. reflexivity. }
  rewrite Hq1. clear Hq1 counted.
  cbn [fst snd rule_cnt nfc_data set_nfc_data set_rule_cnt].
  intros Hcap Harr. cbv zeta.
  split; [reflexivity|]. split; [exact Hcnt|]. split; [reflexivity|].
  unfold gve_get_rxnfc. rewrite Hc2.
  unfold gve_get_flow_rule_ids, bind, gets, ret. rewrite Hmax. cbv zeta.
  change (rule_cnt (set_nfc_data (flow_rules_max (cfg p)) cmd2))
    with (rule_cnt cmd2).
  pose proof (get_flow_rule_ids_loop_spec (flow_rules p) (rule_cnt cmd2) 0
                rule_locs ltac:(lia) ltac:(lia) Harr) as L.
  cbv zeta in L. rewrite Z.sub_0_r in L.
  destruct (get_flow_rule_ids_loop (flow_rules p) (rule_cnt cmd2) 0 rule_locs)
    as [[e c] locs]. cbn [fst snd] in L.
  destruct L as (Lc & Le & Lt).
  change (Z.to_nat 0) with 0%nat in Lt. rewrite Nat.add_0_l in Lt.
  rewrite take_0, app_nil_l in Lt.
  assert (Hmin : Nat.min (length (flow_rules p)) (Z.to_nat (rule_cnt cmd2))
                 = length (flow_rules p)) by lia.
  rewrite Hmin in Lc, Lt.
  destruct (decide _) as [_|Hn] in Le; [|lia]. subst e.
  cbn [Z.eqb negb fst snd rule_cnt set_rule_cnt].
  split; [reflexivity|].
  split; [|lia].
  rewrite Lt. apply take_ge. rewrite length_fmap. lia.
Qed.

End EnumerateMore.

(** * Queue batches *)

Section QueueBatches.

Variable pf : platform.

Lemma kick_and_wait_opcode_cnt a :
  adminq_opcode_cnt (gve_adminq_kick_and_wait pf a).2 = adminq_opcode_cnt a.
Proof.
  rewrite kick_and_wait_unfold. cbv zeta.
  set (a1 := (ioread32be_event_counter pf a).2).
  set (a2 := set_reg_doorbell _ a1).
  pose proof (wait_for_cmd_loop_spec pf GVE_MAX_ADMINQ_EVENT_COUNTER_CHECK
                (adminq_prod_cnt a) a2) as Hw.
  cbv zeta in Hw. destruct Hw as ((_&_&_&_&Hc&_) & _).
  set (w := wait_for_cmd_loop pf _ _ a2) in *.
  change (adminq_opcode_cnt a2) with (adminq_opcode_cnt a) in Hc.
  destruct (w.1).
  - destruct (kick_and_wait_check_spec
                (seqZ (u32 (event_counter_at pf (io_reads a)))
                   (adminq_prod_cnt a - u32 (event_counter_at pf (io_reads a))))
                w.2) as (_ & Hs).
    rewrite Hs.
    destruct (first_failed _) as [st|];
      [destruct (status_counts_as_failure st)|]; exact Hc.
  - exact Hc.
Qed.

(** The counters after an issue, whatever path it took. *)
Lemma issue_cmd_counts cmd a :
  ring_wf a ->
  let res := gve_adminq_issue_cmd pf cmd a in
  (res.1 = 0 ->
   forall o, adminq_opcode_cnt res.2 o =
             if bool_decide (o = counted_opcode cmd) && opcode_is_counted o
             then u32 (adminq_opcode_cnt a o + 1)
             else adminq_opcode_cnt a o) /\
  (res.1 <> 0 ->
   adminq_opcode_cnt res.2 = adminq_opcode_cnt a /\
   adminq_prod_cnt res.2 = adminq_prod_cnt a).
Proof.
  intros Hwf res. subst res. rewrite issue_cmd_unfold. cbv zeta.
  set (a1 := (ioread32be_event_counter pf a).2).
  assert (H1 : same_commands a a1)
    by apply same_bookkeeping_commands, ioread_bookkeeping.
  assert (Hwrite : forall b, same_commands a b ->
            adminq_opcode_cnt b = adminq_opcode_cnt a ->
    ((issue_cmd_write cmd b).1 = 0 ->
     forall o, adminq_opcode_cnt (issue_cmd_write cmd b).2 o =
               if bool_decide (o = counted_opcode cmd) && opcode_is_counted o
               then u32 (adminq_opcode_cnt a o + 1)
               else adminq_opcode_cnt a o) /\
    ((issue_cmd_write cmd b).1 <> 0 ->
     adminq_opcode_cnt (issue_cmd_write cmd b).2 = adminq_opcode_cnt a /\
     adminq_prod_cnt (issue_cmd_write cmd b).2 = adminq_prod_cnt a)).
  { intros b Hab Hcb.
    assert (Hwfb : ring_wf b) by (eapply ring_wf_same_commands; eassumption).
    destruct (issue_cmd_write_counts cmd b Hwfb)
      as (Hr & _ & _ & _ & _ & _ & _ & Hc).
    split; [|intros Hn; contradiction].
    intros _ o. rewrite Hc, Hcb. reflexivity. }
  destruct (ring_full a1).
  - set (fl := gve_adminq_kick_and_wait pf a1).
    assert (H2 : same_commands a fl.2).
    { eapply same_commands_trans; [exact H1|].
      apply kick_and_wait_same_commands. }
    assert (Hc2 : adminq_opcode_cnt fl.2 = adminq_opcode_cnt a)
      by apply (kick_and_wait_opcode_cnt a1).
    destruct (Z.eqb_spec fl.1 0) as [Hz|Hnz]; cbn [negb].
    + set (a3 := (ioread32be_event_counter pf fl.2).2).
      assert (H3 : same_commands a a3).
      { eapply same_commands_trans; [exact H2|].
        apply same_bookkeeping_commands, ioread_bookkeeping. }
      destruct (ring_full a3); [|apply Hwrite; [exact H3|exact Hc2]].
      cbn [fst snd]. split; [intros H; discriminate H|].
      intros _. split; [exact Hc2|]. destruct H3 as (_ & Hp & _). exact Hp.
    + split; [intros H; contradiction|].
      intros _. split; [exact Hc2|]. destruct H2 as (_ & Hp & _). exact Hp.
  - apply Hwrite; [exact H1|reflexivity].
Qed.

Lemma u32_idem x : u32 (u32 x) = u32 x.
Proof. unfold u32. apply Z.mod_mod. lia. Qed.

Lemma u32_succ_add x k : u32 (u32 (x + 1) + k) = u32 (x + (1 + k)).
Proof.
  unfold u32. rewrite Zplus_mod_idemp_l. f_equal. lia.
Qed.

Lemma u32_small x : 0 <= x < 2 ^ 32 -> u32 x = x.
Proof. intros H. unfold u32. apply Z.mod_small, H. Qed.

Lemma length_seqZ_nonneg s n : 0 <= n -> Z.of_nat (length (seqZ s n)) = n.
Proof. intros H. rewrite length_seqZ. lia. Qed.

Lemma issue_cmd_mask cmd a :
  adminq_mask (gve_adminq_issue_cmd pf cmd a).2 = adminq_mask a.
Proof.
  rewrite issue_cmd_unfold. cbv zeta.
  set (a1 := (ioread32be_event_counter pf a).2).
  assert (H1 : same_commands a a1)
    by apply same_bookkeeping_commands, ioread_bookkeeping.
  assert (Hwrite : forall b, same_commands a b ->
            adminq_mask (issue_cmd_write cmd b).2 = adminq_mask a).
  { intros b (Hm & _).
    destruct (issue_cmd_write_spec cmd b) as (_ & _ & _ & Hmb & _).
    rewrite Hmb. exact Hm. }
  destruct (ring_full a1).
  - set (fl := gve_adminq_kick_and_wait pf a1).
    assert (H2 : same_commands a fl.2).
    { eapply same_commands_trans; [exact H1|].
      apply kick_and_wait_same_commands. }
    destruct (Z.eqb_spec fl.1 0) as [Hz|Hnz]; cbn [negb].
    + set (a3 := (ioread32be_event_counter pf fl.2).2).
      assert (H3 : same_commands a a3).
      { eapply same_commands_trans; [exact H2|].
        apply same_bookkeeping_commands, ioread_bookkeeping. }
      destruct (ring_full a3); [|apply Hwrite, H3].
      cbn [fst snd]. destruct H3 as (Hm & _). exact Hm.
    + cbn [ret fst snd]. destruct H2 as (Hm & _). exact Hm.
  - apply Hwrite, H1.
Qed.

Lemma mod_shift_neq x d m : 0 < d < m -> (x + d) mod m <> x mod m.
Proof.
  intros Hd E.
  assert (H : ((x + d) - x) mod m = 0).
  { rewrite Zminus_mod, E, Z.sub_diag. apply Z.mod_0_l. lia. }
  replace (x + d - x) with d in H by lia.
  rewrite Z.mod_small in H by lia. lia.
Qed.

(** Two issues of a run that are less than a ring and less than [2^32]
    apart go to different slots. *)
Lemma batch_slot_inj a j j' :
  ring_wf a -> 0 < j' - j -> j' - j <= adminq_mask a -> j' - j < 2 ^ 32 ->
  batch_slot a j' <> batch_slot a j.
Proof.
  intros (r & Hr & Hm & _) Hlt Hle H32. unfold batch_slot.
  rewrite Hm in *. rewrite !Z.land_ones by exact Hr.
  rewrite Z.ones_equiv in Hle.
  assert (Hpos : 0 < 2 ^ r) by (apply Z.pow_pos_nonneg; lia).
  intros E. apply Z2Nat.inj in E; [|apply Z.mod_pos_bound; lia..].
  unfold u32 in E. revert E.
  replace (adminq_prod_cnt a + j') with (adminq_prod_cnt a + j + (j' - j))
    by lia.
  destruct (Z_le_gt_dec r 32) as [Hs|Hb].
  - assert (Hd : forall x, (x mod 2 ^ 32) mod 2 ^ r = x mod 2 ^ r).
    { intros x. apply Z.mod_mod_divide.
      exists (2 ^ (32 - r)). rewrite <- Z.pow_add_r by lia. f_equal. lia. }
    rewrite !Hd. apply mod_shift_neq. lia.
  - assert (H2 : 2 ^ 32 < 2 ^ r) by (apply Z.pow_lt_mono_r; lia).
    assert (Hd : forall x, (x mod 2 ^ 32) mod 2 ^ r = x mod 2 ^ 32).
    { intros x. pose proof (Z.mod_pos_bound x (2 ^ 32) ltac:(lia)).
      apply Z.mod_small. lia. }
    rewrite !Hd. apply mod_shift_neq. lia.
Qed.

(** The loop of a batch whose commands all carry the counted opcode [op]:
    it has issued the commands of a prefix of the queues, and of all of
    them when it returns zero; the command of each lies in the slot of its
    issue unless a later issue has come round to it. *)
Lemma queues_loop_spec op (view : Z -> gve_adminq_payload) ids a :
  opcode_is_counted op = true ->
  ring_wf a ->
  0 <= adminq_prod_cnt a < 2 ^ 32 ->
  0 <= adminq_opcode_cnt a op < 2 ^ 32 ->
  let res := queues_loop (fun i => gve_adminq_issue_cmd pf (mk_cmd op (view i)))
               ids a in
  ring_wf res.2 /\ adminq_mask res.2 = adminq_mask a /\
  (exists k, 0 <= k <= Z.of_nat (length ids) /\
     adminq_prod_cnt res.2 = u32 (adminq_prod_cnt a + k) /\
     adminq_opcode_cnt res.2 op = u32 (adminq_opcode_cnt a op + k) /\
     (res.1 = 0 -> k = Z.of_nat (length ids)) /\
     (forall (j : nat) i, Z.of_nat j < k -> ids !! j = Some i ->
        (forall j', Z.of_nat j < j' < k ->
           batch_slot a j' <> batch_slot a (Z.of_nat j)) ->
        holds_queue_cmd op view res.2 (batch_slot a (Z.of_nat j)) i) /\
     (forall s, (forall j, 0 <= j < k -> batch_slot a j <> s) ->
        opcode <$> adminq res.2 !! s = opcode <$> adminq a !! s /\
        payload <$> adminq res.2 !! s = payload <$> adminq a !! s)) /\
  (forall o, o <> op -> adminq_opcode_cnt res.2 o = adminq_opcode_cnt a o).
Proof.
  intros Hop. assert (Hne : op <> GVE_ADMINQ_EXTENDED_COMMAND)
    by (intros ->; discriminate Hop).
  revert a. induction ids as [|i ids IH]; intros a Hwf Hpr Hcr;
    cbn [queues_loop].
  - cbn [ret fst snd]. split; [exact Hwf|]. split; [reflexivity|].
    split; [|reflexivity].
    exists 0. rewrite !Z.add_0_r, !u32_small by assumption.
    split; [cbn [length]; lia|]. split; [reflexivity|].
    split; [reflexivity|]. split; [reflexivity|].
    split; [intros j i Hj; lia|]. intros s _. split; reflexivity.
  - unfold bind.
    set (cmd := mk_cmd op (view i)).
    assert (Hco : counted_opcode cmd = op).
    { unfold counted_opcode, cmd. cbn [opcode mk_cmd].
      destruct (decide _) as [E|_]; [contradiction|reflexivity]. }
    pose proof (issue_cmd_slots pf cmd a Hwf) as Hs.
    pose proof (issue_cmd_counts cmd a Hwf) as Hc.
    pose proof (issue_cmd_mask cmd a) as Hm1.
    cbv zeta in Hs, Hc.
    destruct (gve_adminq_issue_cmd pf cmd a) as [e a1] eqn:Hiss.
    cbn [fst snd] in Hs, Hc, Hm1.
    destruct Hs as (Hwf1 & Hs0 & Hsn & Hrest). destruct Hc as (Hc0 & Hcn).
    destruct (Z.eqb_spec e 0) as [Hz|Hnz]; cbn [negb].
    + destruct (Hs0 Hz) as (Hslot & Hp1). specialize (Hc0 Hz).
      rewrite Hco in Hc0.
      assert (Hc1 : adminq_opcode_cnt a1 op = u32 (adminq_opcode_cnt a op + 1)).
      { rewrite (Hc0 op), bool_decide_eq_true_2 by reflexivity.
        rewrite Hop. reflexivity. }
      assert (Hr1 : 0 <= adminq_prod_cnt a1 < 2 ^ 32)
        by (rewrite Hp1; apply Z.mod_pos_bound; lia).
      assert (Hr2 : 0 <= adminq_opcode_cnt a1 op < 2 ^ 32)
        by (rewrite Hc1; apply Z.mod_pos_bound; lia).
      assert (Hsh : forall j, batch_slot a1 j = batch_slot a (1 + j)).
      { intros j. unfold batch_slot. rewrite Hm1, Hp1, u32_succ_add.
        reflexivity. }
      assert (Hfst : next_slot a = batch_slot a 0).
      { unfold batch_slot, next_slot.
        rewrite Z.add_0_r, u32_small by exact Hpr. reflexivity. }
      specialize (IH a1 Hwf1 Hr1 Hr2). cbv zeta in IH.
      destruct IH as (Hwf2 & Hm2 & (k & Hk & Hp & Hcnt & Hall & Hin & Hout)
                      & Hoth).
      split; [exact Hwf2|]. split; [congruence|]. split.
      * exists (1 + k). split; [cbn [length]; lia|].
        split; [rewrite Hp, Hp1; apply u32_succ_add|].
        split; [rewrite Hcnt, Hc1; apply u32_succ_add|].
        split; [intros Hr; rewrite (Hall Hr); cbn [length]; lia|].
        split.
        -- intros j i0 Hj Hl Hlater. destruct j as [|j].
           ++ cbn in Hl. injection Hl as <-. change (Z.of_nat 0) with 0 in *.
              destruct (Hout (next_slot a)) as (Ho & Hpl).
              { intros j Hj'. rewrite Hsh, Hfst. apply Hlater. lia. }
              unfold holds_queue_cmd. rewrite <- Hfst, Ho, Hpl, Hslot.
              split; reflexivity.
           ++ cbn in Hl. rewrite Nat2Z.inj_succ, <- Z.add_1_l, <- Hsh.
              apply (Hin j i0); [lia|exact Hl|].
              intros j' Hj'. rewrite !Hsh.
              replace (1 + Z.of_nat j) with (Z.of_nat (S j)) by lia.
              apply Hlater. lia.
        -- intros s Hns. destruct (Hout s) as (Ho & Hpl).
           { intros j Hj. rewrite Hsh. apply Hns. lia. }
           destruct (Hrest s) as (Ho' & Hpl').
           { intros ->. apply (Hns 0); [lia|]. symmetry. exact Hfst. }
           split; congruence.
      * intros o Ho. rewrite (Hoth o Ho), (Hc0 o).
        rewrite bool_decide_eq_false_2 by exact Ho. reflexivity.
    + cbn [ret fst snd]. destruct (Hcn Hnz) as (Hcc & Hpp).
      destruct (Hsn Hnz) as (_ & _ & _ & Hso & Hsp).
      split; [exact Hwf1|]. split; [exact Hm1|]. split.
      * exists 0. rewrite !Z.add_0_r, Hcc, Hpp, !u32_small by assumption.
        split; [cbn [length]; lia|]. split; [reflexivity|].
        split; [reflexivity|]. split; [intros Hr; contradiction|].
        split; [intros j i0 Hj; lia|]. intros s _. split; [apply Hso|apply Hsp].
      * intros o _. rewrite Hcc. reflexivity.
Qed.

(** A batch function: the loop over the queues from [start_id] on, then
    the flush. *)
Lemma batch_spec op (view : Z -> gve_adminq_payload) start_id n a :
  opcode_is_counted op = true ->
  ring_wf a -> counters_u32 a -> 0 <= n <= 2 ^ 32 ->
  batch_outcome op view start_id n a
    ((do err <- queues_loop
                  (fun i => gve_adminq_issue_cmd pf (mk_cmd op (view i)))
                  (seqZ start_id n);
      if negb (err =? 0) then ret err else gve_adminq_kick_and_wait pf) a).
Proof.
  intros Hop Hwf (Hpr & Hcr) Hn.
  pose proof (queues_loop_spec op view (seqZ start_id n) a Hop Hwf Hpr (Hcr op))
    as Hl.
  cbv zeta in Hl. rewrite length_seqZ_nonneg in Hl by lia. unfold bind.
  destruct (queues_loop _ (seqZ start_id n) a) as [e a1]. cbn [fst snd] in Hl.
  destruct Hl as (Hwf1 & Hm1 & (k & Hk & Hp & Hc & Hall & Hin & Hout) & Hoth).
  assert (Hring : batch_in_ring op view start_id k a a1).
  { split; [|exact Hout].
    intros j Hj Hlater. rewrite <- (Z2Nat.id j) at 1 by lia.
    apply Hin; [lia| |].
    - rewrite lookup_seqZ_lt by lia. f_equal. lia.
    - intros j' Hj'. rewrite Z2Nat.id by lia. apply Hlater. lia. }
  assert (Hfit : forall b, same_commands a1 b ->
            batch_in_ring op view start_id k a b /\
            (n <= adminq_mask a + 1 ->
             forall j, 0 <= j < k ->
               holds_queue_cmd op view b (batch_slot a j) (start_id + j))).
  { intros b (_ & _ & _ & Hso & Hsp).
    assert (Hb : batch_in_ring op view start_id k a b).
    { destruct Hring as (R1 & R2). split.
      - intros j Hj Hlater. destruct (R1 j Hj Hlater) as (Q1 & Q2).
        split; [rewrite Hso; exact Q1|rewrite Hsp; exact Q2].
      - intros s Hns. destruct (R2 s Hns) as (Q1 & Q2).
        split; [rewrite Hso; exact Q1|rewrite Hsp; exact Q2]. }
    split; [exact Hb|]. intros Hle j Hj. apply (proj1 Hb j Hj).
    intros j' Hj'. apply (batch_slot_inj a j j' Hwf); lia. }
  destruct (Z.eqb_spec e 0) as [Hz|Hnz]; cbn [negb].
  - pose proof (kick_and_wait_doorbell pf a1) as (Hkp & Hkd).
    pose proof (kick_and_wait_opcode_cnt a1) as Hkc.
    pose proof (kick_and_wait_zero_drained pf a1) as Hkz.
    pose proof (kick_and_wait_same_commands pf a1) as Hks.
    destruct (gve_adminq_kick_and_wait pf a1) as [r a2].
    cbn [fst snd] in *. unfold batch_outcome. cbn [fst snd].
    destruct (Hfit a2 Hks) as (F1 & F2).
    split.
    { exists k. split; [exact Hk|]. split; [congruence|].
      split; [rewrite Hkc; exact Hc|]. split; [intros _; apply Hall, Hz|].
      split; [exact F1|exact F2]. }
    split; [intros o Ho; rewrite Hkc; apply Hoth, Ho|].
    intros Hr. split; [apply Hkz, Hr|]. rewrite Hkd, Hkp. reflexivity.
  - unfold batch_outcome. cbn [ret fst snd].
    destruct (Hfit a1) as (F1 & F2).
    { repeat split; reflexivity. }
    split.
    { exists k. split; [exact Hk|]. split; [exact Hp|]. split; [exact Hc|].
      split; [intros Hr; contradiction|]. split; [exact F1|exact F2]. }
    split; [exact Hoth|]. intros Hr. contradiction.
Qed.

Lemma queues_loop_ext (one one' : Z -> M Z) ids a :
  (forall i b, one i b = one' i b) ->
  queues_loop one ids a = queues_loop one' ids a.
Proof.
  intros He. revert a. induction ids as [|i ids IH]; intros a;
    cbn [queues_loop]; [reflexivity|].
  unfold bind. rewrite He. destruct (one' i a) as [e a1].
  destruct (negb _); [reflexivity|apply IH].
Qed.

Lemma destroy_one_eq (cmd : gve_adminq_command) b :
  (do err <- gve_adminq_issue_cmd pf cmd;
   if negb (err =? 0) then ret err else ret 0) b
  = gve_adminq_issue_cmd pf cmd b.
Proof.
  unfold bind. destruct (gve_adminq_issue_cmd pf cmd b) as [e a1].
  destruct (Z.eqb_spec e 0) as [->|Hn]; reflexivity.
Qed.

(** X18.  A batch of queue commands.  Each of the four batch functions
    issues the commands of its queues in order, from queue [start_id] on
    (from queue 0 on for the RX queues), and then flushes once.  It has
    always issued the commands of a prefix of the queues: the producer
    counter and the counter of the opcode have advanced by the length [k]
    of that prefix, no other opcode counter has moved, and the ring holds
    exactly these commands: the command of the [j]-th queue, with the
    opcode of the batch and the view of that queue, lies in the slot of
    the [j]-th issue unless a later command of the batch has come round to
    that slot, every slot no command went to holds what it held, and a
    batch no longer than the ring leaves every command it issued in the
    ring.  When the batch returns zero every queue's command was issued,
    the doorbell was last rung with the final producer counter, and the
    ring is drained. *)
Theorem queue_batches_outcomes
    (create_tx_queue_view create_rx_queue_view : Z -> gve_adminq_payload)
    (destroy_tx_queue_view destroy_rx_queue_view : Z -> gve_adminq_payload)
    (start_id num_queues : Z) (a : gve_adminq_priv) :
  ring_wf a -> counters_u32 a ->
  0 <= start_id -> 0 <= num_queues -> start_id + num_queues < 2 ^ 32 ->
  batch_outcome GVE_ADMINQ_CREATE_TX_QUEUE create_tx_queue_view
    start_id num_queues a
    (gve_adminq_create_tx_queues pf create_tx_queue_view
       start_id num_queues a) /\
  batch_outcome GVE_ADMINQ_CREATE_RX_QUEUE create_rx_queue_view
    0 num_queues a
    (gve_adminq_create_rx_queues pf create_rx_queue_view num_queues a) /\
  batch_outcome GVE_ADMINQ_DESTROY_TX_QUEUE destroy_tx_queue_view
    start_id num_queues a
    (gve_adminq_destroy_tx_queues pf destroy_tx_queue_view
       start_id num_queues a) /\
  batch_outcome GVE_ADMINQ_DESTROY_RX_QUEUE destroy_rx_queue_view
    0 num_queues a
    (gve_adminq_destroy_rx_queues pf destroy_rx_queue_view num_queues a).
Proof.
  intros Hwf Hcnt Hs Hn Hsum.
  assert (Hlen : u32 (start_id + num_queues) - start_id = num_queues)
    by (rewrite u32_small by lia; lia).
  assert (Hn32 : 0 <= num_queues <= 2 ^ 32) by lia.
  split; [|split; [|split]].
  - unfold gve_adminq_create_tx_queues. rewrite Hlen.
    apply (batch_spec GVE_ADMINQ_CREATE_TX_QUEUE create_tx_queue_view);
      [reflexivity|exact Hwf|exact Hcnt|exact Hn32].
  - unfold gve_adminq_create_rx_queues.
    apply (batch_spec GVE_ADMINQ_CREATE_RX_QUEUE create_rx_queue_view);
      [reflexivity|exact Hwf|exact Hcnt|exact Hn32].
  - unfold gve_adminq_destroy_tx_queues. rewrite Hlen.
    unfold bind at 1.
    rewrite (queues_loop_ext _
               (fun i => gve_adminq_issue_cmd pf
                  (mk_cmd GVE_ADMINQ_DESTROY_TX_QUEUE (destroy_tx_queue_view i))))
      by (intros i b; apply destroy_one_eq).
    apply (batch_spec GVE_ADMINQ_DESTROY_TX_QUEUE destroy_tx_queue_view);
      [reflexivity|exact Hwf|exact Hcnt|exact Hn32].
  - unfold gve_adminq_destroy_rx_queues.
    unfold bind at 1.
    rewrite (queues_loop_ext _
               (fun i => gve_adminq_issue_cmd pf
                  (mk_cmd GVE_ADMINQ_DESTROY_RX_QUEUE (destroy_rx_queue_view i))))
      by (intros i b; apply destroy_one_eq).
    apply (batch_spec GVE_ADMINQ_DESTROY_RX_QUEUE destroy_rx_queue_view);
      [reflexivity|exact Hwf|exact Hcnt|exact Hn32].
Qed.

End QueueBatches.

(** * Statistics names *)

Section StatNames.

Lemma length_flat_map_const {A B} (f : A -> list B) m l :
  (forall x, length (f x) = m) -> length (flat_map f l) = (length l * m)%nat.
Proof.
  intros Hf. induction l as [|x l IH]; cbn [flat_map length]; [reflexivity|].
  rewrite length_app, Hf, IH. lia.
Qed.

Lemma lookup_flat_map_seqZ {B} (f : Z -> list B) m s n k j :
  (forall x, length (f x) = m) ->
  (k < n)%nat -> (j < m)%nat ->
  flat_map f (seqZ s (Z.of_nat n)) !! (k * m + j)%nat = f (s + Z.of_nat k) !! j.
Proof.
  intros Hf. revert s k. induction n as [|n IH]; intros s k Hk Hj; [lia|].
  rewrite Nat2Z.inj_succ, seqZ_cons by lia. cbn [flat_map].
  replace (Z.pred (Z.succ (Z.of_nat n))) with (Z.of_nat n) by lia.
  destruct k as [|k].
  - rewrite lookup_app_l by (rewrite Hf; lia).
    rewrite Z.add_0_r. reflexivity.
  - rewrite lookup_app_r by (rewrite Hf; lia).
    rewrite Hf. replace (S k * m + j - m)%nat with (k * m + j)%nat by lia.
    rewrite IH by lia. f_equal. f_equal. lia.
Qed.

Lemma substring_length_le n s :
  (String.length (String.substring 0 n s) <= n)%nat.
Proof.
  revert s. induction n as [|n IH]; intros s.
  - destruct s; cbn; lia.
  - destruct s as [|c s]; cbn; [lia|]. specialize (IH s). lia.
Qed.

Lemma snprintf_u_fits size fmt i :
  0 < size -> Z.of_nat (String.length (snprintf_u size fmt i)) < size.
Proof.
  intros Hs. unfold snprintf_u.
  pose proof (substring_length_le (Z.to_nat (size - 1)) (format_u fmt (u32 i))).
  lia.
Qed.

Lemma Forall_flat_map {A B} (Q : B -> Prop) (f : A -> list B) l :
  (forall x, Forall Q (f x)) -> Forall Q (flat_map f l).
Proof.
  intros Hf. induction l as [|x l IH]; cbn [flat_map]; [constructor|].
  apply Forall_app. split; [apply Hf|exact IH].
Qed.

(** The names of one statistics set as they lie in the array: a table, a
    block of [length rxs] names per RX queue, a block of [length txs] names
    per TX queue, and a table. *)
Lemma stat_names_layout (main rxs txs adm : list string) (rxq txq : Z) :
  0 <= rxq -> 0 <= txq ->
  let block tbl := fun i => (fun fmt => snprintf_u ETH_GSTRING_LEN fmt i) <$> tbl in
  let names := main ++ flat_map (block rxs) (seqZ 0 rxq)
                    ++ flat_map (block txs) (seqZ 0 txq) ++ adm in
  Z.of_nat (length names)
  = Z.of_nat (length main) + Z.of_nat (length adm)
    + rxq * Z.of_nat (length rxs) + txq * Z.of_nat (length txs) /\
  (forall q j fmt, 0 <= q < rxq -> rxs !! j = Some fmt ->
     names !! (Z.to_nat (Z.of_nat (length main) + q * Z.of_nat (length rxs)) + j)%nat
     = Some (snprintf_u ETH_GSTRING_LEN fmt q)) /\
  (forall q j fmt, 0 <= q < txq -> txs !! j = Some fmt ->
     names !! (Z.to_nat (Z.of_nat (length main) + rxq * Z.of_nat (length rxs)
                         + q * Z.of_nat (length txs)) + j)%nat
     = Some (snprintf_u ETH_GSTRING_LEN fmt q)) /\
  (Forall (fun s => Z.of_nat (String.length s) <= ETH_GSTRING_LEN) main ->
   Forall (fun s => Z.of_nat (String.length s) <= ETH_GSTRING_LEN) adm ->
   Forall (fun s => Z.of_nat (String.length s) <= ETH_GSTRING_LEN) names).
Proof.
  intros Hrx Htx block names.
  assert (Hb : forall tbl x, length (block tbl x) = length tbl)
    by (intros tbl x; unfold block; apply length_fmap).
  assert (Lrx : length (flat_map (block rxs) (seqZ 0 rxq))
                = (Z.to_nat rxq * length rxs)%nat).
  { rewrite (length_flat_map_const _ (length rxs)) by apply Hb.
    rewrite length_seqZ. reflexivity. }
  assert (Ltx : length (flat_map (block txs) (seqZ 0 txq))
                = (Z.to_nat txq * length txs)%nat).
  { rewrite (length_flat_map_const _ (length txs)) by apply Hb.
    rewrite length_seqZ. reflexivity. }
  split; [|split; [|split]].
  - subst names. rewrite !length_app, Lrx, Ltx. nia.
  - intros q j fmt Hq Hj. subst names.
    assert (Hjl : (j < length rxs)%nat) by (eapply lookup_lt_Some; exact Hj).
    rewrite lookup_app_r by lia.
    replace (Z.to_nat (Z.of_nat (length main) + q * Z.of_nat (length rxs)) + j
             - length main)%nat
      with (Z.to_nat q * length rxs + j)%nat by nia.
    rewrite lookup_app_l by (rewrite Lrx; nia).
    replace rxq with (Z.of_nat (Z.to_nat rxq)) at 1 by lia.
    rewrite (lookup_flat_map_seqZ _ (length rxs)) by (try apply Hb; lia).
    unfold block. rewrite list_lookup_fmap, Hj. cbn. do 2 f_equal. lia.
  - intros q j fmt Hq Hj. subst names.
    assert (Hjl : (j < length txs)%nat) by (eapply lookup_lt_Some; exact Hj).
    rewrite lookup_app_r by nia.
    rewrite lookup_app_r by (rewrite Lrx; nia).
    rewrite Lrx.
    replace (Z.to_nat (Z.of_nat (length main) + rxq * Z.of_nat (length rxs)
                       + q * Z.of_nat (length txs)) + j
             - length main - Z.to_nat rxq * length rxs)%nat
      with (Z.to_nat q * length txs + j)%nat by nia.
    rewrite lookup_app_l by (rewrite Ltx; nia).
    replace txq with (Z.of_nat (Z.to_nat txq)) at 1 by lia.
    rewrite (lookup_flat_map_seqZ _ (length txs)) by (try apply Hb; lia).
    unfold block. rewrite list_lookup_fmap, Hj. cbn. do 2 f_equal. lia.
  - intros Hm Ha. subst names.
    assert (Hblk : forall tbl x,
              Forall (fun s => Z.of_nat (String.length s) <= ETH_GSTRING_LEN)
                (block tbl x)).
    { intros tbl x. unfold block. apply Forall_fmap, Forall_forall.
      intros fmt _. apply Z.lt_le_incl, snprintf_u_fits. reflexivity. }
    repeat (apply Forall_app; split); try assumption;
      apply Forall_flat_map, Hblk.
Qed.

Lemma s32_small x : 0 <= x < 2 ^ 31 -> s32 (u64 x) = x.
Proof.
  intros H. unfold s32, u64.
  rewrite (Z.mod_small x) by lia.
  rewrite Z.mod_small by lia. lia.
Qed.

Lemma table_names_fit :
  Forall (fun s => Z.of_nat (String.length s) <= ETH_GSTRING_LEN)
    gve_gstrings_main_stats /\
  Forall (fun s => Z.of_nat (String.length s) <= ETH_GSTRING_LEN)
    gve_gstrings_adminq_stats /\
  Forall (fun s => Z.of_nat (String.length s) <= ETH_GSTRING_LEN)
    gve_gstrings_priv_flags.
Proof.
  split; [|split]; apply Forall_forall; intros s Hs;
    repeat (apply elem_of_cons in Hs as [->|Hs]; [discriminate|]);
    apply elem_of_nil in Hs; contradiction.
Qed.

(** X19.  The names fill exactly the slots that were counted.  For the
    statistics set and for the private-flags set, [gve_get_strings] writes
    the first [gve_get_sset_count] slots of the array, each with a name of
    at most [ETH_GSTRING_LEN] characters, and leaves every later slot alone; for another set
    it writes nothing and the count is [-EOPNOTSUPP].  In the statistics set
    the name of statistic [j] of RX queue [q] is in slot
    [GVE_MAIN_STATS_LEN + q * NUM_GVE_RX_CNTS + j], and that of TX queue [q]
    behind the names of all RX queues, in slot
    [GVE_MAIN_STATS_LEN + rxq * NUM_GVE_RX_CNTS + q * NUM_GVE_TX_CNTS + j]. *)
Theorem strings_fill_sset_count (priv : gve_priv)
    (num_tx_queues stringset : Z) (data : list string) :
  let rxq := rx_cfg_num_queues (cfg priv) in
  0 <= rxq -> 0 <= num_tx_queues ->
  GVE_MAIN_STATS_LEN + GVE_ADMINQ_STATS_LEN + rxq * NUM_GVE_RX_CNTS
    + num_tx_queues * NUM_GVE_TX_CNTS < 2 ^ 31 ->
  let n := gve_get_sset_count priv num_tx_queues stringset in
  let out := gve_get_strings priv num_tx_queues stringset data in
  (stringset <> ETH_SS_STATS -> stringset <> ETH_SS_PRIV_FLAGS ->
   n = - EOPNOTSUPP /\ out = data) /\
  (stringset = ETH_SS_STATS \/ stringset = ETH_SS_PRIV_FLAGS ->
   0 < n /\
   length (take (Z.to_nat n) out) = Z.to_nat n /\
   drop (Z.to_nat n) out = drop (Z.to_nat n) data /\
   Forall (fun s => Z.of_nat (String.length s) <= ETH_GSTRING_LEN)
     (take (Z.to_nat n) out)) /\
  (stringset = ETH_SS_STATS ->
   (forall q j fmt, 0 <= q < rxq -> gve_gstrings_rx_stats !! j = Some fmt ->
      out !! (Z.to_nat (GVE_MAIN_STATS_LEN + q * NUM_GVE_RX_CNTS) + j)%nat
      = Some (snprintf_u ETH_GSTRING_LEN fmt q)) /\
   (forall q j fmt, 0 <= q < num_tx_queues ->
      gve_gstrings_tx_stats !! j = Some fmt ->
      out !! (Z.to_nat (GVE_MAIN_STATS_LEN + rxq * NUM_GVE_RX_CNTS
                        + q * NUM_GVE_TX_CNTS) + j)%nat
      = Some (snprintf_u ETH_GSTRING_LEN fmt q))).
Proof.
  intros rxq Hrx Htx Hfit n out.
  destruct table_names_fit as (Fm & Fa & Fp).
  pose proof (stat_names_layout gve_gstrings_main_stats gve_gstrings_rx_stats
                gve_gstrings_tx_stats gve_gstrings_adminq_stats
                rxq num_tx_queues Hrx Htx) as HL.
  cbv zeta in HL. fold rxq in HL.
  set (names := gve_gstrings_main_stats ++ _) in HL.
  destruct HL as (Hlen & Hlrx & Hltx & Hall).
  fold GVE_MAIN_STATS_LEN GVE_ADMINQ_STATS_LEN NUM_GVE_RX_CNTS NUM_GVE_TX_CNTS
    in Hlen, Hlrx, Hltx.
  assert (Hpos : 0 < GVE_MAIN_STATS_LEN + GVE_ADMINQ_STATS_LEN) by reflexivity.
  assert (Hrc : 0 <= NUM_GVE_RX_CNTS) by (unfold NUM_GVE_RX_CNTS; lia).
  assert (Htc : 0 <= NUM_GVE_TX_CNTS) by (unfold NUM_GVE_TX_CNTS; lia).
  assert (Hn1 : stringset = ETH_SS_STATS ->
                n = Z.of_nat (length names) /\ out = names ++ drop (length names) data).
  { intros ->. subst n out. unfold gve_get_sset_count, gve_get_strings.
    cbn [Z.eqb ETH_SS_STATS Pos.eqb]. fold rxq. fold names.
    rewrite s32_small by nia. split; [lia|reflexivity]. }
  assert (Hn2 : stringset = ETH_SS_PRIV_FLAGS ->
                n = Z.of_nat (length gve_gstrings_priv_flags) /\
                out = gve_gstrings_priv_flags
                      ++ drop (length gve_gstrings_priv_flags) data).
  { intros ->. subst n out. split; reflexivity. }
  assert (Hfill : forall nm, n = Z.of_nat (length nm) ->
            out = nm ++ drop (length nm) data -> (0 < length nm)%nat ->
            Forall (fun s => Z.of_nat (String.length s) <= ETH_GSTRING_LEN) nm ->
            0 < n /\
            length (take (Z.to_nat n) out) = Z.to_nat n /\
            drop (Z.to_nat n) out = drop (Z.to_nat n) data /\
            Forall (fun s => Z.of_nat (String.length s) <= ETH_GSTRING_LEN)
              (take (Z.to_nat n) out)).
  { intros nm -> -> Hnz Hf. rewrite Nat2Z.id.
    split; [lia|]. rewrite take_app_length, drop_app_length.
    split; [reflexivity|]. split; [reflexivity|exact Hf]. }
  split; [|split].
  - intros H1 H2. subst n out. unfold gve_get_sset_count, gve_get_strings.
    destruct (Z.eqb_spec stringset ETH_SS_STATS); [contradiction|].
    destruct (Z.eqb_spec stringset ETH_SS_PRIV_FLAGS); [contradiction|].
    split; reflexivity.
  - intros [Hs|Hs].
    + destruct (Hn1 Hs) as [En Eo].
      apply (Hfill names En Eo); [|apply Hall; assumption].
      apply Nat2Z.inj_lt. rewrite Hlen. nia.
    + destruct (Hn2 Hs) as [En Eo].
      apply (Hfill _ En Eo); [cbn; lia|exact Fp].
  - intros Hs. destruct (Hn1 Hs) as [_ Eo]. split.
    + intros q j fmt Hq Hj. rewrite Eo.
      pose proof (Hlrx q j fmt Hq Hj) as Hl.
      rewrite lookup_app_l; [exact Hl|]. eapply lookup_lt_Some, Hl.
    + intros q j fmt Hq Hj. rewrite Eo.
      pose proof (Hltx q j fmt Hq Hj) as Hl.
      rewrite lookup_app_l; [exact Hl|]. eapply lookup_lt_Some, Hl.
Qed.

End StatNames.

(** * RSS hash settings *)

Section RxfhFacts.

Variable pf : platform.
Variable C : gve_consts.
Variable EC : gve_ethtool_consts.
Variable gve_rss_config_init : E Z.

Lemma array_prefix_take n (l : list Z) :
  0 <= n <= Z.of_nat (length l) -> array_prefix n l = take (Z.to_nat n) l.
Proof.
  intros Hn. unfold array_prefix. apply list_eq. intros i.
  rewrite list_lookup_fmap.
  destruct (decide (i < Z.to_nat n)%nat) as [Hi|Hi].
  - rewrite lookup_seqZ_lt by lia. cbn [fmap option_fmap option_map].
    rewrite lookup_take_lt by exact Hi.
    rewrite Z.add_0_l, Nat2Z.id.
    destruct (l !! i) as [x|] eqn:El; [reflexivity|].
    apply lookup_ge_None in El. lia.
  - rewrite lookup_seqZ_ge by lia.
    rewrite lookup_take_ge by lia. reflexivity.
Qed.

Lemma copy_entries_take dst src n :
  0 <= n <= Z.of_nat (length src) ->
  copy_entries dst src n = take (Z.to_nat n) src ++ drop (Z.to_nat n) dst.
Proof. intros Hn. unfold copy_entries. rewrite array_prefix_take by exact Hn. reflexivity. Qed.

Lemma copy_entries_back dst src rest n :
  0 <= n <= Z.of_nat (length src) ->
  copy_entries dst (take (Z.to_nat n) src ++ rest) n
  = take (Z.to_nat n) src ++ drop (Z.to_nat n) dst.
Proof.
  intros Hn. rewrite copy_entries_take.
  - rewrite take_app_length'; [reflexivity|]. rewrite length_take. lia.
  - rewrite length_app, length_take. lia.
Qed.

(** X20.  The driver's RSS settings follow the request, whatever the device
    answers.  With RSS configured before, a call that sets the hash
    function, the key and the table stores the first [key_size] bytes of
    the key and the first [indir_size] entries of the table in
    [priv->rss_config] before the device is asked, returns the result of
    the configure-RSS command for that configuration, and does not restore
    the old settings when the command fails: a following [gve_get_rxfh]
    returns the Toeplitz function, the new key and the new table.  A call
    that changes nothing returns zero without a command. *)
Theorem set_rxfh_then_get (t k bi bk : list Z) (h : Z)
    (p : gve_ethtool_priv) :
  let c := priv_rss_config p in
  let ks := Z.to_nat (key_size c) in
  let n := Z.to_nat (indir_size c) in
  alg c <> GVE_RSS_HASH_UNDEFINED EC ->
  0 <= key_size c <= Z.of_nat (length k) ->
  0 <= indir_size c <= Z.of_nat (length t) ->
  Forall (fun x => 0 <= x < 2 ^ 32) t ->
  let res := gve_set_rxfh pf C EC gve_rss_config_init (Some t) (Some k)
               ETH_RSS_HASH_TOP p in
  let c' := priv_rss_config res.2 in
  c' = {| alg := GVE_RSS_HASH_TOEPLITZ EC; key_size := key_size c;
          rss_key := take ks k ++ drop ks (rss_key c);
          indir_size := indir_size c;
          indir := take n t ++ drop n (indir c) |} /\
  res.1 = (gve_adminq_configure_rss pf C c' (aq (base p))).1 /\
  gve_get_rxfh EC (Some bi) (Some bk) (Some h) res.2
  = (0, (Some (take n t ++ drop n bi), Some (take ks k ++ drop ks bk),
         Some ETH_RSS_HASH_TOP)) /\
  gve_set_rxfh pf C EC gve_rss_config_init None None ETH_RSS_HASH_NO_CHANGE p
  = (0, p).
Proof.
  intros c ks n Halg Hk Ht Hr res c'.
  assert (Hres : res = (let c1 := {| alg := GVE_RSS_HASH_TOEPLITZ EC; key_size := key_size c;
          rss_key := take ks k ++ drop ks (rss_key c);
          indir_size := indir_size c;
          indir := take n t ++ drop n (indir c) |} in
      let r := gve_adminq_configure_rss pf C c1 (aq (base p)) in
      (r.1, set_base (set_aq r.2 (base p)) (set_priv_rss_config c1 p)))).
  { subst res. unfold gve_set_rxfh, bind, gets, ret, modify. fold c.
    destruct (Z.eqb_spec (alg c) (GVE_RSS_HASH_UNDEFINED EC)) as [E0|_];
      [contradiction|].
    cbn [negb orb andb Z.eqb ETH_RSS_HASH_TOP ETH_RSS_HASH_NO_CHANGE Pos.eqb].
    change (bool_decide (is_Some (Some k))) with true.
    cbn [negb andb].
    cbn [priv_rss_config set_priv_rss_config set_indir set_rss_key indir
         rss_key key_size indir_size alg set_alg base set_base snd fst].
    fold c. unfold lift_base, lift_aq.
    cbn [priv_rss_config set_priv_rss_config set_indir set_rss_key indir
         rss_key key_size indir_size alg set_alg base set_base snd fst].
    rewrite !copy_entries_take by assumption. fold ks n.
    destruct (gve_adminq_configure_rss pf C _ (aq (base p))) as [e a1].
    reflexivity. }
  cbv zeta in Hres.
  set (c1 := {| alg := GVE_RSS_HASH_TOEPLITZ EC; key_size := key_size c;
                rss_key := take ks k ++ drop ks (rss_key c);
                indir_size := indir_size c;
                indir := take n t ++ drop n (indir c) |}) in *.
  assert (Hc' : c' = c1) by (subst c'; rewrite Hres; reflexivity).
  split; [exact Hc'|]. split; [rewrite Hc', Hres; reflexivity|].
  split.
  - unfold gve_get_rxfh. fold c'. rewrite Hc'.
    unfold c1. cbn [alg rss_key key_size indir indir_size].
    rewrite Z.eqb_refl. cbn [fmap option_fmap option_map].
    unfold ks, n. rewrite fmap_app, copy_entries_back by exact Hk.
    fold ks n.
    assert (Hu : u32 <$> take n t = take n t).
    { pose proof (Forall_take _ n _ Hr) as Hr'. clear -Hr'.
      generalize dependent (take n t). intros l Hr.
      induction Hr as [|x l Hx _ IH]; [reflexivity|].
      cbn [fmap list_fmap]. rewrite IH. f_equal. apply Z.mod_small, Hx. }
    rewrite Hu. unfold n. rewrite copy_entries_back by exact Ht. reflexivity.
  - unfold gve_set_rxfh, bind, gets, ret, modify. fold c.
    destruct (Z.eqb_spec (alg c) (GVE_RSS_HASH_UNDEFINED EC)) as [E0|_];
      [contradiction|].
    reflexivity.
Qed.

End RxfhFacts.

(** * Ring sizes *)

Section RingParamFacts.

Variable EC : gve_ethtool_consts.
Variable gve_num_rx_qpls gve_num_tx_qpls : gve_ethtool_priv -> Z.
Variable gve_adjust_ring_sizes : Z -> Z -> E Z.

Lemma s32_id x : 0 <= x < 2 ^ 31 -> s32 x = x.
Proof. intros H. unfold s32. rewrite Z.mod_small by lia. lia. Qed.

Lemma s32_neg x : 2 ^ 31 <= x < 2 ^ 32 -> s32 x < 0.
Proof.
  intros H. unfold s32.
  replace (x + 2 ^ 31) with (x - 2 ^ 31 + 1 * 2 ^ 32) by lia.
  rewrite Z.mod_add by lia. rewrite Z.mod_small by lia. lia.
Qed.

(** X21.  Which ring sizes are taken.  A request is passed on only when
    both sizes are powers of two, lie between the two length limits, do not
    exceed the device's maximum for their ring, and the pages of the RX
    rings and the TX rings fit the device's page budget; every other
    request returns [-EINVAL] with the driver unchanged.  A request that
    passes and names the current sizes returns zero without touching the
    rings; any other one is handed to [gve_adjust_ring_sizes] with the two
    sizes. *)
Theorem set_ringparam_validates (tx_pending rx_pending : Z)
    (priv : gve_ethtool_priv) :
  let lo := GVE_RING_LENGTH_LIMIT_MIN EC in
  let hi := GVE_RING_LENGTH_LIMIT_MAX EC in
  let pages := rx_pending * gve_num_rx_qpls priv
               + GVE_TX_PAGE_COUNT EC * gve_num_tx_qpls priv in
  0 < lo -> hi < 2 ^ 31 ->
  0 <= tx_pending < 2 ^ 32 -> 0 <= rx_pending < 2 ^ 32 ->
  0 <= gve_num_rx_qpls priv ->
  0 <= GVE_TX_PAGE_COUNT EC * gve_num_tx_qpls priv ->
  hi * gve_num_rx_qpls priv
    + GVE_TX_PAGE_COUNT EC * gve_num_tx_qpls priv < 2 ^ 31 ->
  let accepted :=
    is_power_of_two tx_pending /\ is_power_of_two rx_pending /\
    lo <= tx_pending <= Z.min hi (max_tx_desc_cnt priv) /\
    lo <= rx_pending <= Z.min hi (max_rx_desc_cnt priv) /\
    pages <= max_registered_pages (cfg (base priv)) in
  let res := gve_set_ringparam EC gve_num_rx_qpls gve_num_tx_qpls
               gve_adjust_ring_sizes tx_pending rx_pending priv in
  (accepted ->
   res = if (tx_pending =? tx_desc_cnt (cfg (base priv)))
            && (rx_pending =? rx_desc_cnt (cfg (base priv)))
         then (0, priv)
         else gve_adjust_ring_sizes tx_pending rx_pending priv) /\
  (~ accepted -> res = (- EINVAL, priv)).
Proof.
  intros lo hi pages Hlo Hhi Htx Hrx Hnrx Hntx Hfit accepted res.
  subst res. unfold gve_set_ringparam. cbv zeta. fold lo hi.
  destruct (Z.lt_ge_cases tx_pending (2 ^ 31)) as [Ht|Ht].
  2:{ pose proof (s32_neg tx_pending ltac:(lia)) as Hn.
      destruct (Z.ltb_spec (s32 tx_pending) lo); [|lia]. cbn [orb].
      split; [|reflexivity].
      intros (_ & _ & Ha & _). exfalso. lia. }
  rewrite (s32_id tx_pending) by lia.
  destruct (Z.lt_ge_cases rx_pending (2 ^ 31)) as [Hr|Hr].
  2:{ pose proof (s32_neg rx_pending ltac:(lia)) as Hn.
      destruct (Z.ltb_spec (s32 rx_pending) lo); [|lia].
      rewrite orb_true_r.
      split; [|reflexivity].
      intros (_ & _ & _ & Ha & _). exfalso. lia. }
  rewrite (s32_id rx_pending) by lia.
  destruct (Z.ltb_spec tx_pending lo) as [H1|H1]; cbn [orb].
  { split; [|reflexivity]. intros (_ & _ & Ha & _). exfalso. lia. }
  destruct (Z.ltb_spec rx_pending lo) as [H2|H2]; cbn [orb].
  { split; [|reflexivity]. intros (_ & _ & _ & Ha & _). exfalso. lia. }
  destruct (Z.gtb_spec tx_pending hi) as [H3|H3]; cbn [orb].
  { split; [|reflexivity]. intros (_ & _ & Ha & _). exfalso. lia. }
  destruct (Z.gtb_spec rx_pending hi) as [H4|H4]; cbn [orb].
  { split; [|reflexivity]. intros (_ & _ & _ & Ha & _). exfalso. lia. }
  pose proof (land_pred_power_of_two tx_pending ltac:(lia)) as Pt.
  pose proof (land_pred_power_of_two rx_pending ltac:(lia)) as Pr.
  destruct (Z.eqb_spec (Z.land tx_pending (tx_pending - 1)) 0) as [H5|H5];
    cbn [negb orb].
  2:{ split; [|reflexivity]. intros (Ha & _). exfalso. apply H5, Pt, Ha. }
  destruct (Z.eqb_spec (Z.land rx_pending (rx_pending - 1)) 0) as [H6|H6];
    cbn [negb orb].
  2:{ split; [|reflexivity]. intros (_ & Ha & _). exfalso. apply H6, Pr, Ha. }
  destruct (Z.gtb_spec tx_pending (max_tx_desc_cnt priv)) as [H7|H7].
  { split; [|reflexivity]. intros (_ & _ & Ha & _). exfalso. lia. }
  destruct (Z.gtb_spec rx_pending (max_rx_desc_cnt priv)) as [H8|H8].
  { split; [|reflexivity]. intros (_ & _ & _ & Ha & _). exfalso. lia. }
  fold pages.
  assert (Hp : 0 <= pages < 2 ^ 31) by (subst pages; nia).
  rewrite (s32_id pages) by exact Hp.
  unfold u64. rewrite (Z.mod_small pages) by lia.
  destruct (Z.gtb_spec pages (max_registered_pages (cfg (base priv))))
    as [H9|H9].
  { split; [|reflexivity]. intros (_ & _ & _ & _ & Ha). exfalso. lia. }
  split; [intros _; reflexivity|].
  intros Hn. exfalso. apply Hn.
  split; [apply Pt, H5|]. split; [apply Pr, H6|].
  split; [lia|]. split; [lia|exact H9].
Qed.

End RingParamFacts.

(** * Private flags *)

Section PrivFlagsFacts.

Variable C : gve_consts.
Variable EC : gve_ethtool_consts.
Variable gve_get_enable_header_split : gve_ethtool_priv -> bool.
Variable gve_reconfigure_rx_rings : bool -> Z -> E Z.

Lemma BIT_pow b : 0 <= b -> BIT b = 2 ^ b.
Proof. intros H. unfold BIT. apply Z.shiftl_1_l. Qed.

Lemma land_BIT x b :
  0 <= b -> Z.land x (BIT b) = if Z.testbit x b then 2 ^ b else 0.
Proof.
  intros Hb. rewrite BIT_pow by exact Hb. apply Z.bits_inj'. intros n Hn.
  rewrite Z.land_spec, Z.pow2_bits_eqb by exact Hb.
  destruct (Z.eqb_spec b n) as [->|Hne].
  - rewrite andb_true_r. destruct (Z.testbit x n) eqn:E.
    + rewrite Z.pow2_bits_true by exact Hn. reflexivity.
    + rewrite Z.bits_0. reflexivity.
  - rewrite andb_false_r. destruct (Z.testbit x b).
    + rewrite Z.pow2_bits_false by congruence. reflexivity.
    + rewrite Z.bits_0. reflexivity.
Qed.

Lemma land_BIT_eqb x b :
  0 <= b -> (Z.land x (BIT b) =? 0) = negb (Z.testbit x b).
Proof.
  intros Hb. rewrite land_BIT by exact Hb.
  pose proof (Z.pow_pos_nonneg 2 b ltac:(lia) Hb).
  destruct (Z.testbit x b); cbn [negb]; [apply Z.eqb_neq; lia|reflexivity].
Qed.

Lemma testbit_ldiff_BIT x b n :
  0 <= b -> 0 <= n ->
  Z.testbit (Z.ldiff x (BIT b)) n = Z.testbit x n && negb (n =? b).
Proof.
  intros Hb Hn. rewrite BIT_pow by exact Hb.
  rewrite Z.ldiff_spec, Z.pow2_bits_eqb by exact Hb.
  rewrite (Z.eqb_sym b n). reflexivity.
Qed.

Lemma testbit_lor_BIT x b n :
  0 <= b -> 0 <= n ->
  Z.testbit (Z.lor x (BIT b)) n = Z.testbit x n || (n =? b).
Proof.
  intros Hb Hn. rewrite BIT_pow by exact Hb.
  rewrite Z.lor_spec, Z.pow2_bits_eqb by exact Hb.
  rewrite (Z.eqb_sym b n). reflexivity.
Qed.

Lemma testbit_u32 x n :
  0 <= n -> Z.testbit (u32 x) n = Z.testbit x n && (n <? 32).
Proof.
  intros Hn. unfold u32. destruct (Z.ltb_spec n 32).
  - rewrite Z.mod_pow2_bits_low by lia. rewrite andb_true_r. reflexivity.
  - rewrite Z.mod_pow2_bits_high by lia. rewrite andb_false_r. reflexivity.
Qed.

Lemma testbit_above_u32 x n :
  0 <= x < 2 ^ 32 -> 32 <= n -> Z.testbit x n = false.
Proof.
  intros Hx Hn. rewrite <- (Z.mod_small x (2 ^ 32)) by exact Hx.
  apply Z.mod_pow2_bits_high. lia.
Qed.

Lemma adjusted_flags_testbit flags priv n :
  let hsb := GVE_PRIV_FLAGS_ENABLE_HEADER_SPLIT C in
  let stb := GVE_PRIV_FLAGS_ENABLE_STRICT_HEADER_SPLIT EC in
  0 <= hsb -> 0 <= stb -> 0 <= n ->
  let off := gve_get_enable_header_split priv && negb (Z.testbit flags hsb) in
  let f1 m := if off then Z.testbit flags m && negb (m =? hsb) && negb (m =? stb)
              else Z.testbit flags m in
  Z.testbit (adjusted_flags C EC gve_get_enable_header_split flags priv) n
  = if f1 stb then (f1 n || (n =? hsb)) && (n <? 32) else f1 n.
Proof.
  intros hsb stb Hh Hs Hn off f1. unfold adjusted_flags. cbv zeta.
  fold hsb stb. rewrite (land_BIT_eqb flags hsb) by lia. fold off.
  rewrite land_BIT_eqb by lia. rewrite negb_involutive.
  assert (H1 : forall m, 0 <= m ->
            Z.testbit (if off then Z.ldiff (Z.ldiff flags (BIT hsb)) (BIT stb)
                       else flags) m = f1 m).
  { intros m Hm. unfold f1. destruct off; [|reflexivity].
    rewrite !testbit_ldiff_BIT by lia. reflexivity. }
  rewrite (H1 stb Hs). destruct (f1 stb).
  - rewrite testbit_u32, testbit_lor_BIT by lia. rewrite H1 by lia.
    reflexivity.
  - apply H1, Hn.
Qed.

Lemma adjusted_flags_bits flags priv :
  let hsb := GVE_PRIV_FLAGS_ENABLE_HEADER_SPLIT C in
  let stb := GVE_PRIV_FLAGS_ENABLE_STRICT_HEADER_SPLIT EC in
  0 <= hsb < 32 -> 0 <= stb < 32 -> 0 <= flags < 2 ^ 32 ->
  let f := adjusted_flags C EC gve_get_enable_header_split flags priv in
  (Z.testbit f stb = true -> Z.testbit f hsb = true) /\
  (gve_get_enable_header_split priv = true -> Z.testbit flags hsb = false ->
   Z.testbit f hsb = false /\ Z.testbit f stb = false) /\
  (forall n, 0 <= n -> n <> hsb -> n <> stb ->
     Z.testbit f n = Z.testbit flags n).
Proof.
  intros hsb stb Hh Hs Hf f.
  assert (Hhi : forall n, 32 <= n -> Z.testbit flags n = false)
    by (intros n Hn; apply testbit_above_u32; assumption).
  assert (Hb : forall n, 0 <= n ->
            Z.testbit f n = _) 
    by (intros n Hn; apply (adjusted_flags_testbit flags priv n); lia).
  cbv zeta in Hb. fold hsb stb in Hb.
  split; [|split].
  - rewrite (Hb stb), (Hb hsb) by lia.
    rewrite !Z.eqb_refl. cbn [negb].
    destruct (Z.ltb_spec hsb 32); [|lia]. destruct (Z.ltb_spec stb 32); [|lia].
    destruct (gve_get_enable_header_split priv && negb (Z.testbit flags hsb));
      destruct (Z.testbit flags stb), (Z.testbit flags hsb);
      destruct (Z.eqb_spec stb hsb), (Z.eqb_spec hsb stb);
      cbn; congruence.
  - intros En Bh. rewrite (Hb stb), (Hb hsb) by lia.
    rewrite En, Bh, !Z.eqb_refl. cbn [negb andb].
    rewrite !andb_false_r. cbn [negb andb orb]. split; reflexivity.
  - intros n Hn N1 N2. rewrite (Hb n Hn).
    destruct (Z.eqb_spec n hsb); [contradiction|].
    destruct (Z.eqb_spec n stb); [contradiction|].
    rewrite Z.eqb_refl. cbn [negb]. rewrite !andb_false_r, !andb_true_r, orb_false_r.
    destruct (Z.ltb_spec n 32).
    + destruct (gve_get_enable_header_split priv && negb (Z.testbit flags hsb));
        destruct (Z.testbit flags stb); cbn; rewrite ?andb_true_r; reflexivity.
    + rewrite (Hhi n) by lia.
      destruct (gve_get_enable_header_split priv && negb (Z.testbit flags hsb));
        destruct (Z.testbit flags stb); reflexivity.
Qed.

Lemma adjusted_flags_high flags priv n :
  0 <= GVE_PRIV_FLAGS_ENABLE_HEADER_SPLIT C ->
  0 <= GVE_PRIV_FLAGS_ENABLE_STRICT_HEADER_SPLIT EC ->
  0 <= flags < 2 ^ 32 -> 32 <= n ->
  Z.testbit (adjusted_flags C EC gve_get_enable_header_split flags priv) n
  = false.
Proof.
  intros Hh Hs Hf Hn.
  rewrite adjusted_flags_testbit by lia. cbv zeta.
  rewrite (testbit_above_u32 flags n) by assumption.
  destruct (Z.ltb_spec n 32); [lia|]. cbn [andb].
  rewrite andb_false_r.
  repeat match goal with |- context [if ?b then _ else _] => destruct b end;
    reflexivity.
Qed.

Lemma set_priv_flags_unfold flags priv :
  gve_set_priv_flags C EC gve_get_enable_header_split gve_reconfigure_rx_rings
    flags priv
  = let hs := BIT (GVE_PRIV_FLAGS_ENABLE_HEADER_SPLIT C) in
    let strict := BIT (GVE_PRIV_FLAGS_ENABLE_STRICT_HEADER_SPLIT EC) in
    let maxbuf := BIT (GVE_PRIV_FLAGS_ENABLE_MAX_RX_BUFFER_SIZE EC) in
    let f2 := adjusted_flags C EC gve_get_enable_header_split flags priv in
    let new_flags := Z.land f2 (GVE_PRIV_FLAGS_MASK EC) in
    if negb (Z.land f2 hs =? 0)
       && (Z.land (ethtool_defaults (cfg (base priv))) hs =? 0)
    then (- EINVAL, priv)
    else if negb (Z.land f2 maxbuf =? 0)
            && (dev_max_rx_buffer_size (cfg (base priv))
                <=? GVE_MIN_RX_BUFFER_SIZE C)
    then (- EINVAL, priv)
    else
      let r :=
        if negb (Z.land (Z.lxor new_flags (ethtool_flags priv)) hs =? 0)
           || negb (Z.land (Z.lxor new_flags (ethtool_flags priv)) maxbuf =? 0)
        then gve_reconfigure_rx_rings (negb (Z.land new_flags hs =? 0))
               (if negb (Z.land new_flags maxbuf =? 0)
                then dev_max_rx_buffer_size (cfg (base priv))
                else GVE_RX_BUFFER_SIZE_DQO C) priv
        else (0, priv) in
      if negb (r.1 =? 0) then r
      else (0, set_header_split_strict
                 (negb (Z.land new_flags strict =? 0))
                 (set_ethtool_flags new_flags r.2)).
Proof.
  unfold gve_set_priv_flags, adjusted_flags. cbv zeta.
  repeat match goal with
         | |- (if ?b then _ else _) = (if ?b then _ else _) =>
             destruct b; [reflexivity|]
         end.
  match goal with
  | |- (let '(_, _) := ?x in _) = _ => destruct x as [e p1]
  end.
  cbn [fst snd]. destruct (negb (e =? 0)); reflexivity.
Qed.

(** X22.  What a successful change of the private flags leaves behind.  The
    stored flags lie within the known ones and read back unchanged; strict
    header split is never stored without header split; header split is
    stored only when the device made it available, and the maximal RX buffer
    size only when the device's maximum exceeds the minimal buffer size;
    [header_split_strict] mirrors the strict flag.  A request that lacks the
    header-split flag while header split is enabled turns strict header
    split off as well, even if the request asked for it.  Every other known
    flag is stored as requested. *)
Theorem set_priv_flags_outcomes (flags : Z) (priv : gve_ethtool_priv) :
  let hsb := GVE_PRIV_FLAGS_ENABLE_HEADER_SPLIT C in
  let stb := GVE_PRIV_FLAGS_ENABLE_STRICT_HEADER_SPLIT EC in
  let mbb := GVE_PRIV_FLAGS_ENABLE_MAX_RX_BUFFER_SIZE EC in
  let known := GVE_PRIV_FLAGS_MASK EC in
  0 <= hsb < 32 -> 0 <= stb < 32 -> 0 <= mbb < 32 ->
  Z.testbit known hsb = true ->
  0 <= flags < 2 ^ 32 ->
  let res := gve_set_priv_flags C EC gve_get_enable_header_split
               gve_reconfigure_rx_rings flags priv in
  let f := ethtool_flags res.2 in
  res.1 = 0 ->
  Z.land f known = f /\
  gve_get_priv_flags EC res.2 = f /\
  (Z.testbit f stb = true -> Z.testbit f hsb = true) /\
  (Z.testbit f hsb = true ->
   Z.testbit (ethtool_defaults (cfg (base priv))) hsb = true) /\
  (Z.testbit f mbb = true ->
   GVE_MIN_RX_BUFFER_SIZE C < dev_max_rx_buffer_size (cfg (base priv))) /\
  header_split_strict res.2 = Z.testbit f stb /\
  (gve_get_enable_header_split priv = true -> Z.testbit flags hsb = false ->
   Z.testbit f hsb = false /\ Z.testbit f stb = false) /\
  (forall n, 0 <= n -> n <> hsb -> n <> stb ->
     Z.testbit f n = Z.testbit flags n && Z.testbit known n).
Proof.
  intros hsb stb mbb known Hh Hs Hm Hk Hf res f Hz.
  pose proof (adjusted_flags_bits flags priv Hh Hs Hf) as Hadj.
  cbv zeta in Hadj. fold hsb stb in Hadj.
  pose proof (fun n => adjusted_flags_high flags priv n
                         ltac:(lia) ltac:(lia) Hf) as Hhigh.
  revert Hz. subst f res. rewrite set_priv_flags_unfold. cbv zeta.
  fold hsb stb mbb known.
  set (f2 := adjusted_flags C EC gve_get_enable_header_split flags priv) in *.
  rewrite !(land_BIT_eqb f2) by lia.
  rewrite (land_BIT_eqb (ethtool_defaults _)) by lia.
  rewrite !negb_involutive.
  destruct (Z.testbit f2 hsb && negb (Z.testbit (ethtool_defaults (cfg (base priv))) hsb))
    eqn:T1; [intros Hz; discriminate Hz|].
  destruct (Z.testbit f2 mbb && (dev_max_rx_buffer_size (cfg (base priv))
                                 <=? GVE_MIN_RX_BUFFER_SIZE C))
    eqn:T2; [intros Hz; discriminate Hz|].
  match goal with
  | |- context [if negb (fst ?r =? 0) then _ else _] => set (rr := r)
  end.
  destruct (Z.eqb_spec rr.1 0) as [_|Hnz]; cbn [negb];
    [intros _|intros Hz; contradiction].
  cbn [fst snd ethtool_flags set_header_split_strict set_ethtool_flags
       header_split_strict].
  set (nf := Z.land f2 known).
  assert (Hnf : forall n, 0 <= n ->
            Z.testbit nf n = Z.testbit f2 n && Z.testbit known n)
    by (intros n Hn; apply Z.land_spec).
  destruct Hadj as (A1 & A2 & A3).
  split.
  { unfold nf. rewrite <- (Z.land_assoc f2 known known), (Z.land_diag known).
    reflexivity. }
  split.
  { unfold gve_get_priv_flags.
    cbn [ethtool_flags set_header_split_strict set_ethtool_flags].
    fold known. unfold nf at 1.
    rewrite <- (Z.land_assoc f2 known known), (Z.land_diag known). fold nf.
    apply Z.bits_inj'. intros n Hn. rewrite testbit_u32 by exact Hn.
    destruct (Z.ltb_spec n 32); [apply andb_true_r|].
    rewrite andb_false_r, Hnf, Hhigh by lia. reflexivity. }
  split.
  { rewrite !Hnf by lia. rewrite Hk, andb_true_r.
    intros H. apply andb_true_iff in H as [H _]. apply A1, H. }
  split.
  { rewrite Hnf by lia. intros H. apply andb_true_iff in H as [H _].
    rewrite H in T1. cbn [andb] in T1.
    apply negb_false_iff in T1. exact T1. }
  split.
  { rewrite Hnf by lia. intros H. apply andb_true_iff in H as [H _].
    rewrite H in T2. cbn [andb] in T2. apply Z.leb_gt in T2. exact T2. }
  split.
  { rewrite land_BIT_eqb by lia. apply negb_involutive. }
  split.
  { intros En Bh. destruct (A2 En Bh) as [B1 B2].
    rewrite !Hnf, B1, B2 by lia. split; reflexivity. }
  intros n Hn N1 N2. rewrite Hnf, A3 by assumption. reflexivity.
Qed.

End PrivFlagsFacts.

(** * Adding and deleting a flow rule *)

Section FlowRoundTrip.

Variable pf : platform.
Variable C : gve_consts.

(** X23.  Deleting the rule that was just added restores the directory.
    After a successful add and a successful delete of the same location the
    list of rules, the rule counter and the configuration are what they
    were before the add. *)
Theorem add_then_del_restores (cmd del_cmd : ethtool_rxnfc) (p : gve_priv) :
  flow_inv C p ->
  (gve_add_flow_rule pf C cmd p).1 = 0 ->
  u16 (location (fs del_cmd)) = u16 (location (fs cmd)) ->
  let p1 := (gve_add_flow_rule pf C cmd p).2 in
  (gve_del_flow_rule pf C del_cmd p1).1 = 0 ->
  let p2 := (gve_del_flow_rule pf C del_cmd p1).2 in
  flow_rules p2 = flow_rules p /\
  flow_rules_cnt p2 = flow_rules_cnt p /\
  cfg p2 = cfg p.
Proof.
  intros Hinv Hadd Hloc p1 Hdel p2.
  pose proof (flow_inv_add pf C cmd p Hinv) as Hinv1. fold p1 in Hinv1.
  pose proof (flow_inv_del pf C del_cmd p1 Hinv1) as Hinv2. fold p2 in Hinv2.
  destruct (add_flow_rule_zero pf C cmd p Hadd)
    as (_ & _ & Hfree & Hinfo & _ & Hl1 & Hc1 & _).
  cbv zeta in Hl1. fold p1 in Hl1, Hc1.
  destruct (del_flow_rule_zero pf C del_cmd p1 Hdel)
    as (i & r & _ & _ & Hi & Hr & _ & Hl2 & Hc2).
  fold p2 in Hl2, Hc2.
  assert (Hnd : NoDup (loc <$> flow_rules p1)).
  { apply sorted_locs_NoDup. destruct Hinv1 as (_ & _ & _ & Hs). exact Hs. }
  assert (Hrule : loc (requested_rule p (fs cmd)) = u16 (location (fs cmd)))
    by (apply add_flow_rule_info_loc, Hinfo).
  assert (Hlist : flow_rules p2 = flow_rules p).
  { rewrite Hl2, (delete_is_filter _ i r Hnd Hi), Hr, Hloc, Hl1.
    set (n := add_rule_scan (flow_rules p) (requested_rule p (fs cmd))).
    rewrite filter_app, filter_cons_False
      by (intros H; apply H; exact Hrule).
    rewrite <- filter_app, take_drop.
    apply filter_all, Forall_forall. intros x Hx.
    apply (proj1 (find_flow_rule_none _ _) Hfree x Hx). }
  split; [exact Hlist|]. split; [|congruence].
  destruct Hinv2 as (_ & E2 & _). destruct Hinv as (_ & E0 & _).
  rewrite E2, E0, Hlist. reflexivity.
Qed.

End FlowRoundTrip.

(** ** The further properties on the worked examples *)

Lemma ring_wf_aq_fresh : ring_wf aq_fresh.
Proof. exists 2. split; [lia|]. split; reflexivity. Defined.

Lemma consts_wf_default : consts_wf gve_consts_default.
Proof. apply (bool_decide_unpack _). vm_compute. exact I. Defined.

Lemma flow_inv_priv_no_rule : flow_inv gve_consts_default priv_no_rule.
Proof.
  split; [vm_compute; split; [discriminate|reflexivity]|].
  split; [reflexivity|]. split; [reflexivity|]. apply SSorted_nil.
Defined.

(** The hypotheses of [issue_cmd_with_room] hold for an empty ring of four
    slots: the command goes to slot 0. *)
Lemma issue_cmd_with_room_witness :
  ring_wf aq_fresh /\
  adminq (gve_adminq_issue_cmd pf_stuck cmd_create_rx aq_fresh).2 !! 0%nat
  = Some cmd_create_rx.
Proof.
  split; [exact ring_wf_aq_fresh|].
  refine (proj1 (proj2 (issue_cmd_with_room pf_stuck aq_fresh cmd_create_rx
                          ring_wf_aq_fresh _))).
  reflexivity.
Defined.

(** The hypothesis of [execute_cmd_outcomes] holds for an empty ring; with
    a device that completes the command the ring is drained again. *)
Lemma execute_cmd_outcomes_witness :
  ring_wf aq_fresh /\
  drained (gve_adminq_execute_cmd pf_completes cmd_create_rx aq_fresh).2.
Proof.
  split; [exact ring_wf_aq_fresh|].
  refine (proj1 (proj2 (proj1 (proj2
            (execute_cmd_outcomes pf_completes aq_fresh cmd_create_rx
               ring_wf_aq_fresh)) _))).
  vm_compute. reflexivity.
Defined.

(** The hypothesis of [extended_cmd_outcomes] holds for an empty ring. *)
Lemma extended_cmd_outcomes_witness :
  ring_wf aq_fresh /\
  dma_requests
    (gve_adminq_execute_extended_cmd pf_completes
       GVE_ADMINQ_CONFIGURE_FLOW_RULE 92 dma_uninit aq_fresh).2 = 1%nat.
Proof.
  split; [exact ring_wf_aq_fresh|].
  exact (proj1 (extended_cmd_outcomes pf_completes
                  GVE_ADMINQ_CONFIGURE_FLOW_RULE 92 dma_uninit aq_fresh
                  ring_wf_aq_fresh)).
Defined.

(** The hypotheses of [configure_rss_staging] hold for an empty ring and a
    configuration with a key and a table: the command, once it has passed,
    leaves the ring drained. *)
Lemma configure_rss_staging_witness :
  ring_wf aq_fresh /\
  (gve_adminq_configure_rss pf_completes gve_consts_default rss_small
     aq_fresh).1 = 0 /\
  exists hkey hindir,
    payload <$> adminq (gve_adminq_configure_rss pf_completes
                          gve_consts_default rss_small aq_fresh).2 !! 0%nat
    = Some (payload_configure_rss 204 1 2 2 hkey hindir) /\ hkey <> hindir.
Proof.
  split; [exact ring_wf_aq_fresh|]. split; [vm_compute; reflexivity|].
  destruct (proj2 (proj2 (proj2
              (configure_rss_staging pf_completes gve_consts_default rss_small
                 aq_fresh ring_wf_aq_fresh))) ltac:(vm_compute; reflexivity))
    as (hkey & hindir & _ & Hp & _ & _ & Hne & _).
  exists hkey, hindir. split; [exact Hp|].
  apply Hne; vm_compute; discriminate.
Defined.

(** The hypothesis of [describe_device_outcomes] holds for a fresh driver
    and a device that answers with a DQO-RDA and a GQI-QPL option: the
    call leaves the configuration of applying that descriptor. *)
Lemma describe_device_outcomes_witness :
  ring_wf (aq priv_fresh) /\
  cfg (gve_adminq_describe_device (pf_describe descriptor_dqo_first)
         gve_consts_default priv_fresh).2
  = (describe_device_apply gve_consts_default descriptor_dqo_first
       (cfg priv_fresh)).2.
Proof.
  split; [exact ring_wf_aq_fresh|].
  destruct (describe_device_outcomes (pf_describe descriptor_dqo_first)
              gve_consts_default priv_fresh ring_wf_aq_fresh)
    as (_ & _ & _ & T & _).
  destruct (T ltac:(reflexivity) ltac:(vm_compute; reflexivity)) as [_ T2].
  exact T2.
Defined.

(** The hypothesis of [describe_device_apply_accepts] holds for the
    descriptor with a DQO-RDA and a GQI-QPL option. *)
Lemma describe_device_apply_accepts_witness :
  (describe_device_apply gve_consts_default descriptor_dqo_first cfg_fresh).1
    = 0 /\
  ETH_MIN_MTU <= desc_mtu descriptor_dqo_first.
Proof.
  split; [vm_compute; reflexivity|].
  refine (proj1 (describe_device_apply_accepts gve_consts_default
                   descriptor_dqo_first cfg_fresh _)).
  vm_compute. reflexivity.
Defined.

(** The hypotheses of [describe_device_optional_features] hold for the same
    descriptor, which carries no flow-steering option. *)
Lemma describe_device_optional_features_witness :
  flow_rules_max
    (describe_device_apply gve_consts_default descriptor_dqo_first cfg_fresh).2
  = 0.
Proof.
  refine (proj1 (proj2 (describe_device_optional_features gve_consts_default
                          consts_wf_default descriptor_dqo_first cfg_fresh _))
            _).
  - vm_compute. reflexivity.
  - vm_compute. reflexivity.
Defined.

(** The hypothesis of [unrecognized_options_skipped] holds for a chain of
    an unknown option and a DQO-RDA option: parsing succeeds and only the
    second node, at offset 48, is dispatched. *)
Lemma unrecognized_options_skipped_witness :
  gve_process_device_options gve_consts_default descriptor_unknown_first
    (cfg_fresh, dev_ops_null)
  = (0, parse_nodes gve_consts_default descriptor_unknown_first [48]
          (cfg_fresh, dev_ops_null)).
Proof.
  refine (proj1 (unrecognized_options_skipped gve_consts_default
                   descriptor_unknown_first (cfg_fresh, dev_ops_null) _)).
  vm_compute. reflexivity.
Defined.

(** The hypotheses of [repeated_option_last_wins] hold for a chain in
    which the DQO-RDA option is accepted twice, at offsets 40 and 56: the
    pointer is the one behind the header of the second. *)
Lemma repeated_option_last_wins_witness :
  List.filter (node_accepted gve_consts_default descriptor_dqo_twice
                 OPT_DQO_RDA) [40; 56] = [40; 56] /\
  dev_op_dqo_rda
    (parse_nodes gve_consts_default descriptor_dqo_twice [40; 56]
       (cfg_fresh, dev_ops_null)).2 = Some 64.
Proof.
  split; [vm_compute; reflexivity|].
  refine (repeated_option_last_wins gve_consts_default consts_wf_default
            descriptor_dqo_twice [40; 56] (cfg_fresh, dev_ops_null)
            OPT_DQO_RDA _).
  discriminate.
Defined.

Lemma flow_inv_priv_two_rules : flow_inv gve_consts_default priv_two_rules.
Proof.
  split; [vm_compute; split; [discriminate|reflexivity]|].
  split; [reflexivity|]. split; [reflexivity|].
  apply SSorted_cons;
    [apply SSorted_cons; [apply SSorted_nil|apply Forall_nil_2]|].
  apply Forall_cons_2; [vm_compute; reflexivity|apply Forall_nil_2].
Defined.

(** The hypotheses of [flow_rules_stay_distinct] hold for the directory
    with [rule_a] and [rule_b]; an accepted add of a third rule leaves
    three rules with distinct locations and distinct matches. *)
Lemma flow_rules_stay_distinct_witness :
  let p := run_calls pf_completes gve_consts_default
             [call_set_rxnfc (request_sctp 3 0)] priv_two_rules in
  length (flow_rules p) = 3%nat /\
  NoDup (loc <$> flow_rules p) /\ NoDup (match_of <$> flow_rules p).
Proof.
  split; [vm_compute; reflexivity|].
  refine (flow_rules_stay_distinct pf_completes gve_consts_default
            consts_cnt_wf_default
            [call_set_rxnfc (request_sctp 3 0)] priv_two_rules
            flow_inv_priv_two_rules _).
  apply NoDup_cons. split; [|apply NoDup_singleton].
  intros H. apply list_elem_of_singleton in H. discriminate H.
Defined.

(** The hypotheses of [add_then_get_entry] hold for a TCP rule added at
    location 3 of an empty directory. *)
Lemma add_then_get_entry_witness :
  flow_inv gve_consts_default priv_no_rule /\
  (gve_add_flow_rule pf_completes gve_consts_default
     (request_like_rule_a 3 0) priv_no_rule).1 = 0 /\
  exists ft,
    gve_flow_type_of (request_flow_type (fs (request_like_rule_a 3 0)))
    = Some ft.
Proof.
  split; [exact flow_inv_priv_no_rule|]. split; [vm_compute; reflexivity|].
  destruct (add_then_get_entry pf_completes gve_consts_default
              (request_like_rule_a 3 0) (request_like_rule_a 3 0) priv_no_rule
              flow_inv_priv_no_rule ltac:(vm_compute; reflexivity) eq_refl)
    as (ft & Hft & _).
  exists ft. exact Hft.
Defined.

(** The hypothesis of [add_del_touch_one_location] holds for the directory
    with [rule_a]: after its rule has been deleted, a query for location 1
    is refused. *)
Lemma add_del_touch_one_location_witness :
  flow_inv gve_consts_default priv_one_rule /\
  gve_get_flow_rule_entry
    (gve_del_flow_rule pf_completes gve_consts_default (request_delete 1)
       priv_one_rule).2 (request_delete 1)
  = (- EINVAL, request_delete 1).
Proof.
  split; [exact flow_inv_priv_one_rule|].
  refine (proj2 (proj2 (add_del_touch_one_location pf_completes
                          gve_consts_default (request_delete 1) priv_one_rule
                          flow_inv_priv_one_rule) _) (request_delete 1) _).
  - vm_compute. reflexivity.
  - reflexivity.
Defined.

(** The hypothesis of [del_flow_rule_outcomes] holds for the directory with
    [rule_a]: deleting location 1 empties the list. *)
Lemma del_flow_rule_outcomes_witness :
  flow_inv gve_consts_default priv_one_rule /\
  flow_rules (gve_del_flow_rule pf_completes gve_consts_default
                (request_delete 1) priv_one_rule).2
  = filter (fun r => loc r <> 1) [rule_a].
Proof.
  split; [exact flow_inv_priv_one_rule|].
  refine (proj1 (proj2 (proj2 (proj1 (proj2
            (del_flow_rule_outcomes pf_completes gve_consts_default
               (request_delete 1) priv_one_rule flow_inv_priv_one_rule)) _)))).
  vm_compute. reflexivity.
Defined.

Lemma flow_inv_priv_room_for_one :
  flow_inv gve_consts_default priv_room_for_one.
Proof.
  split; [vm_compute; split; [discriminate|reflexivity]|].
  split; [reflexivity|]. split; [reflexivity|].
  apply SSorted_cons; [apply SSorted_nil|apply Forall_nil_2].
Defined.

(** The hypotheses of [flow_rules_within_capacity] hold for a directory
    with one rule of two: a first add is accepted and fills the directory,
    a second is refused, and two rules are installed. *)
Lemma flow_rules_within_capacity_witness :
  let cs := [call_set_rxnfc (request_sctp 3 0);
             call_set_rxnfc (request_like_rule_a 4 1)] in
  let p := run_calls pf_completes gve_consts_default cs priv_room_for_one in
  (run_call pf_completes gve_consts_default
     (call_set_rxnfc (request_sctp 3 0)) priv_room_for_one).1 = 0 /\
  length (flow_rules p) = 2%nat /\
  flow_rules_max (cfg p) = flow_rules_max (cfg priv_room_for_one) /\
  Z.of_nat (length (flow_rules p)) <= flow_rules_max (cfg p).
Proof.
  split; [vm_compute; reflexivity|]. split; [vm_compute; reflexivity|].
  refine (flow_rules_within_capacity pf_completes gve_consts_default
            consts_cnt_wf_default
            [call_set_rxnfc (request_sctp 3 0);
             call_set_rxnfc (request_like_rule_a 4 1)]
            priv_room_for_one flow_inv_priv_room_for_one _ _).
  - vm_compute. discriminate.
  - reflexivity.
Defined.

(** The hypotheses of [get_flow_rule_ids_in_bounds] hold for two rules, a
    capacity of one and an array of three: the call fails with
    [-EMSGSIZE], the first entry is the first location and the last entry
    is the caller's. *)
Lemma get_flow_rule_ids_in_bounds_witness :
  let out := (gve_get_flow_rule_ids (request_enumerate 1) [7; 8; 9]
                priv_two_rules).1 in
  out.1.1 = - EMSGSIZE /\ take 1 out.2 = [1] /\ out.2 !! 2%nat = Some 9.
Proof.
  destruct (get_flow_rule_ids_in_bounds (request_enumerate 1) [7; 8; 9]
              priv_two_rules ltac:(vm_compute; split; [discriminate|reflexivity])
              ltac:(vm_compute; discriminate))
    as (_ & _ & T3 & _ & _ & _ & T7).
  destruct (T7 ltac:(vm_compute; discriminate)) as (T8 & T9 & _).
  split; [apply T9; reflexivity|]. split; [exact T8|].
  apply (T3 2%nat). left. vm_compute. lia.
Defined.

(** The hypotheses of [count_then_enumerate] hold for the directory with
    [rule_a]: the count is one and the enumeration returns location 1. *)
Lemma count_then_enumerate_witness :
  let cmd1 := {| nfc_cmd := ETHTOOL_GRXCLSRLCNT; nfc_data := 0;
                 fs := fs (request_delete 0); rule_cnt := 0 |} in
  let cmd2 := {| nfc_cmd := ETHTOOL_GRXCLSRLALL; nfc_data := 0;
                 fs := fs (request_delete 0); rule_cnt := 1 |} in
  (gve_get_rxnfc cmd2 [0; 0] priv_one_rule).1.1.1 = 0.
Proof.
  refine (proj1 (proj2 (proj2 (proj2
            (count_then_enumerate gve_consts_default
               {| nfc_cmd := ETHTOOL_GRXCLSRLCNT; nfc_data := 0;
                  fs := fs (request_delete 0); rule_cnt := 0 |}
               {| nfc_cmd := ETHTOOL_GRXCLSRLALL; nfc_data := 0;
                  fs := fs (request_delete 0); rule_cnt := 1 |}
               [] [0; 0] priv_one_rule flow_inv_priv_one_rule _ _
               eq_refl eq_refl _ _))))).
  - vm_compute. discriminate.
  - vm_compute. reflexivity.
  - reflexivity.
  - vm_compute. discriminate.
Defined.

Lemma counters_u32_aq_fresh : counters_u32 aq_fresh.
Proof. split; [cbn; lia|]. intros o. cbn. lia. Defined.

(** The hypotheses of [queue_batches_outcomes] hold for an empty ring of
    four slots and a batch for the TX queues 5 and 6: the batch returns
    zero and the commands of the two queues lie in the slots 0 and 1. *)
Lemma queue_batches_outcomes_witness :
  let res := gve_adminq_create_tx_queues pf_batch_of_two queue_view_example
               5 2 aq_fresh in
  res.1 = 0 /\
  holds_queue_cmd GVE_ADMINQ_CREATE_TX_QUEUE queue_view_example res.2 0 5 /\
  holds_queue_cmd GVE_ADMINQ_CREATE_TX_QUEUE queue_view_example res.2 1 6.
Proof.
  destruct (proj1 (queue_batches_outcomes pf_batch_of_two
                     queue_view_example queue_view_example
                     queue_view_example queue_view_example
                     5 2 aq_fresh ring_wf_aq_fresh counters_u32_aq_fresh
                     ltac:(lia) ltac:(lia) ltac:(lia)))
    as ((k & _ & _ & _ & Hall & _ & Hfit) & _).
  assert (Hz : (gve_adminq_create_tx_queues pf_batch_of_two
                  queue_view_example 5 2 aq_fresh).1 = 0)
    by (vm_compute; reflexivity).
  specialize (Hall Hz). subst k.
  specialize (Hfit ltac:(vm_compute; discriminate)).
  split; [exact Hz|].
  split; [exact (Hfit 0 ltac:(lia))|exact (Hfit 1 ltac:(lia))].
Defined.

(** The hypotheses of [strings_fill_sset_count] hold for a driver with one
    TX queue: the statistics set has names. *)
Lemma strings_fill_sset_count_witness :
  0 < gve_get_sset_count priv_fresh 1 ETH_SS_STATS.
Proof.
  refine (proj1 (proj1 (proj2 (strings_fill_sset_count priv_fresh 1
                                 ETH_SS_STATS [] _ _ _)) (or_introl eq_refl))).
  - vm_compute. discriminate.
  - lia.
  - vm_compute. reflexivity.
Defined.

(** The hypotheses of [set_rxfh_then_get] hold for the example instance
    and a new key and table of two entries each. *)
Lemma set_rxfh_then_get_witness :
  gve_get_rxfh gve_ethtool_consts_default (Some [0; 0]) (Some [0; 0]) (Some 0)
    (gve_set_rxfh pf_stuck gve_consts_default gve_ethtool_consts_default
       (ret 0) (Some [5; 6]) (Some [7; 8]) ETH_RSS_HASH_TOP epriv_example).2
  = (0, (Some [5; 6], Some [7; 8], Some ETH_RSS_HASH_TOP)).
Proof.
  refine (proj1 (proj2 (proj2
            (set_rxfh_then_get pf_stuck gve_consts_default
               gve_ethtool_consts_default (ret 0) [5; 6] [7; 8] [0; 0] [0; 0] 0
               epriv_example _ _ _ _)))).
  - vm_compute. discriminate.
  - vm_compute. split; discriminate.
  - vm_compute. split; discriminate.
  - repeat constructor; vm_compute; congruence.
Defined.

(** The hypotheses of [set_ringparam_validates] hold for the example
    instance with one page list per direction; rings of 1024 entries are
    passed on. *)
Lemma set_ringparam_validates_witness :
  gve_set_ringparam gve_ethtool_consts_default (fun _ => 1) (fun _ => 1)
    (fun _ _ p => (0, p)) 1024 1024 epriv_example
  = (0, epriv_example).
Proof.
  refine (proj1 (set_ringparam_validates gve_ethtool_consts_default
                   (fun _ => 1) (fun _ => 1) (fun _ _ p => (0, p))
                   1024 1024 epriv_example _ _ _ _ _ _ _) _).
  - reflexivity.
  - reflexivity.
  - lia.
  - lia.
  - lia.
  - vm_compute. discriminate.
  - reflexivity.
  - split; [exists 10; split; [lia|reflexivity]|].
    split; [exists 10; split; [lia|reflexivity]|].
    vm_compute. repeat split; discriminate.
Defined.

(** The hypotheses of [set_priv_flags_outcomes] hold for the example
    instance and a request for strict header split alone: header split is
    stored with it. *)
Lemma set_priv_flags_outcomes_witness :
  Z.testbit
    (ethtool_flags
       (gve_set_priv_flags gve_consts_default gve_ethtool_consts_default
          (fun p => Z.testbit (ethtool_flags p) 1) (fun _ _ p => (0, p))
          4 epriv_example).2) 1 = true.
Proof.
  refine (proj1 (proj2 (proj2
            (set_priv_flags_outcomes gve_consts_default
               gve_ethtool_consts_default
               (fun p => Z.testbit (ethtool_flags p) 1) (fun _ _ p => (0, p))
               4 epriv_example _ _ _ _ _ _))) _).
  - vm_compute. split; [discriminate|reflexivity].
  - vm_compute. split; [discriminate|reflexivity].
  - vm_compute. split; [discriminate|reflexivity].
  - reflexivity.
  - lia.
  - vm_compute. reflexivity.
  - vm_compute. reflexivity.
Defined.

(** The hypotheses of [add_then_del_restores] hold for an empty directory,
    a rule added at location 3 and a device that completes both commands. *)
Lemma add_then_del_restores_witness :
  flow_rules
    (gve_del_flow_rule pf_two_commands gve_consts_default (request_delete 3)
       (gve_add_flow_rule pf_two_commands gve_consts_default
          (request_like_rule_a 3 0) priv_no_rule).2).2
  = flow_rules priv_no_rule.
Proof.
  refine (proj1 (add_then_del_restores pf_two_commands gve_consts_default
                   (request_like_rule_a 3 0) (request_delete 3) priv_no_rule
                   flow_inv_priv_no_rule _ _ _)).
  - vm_compute. reflexivity.
  - reflexivity.
  - vm_compute. reflexivity.
Defined.
